(** * KinoScheduleMaker: the schedule model and its solving strategy

    A shallow embedding of [main.py] (the time grid, shifts, the roster,
    the constraint model handed to the CP-SAT solver, the relaxation
    ladder around it and the printer of a solution's rows) and of the
    data of [config.py], together with the properties of the design
    description that can be stated over it and further properties of the
    code.

    Python values are modelled as follows: [int] is [Z], [str] is
    [string], [range] is a record of three integers, a list is a [list],
    a dict literal is an association list, and an exception is the
    [Raise] branch of [result].  The CP-SAT model is the list of the
    variables and constraints that the program adds to it, in the order
    in which it adds them; the solver itself is a parameter. *)

From Stdlib Require Import ZArith List String Ascii Bool Lia Arith Sorted.
Import ListNotations.

Local Open Scope string_scope.
Local Open Scope list_scope.
Local Open Scope Z_scope.

(** ** Exceptions *)

Inductive exn : Type :=
| SystemExit (msg : string)
| KeyError
| AssertionError
| TypeError
| ValueError.

Inductive result (A : Type) : Type :=
| Ok (a : A)
| Raise (e : exn).

Arguments Ok {A} a.
Arguments Raise {A} e.

Definition bind {A B : Type} (r : result A) (k : A -> result B) : result B :=
  match r with
  | Ok a => k a
  | Raise e => Raise e
  end.

Notation "x <- r ;; k" := (bind r (fun x => k))
  (at level 61, r at next level, right associativity).

(** A [for] loop whose body may raise: the first exception ends the loop. *)
Fixpoint mapM {A B : Type} (f : A -> result B) (l : list A) : result (list B) :=
  match l with
  | [] => Ok []
  | a :: l' => b <- f a ;; bs <- mapM f l' ;; Ok (b :: bs)
  end.

Definition flat_mapM {A B : Type} (f : A -> result (list B)) (l : list A)
  : result (list B) :=
  bs <- mapM f l ;; Ok (List.concat bs).

(** ** The Python built-ins the program uses *)

Module Py.

(** [range(start, stop, step)], for a positive step. *)
Record range : Type := mkrange { start : Z; stop : Z; step : Z }.

Definition range2 (a b : Z) : range := mkrange a b 1.
Definition range1 (b : Z) : range := mkrange 0 b 1.

Definition len (r : range) : nat :=
  Z.to_nat ((stop r - start r + step r - 1) / step r).

(** Iteration over a range. *)
Definition elems (r : range) : list Z :=
  map (fun i => start r + Z.of_nat i * step r) (seq 0 (len r)).

(** [x in r]. *)
Definition contains (r : range) (x : Z) : bool :=
  (start r <=? x) && (x <? stop r) && ((x - start r) mod step r =? 0).

(** [r1 == r2]: ranges compare as the sequences they denote. *)
Definition range_eqb (r1 r2 : range) : bool :=
  Nat.eqb (len r1) (len r2) &&
  (Nat.eqb (len r1) 0 ||
   ((start r1 =? start r2) && (Nat.leb (len r1) 1 || (step r1 =? step r2)))).

(** [s.index(c)]: position of the first occurrence, [None] for ValueError. *)
Fixpoint index (c : ascii) (s : string) : option nat :=
  match s with
  | EmptyString => None
  | String a s' =>
      if Ascii.eqb a c then Some O
      else match index c s' with Some n => Some (S n) | None => None end
  end.

(** [s[:n]] and [s[n:]]. *)
Fixpoint take (n : nat) (s : string) : string :=
  match n, s with
  | S n', String a s' => String a (take n' s')
  | _, _ => EmptyString
  end.

Fixpoint drop (n : nat) (s : string) : string :=
  match n, s with
  | S n', String _ s' => drop n' s'
  | _, _ => s
  end.

Definition digit_of (c : ascii) : option Z :=
  let n := nat_of_ascii c in
  if (Nat.leb 48 n && Nat.leb n 57)%bool then Some (Z.of_nat (n - 48)) else None.

(** The white space that [int] skips around a number: blank, \t, \n, \v,
    \f and \r. *)
Definition is_space (c : ascii) : bool :=
  let n := nat_of_ascii c in
  (Nat.leb 9 n && Nat.leb n 13) || Nat.eqb n 32.

Fixpoint skip_spaces (s : string) : string :=
  match s with
  | EmptyString => s
  | String c s' => if is_space c then skip_spaces s' else s
  end.

(** The digits that [int] reads, single underscores allowed between
    them: the value, the number of digits and the rest of the text.  With
    [need_digit] the next character has to be a digit, as it has to at
    the beginning and after an underscore. *)
Fixpoint int_digits (need_digit : bool) (acc count : Z) (s : string)
  : option (Z * Z * string) :=
  match s with
  | EmptyString => if need_digit then None else Some (acc, count, s)
  | String c s' =>
      match digit_of c with
      | Some d => int_digits false (10 * acc + d) (count + 1) s'
      | None =>
          if need_digit then None
          else if Ascii.eqb c "_"%char then int_digits true acc count s'
          else Some (acc, count, s)
      end
  end.

(** [sys.get_int_max_str_digits()], as CPython sets it by default. *)
Definition MAX_STR_DIGITS : Z := 4300.

(** [int(s)]: white space, an optional sign, decimal digits with single
    underscores between them, white space; anything else is ValueError,
    and so is a number of more than [MAX_STR_DIGITS] digits.  The text is
    taken as ASCII: Python also reads the white space and the decimal
    digits of Unicode beyond it, which are ValueError here. *)
Definition int (s : string) : result Z :=
  let s := skip_spaces s in
  let signed :=
    match s with
    | String c s' =>
        if Ascii.eqb c "+"%char then (1, s')
        else if Ascii.eqb c "-"%char then (-1, s')
        else (1, s)
    | EmptyString => (1, s)
    end in
  match int_digits true 0 0 (snd signed) with
  | Some (z, count, rest) =>
      if MAX_STR_DIGITS <? count then Raise ValueError
      else match skip_spaces rest with
           | EmptyString => Ok (fst signed * z)
           | String _ _ => Raise ValueError
           end
  | None => Raise ValueError
  end.

Definition digit_char (d : Z) : ascii := ascii_of_nat (48 + Z.to_nat d).

Fixpoint digits (fuel : nat) (n : Z) (acc : string) : string :=
  match fuel with
  | O => acc
  | S fuel' =>
      let acc' := String (digit_char (n mod 10)) acc in
      if n / 10 =? 0 then acc' else digits fuel' (n / 10) acc'
  end.

(** [str(z)], the text an f-string puts for [{z}]. *)
Definition str (z : Z) : string :=
  if z <? 0
  then String "-"%char (digits (S (Z.to_nat (Z.log2 (- z)))) (- z) EmptyString)
  else digits (S (Z.to_nat (Z.log2 z))) z EmptyString.

(** The text an f-string puts for [{z:02}]. *)
Definition format_02 (z : Z) : string :=
  let s := str z in
  if Nat.ltb (String.length s) 2 then String "0"%char s else s.

(** [d[k]] on an association list standing for a dict. *)
Fixpoint lookup {K V : Type} (eqb : K -> K -> bool) (k : K) (d : list (K * V))
  : result V :=
  match d with
  | [] => Raise KeyError
  | (k', v) :: d' => if eqb k' k then Ok v else lookup eqb k d'
  end.

Definition pair_eqb (k1 k2 : string * bool) : bool :=
  String.eqb (fst k1) (fst k2) && Bool.eqb (snd k1) (snd k2).

(** [x in l] for a list of strings. *)
Definition mem (x : string) (l : list string) : bool :=
  existsb (String.eqb x) l.

(** [enumerate(l)]. *)
Definition enumerate {A : Type} (l : list A) : list (nat * A) :=
  combine (seq 0 (List.length l)) l.

(** *** Lists of integers and text alignment *)

(** [sorted(l)] on integers. *)
Fixpoint insert (x : Z) (l : list Z) : list Z :=
  match l with
  | [] => [x]
  | y :: l' => if x <=? y then x :: l else y :: insert x l'
  end.

Definition sorted (l : list Z) : list Z := fold_right insert [] l.

(** [l.remove(x)]: the list without the first occurrence of [x];
    ValueError when there is none. *)
Fixpoint remove (x : Z) (l : list Z) : result (list Z) :=
  match l with
  | [] => Raise ValueError
  | y :: l' => if y =? x then Ok l' else r <- remove x l' ;; Ok (y :: r)
  end.

(** [l.index(x, start)]: the first position at or after [start] that
    holds [x]; ValueError when there is none. *)
Definition list_index (x : Z) (l : list Z) (start : nat) : result nat :=
  match find (fun i => match nth_error l i with
                       | Some y => y =? x
                       | None => false
                       end)
          (seq start (List.length l - start)) with
  | Some i => Ok i
  | None => Raise ValueError
  end.

(** [l.count(x)]. *)
Definition count (x : Z) (l : list Z) : Z :=
  Z.of_nat (List.length (filter (fun y => y =? x) l)).

(** [sum(l)]. *)
Definition sum (l : list Z) : Z := fold_left Z.add l 0.

(** [' ' * n]. *)
Fixpoint spaces (n : nat) : string :=
  match n with
  | O => EmptyString
  | S n' => String " "%char (spaces n')
  end.

(** [len(s)], the number of characters of a text.  A text is held as
    the bytes of its UTF-8 encoding, in which every character starts with
    one byte that is not a continuation byte (10xxxxxx). *)
Definition is_continuation (c : ascii) : bool :=
  let n := nat_of_ascii c in
  Nat.leb 128 n && Nat.ltb n 192.

Fixpoint str_len (s : string) : nat :=
  match s with
  | EmptyString => O
  | String c s' => if is_continuation c then str_len s' else S (str_len s')
  end.

(** The text an f-string puts for [{s:{n}s}] and for [{s:>{n}}]. *)
Definition ljust (n : nat) (s : string) : string :=
  (s ++ spaces (n - str_len s))%string.

Definition rjust (n : nat) (s : string) : string :=
  (spaces (n - str_len s) ++ s)%string.

(** [sep.join(l)]. *)
Definition join (sep : string) (l : list string) : string := String.concat sep l.

End Py.

(** ** Time grid *)

Module Store.

Definition TIME_OPEN : Z := 10.
Definition TIME_CLOSE : Z := 20.
Definition HOURS_OPEN : Z := TIME_CLOSE - TIME_OPEN.
Definition MINUTES_PER_SLOT : Z := 15.
Definition SLOTS_PER_HOUR : Z := 60 / MINUTES_PER_SLOT.
Definition NUM_SLOTS : Z := HOURS_OPEN * SLOTS_PER_HOUR.

Definition time_to_slot (t : string) : result Z :=
  match Py.index ":"%char t with
  | None => Raise ValueError
  | Some split =>
      hour <- Py.int (Py.take split t) ;;
      let hour := if hour <? 10 then hour + 12 else hour in
      minute <- Py.int (Py.drop (split + 1) t) ;;
      Ok ((hour - TIME_OPEN) * SLOTS_PER_HOUR + minute / MINUTES_PER_SLOT)
  end.

Definition slot_to_time (slot : Z) : string :=
  let hour := TIME_OPEN + slot / SLOTS_PER_HOUR in
  let hour := if hour >? 12 then hour - 12 else hour in
  let seconds := (slot mod SLOTS_PER_HOUR) * MINUTES_PER_SLOT in
  (Py.str hour ++ ":" ++ Py.format_02 seconds)%string.

(** [time_to_slot] at a time written as a literal in the source, where it
    cannot raise (see [literal_times] below). *)
Definition slot_at (t : string) : Z :=
  match time_to_slot t with
  | Ok s => s
  | Raise _ => 0
  end.

(** [range(NUM_SLOTS)]. *)
Definition slots : list Z := Py.elems (Py.range1 NUM_SLOTS).

End Store.

(** ** Shifts *)

Module Shift.

Record t : Type := mk { config : string; is_fulltime : bool; time_range : Py.range }.

Definition templates : list string := ["E"; "M"; "L"].

(** The dict literal of [Shift.__init__]. *)
Definition template_times : list ((string * bool) * (string * string)) :=
  [ (("E", true),  ("10:00", "6:30"));
    (("E", false), ("10:00", "5:45"));
    (("M", false), ("11:00", "7:00"));
    (("L", true),  ("11:15", "8:00"));
    (("L", false), ("12:00", "8:00")) ].

(** [Shift(config, is_fulltime)]. *)
Definition init (config : string) (is_fulltime : bool) : result t :=
  times <- (if Py.mem config templates
            then Py.lookup Py.pair_eqb (config, is_fulltime) template_times
            else match Py.index "-"%char config with
                 | None => Raise ValueError
                 | Some i => Ok (Py.take i config, Py.drop (i + 1) config)
                 end) ;;
  t_start <- Store.time_to_slot (fst times) ;;
  t_stop <- Store.time_to_slot (snd times) ;;
  Ok (mk config is_fulltime (Py.range2 t_start t_stop)).

(** [__eq__]. *)
Definition eqb (s other : t) : bool := Py.range_eqb (time_range s) (time_range other).

Definition lunch_slots : Py.range :=
  Py.mkrange (Store.slot_at "12:00") (Store.slot_at "4:00") 4.

Definition similar (s : t) : result t :=
  if Py.start (time_range s) <? Store.slot_at "11:00" then init "E" (is_fulltime s)
  else if Py.stop (time_range s) <? Store.slot_at "12:00" then init "M" (is_fulltime s)
  else init "L" (is_fulltime s).

(** The dict literal of [lunch_priority]. *)
Definition priority_table : list ((string * bool) * Z) :=
  [ (("E", true), 2); (("E", false), 2); (("M", false), 1);
    (("L", true), 0); (("L", false), 0) ].

(** The dict literal of [lunch_slots_strict]. *)
Definition strict_table : list ((string * bool) * (string * string)) :=
  [ (("E", true),  ("12:00", "2:00"));
    (("E", false), ("12:00", "2:00"));
    (("M", false), ("1:00", "3:00"));
    (("L", true),  ("2:00", "4:00"));
    (("L", false), ("2:00", "4:00")) ].

(** The template-dependent queries call themselves once on [similar()]
    when the label is an explicit time range; [similar()] always carries a
    template label, so each is written as its template case and the
    deferral to it. *)
Definition lunch_priority_template (s : t) : result Z :=
  Py.lookup Py.pair_eqb (config s, is_fulltime s) priority_table.

Definition lunch_priority (s : t) : result Z :=
  if negb (Py.mem (config s) templates)
  then s' <- similar s ;; lunch_priority_template s'
  else lunch_priority_template s.

Definition lunch_slots_strict_template (s : t) : result Py.range :=
  times <- Py.lookup Py.pair_eqb (config s, is_fulltime s) strict_table ;;
  t_start <- Store.time_to_slot (fst times) ;;
  t_stop <- Store.time_to_slot (snd times) ;;
  Ok (Py.mkrange t_start t_stop 4).

Definition lunch_slots_strict (s : t) : result Py.range :=
  if negb (Py.mem (config s) templates)
  then s' <- similar s ;; lunch_slots_strict_template s'
  else lunch_slots_strict_template s.

Definition break_lunch_order_template (s : t) (lunch_time : string) : string :=
  if String.eqb lunch_time "1:00" && String.eqb (config s) "E" then "1L2"
  else if String.eqb lunch_time "2:00"
          && negb (String.eqb (config s) "L" && negb (is_fulltime s)) then "1L2"
  else if String.eqb lunch_time "3:00"
       then (if String.eqb (config s) "E" && negb (is_fulltime s) then "12L" else "1L2")
  else "L12".

Definition break_lunch_order (s : t) (lunch_time : string) : result string :=
  if negb (Py.mem (config s) templates)
  then s' <- similar s ;; Ok (break_lunch_order_template s' lunch_time)
  else Ok (break_lunch_order_template s lunch_time).

End Shift.

(** ** Terminal colours

    The escape sequences of the [sty] package that the program prints;
    their text is the package's, so they are left as the fields of a
    record. *)

Module sty.

Record t : Type := mk {
  bg_black : string;
  bg_li_blue : string;
  bg_li_green : string;
  bg_li_yellow : string;
  bg_li_magenta : string;
  fg_rs : string;
  bg_rs : string
}.

End sty.

(** ** Activities *)

Module Appointment.

Definition NOT_HERE : Z := 0.
Definition REGULAR : Z := 1.
Definition LUNCH : Z := 2.
Definition BREAK : Z := 3.
Definition CASHIER : Z := 4.
Definition SUPPORT : Z := 5.
Definition MEETING : Z := 6.
Definition COUNT : Z := 7.

(** [range(Appointment.COUNT)]. *)
Definition all : list Z := Py.elems (Py.range1 COUNT).

(** The dict literals of [pretty_text] and [pretty_color]. *)
Definition pretty_text (val : Z) : result string :=
  Py.lookup Z.eqb val
    [ (NOT_HERE, "x"); (REGULAR, " "); (LUNCH, "L"); (BREAK, "B");
      (CASHIER, "C"); (SUPPORT, "S"); (MEETING, "M") ].

Definition pretty_color (colors : sty.t) (val : Z) : result string :=
  Py.lookup Z.eqb val
    [ (NOT_HERE, sty.bg_black colors); (REGULAR, "");
      (LUNCH, sty.bg_li_blue colors); (BREAK, sty.bg_li_green colors);
      (CASHIER, ""); (SUPPORT, sty.bg_li_yellow colors);
      (MEETING, sty.bg_li_magenta colors) ].

End Appointment.

(** ** Roster *)

Module Employee.

Record t : Type := mk { shift : Shift.t; name : string; dept : string }.

End Employee.

(** The contents of [config.py]: dicts keyed by name or by day of week. *)
Record UserConfig : Type := mkUserConfig {
  EMPLOYEE_INFO : list (string * (bool * string));
  SCHEDULE : list (Z * list (string * string));
  REGISTER_COUNT : list (Z * list (Z * string));
  MEETINGS : list (Z * list (string * list (string * string)))
}.

Module Config.

Record epoch : Type := mkepoch { count : Z; start : Z }.

Record t : Type := mk {
  employees : list Employee.t;
  meetings : list (string * list Py.range);
  register_count : list epoch
}.

(** [Config()], for the day of week that [datetime] reports. *)
Definition init (user_config : UserConfig) (day_of_week : Z) : result t :=
  schedule <- Py.lookup Z.eqb day_of_week (SCHEDULE user_config) ;;
  employees <- mapM (fun se : string * string =>
      let (shift_config, e_name) := se in
      info <- Py.lookup String.eqb e_name (EMPLOYEE_INFO user_config) ;;
      shift <- Shift.init shift_config (fst info) ;;
      info' <- Py.lookup String.eqb e_name (EMPLOYEE_INFO user_config) ;;
      Ok (Employee.mk shift e_name (snd info'))) schedule ;;
  day_meetings <- Py.lookup Z.eqb day_of_week (MEETINGS user_config) ;;
  meetings <- mapM (fun nm : string * list (string * string) =>
      ranges <- mapM (fun meeting : string * string =>
          a <- Store.time_to_slot (fst meeting) ;;
          b <- Store.time_to_slot (snd meeting) ;;
          Ok (Py.range2 a b)) (snd nm) ;;
      Ok (fst nm, ranges)) day_meetings ;;
  day_counts <- Py.lookup Z.eqb day_of_week (REGISTER_COUNT user_config) ;;
  register_count <- mapM (fun x : Z * string =>
      s <- Store.time_to_slot (snd x) ;; Ok (mkepoch (fst x) s)) day_counts ;;
  Ok (mk employees meetings register_count).

(** [enumerate(self.employees)], filtered as [employee_ids] filters it:
    the ids of [employee_ids] paired with the employees they index. *)
Definition members (c : t) (filt_type : string) (opposite : bool)
  : list (nat * Employee.t) :=
  if String.eqb filt_type "ALL" then Py.enumerate (employees c)
  else if String.eqb filt_type "FULLTIME"
  then filter (fun ee : nat * Employee.t =>
                 xorb opposite (Shift.is_fulltime (Employee.shift (snd ee))))
         (Py.enumerate (employees c))
  else filter (fun ee : nat * Employee.t =>
                 xorb opposite (String.eqb (Employee.dept (snd ee)) filt_type))
         (Py.enumerate (employees c)).

(** [employee_ids(filt_type, opposite)]. *)
Definition employee_ids (c : t) (filt_type : string) (opposite : bool) : list nat :=
  map fst (members c filt_type opposite).

(** [employee_ids()] and the employees it indexes. *)
Definition staff (c : t) : list (nat * Employee.t) := members c "ALL" false.
Definition all_ids (c : t) : list nat := employee_ids c "ALL" false.

(** [eid in employee_ids(filt_type)]. *)
Definition is_member (c : t) (filt_type : string) (eid : nat) : bool :=
  existsb (Nat.eqb eid) (employee_ids c filt_type false).

Definition not_unique (name : string) : string :=
  ("Name " ++ String (ascii_of_nat 34) name
   ++ String (ascii_of_nat 34) " is not unique")%string.

Definition employee_name_to_id (c : t) (name : string) : result nat :=
  let ret := map fst (filter (fun ee : nat * Employee.t =>
                        String.eqb (Employee.name (snd ee)) name)
                      (Py.enumerate (employees c))) in
  match ret with
  | [] => Raise AssertionError
  | [eid] => Ok eid
  | _ => Raise (SystemExit (not_unique name))
  end.

Definition number_of_designated_cashiers_here (c : t) (slot : Z) : Z :=
  fold_left (fun count (shift : Shift.t) =>
               if Py.contains (Shift.time_range shift) slot
               then count + 1 else count)
    (map (fun ee : nat * Employee.t => Employee.shift (snd ee))
       (members c "CASHIER" false))
    0.

End Config.

(** ** The CP-SAT model, as far as the program uses it *)

Module cp_model.

(** Variables are identified by the data their names are formatted from:
    [sched_e{eid}s{slot}a{appt}], [enable_{name}], and every other
    variable by the prefix of its name, the soft constraint under which it
    is created (empty outside the soft layer) and the numbers in its name. *)
Inductive var : Type :=
| sched (eid : nat) (slot appt : Z)
| enable (name : string)
| aux (kind owner : string) (key : list Z).

(** A literal: a Boolean variable, its [.Not()], or a Python bool. *)
Inductive lit : Type :=
| Pos (v : var)
| Neg (v : var)
| Const (b : bool).

Definition Not (l : lit) : lit :=
  match l with
  | Pos v => Neg v
  | Neg v => Pos v
  | Const b => Const (negb b)
  end.

(** Linear expressions over the variables. *)
Record lin : Type := mklin { terms : list (Z * var); const : Z }.

Definition lvar (v : var) : lin := mklin [(1, v)] 0.
Definition lconst (k : Z) : lin := mklin [] k.
Definition lscale (k : Z) (e : lin) : lin :=
  mklin (map (fun t : Z * var => (k * fst t, snd t)) (terms e)) (k * const e).
Definition ladd (a b : lin) : lin := mklin (terms a ++ terms b) (const a + const b).
Definition lsub (a b : lin) : lin := ladd a (lscale (-1) b).
(** [sum(vars)]. *)
Definition lsum (vs : list var) : lin := mklin (map (fun v => (1, v)) vs) 0.
(** [sum(exprs)]. *)
Definition lsum_lin (es : list lin) : lin := fold_right ladd (lconst 0) es.

Inductive cmp : Type := EQ | NE | LE | LT | GE | GT.

Inductive body : Type :=
| Linear (lhs : lin) (op : cmp) (rhs : lin)
| BoolOr (ls : list lit)
| AtLeastOne (ls : list lit)
| ExactlyOne (ls : list lit)
| Implication (a b : lit)
| MaxEquality (target : lin) (exprs : list lin)
| AbsEquality (target : lin) (e : lin).

(** A constraint with the literals given to [OnlyEnforceIf]. *)
Record constraint : Type := mkconstraint { what : body; enforce : list lit }.

Inductive item : Type :=
| NewBoolVar (v : var)
| NewIntVar (lb ub : Z) (v : var)
| Add (c : constraint).

Definition Add_ (b : body) : item := Add (mkconstraint b []).

Definition OnlyEnforceIf (it : item) (l : lit) : item :=
  match it with
  | Add c => Add (mkconstraint (what c) (enforce c ++ [l]))
  | _ => it
  end.

Record CpModel : Type := mkmodel {
  items : list item;
  objective : option lin;
  hints : list (var * Z)
}.

(** *** What a solution is *)

Definition assignment : Type := var -> Z.

Definition eval (a : assignment) (e : lin) : Z :=
  fold_right (fun (t : Z * var) acc => fst t * a (snd t) + acc) 0 (terms e) + const e.

Definition lit_holds (a : assignment) (l : lit) : bool :=
  match l with
  | Pos v => a v =? 1
  | Neg v => a v =? 0
  | Const b => b
  end.

Definition cmp_holds (op : cmp) (x y : Z) : bool :=
  match op with
  | EQ => x =? y
  | NE => negb (x =? y)
  | LE => x <=? y
  | LT => x <? y
  | GE => x >=? y
  | GT => x >? y
  end.

Definition count_true (a : assignment) (ls : list lit) : Z :=
  fold_right (fun l acc => (if lit_holds a l then 1 else 0) + acc) 0 ls.

Definition body_holds (a : assignment) (b : body) : bool :=
  match b with
  | Linear lhs op rhs => cmp_holds op (eval a lhs) (eval a rhs)
  | BoolOr ls => existsb (lit_holds a) ls
  | AtLeastOne ls => existsb (lit_holds a) ls
  | ExactlyOne ls => count_true a ls =? 1
  | Implication x y => implb (lit_holds a x) (lit_holds a y)
  | MaxEquality target exprs =>
      match map (eval a) exprs with
      | [] => false
      | x :: xs => eval a target =? fold_left Z.max xs x
      end
  | AbsEquality target e => eval a target =? Z.abs (eval a e)
  end.

(** A constraint binds only when all its enforcement literals hold. *)
Definition holds (a : assignment) (c : constraint) : bool :=
  implb (forallb (lit_holds a) (enforce c)) (body_holds a (what c)).

Definition item_ok (a : assignment) (it : item) : bool :=
  match it with
  | NewBoolVar v => (0 <=? a v) && (a v <=? 1)
  | NewIntVar lb ub v => (lb <=? a v) && (a v <=? ub)
  | Add c => holds a c
  end.

(** [a] is a solution of the model made of [its]. *)
Definition feasible (a : assignment) (its : list item) : bool :=
  forallb (item_ok a) its.

(** The constraints among the items of a model. *)
Definition constraints_of (its : list item) : list constraint :=
  flat_map (fun it => match it with Add c => [c] | _ => [] end) its.

Inductive status : Type := OPTIMAL | FEASIBLE | INFEASIBLE | UNKNOWN | MODEL_INVALID.

End cp_model.

(** ** Building the schedule model *)

Module Run.

Import cp_model.

Definition zid (eid : nat) : Z := Z.of_nat eid.

(** The variables of [self.sched], in the order [Run.__init__] creates them. *)
Definition new_sched (c : Config.t) : list item :=
  flat_map (fun eid =>
    flat_map (fun slot =>
      map (fun appt => NewBoolVar (sched eid slot appt)) Appointment.all)
      Store.slots)
    (Config.all_ids c).

(** [self.sched[(eid, slot, appt)]]: KeyError outside the keys of the dict. *)
Definition sched_get (c : Config.t) (eid : nat) (slot appt : Z) : result var :=
  if Nat.ltb eid (List.length (Config.employees c))
     && (0 <=? slot) && (slot <? Store.NUM_SLOTS)
     && (0 <=? appt) && (appt <? Appointment.COUNT)
  then Ok (sched eid slot appt)
  else Raise KeyError.

Definition ortools_or (result : var) (ortools_vars : list lit) : list item :=
  Add_ (BoolOr (ortools_vars ++ [Neg result]))
  :: map (fun v => Add_ (Implication v (Pos result))) ortools_vars.

Definition ortools_and (result : var) (ortools_vars : list lit) : list item :=
  Add_ (BoolOr (map Not ortools_vars ++ [Pos result]))
  :: map (fun v => Add_ (Implication (Pos result) v)) ortools_vars.

(** The value of [curr_count] after the loop over the epochs. *)
Fixpoint epochs_loop (slot : Z) (epochs : list Config.epoch) (curr_count : option Z)
  : option Z :=
  match epochs with
  | [] => curr_count
  | epoch :: rest =>
      if slot <? Config.start epoch then curr_count
      else epochs_loop slot rest (Some (Config.count epoch))
  end.

Definition curr_count (c : Config.t) (slot : Z) : option Z :=
  epochs_loop slot (Config.register_count c) None.

Definition register_count_message (slot curr_count num_designated : Z) : string :=
  ("config.REGISTER_COUNT needs updating: At " ++ Store.slot_to_time slot
   ++ ", register_count is " ++ Py.str curr_count
   ++ " but there are " ++ Py.str num_designated ++ " designated cashiers!")%string.

(** One turn of the loop "Obey self.config.register_count". *)
Definition obey_register_count (c : Config.t) (slot : Z) : result (list item) :=
  let num_designated := Config.number_of_designated_cashiers_here c slot in
  match curr_count c slot with
  | None => Raise TypeError
  | Some curr_count =>
      if curr_count <? num_designated
      then Raise (SystemExit (register_count_message slot curr_count num_designated))
      else Ok [Add_ (Linear
                 (lsum (map (fun eid => sched eid slot Appointment.CASHIER) (Config.all_ids c)
                        ++ map (fun eid => sched eid slot Appointment.SUPPORT) (Config.all_ids c)))
                 EQ (lconst curr_count))]
  end.

Definition totheright (eid : nat) (slot : Z) : var :=
  aux "totheright" "" [zid eid; slot].

Definition noncashiercashiers (slot : Z) : var :=
  aux "noncashiercashiers" "" [slot].

(** "Employee gets one lunch, on the hour, from lunch_slots()", for one employee. *)
Definition one_lunch_on_the_hour (eid : nat) : list item :=
  let lunch_slots := Py.elems Shift.lunch_slots in
  Add_ (ExactlyOne (map (fun slot => Pos (sched eid slot Appointment.LUNCH)) lunch_slots))
  :: flat_map (fun slot =>
       let to_the_right := totheright eid slot in
       NewBoolVar to_the_right
       :: ortools_and to_the_right
            (map (fun ss => Pos (sched eid ss Appointment.LUNCH))
               (Py.elems (Py.range2 (slot + 1) (slot + Store.SLOTS_PER_HOUR))))
       ++ [Add_ (Implication (Pos (sched eid slot Appointment.LUNCH)) (Pos to_the_right))])
     lunch_slots.

Definition bool_to_Z (b : bool) : Z := if b then 1 else 0.

Definition add_hard_constraints (c : Config.t) : result (list item) :=
  (* Shift start/end times, based on employee+shift. *)
  let shift_times :=
    flat_map (fun ee : nat * Employee.t =>
      map (fun slot =>
        let here := Py.contains (Shift.time_range (Employee.shift (snd ee))) slot in
        Add_ (Linear (lvar (sched (fst ee) slot Appointment.NOT_HERE)) EQ
                (lconst (bool_to_Z (negb here)))))
        Store.slots)
      (Config.staff c) in
  (* Each employee has exactly one appointment per slot. *)
  let one_appointment :=
    flat_map (fun eid =>
      map (fun slot =>
        Add_ (ExactlyOne (map (fun appt => Pos (sched eid slot appt)) Appointment.all)))
        Store.slots)
      (Config.all_ids c) in
  (* Designated cashier is never regular/support/meeting. *)
  let designated :=
    flat_map (fun eid =>
      if Config.is_member c "CASHIER" eid
      then flat_map (fun slot =>
             [ Add_ (Linear (lvar (sched eid slot Appointment.SUPPORT)) EQ (lconst 0));
               Add_ (Linear (lvar (sched eid slot Appointment.REGULAR)) EQ (lconst 0));
               Add_ (Linear (lvar (sched eid slot Appointment.MEETING)) EQ (lconst 0)) ])
             Store.slots
      else [])
      (Config.all_ids c) in
  (* At least one cashier at all times. *)
  let one_cashier :=
    map (fun slot =>
      Add_ (AtLeastOne (map (fun eid => Pos (sched eid slot Appointment.CASHIER))
                          (Config.all_ids c))))
      Store.slots in
  (* Obey self.config.register_count. *)
  registers <- flat_mapM (obey_register_count c) Store.slots ;;
  (* Non-cashier shouldn't be made cashier at same time as another cashier. *)
  let non_cashier :=
    flat_map (fun slot =>
      let non_cashier_cashiers := noncashiercashiers slot in
      NewBoolVar non_cashier_cashiers
      :: ortools_or non_cashier_cashiers
           (map (fun eid => Pos (sched eid slot Appointment.CASHIER))
              (Config.employee_ids c "CASHIER" true))
      ++ [OnlyEnforceIf
            (Add_ (Linear (lsum (map (fun eid => sched eid slot Appointment.CASHIER)
                                   (Config.all_ids c)))
                     EQ (lconst 1)))
            (Pos non_cashier_cashiers)])
      Store.slots in
  (* Two breaks per employee. *)
  let two_breaks :=
    map (fun eid =>
      Add_ (Linear (lsum (map (fun slot => sched eid slot Appointment.BREAK) Store.slots))
              EQ (lconst 2)))
      (Config.all_ids c) in
  (* One lunch-hour per employee. *)
  let lunch_hour :=
    map (fun eid =>
      Add_ (Linear (lsum (map (fun slot => sched eid slot Appointment.LUNCH) Store.slots))
              EQ (lconst Store.SLOTS_PER_HOUR)))
      (Config.all_ids c) in
  (* Employee gets one lunch, on the hour, from lunch_slots(). *)
  let lunches := flat_map one_lunch_on_the_hour (Config.all_ids c) in
  (* Employee never starts off with lunch. *)
  no_lunch_first <- mapM (fun ee : nat * Employee.t =>
      let shift_range := Shift.time_range (Employee.shift (snd ee)) in
      v <- sched_get c (fst ee) (Py.start shift_range) Appointment.LUNCH ;;
      Ok (Add_ (Linear (lvar v) EQ (lconst 0))))
    (Config.staff c) ;;
  (* Obey self.config.meetings. *)
  with_meetings <- flat_mapM (fun nm : string * list Py.range =>
      eid <- Config.employee_name_to_id c (fst nm) ;;
      Ok (map (fun slot =>
            let in_meeting := existsb (fun meeting => Py.contains meeting slot) (snd nm) in
            Add_ (Linear (lvar (sched eid slot Appointment.MEETING)) EQ
                    (lconst (bool_to_Z in_meeting))))
            Store.slots))
    (Config.meetings c) ;;
  let without_meetings :=
    flat_map (fun ee : nat * Employee.t =>
      if negb (Py.mem (Employee.name (snd ee)) (map fst (Config.meetings c)))
      then map (fun slot =>
             Add_ (Linear (lvar (sched (fst ee) slot Appointment.MEETING)) EQ (lconst 0)))
             Store.slots
      else [])
      (Config.staff c) in
  Ok (shift_times ++ one_appointment ++ designated ++ one_cashier ++ registers
      ++ non_cashier ++ two_breaks ++ lunch_hour ++ lunches ++ no_lunch_first
      ++ with_meetings ++ without_meetings).

(** *** Soft constraints

    Every procedure below is a method of [Run] that reads
    [self.curr_soft_enable]; here it takes it as the argument
    [curr_soft_enable]. *)

Definition owner_of (v : var) : string :=
  match v with
  | enable name => name
  | _ => ""
  end.

(** [ranges_min_to_max(ranges)]: [min()] and [max()] of an empty sequence
    raise ValueError. *)
Definition ranges_min_to_max (ranges : list Py.range) : result Py.range :=
  match ranges with
  | [] => Raise ValueError
  | r :: rs =>
      Ok (Py.range2 (fold_left Z.min (map Py.start rs) (Py.start r))
                    (fold_left Z.max (map Py.stop rs) (Py.stop r)))
  end.

(** [[self.sched[(eid, slot, appt)] for eid in ids for appt in appts]]. *)
Definition sched_slot (c : Config.t) (ids : list nat) (slot : Z) (appts : list Z)
  : result (list var) :=
  flat_mapM (fun eid => mapM (fun appt => sched_get c eid slot appt) appts) ids.

(** [sched_index(eid, appt, last)]; [site] tells the calls apart, since the
    variables of two calls with the same arguments carry the same name and
    are nevertheless two variables. *)
Definition sched_index (c : Config.t) (owner : string) (site : list Z)
    (ee : nat * Employee.t) (appt : Z) (last : bool) : result (var * list item) :=
  let eid := fst ee in
  let shift_range := Shift.time_range (Employee.shift (snd ee)) in
  let key := site ++ [zid eid; appt; bool_to_Z last] in
  let appt_slot := aux "index" owner key in
  let new_appt_slot := NewIntVar (Py.start shift_range) (Py.stop shift_range - 1) appt_slot in
  if last then
    exprs <- mapM (fun slot => v <- sched_get c eid slot appt ;; Ok (lscale slot (lvar v)))
               (Py.elems shift_range) ;;
    Ok (appt_slot, [new_appt_slot; Add_ (MaxEquality (lvar appt_slot) exprs)])
  else
    let distance_from_end := aux "distancefromend" owner key in
    let new_distance :=
      NewIntVar 1 (Py.stop shift_range - Py.start shift_range) distance_from_end in
    exprs <- mapM (fun slot => v <- sched_get c eid slot appt ;;
                               Ok (lscale (Py.stop shift_range - slot) (lvar v)))
               (Py.elems shift_range) ;;
    Ok (appt_slot,
        [new_appt_slot; new_distance;
         Add_ (MaxEquality (lvar distance_from_end) exprs);
         Add_ (Linear (lvar appt_slot) EQ
                 (lsub (lconst (Py.stop shift_range)) (lvar distance_from_end)))]).

Definition available_when_here_if_mult (c : Config.t) (curr_soft_enable : var)
    (employee_ids : list (nat * Employee.t)) (available_appointments : list Z)
    (num_exceptions : Z) : result (list item) :=
  if Nat.eqb (List.length employee_ids) 1 then Ok []
  else
    let shift_ranges :=
      map (fun ee : nat * Employee.t => Shift.time_range (Employee.shift (snd ee)))
        employee_ids in
    let ids := map fst employee_ids in
    if num_exceptions =? 0 then
      slots <- ranges_min_to_max shift_ranges ;;
      mapM (fun slot =>
          vs <- sched_slot c ids slot available_appointments ;;
          Ok (OnlyEnforceIf (Add_ (AtLeastOne (map Pos vs))) (Pos curr_soft_enable)))
        (Py.elems slots)
    else
      slots <- ranges_min_to_max shift_ranges ;;
      per_slot <- mapM (fun slot =>
          vs <- sched_slot c ids slot available_appointments ;;
          let num_avail := lsum vs in
          let not_avail := aux "notavail" (owner_of curr_soft_enable) [slot] in
          Ok (not_avail,
              [ NewBoolVar not_avail;
                OnlyEnforceIf (OnlyEnforceIf (Add_ (Linear num_avail EQ (lconst 0)))
                                 (Pos not_avail)) (Pos curr_soft_enable);
                OnlyEnforceIf (OnlyEnforceIf (Add_ (Linear num_avail GT (lconst 0)))
                                 (Neg not_avail)) (Pos curr_soft_enable) ]))
        (Py.elems slots) ;;
      let exceptions := map fst per_slot in
      Ok (flat_map snd per_slot
          ++ [OnlyEnforceIf (Add_ (Linear (lsum exceptions) LE (lconst num_exceptions)))
                (Pos curr_soft_enable)]).

Definition ban_register_for_nbc_if_alone (c : Config.t) (curr_soft_enable : var)
  : result (list item) :=
  match Config.employee_ids c "NBC" false with
  | [nbc] =>
      Ok (flat_map (fun slot =>
            [ OnlyEnforceIf (Add_ (Linear (lvar (sched nbc slot Appointment.CASHIER)) EQ (lconst 0)))
                (Pos curr_soft_enable);
              OnlyEnforceIf (Add_ (Linear (lvar (sched nbc slot Appointment.SUPPORT)) EQ (lconst 0)))
                (Pos curr_soft_enable) ])
            Store.slots)
  | _ => Ok []
  end.

Definition ban_register_for_non_cashier_as_first_thing_in_day_if_not_opening
    (c : Config.t) (curr_soft_enable : var) : result (list item) :=
  flat_mapM (fun ee : nat * Employee.t =>
      if Config.is_member c "CASHIER" (fst ee) then Ok []
      else
        let shift_range := Shift.time_range (Employee.shift (snd ee)) in
        if Py.start shift_range =? Store.slot_at "10:00" then Ok []
        else mapM (fun appt =>
                 v <- sched_get c (fst ee) (Py.start shift_range) appt ;;
                 Ok (OnlyEnforceIf (Add_ (Linear (lvar v) EQ (lconst 0)))
                       (Pos curr_soft_enable)))
               [Appointment.CASHIER; Appointment.SUPPORT])
    (Config.staff c).

(** [[self.sched[(eid, slot, appt)] for eid in ids for appt in appts]] for a
    slot of [range(NUM_SLOTS)] and ids of [employee_ids]. *)
Definition at_slot (ids : list nat) (slot : Z) (appts : list Z) : list var :=
  flat_map (fun eid => map (fun appt => sched eid slot appt) appts) ids.

Definition ban_simultaneous_break_lunch_for_subgroup (c : Config.t)
    (curr_soft_enable : var) (employee_ids : list nat) : result (list item) :=
  Ok (map (fun slot =>
        OnlyEnforceIf
          (Add_ (Linear (lsum (at_slot employee_ids slot
                                 [Appointment.LUNCH; Appointment.BREAK]))
                   LE (lconst 1)))
          (Pos curr_soft_enable))
        Store.slots).

(** [[self.sched[(eid, slot, appt)] for slot in range(NUM_SLOTS) for appt in appts]]. *)
Definition over_day (eid : nat) (appts : list Z) : list var :=
  flat_map (fun slot => map (fun appt => sched eid slot appt) appts) Store.slots.

Definition cap_non_cashier_appointment_delta (c : Config.t) (curr_soft_enable : var)
    (appointments : list Z) (max_delta : Z) : result (list item) :=
  let ignore_fairness (eid : nat) :=
    Config.is_member c "NBC" eid
    && Nat.eqb (List.length (Config.employee_ids c "NBC" false)) 1 in
  Ok (flat_map (fun eid1 =>
        if ignore_fairness eid1 then []
        else flat_map (fun eid2 =>
               if Nat.leb eid2 eid1 then []
               else if ignore_fairness eid2 then []
               else
                 let e1_count := lsum (over_day eid1 appointments) in
                 let e2_count := lsum (over_day eid2 appointments) in
                 [ OnlyEnforceIf (Add_ (Linear (lsub e1_count e2_count) LE (lconst max_delta)))
                     (Pos curr_soft_enable);
                   OnlyEnforceIf (Add_ (Linear (lsub e1_count e2_count) GE (lconst (- max_delta))))
                     (Pos curr_soft_enable) ])
               (Config.employee_ids c "CASHIER" true))
        (Config.employee_ids c "CASHIER" true)).

Definition cap_register_in_span (c : Config.t) (curr_soft_enable : var)
    (cap slot_span : Z) : result (list item) :=
  flat_mapM (fun ee : nat * Employee.t =>
      let shift_range := Shift.time_range (Employee.shift (snd ee)) in
      mapM (fun slot_base =>
          vs <- flat_mapM (fun slot =>
                    mapM (fun appt => sched_get c (fst ee) slot appt)
                      [Appointment.CASHIER; Appointment.SUPPORT])
                  (Py.elems (Py.range2 slot_base
                               (Z.min (Py.stop shift_range) (slot_base + slot_span)))) ;;
          Ok (Add_ (Linear (lsum vs) LE (lconst cap))))
        (Py.elems (Py.range2 (Py.start shift_range) (Py.stop shift_range))))
    (Config.members c "CASHIER" true).

Definition cap_simultaneous_appointments (c : Config.t) (curr_soft_enable : var)
    (appointments : list Z) (cap : Z) : result (list item) :=
  Ok (map (fun slot =>
        OnlyEnforceIf
          (Add_ (Linear (lsum (at_slot (Config.all_ids c) slot appointments))
                   LE (lconst cap)))
          (Pos curr_soft_enable))
        Store.slots).

Definition require_aesthetics_and_break_symmetries (c : Config.t)
    (curr_soft_enable : var) : result (list item) :=
  let owner := owner_of curr_soft_enable in
  flat_mapM (fun ee1 : nat * Employee.t =>
    flat_mapM (fun ee2 : nat * Employee.t =>
      let eid1 := fst ee1 in
      let eid2 := fst ee2 in
      if Nat.leb eid2 eid1 || Config.is_member c "NBC" eid1 || Config.is_member c "NBC" eid2
      then Ok []
      else
        let cashier_order :=
          flat_map (fun slot_range =>
            flat_map (fun slot1 =>
              flat_map (fun slot2 =>
                let both_cashier :=
                  aux "bothcashier" owner [slot1; slot2; zid eid1; zid eid2] in
                NewBoolVar both_cashier
                :: ortools_and both_cashier
                     [Pos (sched eid1 slot1 Appointment.CASHIER);
                      Pos (sched eid2 slot2 Appointment.CASHIER)]
                ++ [OnlyEnforceIf
                      (Add_ (Implication (Pos both_cashier) (Const (slot1 <? slot2))))
                      (Pos curr_soft_enable)])
                (Py.elems slot_range))
              (Py.elems slot_range))
            [Py.range1 (Store.slot_at "12:00");
             Py.range2 (Store.slot_at "6:00") Store.NUM_SLOTS] in
        if Shift.eqb (Employee.shift (snd ee1)) (Employee.shift (snd ee2)) then
          let site := [zid eid1; zid eid2] in
          e1_lunch <- sched_index c owner site ee1 Appointment.LUNCH false ;;
          e2_lunch <- sched_index c owner site ee2 Appointment.LUNCH false ;;
          let e1_lunch_slot := lvar (fst e1_lunch) in
          let e2_lunch_slot := lvar (fst e2_lunch) in
          let same_lunch := aux "samelunch" owner [zid eid1; zid eid2] in
          breaks <- flat_mapM (fun first_break : bool =>
              e1_s_break <- sched_index c owner site ee1 Appointment.BREAK first_break ;;
              e2_s_break <- sched_index c owner site ee2 Appointment.BREAK first_break ;;
              Ok (snd e1_s_break ++ snd e2_s_break
                  ++ [OnlyEnforceIf
                        (OnlyEnforceIf
                           (Add_ (Linear (lvar (fst e1_s_break)) LE (lvar (fst e2_s_break))))
                           (Pos same_lunch))
                        (Pos curr_soft_enable)]))
            [true; false] ;;
          Ok (cashier_order ++ snd e1_lunch ++ snd e2_lunch
              ++ [ OnlyEnforceIf (Add_ (Linear e1_lunch_slot LE e2_lunch_slot))
                     (Pos curr_soft_enable);
                   NewBoolVar same_lunch;
                   OnlyEnforceIf
                     (OnlyEnforceIf (Add_ (Linear e1_lunch_slot EQ e2_lunch_slot))
                        (Pos same_lunch)) (Pos curr_soft_enable);
                   OnlyEnforceIf
                     (OnlyEnforceIf (Add_ (Linear e1_lunch_slot NE e2_lunch_slot))
                        (Neg same_lunch)) (Pos curr_soft_enable) ]
              ++ breaks)
        else Ok cashier_order)
      (Config.members c "CASHIER" true))
    (Config.members c "CASHIER" true).

Definition require_break_lunches_gap (c : Config.t) (curr_soft_enable : var) (gap : Z)
  : result (list item) :=
  let owner := owner_of curr_soft_enable in
  flat_mapM (fun ee : nat * Employee.t =>
      break1 <- sched_index c owner [] ee Appointment.BREAK false ;;
      break2 <- sched_index c owner [] ee Appointment.BREAK true ;;
      lunch <- sched_index c owner [] ee Appointment.LUNCH false ;;
      let break1_slot := lvar (fst break1) in
      let break2_slot := lvar (fst break2) in
      let lunch_slot := lvar (fst lunch) in
      let deltas :=
        [ lsub break1_slot break2_slot;
          lsub break1_slot lunch_slot;
          lsub break2_slot lunch_slot;
          lsub break1_slot (ladd lunch_slot (lconst 3));
          lsub break2_slot (ladd lunch_slot (lconst 3)) ] in
      Ok (snd break1 ++ snd break2 ++ snd lunch
          ++ flat_map (fun kd : nat * lin =>
               let delta := snd kd in
               let positive := aux "positive" owner [zid (fst ee); zid (fst kd)] in
               [ NewBoolVar positive;
                 OnlyEnforceIf (Add_ (Linear delta GT (lconst 0))) (Pos positive);
                 OnlyEnforceIf (Add_ (Linear delta LE (lconst 0))) (Neg positive);
                 OnlyEnforceIf (OnlyEnforceIf (Add_ (Linear delta GT (lconst gap)))
                                  (Pos positive)) (Pos curr_soft_enable);
                 OnlyEnforceIf (OnlyEnforceIf (Add_ (Linear delta LT (lconst (- gap))))
                                  (Neg positive)) (Pos curr_soft_enable) ])
               (Py.enumerate deltas)))
    (Config.staff c).

Definition require_fair_lunch_order (c : Config.t) (curr_soft_enable : var)
  : result (list item) :=
  let owner := owner_of curr_soft_enable in
  flat_mapM (fun ee1 : nat * Employee.t =>
    flat_mapM (fun ee2 : nat * Employee.t =>
      let e1_shift := Employee.shift (snd ee1) in
      let e2_shift := Employee.shift (snd ee2) in
      p1 <- Shift.lunch_priority e1_shift ;;
      p2 <- Shift.lunch_priority e2_shift ;;
      if p1 <=? p2 then Ok []
      else
        Ok (flat_map (fun slot1 =>
              flat_map (fun slot2 =>
                let lunch_lunch :=
                  aux "lunchlunch" owner [zid (fst ee1); zid (fst ee2); slot1; slot2] in
                NewBoolVar lunch_lunch
                :: ortools_and lunch_lunch
                     [Pos (sched (fst ee1) slot1 Appointment.LUNCH);
                      Pos (sched (fst ee2) slot2 Appointment.LUNCH)]
                ++ [OnlyEnforceIf
                      (Add_ (Implication (Pos lunch_lunch) (Const (slot1 <=? slot2))))
                      (Pos curr_soft_enable)])
                (Py.elems Shift.lunch_slots))
              (Py.elems Shift.lunch_slots)))
      (Config.staff c))
    (Config.staff c).

Definition require_lunches_balanced (c : Config.t) (curr_soft_enable : var)
  : result (list item) :=
  Ok (flat_map (fun ab : string * string =>
        let count_a :=
          lsum (map (fun eid => sched eid (Store.slot_at (fst ab)) Appointment.LUNCH)
                  (Config.all_ids c)) in
        let count_b :=
          lsum (map (fun eid => sched eid (Store.slot_at (snd ab)) Appointment.LUNCH)
                  (Config.all_ids c)) in
        [ OnlyEnforceIf (Add_ (Linear (lsub count_a count_b) LE (lconst 1)))
            (Pos curr_soft_enable);
          OnlyEnforceIf (Add_ (Linear (lsub count_a count_b) GE (lconst (-1))))
            (Pos curr_soft_enable) ])
        [("12:00", "1:00"); ("2:00", "3:00")]).

Definition require_min_gap_break_from_start_end (c : Config.t) (curr_soft_enable : var)
    (start_gap end_gap : Z) : result (list item) :=
  flat_mapM (fun ee : nat * Employee.t =>
      let shift_range := Shift.time_range (Employee.shift (snd ee)) in
      let no_break (slot : Z) :=
        v <- sched_get c (fst ee) slot Appointment.BREAK ;;
        Ok (OnlyEnforceIf (Add_ (Linear (lvar v) EQ (lconst 0))) (Pos curr_soft_enable)) in
      at_start <- mapM no_break (Py.elems (Py.range1 (Py.start shift_range + start_gap - 1))) ;;
      at_end <- mapM no_break
                  (Py.elems (Py.range2 (Py.stop shift_range - end_gap) (Py.stop shift_range))) ;;
      Ok (at_start ++ at_end))
    (Config.staff c).

Definition require_stricter_lunch_bounds (c : Config.t) (curr_soft_enable : var)
  : result (list item) :=
  mapM (fun ee : nat * Employee.t =>
      lunch_slots_strict <- Shift.lunch_slots_strict (Employee.shift (snd ee)) ;;
      vs <- mapM (fun slot => sched_get c (fst ee) slot Appointment.LUNCH)
              (Py.elems lunch_slots_strict) ;;
      Ok (OnlyEnforceIf (Add_ (Linear (lsum vs) EQ (lconst 1))) (Pos curr_soft_enable)))
    (Config.staff c).

(** *** The registry *)

Record SoftConstraint : Type := mkSoftConstraint {
  name : string;
  weight : Z;
  func : Config.t -> var -> result (list item);
  enable_of : var
}.

(** [SoftConstraint(model, name, weight, func)]. *)
Definition soft (name : string) (weight : Z)
    (func : Config.t -> var -> result (list item)) : SoftConstraint :=
  mkSoftConstraint name weight func (enable name).

Definition a_B : list Z := [Appointment.BREAK].
Definition a_BL : list Z := [Appointment.BREAK; Appointment.LUNCH].
Definition a_L : list Z := [Appointment.LUNCH].
Definition a_C : list Z := [Appointment.CASHIER].
Definition a_CS : list Z := [Appointment.CASHIER; Appointment.SUPPORT].
Definition a_R : list Z := [Appointment.REGULAR].
Definition a_RCS : list Z :=
  [Appointment.REGULAR; Appointment.CASHIER; Appointment.SUPPORT].

Definition num_employees (c : Config.t) : Z := Z.of_nat (List.length (Config.all_ids c)).

Definition soft_constraints : list SoftConstraint :=
  [ soft "aesthetics" 1 require_aesthetics_and_break_symmetries;
    soft "break-3" 2 (fun c e => cap_simultaneous_appointments c e a_B 3);
    soft "break-4" 3 (fun c e => cap_simultaneous_appointments c e a_B 4);
    soft "break-5" 4 (fun c e => cap_simultaneous_appointments c e a_B 5);
    soft "break-bound-gap-44" 4 (fun c e => require_min_gap_break_from_start_end c e 4 4);
    soft "break-bound-gap-54" 2 (fun c e => require_min_gap_break_from_start_end c e 5 4);
    soft "break-bound-gap-11" 999 (fun c e => require_min_gap_break_from_start_end c e 1 1);
    soft "break-lunch-gap-3" 10 (fun c e => require_break_lunches_gap c e 3);
    soft "break-lunch-gap-4" 4 (fun c e => require_break_lunches_gap c e 4);
    soft "breakroom-4-if-12" 2
      (fun c e => if num_employees c <=? 12
                  then cap_simultaneous_appointments c e a_BL 4 else Ok []);
    soft "breakroom-5" 3 (fun c e => cap_simultaneous_appointments c e a_BL 5);
    soft "breakroom-6" 10 (fun c e => cap_simultaneous_appointments c e a_BL 6);
    soft "breakroom-7" 999 (fun c e => cap_simultaneous_appointments c e a_BL 6);
    soft "cashier-diff-0" 10 (fun c e => cap_non_cashier_appointment_delta c e a_C 0);
    soft "cashier-diff-1" 20 (fun c e => cap_non_cashier_appointment_delta c e a_C 1);
    soft "cashier-diff-2" 30 (fun c e => cap_non_cashier_appointment_delta c e a_C 2);
    soft "cashier-diff-3" 40 (fun c e => cap_non_cashier_appointment_delta c e a_C 3);
    soft "cashier-diff-4" 999 (fun c e => cap_non_cashier_appointment_delta c e a_C 4);
    soft "diff-break-cashiers" 8
      (fun c e => ban_simultaneous_break_lunch_for_subgroup c e
                    (Config.employee_ids c "CASHIER" false));
    soft "fulltime-avail" 1
      (fun c e => available_when_here_if_mult c e (Config.members c "FULLTIME" false) a_RCS 0);
    soft "lunch-4-if-16" 2
      (fun c e => if num_employees c <=? 16
                  then cap_simultaneous_appointments c e a_L 4 else Ok []);
    soft "lunch-balance" 1 require_lunches_balanced;
    soft "lunch-fair-order" 2 require_fair_lunch_order;
    soft "lunch-strict-bounds" 20 require_stricter_lunch_bounds;
    soft "nbc-avail" 1
      (fun c e => available_when_here_if_mult c e (Config.members c "NBC" false) a_R 0);
    soft "nbc-avail-except-1" 4
      (fun c e => available_when_here_if_mult c e (Config.members c "NBC" false) a_R 1);
    soft "nbc-avail-except-2" 8
      (fun c e => available_when_here_if_mult c e (Config.members c "NBC" false) a_R 2);
    soft "nbc-avail-except-3" 12
      (fun c e => available_when_here_if_mult c e (Config.members c "NBC" false) a_R 3);
    soft "nbc-avail-except-4" 20
      (fun c e => available_when_here_if_mult c e (Config.members c "NBC" false) a_R 4);
    soft "nbc-diff-break" 4
      (fun c e => ban_simultaneous_break_lunch_for_subgroup c e
                    (Config.employee_ids c "NBC" false));
    soft "nbc-no-reg-if-alone" 4 ban_register_for_nbc_if_alone;
    soft "no-reg-first-thing" 4
      ban_register_for_non_cashier_as_first_thing_in_day_if_not_opening;
    soft "register-diff-0" 10 (fun c e => cap_non_cashier_appointment_delta c e a_CS 0);
    soft "register-diff-1" 20 (fun c e => cap_non_cashier_appointment_delta c e a_CS 1);
    soft "register-diff-2" 30 (fun c e => cap_non_cashier_appointment_delta c e a_CS 2);
    soft "register-diff-3" 40 (fun c e => cap_non_cashier_appointment_delta c e a_CS 3);
    soft "register-diff-4" 999 (fun c e => cap_non_cashier_appointment_delta c e a_CS 4);
    soft "register-max-4-in-16" 4 (fun c e => cap_register_in_span c e 4 16);
    soft "register-max-6-in-16" 99 (fun c e => cap_register_in_span c e 6 16) ].

(** What one record adds to the model: its procedure, run with
    [curr_soft_enable] set to the record's own toggle. *)
Definition generated (c : Config.t) (sc : SoftConstraint) : result (list item) :=
  func sc c (enable_of sc).

(** [sum(c.weight * c.enable.Not() for c in self.soft_constraints)]. *)
Definition soft_objective (scs : list SoftConstraint) : lin :=
  lsum_lin (map (fun sc => lscale (weight sc) (lsub (lconst 1) (lvar (enable_of sc)))) scs).

Definition add_soft_constraints (c : Config.t) : result (list item) :=
  added <- flat_mapM (generated c) soft_constraints ;;
  Ok (map (fun sc => NewBoolVar (enable_of sc)) soft_constraints ++ added).

(** *** Idealistic objectives

    Each procedure returns what it adds to the model and what it appends to
    [self.to_minimize_later]. *)

Definition ideal : string := "ideal".

Definition delta (a b : lin) : lin := lsub b a.

Definition three_way_delta (a b c : lin) : list lin :=
  [delta a b; delta a c; delta b c].

Definition imbalances (order : string) (shift_range : Py.range)
    (break1_slot break2_slot lunch_slot : lin) : result (list lin) :=
  Py.lookup String.eqb order
    [ ("L12", three_way_delta (lsub break1_slot (ladd lunch_slot (lconst 3)))
                (lsub break2_slot break1_slot)
                (lsub (lconst (Py.stop shift_range)) break2_slot));
      ("1L2", [ delta (lsub break1_slot (lconst (Py.start shift_range - 1)))
                  (lsub lunch_slot break1_slot);
                delta (lsub break2_slot (ladd lunch_slot (lconst 3)))
                  (lsub (lconst (Py.stop shift_range)) break2_slot) ]);
      ("12L", three_way_delta (lsub break1_slot (lconst (Py.start shift_range - 1)))
                (lsub break2_slot break1_slot)
                (lsub lunch_slot break2_slot)) ].

Definition lunch_times : list string := ["12:00"; "1:00"; "2:00"; "3:00"].

Definition lunchat (eid : nat) (lunch_time : string) : var :=
  aux "lunchat" ideal [Store.slot_at lunch_time; zid eid].

Definition ideally_distribute_breaks_and_lunches (c : Config.t)
  : result (list item * list var) :=
  per_employee <- mapM (fun ee : nat * Employee.t =>
      let eid := fst ee in
      break1 <- sched_index c ideal [] ee Appointment.BREAK false ;;
      break2 <- sched_index c ideal [] ee Appointment.BREAK true ;;
      lunch <- sched_index c ideal [] ee Appointment.LUNCH false ;;
      let break1_slot := lvar (fst break1) in
      let break2_slot := lvar (fst break2) in
      let lunch_slot := lvar (fst lunch) in
      let lunch_at :=
        flat_map (fun lunch_time =>
          [ NewBoolVar (lunchat eid lunch_time);
            OnlyEnforceIf (Add_ (Linear lunch_slot EQ (lconst (Store.slot_at lunch_time))))
              (Pos (lunchat eid lunch_time));
            OnlyEnforceIf (Add_ (Linear lunch_slot NE (lconst (Store.slot_at lunch_time))))
              (Neg (lunchat eid lunch_time)) ])
          lunch_times in
      let shift := Employee.shift (snd ee) in
      per_time <- mapM (fun lunch_time =>
          let at_t := lunchat eid lunch_time in
          order <- Shift.break_lunch_order shift lunch_time ;;
          let ordering :=
            if String.eqb order "L12"
            then [OnlyEnforceIf (Add_ (Linear lunch_slot LT break1_slot)) (Pos at_t)]
            else if String.eqb order "1L2"
            then [ OnlyEnforceIf (Add_ (Linear break1_slot LT lunch_slot)) (Pos at_t);
                   OnlyEnforceIf (Add_ (Linear lunch_slot LT break2_slot)) (Pos at_t) ]
            else [OnlyEnforceIf (Add_ (Linear break2_slot LT lunch_slot)) (Pos at_t)] in
          ims <- imbalances order (Shift.time_range shift)
                   break1_slot break2_slot lunch_slot ;;
          let terms :=
            map (fun ki : nat * lin =>
              let key := [zid eid; Store.slot_at lunch_time; zid (fst ki)] in
              let imbalance_base := aux "imbalancebase" ideal key in
              let imbalance_clamped := aux "imbalanceclamped" ideal key in
              let imbalance_to_min := aux "imbalancetoemin" ideal key in
              (imbalance_to_min,
               [ NewIntVar 0 Store.NUM_SLOTS imbalance_base;
                 Add_ (AbsEquality (lvar imbalance_base) (snd ki));
                 NewIntVar 0 Store.NUM_SLOTS imbalance_clamped;
                 Add_ (MaxEquality (lvar imbalance_clamped)
                         [lconst 0; lsub (lvar imbalance_base) (lconst 1)]);
                 NewIntVar 0 Store.NUM_SLOTS imbalance_to_min;
                 OnlyEnforceIf (Add_ (Linear (lvar imbalance_to_min) EQ (lvar imbalance_clamped)))
                   (Pos at_t);
                 OnlyEnforceIf (Add_ (Linear (lvar imbalance_to_min) EQ (lconst 0)))
                   (Neg at_t) ]))
              (Py.enumerate ims) in
          Ok (ordering ++ flat_map snd terms, map fst terms))
        lunch_times ;;
      Ok (snd break1 ++ snd break2 ++ snd lunch ++ lunch_at ++ flat_map fst per_time,
          flat_map snd per_time))
    (Config.staff c) ;;
  Ok (flat_map fst per_employee, flat_map snd per_employee).

Definition minimize_not_in_group (eid : nat) (exactly_one_a : var) (appt slot : Z)
    (neighbor_slots : list Z) : list item * list var :=
  let key := [zid eid; appt; slot] in
  let one_of_multiple := aux "oneofmultiple" ideal key in
  let no_neighbors := aux "noneighbors" ideal key in
  let not_in_group := aux "lonelya" ideal key in
  (NewBoolVar one_of_multiple
   :: ortools_and one_of_multiple [Pos (sched eid slot appt); Neg exactly_one_a]
   ++ NewBoolVar no_neighbors
   :: ortools_and no_neighbors
        (map (fun neighbor_slot => Neg (sched eid neighbor_slot appt)) neighbor_slots)
   ++ NewBoolVar not_in_group
   :: ortools_and not_in_group [Pos one_of_multiple; Pos no_neighbors],
   [not_in_group]).

Definition ideally_have_register_appts_in_groups (c : Config.t) : list item * list var :=
  let per_pair :=
    flat_map (fun eid =>
      map (fun appt =>
        let num_a := aux "numa" ideal [zid eid; appt] in
        let exactly_one_a := aux "exactlyonea" ideal [zid eid; appt] in
        let inner :=
          map (fun slot => minimize_not_in_group eid exactly_one_a appt slot
                             [slot - 1; slot + 1])
            (Py.elems (Py.range2 1 (Store.NUM_SLOTS - 1))) in
        let edges :=
          map (fun en : Z * Z =>
                 minimize_not_in_group eid exactly_one_a appt (fst en) [snd en])
            [(0, 1); (Store.NUM_SLOTS - 1, Store.NUM_SLOTS - 2)] in
        ([ NewIntVar 0 Store.NUM_SLOTS num_a;
           Add_ (Linear (lvar num_a) EQ
                   (lsum (map (fun slot => sched eid slot appt) Store.slots)));
           NewBoolVar exactly_one_a;
           OnlyEnforceIf (Add_ (Linear (lvar num_a) EQ (lconst 1))) (Pos exactly_one_a);
           OnlyEnforceIf (Add_ (Linear (lvar num_a) NE (lconst 1))) (Neg exactly_one_a) ]
         ++ flat_map fst (inner ++ edges),
         flat_map snd (inner ++ edges)))
        [Appointment.SUPPORT; Appointment.CASHIER])
      (Config.employee_ids c "CASHIER" true) in
  (flat_map fst per_pair, flat_map snd per_pair).

Definition ideally_have_breakroom_occupancy_under_five (c : Config.t)
  : list item * list var :=
  let per_slot :=
    map (fun slot =>
      let breakroom_over_four := aux "breakroomoverfour" ideal [slot] in
      let breakroom_occ :=
        lsum (at_slot (Config.all_ids c) slot [Appointment.BREAK; Appointment.LUNCH]) in
      ([ NewBoolVar breakroom_over_four;
         OnlyEnforceIf (Add_ (Linear breakroom_occ GE (lconst 5))) (Pos breakroom_over_four);
         OnlyEnforceIf (Add_ (Linear breakroom_occ LT (lconst 5))) (Neg breakroom_over_four) ],
       breakroom_over_four))
      Store.slots in
  (flat_map fst per_slot, map snd per_slot).

Definition setup_idealistic_objectives (c : Config.t) : result (list item * list var) :=
  distribute <- ideally_distribute_breaks_and_lunches c ;;
  let groups := ideally_have_register_appts_in_groups c in
  let breakroom := ideally_have_breakroom_occupancy_under_five c in
  Ok (fst distribute ++ fst groups ++ fst breakroom,
      snd distribute ++ snd groups ++ snd breakroom).

(** *** The run *)

Record t : Type := mk {
  config : Config.t;
  model : CpModel;
  to_minimize_later : list var
}.

(** [Run(config)]. *)
Definition init (c : Config.t) : result t :=
  hard <- add_hard_constraints c ;;
  soft_layer <- add_soft_constraints c ;;
  idealistic <- setup_idealistic_objectives c ;;
  Ok (mk c
        (mkmodel (new_sched c ++ hard ++ soft_layer ++ fst idealistic)
           (Some (soft_objective soft_constraints)) [])
        (snd idealistic)).

(** The model that [make_schedule_idealistic] hands to the solver, given
    the solution [solver] holds: the objective replaced, every toggle
    pinned to its value in that solution, every variable of [self.sched]
    except the ordinary-work ones hinted with its value. *)
Definition pin_toggles (solver : assignment) : list item :=
  map (fun constraint =>
         Add_ (Linear (lvar (enable_of constraint)) EQ (lconst (solver (enable_of constraint)))))
    soft_constraints.

Definition hint_schedule (c : Config.t) (solver : assignment) : list (var * Z) :=
  flat_map (fun eid =>
    flat_map (fun slot =>
      flat_map (fun appt =>
        if appt =? Appointment.REGULAR then []
        else [(sched eid slot appt,
               bool_to_Z (negb (solver (sched eid slot appt) =? 0)))])
        Appointment.all)
      Store.slots)
    (Config.all_ids c).

Definition idealistic_model (run : t) (solver : assignment) : CpModel :=
  mkmodel (items (model run) ++ pin_toggles solver)
    (Some (lsum (to_minimize_later run)))
    (hints (model run) ++ hint_schedule (config run) solver).

End Run.

(** ** Solving: the relaxation ladder and the refinement *)

Module Main.

Import cp_model.

(** The forced-disabled sets that [main] tries, in order. *)
Definition ladder : list (list string) :=
  [ [];
    ["cashier-diff-0"];
    ["register-diff-0"];
    ["cashier-diff-0"; "register-diff-0"];
    ["cashier-diff-0"; "register-diff-0"; "cashier-diff-1"];
    ["cashier-diff-0"; "register-diff-0"; "register-diff-1"];
    ["cashier-diff-0"; "register-diff-0"; "cashier-diff-1"; "register-diff-1"] ].

(** [per_run_constraints] for one rung. *)
Definition per_run_constraints (disabled_constraints : list string) : list item :=
  map (fun c : Run.SoftConstraint =>
         Add_ (Linear (lvar (Run.enable_of c)) EQ
                 (lconst (Run.bool_to_Z (negb (Py.mem (Run.name c) disabled_constraints))))))
    Run.soft_constraints.

Definition with_items (run : Run.t) (extra : list item) : Run.t :=
  Run.mk (Run.config run)
    (mkmodel (items (Run.model run) ++ extra) (objective (Run.model run))
       (hints (Run.model run)))
    (Run.to_minimize_later run).

Definition model_is_invalid : string := "Model is invalid. That is a bug! Exiting.".

(** One call of [solver.Solve]: the model and [max_time_in_seconds]. *)
Definition call : Type := (CpModel * Z)%type.

Section Solver.

(** The solver: the status it answers and the solution it then holds. *)
Variable Solve : CpModel -> Z -> status * assignment.

Definition make_schedule_idealistic (run : Run.t) (solver : assignment)
  : result unit * list call :=
  match objective (Run.model run) with
  | None => (Raise AssertionError, [])
  | Some _ =>
      let refined := Run.idealistic_model run solver in
      let calls := [(refined, 60)] in
      match fst (Solve refined 60) with
      | INFEASIBLE | MODEL_INVALID => (Raise AssertionError, calls)
      | OPTIMAL | FEASIBLE | UNKNOWN => (Ok tt, calls)
      end
  end.

Definition attempt_to_solve (run : Run.t) (max_time_in_seconds : Z)
  : result bool * list call :=
  let calls := [(Run.model run, max_time_in_seconds)] in
  let (status, solver) := Solve (Run.model run) max_time_in_seconds in
  match status with
  | OPTIMAL | FEASIBLE =>
      let (r, more) := make_schedule_idealistic run solver in
      (_ <- r ;; Ok true, calls ++ more)
  | INFEASIBLE | UNKNOWN => (Ok false, calls)
  | MODEL_INVALID => (Raise (SystemExit model_is_invalid), calls)
  end.

(** The loop over the ladder, then the attempt with nothing forced. *)
Fixpoint climb (run : Run.t) (rungs : list (list string)) : result bool * list call :=
  match rungs with
  | [] => attempt_to_solve run 60
  | disabled_constraints :: rest =>
      let (r, calls) :=
        attempt_to_solve (with_items run (per_run_constraints disabled_constraints)) 15 in
      match r with
      | Ok false => let (r', more) := climb run rest in (r', calls ++ more)
      | _ => (r, calls)
      end
  end.

(** [main()], once [Config()] has read the configuration: whether a
    schedule was found, or the exception that ended the program, and the
    calls of the solver made on the way. *)
Definition main_with (config : Config.t) : result bool * list call :=
  match Run.init config with
  | Raise e => (Raise e, [])
  | Ok run => climb run ladder
  end.

Definition main (user_config : UserConfig) (day_of_week : Z) : result bool * list call :=
  match Config.init user_config day_of_week with
  | Raise e => (Raise e, [])
  | Ok config => main_with config
  end.

End Solver.

End Main.

(** ** Printing a solution

    [SolutionPrinter], the callback that the solver calls with each
    solution: what it computes and the text of the rows it prints.  The
    solution is the assignment [Value]; a row is printed for the ids of
    [employee_ids()], given here with the employee each indexes.
    ([on_solution_callback] itself also prints the solver's clock and
    objective as floating-point numbers and is not modelled.) *)

Module SolutionPrinter.

Import cp_model.

Record t : Type := mk { run : Run.t; stage : Z; longest_name_len : nat }.

(** [SolutionPrinter(run, stage)]: [max()] keeps the first employee with
    the longest name and raises ValueError on an empty roster. *)
Definition init (run : Run.t) (stage : Z) : result t :=
  match Config.employees (Run.config run) with
  | [] => Raise ValueError
  | e :: es =>
      let longest :=
        fold_left (fun best x =>
                     if Nat.ltb (Py.str_len (Employee.name best))
                                (Py.str_len (Employee.name x))
                     then x else best) es e in
      Ok (mk run stage (Py.str_len (Employee.name longest)))
  end.

(** The loop of [gaps_between_breaks]: [(prev_s, ret)] after each slot. *)
Definition gaps_loop (start : Z) (slots : list Z) : list Z :=
  snd (fold_left (fun (st : Z * list Z) slot => (slot, snd st ++ [slot - fst st - 1]))
         slots (start - 1, [])).

Definition gaps_between_breaks (emp : Employee.t) (break1_slot break2_slot lunch_slot : Z)
  : result (list Z) :=
  let shift_range := Shift.time_range (Employee.shift emp) in
  let ret :=
    gaps_loop (Py.start shift_range)
      (Py.sorted [break1_slot; break2_slot; lunch_slot; lunch_slot + 3;
                  Py.stop shift_range]) in
  Py.remove 2 ret.

Section Callback.

(** [self.Value] and the colours of [sty]. *)
Variable Value : assignment.
Variable colors : sty.t.

(** [[self.Value(self.run.sched[(eid, slot, appt)]) for slot in range(NUM_SLOTS)]]. *)
Definition values_over_day (self : t) (eid : nat) (appt : Z) : result (list Z) :=
  mapM (fun slot => v <- Run.sched_get (Run.config (run self)) eid slot appt ;; Ok (Value v))
    Store.slots.

Definition print_gaps_between_breaks (self : t) (eid : nat) (emp : Employee.t)
  : result string :=
  breaks <- values_over_day self eid Appointment.BREAK ;;
  break1_slot <- Py.list_index 1 breaks 0 ;;
  break2_slot <- Py.list_index 1 breaks (break1_slot + 1) ;;
  lunches <- values_over_day self eid Appointment.LUNCH ;;
  lunch_slot <- Py.list_index 1 lunches 0 ;;
  gaps <- gaps_between_breaks emp (Z.of_nat break1_slot) (Z.of_nat break2_slot)
            (Z.of_nat lunch_slot) ;;
  Ok (" gaps=[" ++ Py.join "," (map (fun x => Py.rjust 2 (Py.str x)) gaps) ++ "]")%string.

Definition num_slots_of_appointment (self : t) (eid : nat) (appt : Z) : result Z :=
  values <- values_over_day self eid appt ;;
  Ok (Py.count 1 values).

(** What [print_employee_sched] prints for one slot. *)
Definition print_cell (self : t) (eid : nat) (slot : Z) : result string :=
  vs <- mapM (fun appt => Run.sched_get (Run.config (run self)) eid slot appt)
          Appointment.all ;;
  let appointments := map Value vs in
  if Py.count 1 appointments =? 1 then
    appt <- Py.list_index 1 appointments 0 ;;
    color <- Appointment.pretty_color colors (Z.of_nat appt) ;;
    text <- Appointment.pretty_text (Z.of_nat appt) ;;
    Ok ((if (slot mod Store.SLOTS_PER_HOUR =? 0)%Z then "|" else "")
        ++ color ++ text ++ sty.fg_rs colors ++ sty.bg_rs colors)%string
  else Raise AssertionError.

Definition print_employee_sched (self : t) (ee : nat * Employee.t) : result string :=
  let eid := fst ee in
  let emp := snd ee in
  cells <- mapM (print_cell self eid) Store.slots ;;
  num_cashier <- num_slots_of_appointment self eid Appointment.CASHIER ;;
  num_support <- num_slots_of_appointment self eid Appointment.SUPPORT ;;
  gaps <- print_gaps_between_breaks self eid emp ;;
  Ok (Py.ljust (longest_name_len self + 1) (Employee.name emp)
      ++ Py.join "" cells
      ++ " [C " ++ Py.rjust 2 (Py.str num_cashier) ++ "]"
      ++ " [S " ++ Py.rjust 2 (Py.str num_support) ++ "]"
      ++ gaps
      ++ " (" ++ Employee.dept emp ++ ")"
      ++ String (ascii_of_nat 10) EmptyString)%string.

Definition print_slot_checksums (self : t) (appointments : list Z) : result string :=
  let c := Run.config (run self) in
  sums <- mapM (fun slot =>
      per_employee <- mapM (fun eid =>
          vs <- mapM (fun appt => Run.sched_get c eid slot appt) appointments ;;
          Ok (Py.sum (map Value vs)))
        (Config.all_ids c) ;;
      Ok ((if (negb (slot =? 0) && (slot mod Store.SLOTS_PER_HOUR =? 0))%Z then "|" else "")
          ++ Py.str (Py.sum per_employee))%string)
    Store.slots ;;
  Ok (Py.spaces (longest_name_len self + 2) ++ Py.join "" sums)%string.

End Callback.

End SolutionPrinter.

(** ** The configuration file

    The four dicts of [config.py]. *)

Module config.

(** Tuples: (is full-time?, department name). *)
Definition EMPLOYEE_INFO : list (string * (bool * string)) :=
  [ ("A1", (false, "SD")); ("B1", (false, "CASHIER")); ("D1", (false, "NBC"));
    ("E1", (false, "CASHIER")); ("G1", (false, "NBC")); ("J1", (false, "SD"));
    ("J2", (false, "EB")); ("J3", (false, "CB")); ("J4", (false, "EB"));
    ("K1", (false, "NBC")); ("K2", (false, "EB")); ("K3", (true, "OTHER"));
    ("M1", (true, "SD")); ("M2", (false, "CASHIER")); ("M3", (false, "JB"));
    ("M4", (false, "CASHIER")); ("M5", (false, "SD")); ("M6", (true, "EB"));
    ("N1", (true, "OTHER")); ("P1", (false, "EB")); ("R1", (false, "SD"));
    ("R2", (false, "JB")); ("S1", (false, "OTHER")); ("T1", (false, "SD"));
    ("T2", (true, "NBC")); ("Y1", (false, "JB")) ].

(** Tuples: (shift, name). *)
Definition SCHEDULE : list (Z * list (string * string)) :=
  [
    (* Monday *)
    (0, [ ("E", "M1"); ("E", "K3"); ("E", "M6"); ("E", "S1"); ("E", "J2"); ("E", "R2");
          ("L", "N1"); ("L", "M3"); ("L", "J3"); ("L", "R1"); ("L", "Y1"); ("L", "P1");
          ("M", "M2"); ("E", "D1"); ("L", "T2") ]);
    (* Tuesday *)
    (1, [ ("E", "M6"); ("E", "S1"); ("E", "J1"); ("E", "J2"); ("E", "K2"); ("E", "P1");
          ("M", "M4"); ("L", "N1"); ("L", "M1"); ("L", "M5"); ("L", "R2"); ("L", "J4");
          ("L", "A1"); ("L", "Y1"); ("E", "T2"); ("M", "K1"); ("L", "G1") ]);
    (* Wednesday *)
    (2, [ ("E", "K3"); ("E", "M6"); ("E", "S1"); ("E", "A1"); ("E", "B1"); ("M", "M4");
          ("L", "M1"); ("L", "J1"); ("L", "J4"); ("L", "J2"); ("E", "T2"); ("L", "D1") ]);
    (* Thursday *)
    (3, [ ("E", "M1"); ("E", "S1"); ("E", "M3"); ("E", "R1"); ("E", "Y1"); ("M", "J1");
          ("M", "M4"); ("L", "K3"); ("L", "M6"); ("L", "R2"); ("L", "K2"); ("L", "B1");
          ("E", "K1"); ("M", "G1"); ("L", "T2") ]);
    (* Friday *)
    (4, [ ("E", "N1"); ("L", "K3"); ("E", "R1"); ("E", "J4"); ("E", "A1"); ("E", "K2");
          ("L", "M2"); ("L", "P1"); ("L", "M5"); ("L", "J3"); ("E", "G1"); ("L", "K1") ]);
    (* Saturday *)
    (5, [ ("E", "M5"); ("E", "J3"); ("E", "J4"); ("E", "Y1"); ("E", "M2"); ("M", "B1");
          ("L", "N1"); ("L", "M6"); ("L", "A1"); ("L", "K2"); ("L", "T1"); ("L", "E1");
          ("E", "T2"); ("L", "K1") ]);
    (* Sunday *)
    (6, [ ("E", "M1"); ("E", "M3"); ("E", "J3"); ("E", "P1"); ("10:00-5:00", "M2");
          ("L", "N1"); ("L", "K3"); ("L", "R2"); ("L", "J2"); ("E", "T2"); ("L", "G1") ]) ].

(** Tuples: (desired register count, starting at what time). *)
Definition REGISTER_COUNT : list (Z * list (Z * string)) :=
  [
    (* Monday *)
    (0, [ (1, "10:00"); (2, "11:30"); (1, "6:30") ]);
    (* Tuesday *)
    (1, [ (1, "10:00"); (2, "10:30"); (1, "7:30") ]);
    (* Wednesday *)
    (2, [ (1, "10:00"); (2, "11:00"); (1, "7:00") ]);
    (* Thursday *)
    (3, [ (1, "10:00"); (2, "12:00"); (1, "7:00") ]);
    (* Friday *)
    (4, [ (1, "10:00"); (2, "12:00") ]);
    (* Saturday *)
    (5, [ (1, "10:00"); (2, "10:30"); (3, "12:00"); (2, "6:30") ]);
    (* Sunday *)
    (6, [ (1, "10:00"); (2, "11:00"); (3, "3:45"); (2, "5:15") ]) ].

(** Name -> tuples (start time, end time). *)
Definition MEETINGS : list (Z * list (string * list (string * string))) :=
  [
    (* Monday *)
    (0, []);
    (* Tuesday *)
    (1, []);
    (* Wednesday *)
    (2, [ ("M6", [("11:00", "12:00"); ("6:00", "6:15")]) ]);
    (* Thursday *)
    (3, []);
    (* Friday *)
    (4, []);
    (* Saturday *)
    (5, []);
    (* Sunday *)
    (6, []) ].

End config.

(** [import config as user_config]. *)
Definition user_config : UserConfig :=
  mkUserConfig config.EMPLOYEE_INFO config.SCHEDULE config.REGISTER_COUNT config.MEETINGS.

(** * Vocabulary of the properties *)

(** ** Time strings *)

Definition is_digit (c : ascii) : bool :=
  Nat.leb 48 (nat_of_ascii c) && Nat.leb (nat_of_ascii c) 57.

Fixpoint all_digits (s : string) : bool :=
  match s with
  | EmptyString => true
  | String c s' => is_digit c && all_digits s'
  end.

(** A wall-clock time between 10 AM and 8 PM on the twelve-hour dial. *)
Definition in_open_hours (hour minute : Z) : bool :=
  (0 <=? minute) && (minute <? 60)
  && (((10 <=? hour) && (hour <=? 12))
      || ((1 <=? hour) && (hour <=? 7))
      || ((hour =? 8) && (minute =? 0))).

(** [t] is written H:MM or HH:MM and lies in the open hours. *)
Definition valid_time (t : string) : bool :=
  match Py.index ":"%char t with
  | None => false
  | Some split =>
      let hs := Py.take split t in
      let ms := Py.drop (split + 1) t in
      all_digits hs && all_digits ms
      && (Nat.eqb (String.length hs) 1 || Nat.eqb (String.length hs) 2)
      && Nat.eqb (String.length ms) 2
      && match Py.int hs, Py.int ms with
         | Ok hour, Ok minute => in_open_hours hour minute
         | _, _ => false
         end
  end.

(** ** Shift templates *)

(** The (template, full-time) pairs that the dict literals list. *)
Definition listed_pairs : list (string * bool) :=
  [("E", true); ("E", false); ("M", false); ("L", true); ("L", false)].

(** A day on which a full-time employee is given the Middle template. *)
Definition middle_fulltime_config : UserConfig :=
  mkUserConfig
    [("K3", (true, "OTHER")); ("M2", (false, "CASHIER"))]
    [(0, [("M", "M2"); ("M", "K3")])]
    [(0, [(1, "10:00")])]
    [(0, [])].

(** ** Name lookup *)

(** The employees of the roster that bear [name]. *)
Definition named (c : Config.t) (name : string) : list Employee.t :=
  filter (fun e => String.eqb (Employee.name e) name) (Config.employees c).

(** A configuration error: the program exits with a message for the operator. *)
Definition is_configuration_error {A : Type} (r : result A) : bool :=
  match r with
  | Raise (SystemExit _) => true
  | _ => false
  end.

Definition roster_of (names : list string) : Config.t :=
  Config.mk
    (map (fun n => Employee.mk (Shift.mk "E" false (Py.range2 0 31)) n "SD") names)
    [] [Config.mkepoch 1 0].

(** ** The relaxation ladder *)

(** The soft constraints whose toggle a rung pins to false:
    those whose name is in the rung's list. *)
Definition forced_disabled (disabled_constraints : list string) : list string :=
  map Run.name
    (filter (fun c => Py.mem (Run.name c) disabled_constraints) Run.soft_constraints).

Definition subset (a b : list string) : bool := forallb (fun x => Py.mem x b) a.

(** ** Solutions *)

(** The value of [sum(vars)]. *)
Fixpoint total (a : cp_model.assignment) (vs : list cp_model.var) : Z :=
  match vs with
  | [] => 0
  | v :: vs' => a v + total a vs'
  end.


(** ** Soft constraints *)

(** The record of the registry with a given name. *)
Definition record (name : string) : option Run.SoftConstraint :=
  find (fun sc => String.eqb (Run.name sc) name) Run.soft_constraints.

(** The sum of the break and lunch variables of a slot: the number of
    employees on break or lunch then. *)
Definition breakroom_occupancy (c : Config.t) (a : cp_model.assignment) (slot : Z) : Z :=
  total a (Run.at_slot (Config.all_ids c) slot [Appointment.BREAK; Appointment.LUNCH]).

(** An item that binds only when the toggle [e] is true. *)
Definition gated_by (e : cp_model.var) (it : cp_model.item) : Prop :=
  exists b, it = cp_model.OnlyEnforceIf (cp_model.Add_ b) (cp_model.Pos e).

(** An item that binds whatever the toggles are. *)
Definition ungated (it : cp_model.item) : Prop :=
  exists b, it = cp_model.Add_ b.


(** ** The register-count schedule *)

(** A day whose register-count schedule starts half an hour after
    opening and requires one register while two designated cashiers are in. *)
Definition late_schedule_config : UserConfig :=
  mkUserConfig
    [("B1", (false, "CASHIER")); ("E1", (false, "CASHIER"))]
    [(0, [("E", "B1"); ("E", "E1")])]
    [(0, [(1, "10:30")])]
    [(0, [])].

(** A day that requires one register from opening while, from 12:00 on,
    two designated cashiers are in. *)
Definition understaffed_config : UserConfig :=
  mkUserConfig
    [("B1", (false, "CASHIER")); ("E1", (false, "CASHIER")); ("A1", (false, "SD"))]
    [(0, [("E", "B1"); ("L", "E1"); ("E", "A1")])]
    [(0, [(1, "10:00"); (1, "12:00"); (2, "6:30")])]
    [(0, [])].


(** The configuration that [Config()] builds from the contents of
    [config.py] on a given day (an empty one if [Config()] raises). *)
Definition config_of (user_config : UserConfig) (day_of_week : Z) : Config.t :=
  match Config.init user_config day_of_week with
  | Ok c => c
  | Raise _ => Config.mk [] [] []
  end.


(** ** Schedules *)

(** The slots at which an employee has a given activity in a solution. *)
Definition slots_with (a : cp_model.assignment) (eid : nat) (appt : Z) : list Z :=
  filter (fun slot => a (cp_model.sched eid slot appt) =? 1) Store.slots.

(** The number of employees that have a given activity at a slot. *)
Definition num_assigned (c : Config.t) (a : cp_model.assignment) (slot appt : Z) : Z :=
  Z.of_nat (List.length
              (filter (fun eid => a (cp_model.sched eid slot appt) =? 1) (Config.all_ids c))).

(** The epochs are listed in the order of their effective-from slots. *)
Fixpoint ordered (epochs : list Config.epoch) : bool :=
  match epochs with
  | [] => true
  | e :: rest =>
      forallb (fun e' => Config.start e <=? Config.start e') rest && ordered rest
  end.

(** The count of the last epoch whose effective-from slot is at or before
    [slot]. *)
Definition value_in_force (epochs : list Config.epoch) (slot : Z) : option Z :=
  fold_left (fun acc e => if Config.start e <=? slot then Some (Config.count e) else acc)
    epochs None.

(** The schedule has a value in force at the opening slot (and then at
    every slot of the day). *)
Definition in_force_from_opening (c : Config.t) : bool :=
  match value_in_force (Config.register_count c) 0 with
  | Some _ => true
  | None => false
  end.

(** At [slot] the schedule's value in force is below the number of
    designated cashiers whose shift contains the slot. *)
Definition understaffed (c : Config.t) (slot : Z) : bool :=
  match value_in_force (Config.register_count c) slot with
  | Some count => count <? Config.number_of_designated_cashiers_here c slot
  | None => false
  end.


(** ** A day worked out in full

    One designated cashier all day, a full-time employee of the NBC
    department on the Early template and a part-time employee on the Late
    template; one register all day, no meetings. *)
Definition demo_config : UserConfig :=
  mkUserConfig
    [("M2", (false, "CASHIER")); ("T2", (true, "NBC")); ("A1", (false, "SD"))]
    [(0, [("10:00-8:00", "M2"); ("E", "T2"); ("L", "A1")])]
    [(0, [(1, "10:00")])]
    [(0, [])].

Definition demo : Config.t := config_of demo_config 0.

(** A timetable gives the activity of every employee at every slot. *)
Definition timetable : Type := nat -> Z -> Z.

(** The cashier breaks at 11:15 and 5:00 and lunches at 1:00; the Early
    employee lunches at 12:00, breaks at 3:00 and 4:45 and takes the
    register during the cashier's breaks; the Late employee takes the
    register during the cashier's lunch, lunches at 2:00 and breaks at
    4:00 and 6:00. *)
Definition demo_timetable : timetable := fun eid slot =>
  match eid with
  | 0%nat =>
      if (slot =? 5) || (slot =? 28) then Appointment.BREAK
      else if (12 <=? slot) && (slot <=? 15) then Appointment.LUNCH
      else Appointment.CASHIER
  | 1%nat =>
      if 34 <=? slot then Appointment.NOT_HERE
      else if (8 <=? slot) && (slot <=? 11) then Appointment.LUNCH
      else if (slot =? 20) || (slot =? 27) then Appointment.BREAK
      else if (slot =? 5) || (slot =? 28) then Appointment.CASHIER
      else Appointment.REGULAR
  | _ =>
      if slot <? 8 then Appointment.NOT_HERE
      else if (12 <=? slot) && (slot <=? 15) then Appointment.CASHIER
      else if (16 <=? slot) && (slot <=? 19) then Appointment.LUNCH
      else if (slot =? 24) || (slot =? 32) then Appointment.BREAK
      else Appointment.REGULAR
  end.

(** The same day with the cashier's second break at 3:30, covered by the
    Late employee, who then works the register five quarters of an hour
    between 1:00 and 3:45. *)
Definition busy_timetable : timetable := fun eid slot =>
  match eid with
  | 0%nat =>
      if (slot =? 5) || (slot =? 22) then Appointment.BREAK
      else if (12 <=? slot) && (slot <=? 15) then Appointment.LUNCH
      else Appointment.CASHIER
  | 1%nat =>
      if 34 <=? slot then Appointment.NOT_HERE
      else if (8 <=? slot) && (slot <=? 11) then Appointment.LUNCH
      else if (slot =? 20) || (slot =? 27) then Appointment.BREAK
      else if slot =? 5 then Appointment.CASHIER
      else Appointment.REGULAR
  | _ =>
      if slot <? 8 then Appointment.NOT_HERE
      else if ((12 <=? slot) && (slot <=? 15)) || (slot =? 22) then Appointment.CASHIER
      else if (16 <=? slot) && (slot <=? 19) then Appointment.LUNCH
      else if (slot =? 24) || (slot =? 32) then Appointment.BREAK
      else Appointment.REGULAR
  end.

Module Solution.

Section Values.

Variable c : Config.t.
Variable table : timetable.
Variable enabled : list string.

Definition x (eid : nat) (slot appt : Z) : Z :=
  if table eid slot =? appt then 1 else 0.

Definition shift_range (eid : nat) : Py.range :=
  match nth_error (Config.employees c) eid with
  | Some e => Shift.time_range (Employee.shift e)
  | None => Py.range1 0
  end.

Definition shift (eid : nat) : Shift.t :=
  match nth_error (Config.employees c) eid with
  | Some e => Employee.shift e
  | None => Shift.mk "" false (Py.range1 0)
  end.

Definition maximum (l : list Z) : Z :=
  match l with
  | [] => 0
  | v :: vs => fold_left Z.max vs v
  end.

(** The value of the variable that [sched_index] returns. *)
Definition distance (eid : nat) (appt : Z) : Z :=
  maximum (map (fun slot => x eid slot appt * (Py.stop (shift_range eid) - slot))
             (Py.elems (shift_range eid))).

Definition index (eid : nat) (appt : Z) (last : bool) : Z :=
  if last
  then maximum (map (fun slot => x eid slot appt * slot) (Py.elems (shift_range eid)))
  else Py.stop (shift_range eid) - distance eid appt.

Definition both (p q : Z) : Z := if (p =? 1) && (q =? 1) then 1 else 0.

Definition count (eid : nat) (appt : Z) : Z :=
  fold_right Z.add 0 (map (fun slot => x eid slot appt) Store.slots).

Definition occupancy (slot : Z) : Z :=
  fold_right Z.add 0
    (map (fun eid => x eid slot Appointment.BREAK + x eid slot Appointment.LUNCH)
       (Config.all_ids c)).

Definition neighbors (slot : Z) : list Z :=
  if slot =? 0 then [1]
  else if slot =? Store.NUM_SLOTS - 1 then [Store.NUM_SLOTS - 2]
  else [slot - 1; slot + 1].

Definition deltas (eid : nat) : list Z :=
  let break1 := index eid Appointment.BREAK false in
  let break2 := index eid Appointment.BREAK true in
  let lunch := index eid Appointment.LUNCH false in
  [break1 - break2; break1 - lunch; break2 - lunch;
   break1 - (lunch + 3); break2 - (lunch + 3)].

(** The values of the variables of [self.sched], of the toggles and of
    the variables that [sched_index] makes. *)
Definition base : cp_model.assignment := fun v =>
  match v with
  | cp_model.sched eid slot appt => x eid slot appt
  | cp_model.enable name => Run.bool_to_Z (Py.mem name enabled)
  | cp_model.aux kind owner key =>
      match rev key with
      | last :: appt :: eid :: _ =>
          if String.eqb kind "index" then index (Z.to_nat eid) appt (last =? 1)
          else if String.eqb kind "distancefromend" then distance (Z.to_nat eid) appt
          else 0
      | _ => 0
      end
  end.

Definition imbalance (eid : nat) (lunch_slot : Z) (k : nat) : Z :=
  match Shift.break_lunch_order (shift eid) (Store.slot_to_time lunch_slot) with
  | Ok order =>
      match Run.imbalances order (shift_range eid)
              (cp_model.lvar (cp_model.aux "index" Run.ideal
                                [Run.zid eid; Appointment.BREAK; 0]))
              (cp_model.lvar (cp_model.aux "index" Run.ideal
                                [Run.zid eid; Appointment.BREAK; 1]))
              (cp_model.lvar (cp_model.aux "index" Run.ideal
                                [Run.zid eid; Appointment.LUNCH; 0])) with
      | Ok ims => match nth_error ims k with
                  | Some e => cp_model.eval base e
                  | None => 0
                  end
      | Raise _ => 0
      end
  | Raise _ => 0
  end.

Definition lunch_at (eid : nat) (lunch_slot : Z) : bool :=
  index eid Appointment.LUNCH false =? lunch_slot.

Definition clamped (eid : nat) (lunch_slot : Z) (k : nat) : Z :=
  Z.max 0 (Z.abs (imbalance eid lunch_slot k) - 1).

Definition exactly_one (eid : nat) (appt : Z) : Z :=
  if count eid appt =? 1 then 1 else 0.

Definition one_of_multiple (eid : nat) (appt slot : Z) : Z :=
  both (x eid slot appt) (1 - exactly_one eid appt).

Definition no_neighbors (eid : nat) (appt slot : Z) : Z :=
  if forallb (fun s => x eid s appt =? 0) (neighbors slot) then 1 else 0.

(** The solution that a timetable and a choice of enabled soft
    constraints stand for: every other variable takes the value that the
    constraints defining it leave to it. *)
Definition make : cp_model.assignment := fun v =>
  match v with
  | cp_model.aux kind owner key =>
      let n (i : nat) := nth i key 0 in
      let e (i : nat) := Z.to_nat (nth i key 0) in
      if String.eqb kind "totheright"
      then both (x (e 0%nat) (n 1%nat + 1) Appointment.LUNCH)
             (both (x (e 0%nat) (n 1%nat + 2) Appointment.LUNCH)
                (x (e 0%nat) (n 1%nat + 3) Appointment.LUNCH))
      else if String.eqb kind "noncashiercashiers"
      then Run.bool_to_Z (existsb (fun eid => x eid (n 0%nat) Appointment.CASHIER =? 1)
                            (Config.employee_ids c "CASHIER" true))
      else if String.eqb kind "notavail"
      then Run.bool_to_Z (forallb (fun eid => x eid (n 0%nat) Appointment.REGULAR =? 0)
                            (Config.employee_ids c "NBC" false))
      else if String.eqb kind "bothcashier"
      then both (x (e 2%nat) (n 0%nat) Appointment.CASHIER)
             (x (e 3%nat) (n 1%nat) Appointment.CASHIER)
      else if String.eqb kind "samelunch"
      then Run.bool_to_Z (index (e 0%nat) Appointment.LUNCH false
                          =? index (e 1%nat) Appointment.LUNCH false)
      else if String.eqb kind "positive"
      then Run.bool_to_Z (nth (e 1%nat) (deltas (e 0%nat)) 0 >? 0)
      else if String.eqb kind "lunchlunch"
      then both (x (e 0%nat) (n 2%nat) Appointment.LUNCH)
             (x (e 1%nat) (n 3%nat) Appointment.LUNCH)
      else if String.eqb kind "lunchat"
      then Run.bool_to_Z (lunch_at (e 1%nat) (n 0%nat))
      else if String.eqb kind "imbalancebase"
      then Z.abs (imbalance (e 0%nat) (n 1%nat) (e 2%nat))
      else if String.eqb kind "imbalanceclamped"
      then clamped (e 0%nat) (n 1%nat) (e 2%nat)
      else if String.eqb kind "imbalancetoemin"
      then (if lunch_at (e 0%nat) (n 1%nat) then clamped (e 0%nat) (n 1%nat) (e 2%nat) else 0)
      else if String.eqb kind "oneofmultiple"
      then one_of_multiple (e 0%nat) (n 1%nat) (n 2%nat)
      else if String.eqb kind "noneighbors"
      then no_neighbors (e 0%nat) (n 1%nat) (n 2%nat)
      else if String.eqb kind "lonelya"
      then both (one_of_multiple (e 0%nat) (n 1%nat) (n 2%nat))
             (no_neighbors (e 0%nat) (n 1%nat) (n 2%nat))
      else if String.eqb kind "numa" then count (e 0%nat) (n 1%nat)
      else if String.eqb kind "exactlyonea" then exactly_one (e 0%nat) (n 1%nat)
      else if String.eqb kind "breakroomoverfour"
      then Run.bool_to_Z (occupancy (n 0%nat) >=? 5)
      else base v
  | _ => base v
  end.

End Values.

End Solution.


(** What [add_hard_constraints] and [Run(config)] return (nothing if they
    raise). *)
Definition hard_of (c : Config.t) : list cp_model.item :=
  match Run.add_hard_constraints c with
  | Ok hard => hard
  | Raise _ => []
  end.

Definition run_of (c : Config.t) : Run.t :=
  match Run.init c with
  | Ok run => run
  | Raise _ => Run.mk c (cp_model.mkmodel [] None []) []
  end.

(** Every soft constraint but the ban of the register for a department's
    only member, which the timetables above do not respect. *)
Definition demo_enabled : list string :=
  filter (fun name => negb (String.eqb name "nbc-no-reg-if-alone"))
    (map Run.name Run.soft_constraints).

Definition demo_solution : cp_model.assignment :=
  Solution.make demo demo_timetable demo_enabled.

(** The first timetable with the Early employee's first break a quarter
    of an hour later. *)
Definition later_break_timetable : timetable := fun eid slot =>
  match eid with
  | 1%nat =>
      if slot =? 20 then Appointment.REGULAR
      else if slot =? 21 then Appointment.BREAK
      else demo_timetable eid slot
  | _ => demo_timetable eid slot
  end.

Definition later_break_solution : cp_model.assignment :=
  Solution.make demo later_break_timetable demo_enabled.

(** The busy timetable, with the cap of four register slots in four hours
    disabled as well. *)
Definition busy_enabled : list string :=
  filter (fun name => negb (String.eqb name "register-max-4-in-16")) demo_enabled.

Definition busy_solution : cp_model.assignment :=
  Solution.make demo busy_timetable busy_enabled.

(** Seven employees, all on break at 3:00, with "breakroom-7" enabled. *)
Definition seven_staff : Config.t :=
  roster_of ["Ann"; "Bob"; "Cat"; "Dan"; "Eve"; "Fay"; "Gus"].

Definition seven_on_break : cp_model.assignment :=
  Solution.make seven_staff
    (fun eid slot => if slot =? 20 then Appointment.BREAK else Appointment.REGULAR)
    ["breakroom-7"].


(** What the record of a given name adds to the model of a configuration
    (nothing if there is no such record or its procedure raises). *)
Definition generated_of (c : Config.t) (name : string) : list cp_model.item :=
  match record name with
  | Some sc => match Run.generated c sc with
               | Ok its => its
               | Raise _ => []
               end
  | None => []
  end.

(** An item that, if it is a constraint, has the toggle [e] among the
    literals given to [OnlyEnforceIf]. *)
Definition enforced_under (e : cp_model.var) (it : cp_model.item) : Prop :=
  match it with
  | cp_model.Add ct => In (cp_model.Pos e) (cp_model.enforce ct)
  | _ => True
  end.

(** The records whose procedures also add constraints without the toggle:
    those that define auxiliary variables ([ortools_and], [sched_index],
    the sign of a difference) and the two of [cap_register_in_span]. *)
Definition not_only_toggled : list string :=
  ["aesthetics"; "break-lunch-gap-3"; "break-lunch-gap-4"; "lunch-fair-order";
   "register-max-4-in-16"; "register-max-6-in-16"].


(** The spec's scenario of two designated cashiers in all day with one
    register required all day. *)
Definition two_cashiers_config : UserConfig :=
  mkUserConfig
    [("B1", (false, "CASHIER")); ("E1", (false, "CASHIER"))]
    [(0, [("10:00-8:00", "B1"); ("10:00-8:00", "E1")])]
    [(0, [(1, "10:00")])]
    [(0, [])].


(** The weighted sum of the disabled toggles. *)
Fixpoint weighted_disabled (a : cp_model.assignment) (scs : list Run.SoftConstraint) : Z :=
  match scs with
  | [] => 0
  | sc :: rest => Run.weight sc * (1 - a (Run.enable_of sc)) + weighted_disabled a rest
  end.

(** ** Further days and solvers for the properties below *)

(** The day worked out above, with a meeting for the Early employee half
    an hour after the end of the shift. *)
Definition meeting_after_shift_config : UserConfig :=
  mkUserConfig (EMPLOYEE_INFO demo_config) (SCHEDULE demo_config)
    (REGISTER_COUNT demo_config) [(0, [("T2", [("7:00", "7:30")])])].

(** The day worked out above with a meeting for the Early employee from
    10:30 to 11:00, and its timetable with that employee in the meeting. *)
Definition meeting_config : UserConfig :=
  mkUserConfig (EMPLOYEE_INFO demo_config) (SCHEDULE demo_config)
    (REGISTER_COUNT demo_config) [(0, [("T2", [("10:30", "11:00")])])].

Definition meeting_day : Config.t := config_of meeting_config 0.

Definition meeting_solution : cp_model.assignment :=
  Solution.make meeting_day
    (fun eid slot =>
       match eid with
       | 1%nat => if (slot =? 2) || (slot =? 3) then Appointment.MEETING
                  else demo_timetable eid slot
       | _ => demo_timetable eid slot
       end)
    demo_enabled.

(** A literal over a variable that has the value 0 or 1. *)
Definition boolean_lit (a : cp_model.assignment) (l : cp_model.lit) : bool :=
  match l with
  | cp_model.Pos v | cp_model.Neg v => (0 <=? a v) && (a v <=? 1)
  | cp_model.Const _ => true
  end.

(** What [sched_index] adds for the last break of the Early employee of
    the day worked out above. *)
Definition demo_last_break_items : list cp_model.item :=
  match Run.sched_index demo Run.ideal []
          (1%nat, Employee.mk (Shift.mk "E" true (Py.range2 0 34)) "T2" "NBC")
          Appointment.BREAK true with
  | Ok r => snd r
  | Raise _ => []
  end.

(** The employee that the fairness caps leave out: the only member of
    the NBC department, when it has exactly one. *)
Definition lone_nbc (c : Config.t) (eid : nat) : bool :=
  Config.is_member c "NBC" eid
  && Nat.eqb (List.length (Config.employee_ids c "NBC" false)) 1.

(** A day without a full-time employee. *)
Definition part_timers_config : UserConfig :=
  mkUserConfig
    [("M2", (false, "CASHIER")); ("G1", (false, "NBC")); ("K1", (false, "NBC"));
     ("A1", (false, "SD"))]
    [(0, [("10:00-8:00", "M2"); ("E", "G1"); ("L", "K1"); ("L", "A1")])]
    [(0, [(1, "10:00")])]
    [(0, [])].

Definition part_timers : Config.t := config_of part_timers_config 0.

(** The timetable of the day worked out above, the first employee after
    the cashier on the Early timetable and the two others on the Late
    one, with only 'register-diff-2' enabled. *)
Definition part_timers_solution : cp_model.assignment :=
  Solution.make part_timers demo_timetable ["register-diff-2"].

(** The solver's answer stands for a failed attempt. *)
Definition no_solution (st : cp_model.status) : bool :=
  match st with
  | cp_model.INFEASIBLE | cp_model.UNKNOWN => true
  | _ => false
  end.

(** The solver's answer comes with a solution. *)
Definition has_solution (st : cp_model.status) : bool :=
  match st with
  | cp_model.OPTIMAL | cp_model.FEASIBLE => true
  | _ => false
  end.

(** The model that [main] hands to the solver at a rung of the ladder. *)
Definition rung_run (run : Run.t) (disabled_constraints : list string) : Run.t :=
  Main.with_items run (Main.per_run_constraints disabled_constraints).

(** A solver that answers OPTIMAL or FEASIBLE only with a solution of the
    model, and INFEASIBLE only for a model that has none. *)
Definition sound (Solve : cp_model.CpModel -> Z -> cp_model.status * cp_model.assignment)
  : Prop :=
  forall m t,
    (has_solution (fst (Solve m t)) = true ->
     cp_model.feasible (snd (Solve m t)) (cp_model.items m) = true)
    /\ (fst (Solve m t) = cp_model.INFEASIBLE ->
        forall a, cp_model.feasible a (cp_model.items m) = false).

(** A solver that knows one assignment: it answers FEASIBLE, with that
    assignment, for a model that the assignment satisfies, and UNKNOWN for
    any other. *)
Definition checker (known : cp_model.assignment) (m : cp_model.CpModel) (t : Z)
  : cp_model.status * cp_model.assignment :=
  if cp_model.feasible known (cp_model.items m) then (cp_model.FEASIBLE, known)
  else (cp_model.UNKNOWN, known).

(** A solver that gives the same answer to every model. *)
Definition always (st : cp_model.status) (sol : cp_model.assignment)
  : cp_model.CpModel -> Z -> cp_model.status * cp_model.assignment :=
  fun _ _ => (st, sol).

(** No colours: every escape sequence empty. *)
Definition no_colors : sty.t :=
  sty.mk EmptyString EmptyString EmptyString EmptyString EmptyString EmptyString EmptyString.

(** The printer of the day worked out above. *)
Definition demo_printer : SolutionPrinter.t := SolutionPrinter.mk (run_of demo) 0 2.

(** The day worked out above, with a meeting for the designated cashier
    from 10:30 to 11:00. *)
Definition cashier_meeting_config : UserConfig :=
  mkUserConfig (EMPLOYEE_INFO demo_config) (SCHEDULE demo_config)
    (REGISTER_COUNT demo_config) [(0, [("M2", [("10:30", "11:00")])])].

(** What [add_hard_constraints] checks of a day: at every slot the loop
    over the epochs leaves a register count, and one that is not below
    the number of designated cashiers in; every shift starts at a slot of
    the day, where the schedule has a variable; every name of the
    meetings is borne by exactly one employee.  The slot ranges of the
    meetings are not looked at. *)
Definition hard_constraints_checks (c : Config.t) : bool :=
  forallb (fun slot =>
             match Run.curr_count c slot with
             | Some curr_count =>
                 negb (curr_count <? Config.number_of_designated_cashiers_here c slot)
             | None => false
             end)
    Store.slots
  && forallb (fun e =>
                (0 <=? Py.start (Shift.time_range (Employee.shift e)))
                && (Py.start (Shift.time_range (Employee.shift e)) <? Store.NUM_SLOTS))
       (Config.employees c)
  && forallb (fun nm : string * list Py.range =>
                Nat.eqb (List.length (named c (fst nm))) 1)
       (Config.meetings c).

(* end of vocabulary *)

(** * Properties *)

(** ** Generic facts about the error monad and the loops *)

Lemma bind_ok {A B : Type} (r : result A) (k : A -> result B) (b : B) :
  bind r k = Ok b -> exists a, r = Ok a /\ k a = Ok b.
Proof.
  destruct r as [a|e]; simpl; intros H; [exists a; auto | discriminate].
Qed.

Lemma Ok_inj {A : Type} (a b : A) : Ok a = Ok b -> a = b.
Proof. intros H; injection H; auto. Qed.

Lemma mapM_ok_in {A B : Type} (f : A -> result B) (l : list A) (bs : list B) :
  mapM f l = Ok bs -> forall a, In a l -> exists b, f a = Ok b /\ In b bs.
Proof.
  revert bs; induction l as [|x l IH]; intros bs H a Ha; [destruct Ha|].
  simpl in H. apply bind_ok in H as (b & Hb & H).
  apply bind_ok in H as (bs' & Hbs & H). injection H as <-.
  destruct Ha as [<-|Ha].
  - exists b; split; [assumption | left; reflexivity].
  - destruct (IH _ Hbs _ Ha) as (b' & Hb' & Hin).
    exists b'; split; [assumption | right; assumption].
Qed.

Lemma flat_mapM_ok_in {A B : Type} (f : A -> result (list B)) (l : list A) (bs : list B) :
  flat_mapM f l = Ok bs ->
  forall a, In a l -> exists b, f a = Ok b /\ incl b bs.
Proof.
  unfold flat_mapM; intros H a Ha.
  apply bind_ok in H as (bss & Hbss & H). injection H as <-.
  destruct (mapM_ok_in _ _ _ Hbss _ Ha) as (b & Hb & Hin).
  exists b; split; [assumption|].
  intros x Hx. apply in_concat. exists b; auto.
Qed.

Lemma mapM_Forall {A B : Type} (P : B -> Prop) (f : A -> result B) (l : list A)
    (bs : list B) :
  mapM f l = Ok bs -> (forall a b, In a l -> f a = Ok b -> P b) -> Forall P bs.
Proof.
  revert bs; induction l as [|x l IH]; intros bs H HP.
  - apply Ok_inj in H. subst bs. constructor.
  - cbn [mapM] in H. apply bind_ok in H as (b & Hb & H).
    apply bind_ok in H as (bs' & Hbs' & H). apply Ok_inj in H. subst bs.
    constructor; [apply (HP x); [left; reflexivity | assumption]|].
    apply IH; [assumption|]. intros a b' Ha. apply HP. right; assumption.
Qed.

Lemma flat_mapM_Forall {A B : Type} (P : B -> Prop) (f : A -> result (list B))
    (l : list A) (bs : list B) :
  flat_mapM f l = Ok bs ->
  (forall a b, In a l -> f a = Ok b -> Forall P b) -> Forall P bs.
Proof.
  unfold flat_mapM. intros H HP. apply bind_ok in H as (bss & Hbss & H).
  apply Ok_inj in H. subst bs.
  pose proof (mapM_Forall (Forall P) f l bss Hbss HP) as Hall.
  clear - Hall. induction Hall as [|b bss Hb _ IH]; cbn [List.concat]; [constructor|].
  apply Forall_app; auto.
Qed.


(** ** Time grid *)

(** The literal times of the source, as slots. *)
Lemma literal_times :
  Store.time_to_slot "10:00" = Ok 0 /\ Store.time_to_slot "11:00" = Ok 4 /\
  Store.time_to_slot "12:00" = Ok 8 /\ Store.time_to_slot "1:00" = Ok 12 /\
  Store.time_to_slot "2:00" = Ok 16 /\ Store.time_to_slot "3:00" = Ok 20 /\
  Store.time_to_slot "4:00" = Ok 24 /\ Store.time_to_slot "6:00" = Ok 32.
Proof. repeat split; reflexivity. Qed.

Lemma slots_spec (slot : Z) : In slot Store.slots <-> 0 <= slot < Store.NUM_SLOTS.
Proof.
  unfold Store.slots, Py.elems, Py.range1. cbn [Py.start Py.stop Py.step].
  rewrite in_map_iff. change (Py.len (Py.mkrange 0 Store.NUM_SLOTS 1)) with 40%nat.
  change Store.NUM_SLOTS with 40. split.
  - intros (i & <- & Hi). apply in_seq in Hi. lia.
  - intros H. exists (Z.to_nat slot). split; [lia | apply in_seq; lia].
Qed.

Lemma valid_time_slot (t : string) :
  valid_time t = true ->
  exists s, Store.time_to_slot t = Ok s /\ 0 <= s <= Store.NUM_SLOTS.
Proof.
  unfold valid_time, Store.time_to_slot.
  destruct (Py.index ":"%char t) as [split|]; [|discriminate].
  intros H. repeat (apply andb_prop in H as [H ?]).
  destruct (Py.int (Py.take split t)) as [hour|]; [|discriminate].
  destruct (Py.int (Py.drop (split + 1) t)) as [minute|]; [|discriminate].
  cbn [bind]. eexists; split; [reflexivity|].
  unfold in_open_hours in *.
  change Store.TIME_OPEN with 10. change Store.SLOTS_PER_HOUR with 4.
  change Store.MINUTES_PER_SLOT with 15. change Store.NUM_SLOTS with 40.
  assert (Hm : 0 <= minute < 60) by lia.
  assert (Hq : 0 <= minute / 15 <= 3).
  { split; [apply Z.div_pos; lia | apply Z.lt_succ_r, Z.div_lt_upper_bound; lia]. }
  destruct (hour <? 10) eqn:Hh; [apply Z.ltb_lt in Hh | apply Z.ltb_ge in Hh].
  - assert (Hcases : 1 <= hour <= 7 \/ (hour = 8 /\ minute = 0)) by lia.
    destruct Hcases as [Hc | [-> ->]]; [lia | cbn; lia].
  - lia.
Qed.

Lemma slot_roundtrip (s : Z) :
  0 <= s <= Store.NUM_SLOTS -> Store.time_to_slot (Store.slot_to_time s) = Ok s.
Proof.
  intros Hs.
  assert (Hall : forallb (fun s => match Store.time_to_slot (Store.slot_to_time s) with
                                   | Ok s' => s' =? s
                                   | Raise _ => false
                                   end) (Py.elems (Py.range1 41)) = true)
    by (vm_compute; reflexivity).
  rewrite forallb_forall in Hall. specialize (Hall s).
  destruct (Store.time_to_slot (Store.slot_to_time s)) as [s'|e].
  - f_equal. apply Z.eqb_eq, Hall.
    unfold Py.elems, Py.range1; cbn [Py.start Py.stop Py.step].
    change (Py.len (Py.mkrange 0 41 1)) with 41%nat.
    apply in_map_iff. exists (Z.to_nat s).
    change Store.NUM_SLOTS with 40 in Hs. split; [lia | apply in_seq; lia].
  - assert (false = true); [|discriminate]. apply Hall.
    unfold Py.elems, Py.range1; cbn [Py.start Py.stop Py.step].
    change (Py.len (Py.mkrange 0 41 1)) with 41%nat.
    apply in_map_iff. exists (Z.to_nat s).
    change Store.NUM_SLOTS with 40 in Hs. split; [lia | apply in_seq; lia].
Qed.

(** C8. For every valid time string [t] of the open hours, written H:MM or
    HH:MM, [time_to_slot] returns a slot [s] of the day, and converting
    [slot_to_time s] back gives the same result as converting [t]:
    [time_to_slot (slot_to_time (time_to_slot t)) = time_to_slot t]. *)
Theorem time_conversion_idempotent (t : string) :
  valid_time t = true ->
  exists s, Store.time_to_slot t = Ok s
            /\ 0 <= s <= Store.NUM_SLOTS
            /\ Store.time_to_slot (Store.slot_to_time s) = Store.time_to_slot t.
Proof.
  intros H. destruct (valid_time_slot t H) as (s & Hs & Hr).
  exists s. repeat split; try tauto. rewrite Hs. apply slot_roundtrip, Hr.
Qed.

Lemma time_conversion_idempotent_witness :
  valid_time "2:40" = true /\
  exists s, Store.time_to_slot "2:40" = Ok s
            /\ 0 <= s <= Store.NUM_SLOTS
            /\ Store.time_to_slot (Store.slot_to_time s) = Store.time_to_slot "2:40".
Proof.
  split; [reflexivity | apply (time_conversion_idempotent "2:40"); reflexivity].
Defined.

(** The string itself need not come back: 2:40 snaps down to 2:30. *)
Example time_snaps_down :
  valid_time "2:40" = true /\ Store.time_to_slot "2:40" = Ok 18
  /\ Store.slot_to_time 18 = "2:30".
Proof. repeat split; reflexivity. Qed.

(** [int] reads a number as Python does, with white space around it, a
    sign and single underscores between the digits, so that times
    written in these ways have a slot too, and a negative minute gives a
    slot before the hour. *)
Example int_forms :
  Py.int " 10 " = Ok 10 /\ Py.int "+1" = Ok 1 /\ Py.int "-5" = Ok (-5)
  /\ Py.int "1_0" = Ok 10 /\ Py.int "007" = Ok 7
  /\ Py.int "1__0" = Raise ValueError /\ Py.int "_1" = Raise ValueError
  /\ Py.int "1_" = Raise ValueError /\ Py.int "+ 1" = Raise ValueError
  /\ Py.int "1 0" = Raise ValueError /\ Py.int EmptyString = Raise ValueError
  /\ Store.time_to_slot "+1:00" = Ok 12 /\ Store.time_to_slot " 1:00" = Ok 12
  /\ Store.time_to_slot "1_0:00" = Ok 0 /\ Store.time_to_slot "10:-5" = Ok (-1).
Proof. repeat split; reflexivity. Qed.

(** [len] counts characters: an e with diaeresis, two bytes in UTF-8, is
    one. *)
Example str_len_characters :
  Py.str_len "Zoe" = 3%nat
  /\ Py.str_len (String "Z" (String "o" (String (ascii_of_nat 195)
                   (String (ascii_of_nat 171) EmptyString)))) = 3%nat
  /\ Py.ljust 5 (String "Z" (String "o" (String (ascii_of_nat 195)
                   (String (ascii_of_nat 171) EmptyString))))
     = String "Z" (String "o" (String (ascii_of_nat 195)
         (String (ascii_of_nat 171) "  "))).
Proof. repeat split; reflexivity. Qed.

(** ** Shift templates *)

Ltac case_strings :=
  repeat match goal with
         | |- context [String.eqb ?a ?b] => destruct (String.eqb_spec a b); subst
         | H : context [String.eqb ?a ?b] |- _ => destruct (String.eqb_spec a b); subst
         end.

Lemma listed_pairs_spec (config : string) (is_fulltime : bool) :
  In (config, is_fulltime) listed_pairs <->
  (config = "E" \/ (config = "M" /\ is_fulltime = false) \/ config = "L").
Proof.
  unfold listed_pairs; simpl; split.
  - intros [H|[H|[H|[H|[H|[]]]]]]; injection H as <- <-; auto.
  - destruct is_fulltime; intros [ -> | [ [ -> H ] | -> ] ]; try discriminate; auto 6.
Qed.

Lemma lookup_listed {V : Type} (table : list ((string * bool) * V)) (config : string)
    (is_fulltime : bool) :
  map fst table = listed_pairs ->
  (exists v, Py.lookup Py.pair_eqb (config, is_fulltime) table = Ok v)
  <-> In (config, is_fulltime) listed_pairs.
Proof.
  intros Hkeys. rewrite <- Hkeys. clear Hkeys.
  induction table as [|[[k b] v] table IH]; simpl.
  - split; [intros (v & H); discriminate | tauto].
  - unfold Py.pair_eqb at 1; cbn [fst snd].
    destruct (String.eqb_spec k config) as [->|Hk]; cbn [andb].
    + destruct (Bool.eqb_spec b is_fulltime) as [->|Hb].
      * split; [auto | exists v; reflexivity].
      * rewrite IH. split; [auto | intros [H|H]; [congruence | assumption]].
    + rewrite IH. split; [auto | intros [H|H]; [congruence | assumption]].
Qed.

(** C10. The template tables are defined for the five listed pairs only,
    and [Shift("M", True)] raises KeyError: no shift is produced, nothing
    catches the exception on the way up ([Config()] and [main] end with
    it, before any call of the solver), and it is not the exit with a
    message that a configuration error is. *)
Theorem shift_middle_fulltime_keyerror :
  Shift.init "M" true = Raise KeyError
  /\ (forall config is_fulltime,
        In config Shift.templates ->
        ((exists s, Shift.init config is_fulltime = Ok s)
         <-> In (config, is_fulltime) listed_pairs))
  /\ (forall config is_fulltime,
        (exists p, Py.lookup Py.pair_eqb (config, is_fulltime) Shift.priority_table = Ok p)
        <-> In (config, is_fulltime) listed_pairs)
  /\ (forall config is_fulltime,
        (exists w, Py.lookup Py.pair_eqb (config, is_fulltime) Shift.strict_table = Ok w)
        <-> In (config, is_fulltime) listed_pairs)
  /\ Shift.lunch_priority (Shift.mk "M" true (Py.range2 4 36)) = Raise KeyError
  /\ Shift.lunch_slots_strict (Shift.mk "M" true (Py.range2 4 36)) = Raise KeyError
  /\ Config.init middle_fulltime_config 0 = Raise KeyError
  /\ (forall Solve, Main.main Solve middle_fulltime_config 0 = (Raise KeyError, []))
  /\ is_configuration_error (Config.init middle_fulltime_config 0) = false.
Proof.
  split; [reflexivity|]. split.
  { intros config is_fulltime Hin. rewrite listed_pairs_spec.
    destruct Hin as [<-|[<-|[<-|[]]]]; destruct is_fulltime; cbn;
      (split; [intros (s & H); try discriminate; auto
              | intros H; try (eexists; reflexivity);
                destruct H as [H|[[H1 H2]|H]]; discriminate]). }
  split; [intros; apply lookup_listed; reflexivity|].
  split; [intros; apply lookup_listed; reflexivity|].
  repeat split; reflexivity.
Qed.

(** ** Name lookup *)

Lemma filter_combine_snd {A B : Type} (p : B -> bool) (l : list B) :
  forall ks : list A, List.length ks = List.length l ->
  map snd (filter (fun kb : A * B => p (snd kb)) (combine ks l)) = filter p l.
Proof.
  induction l as [|b l IH]; intros [|k ks] H; try discriminate; [reflexivity|].
  simpl. destruct (p b); simpl; rewrite IH; auto.
Qed.

Lemma in_combine_seq {A : Type} (l : list A) :
  forall (k i : nat) (x : A),
  In (i, x) (combine (seq k (List.length l)) l) <-> (k <= i)%nat /\ nth_error l (i - k) = Some x.
Proof.
  induction l as [|a l IH]; intros k i x; simpl.
  - split; [tauto | intros [_ H]; destruct (i - k)%nat; discriminate].
  - rewrite IH. split.
    + intros [H|[H1 H2]].
      * injection H as <- <-. rewrite Nat.sub_diag. auto.
      * split; [lia|]. replace (i - k)%nat with (S (i - S k)) by lia. assumption.
    + intros [H1 H2]. destruct (i - k)%nat as [|n] eqn:Hn.
      * left. injection H2 as <-. f_equal. lia.
      * right. split; [lia|]. replace (i - S k)%nat with n by lia. assumption.
Qed.

Lemma in_enumerate {A : Type} (l : list A) (i : nat) (x : A) :
  In (i, x) (Py.enumerate l) <-> nth_error l i = Some x.
Proof.
  unfold Py.enumerate. rewrite in_combine_seq, Nat.sub_0_r.
  split; [tauto | split; [lia | assumption]].
Qed.

Lemma enumerate_fst {A : Type} (l : list A) :
  map fst (Py.enumerate l) = seq 0 (List.length l).
Proof.
  unfold Py.enumerate. generalize 0%nat.
  induction l as [|a l IH]; intros k; simpl; [reflexivity | f_equal; apply IH].
Qed.

Lemma named_length (c : Config.t) (name : string) :
  List.length (filter (fun ee : nat * Employee.t => String.eqb (Employee.name (snd ee)) name)
                 (Py.enumerate (Config.employees c)))
  = List.length (named c name).
Proof.
  unfold named.
  rewrite <- (filter_combine_snd (fun e => String.eqb (Employee.name e) name)
                (Config.employees c) (seq 0 (List.length (Config.employees c))))
    by apply length_seq.
  rewrite length_map. reflexivity.
Qed.

(** C4, as the code has it. Looking up a name borne by no employee of the
    roster trips the assertion commented "Software bug" (AssertionError,
    no message); a name borne by more than one employee ends the program
    with the message that the name is not unique; a name borne by exactly
    one employee gives that employee's id. *)
Theorem employee_name_to_id_cases (c : Config.t) (name : string) :
  (List.length (named c name) = 0%nat ->
     Config.employee_name_to_id c name = Raise AssertionError)
  /\ (List.length (named c name) = 1%nat ->
        exists eid e, Config.employee_name_to_id c name = Ok eid
                      /\ nth_error (Config.employees c) eid = Some e
                      /\ Employee.name e = name)
  /\ ((List.length (named c name) >= 2)%nat ->
        Config.employee_name_to_id c name = Raise (SystemExit (Config.not_unique name))
        /\ is_configuration_error (Config.employee_name_to_id c name) = true).
Proof.
  pose proof (named_length c name) as Hlen.
  unfold Config.employee_name_to_id.
  set (found := filter _ (Py.enumerate (Config.employees c))) in *.
  assert (Hin : forall ee, In ee found ->
                  nth_error (Config.employees c) (fst ee) = Some (snd ee)
                  /\ Employee.name (snd ee) = name).
  { intros [i e] H. apply filter_In in H as [H1 H2]. cbn [fst snd] in *.
    split; [apply in_enumerate; assumption | apply String.eqb_eq; assumption]. }
  destruct found as [|ee [|ee' rest]]; cbn [map List.length] in *.
  - repeat split; intros; try lia; reflexivity.
  - repeat split; intros; try lia.
    exists (fst ee), (snd ee). split; [reflexivity | apply Hin; left; reflexivity].
  - repeat split; intros; try lia; reflexivity.
Qed.

(** C4 as stated fails for a name that the roster does not hold: the
    lookup ends in the assertion, not in a configuration error. *)
Lemma employee_name_absent_is_assertion :
  named (roster_of ["Ann"; "Bob"]) "Zed" = []
  /\ Config.employee_name_to_id (roster_of ["Ann"; "Bob"]) "Zed" = Raise AssertionError
  /\ is_configuration_error (Config.employee_name_to_id (roster_of ["Ann"; "Bob"]) "Zed") = false.
Proof. repeat split; reflexivity. Qed.

Example employee_name_ambiguous :
  Config.employee_name_to_id (roster_of ["Ann"; "Bob"; "Ann"]) "Ann"
  = Raise (SystemExit (Config.not_unique "Ann"))
  /\ Config.employee_name_to_id (roster_of ["Ann"; "Bob"; "Ann"]) "Bob" = Ok 1%nat.
Proof. split; reflexivity. Qed.

(** ** Evaluating linear expressions *)

Lemma eval_lvar (a : cp_model.assignment) (v : cp_model.var) :
  cp_model.eval a (cp_model.lvar v) = a v.
Proof. unfold cp_model.eval, cp_model.lvar; cbn [cp_model.terms cp_model.const fold_right fst snd]. lia. Qed.

Lemma eval_lconst (a : cp_model.assignment) (k : Z) :
  cp_model.eval a (cp_model.lconst k) = k.
Proof. reflexivity. Qed.

Lemma eval_lsum (a : cp_model.assignment) (vs : list cp_model.var) :
  cp_model.eval a (cp_model.lsum vs) = total a vs.
Proof.
  unfold cp_model.eval, cp_model.lsum; cbn [cp_model.terms cp_model.const].
  rewrite Z.add_0_r. induction vs as [|v vs IH]; cbn [map fold_right total fst snd]; [reflexivity|].
  rewrite IH. lia.
Qed.

Lemma total_app (a : cp_model.assignment) (vs ws : list cp_model.var) :
  total a (vs ++ ws) = total a vs + total a ws.
Proof. induction vs as [|v vs IH]; cbn [app total]; [reflexivity | rewrite IH; lia]. Qed.

Lemma linear_eq_var (a : cp_model.assignment) (v : cp_model.var) (k : Z) :
  cp_model.item_ok a (cp_model.Add_ (cp_model.Linear (cp_model.lvar v) cp_model.EQ (cp_model.lconst k))) = true
  <-> a v = k.
Proof.
  unfold cp_model.item_ok, cp_model.Add_, cp_model.holds; cbn [cp_model.enforce cp_model.what forallb implb cp_model.body_holds cp_model.cmp_holds].
  rewrite eval_lvar, eval_lconst. apply Z.eqb_eq.
Qed.

Lemma linear_eq_sum (a : cp_model.assignment) (vs : list cp_model.var) (k : Z) :
  cp_model.item_ok a (cp_model.Add_ (cp_model.Linear (cp_model.lsum vs) cp_model.EQ (cp_model.lconst k))) = true
  <-> total a vs = k.
Proof.
  unfold cp_model.item_ok, cp_model.Add_, cp_model.holds; cbn [cp_model.enforce cp_model.what forallb implb cp_model.body_holds cp_model.cmp_holds].
  rewrite eval_lsum, eval_lconst. apply Z.eqb_eq.
Qed.

(** ** The relaxation ladder *)

Lemma subset_incl (a b : list string) : subset a b = true <-> incl a b.
Proof.
  unfold subset, incl, Py.mem. rewrite forallb_forall. split; intros H x Hx.
  - apply H in Hx. apply existsb_exists in Hx as (y & Hy & Heq).
    apply String.eqb_eq in Heq. subst; assumption.
  - apply existsb_exists. exists x. split; [auto | apply String.eqb_refl].
Qed.

(** What a rung pins: the toggle of a record is forced to false exactly
    when the record is in the rung's forced-disabled set. *)
Lemma pinned_false_iff (disabled_constraints : list string) (a : cp_model.assignment)
    (sc : Run.SoftConstraint) :
  cp_model.feasible a (Main.per_run_constraints disabled_constraints) = true ->
  In sc Run.soft_constraints ->
  (a (Run.enable_of sc) = 0 <-> In (Run.name sc) (forced_disabled disabled_constraints))
  /\ (a (Run.enable_of sc) = 1 <-> ~ In (Run.name sc) (forced_disabled disabled_constraints)).
Proof.
  intros Hfeas Hsc. unfold cp_model.feasible in Hfeas. rewrite forallb_forall in Hfeas.
  specialize (Hfeas _ (in_map _ _ _ Hsc)). apply linear_eq_var in Hfeas.
  assert (Hmem : In (Run.name sc) (forced_disabled disabled_constraints)
                 <-> Py.mem (Run.name sc) disabled_constraints = true).
  { unfold forced_disabled. rewrite in_map_iff. split.
    - intros (sc' & Hn & Hin). apply filter_In in Hin as [_ Hin]. rewrite <- Hn. exact Hin.
    - intros Hm. exists sc. split; [reflexivity | apply filter_In; auto]. }
  rewrite Hmem. destruct (Py.mem (Run.name sc) disabled_constraints); cbn in Hfeas.
  all: split; split; intros H; try lia; try congruence; try discriminate.
Qed.

(** C2, as the code has it. For rungs i < j of the ladder (counted from
    0), the set forced off at rung i is contained in the set forced off at
    rung j, except for the pairs (1, 2) and (4, 5), the second and third
    rungs and the fifth and sixth, where it is not; in every case the
    later rung forces off at least as many soft constraints as the earlier
    one, and the last rung contains every rung. *)
Theorem ladder_monotone_up_to_two_pairs (i j : nat) (ri rj : list string) :
  (i < j)%nat ->
  nth_error Main.ladder i = Some ri ->
  nth_error Main.ladder j = Some rj ->
  (subset (forced_disabled ri) (forced_disabled rj) = true
   \/ (i = 1 /\ j = 2)%nat \/ (i = 4 /\ j = 5)%nat)
  /\ (((i = 1 /\ j = 2) \/ (i = 4 /\ j = 5))%nat ->
      subset (forced_disabled ri) (forced_disabled rj) = false)
  /\ (List.length (forced_disabled ri) <= List.length (forced_disabled rj))%nat
  /\ ((j = 6)%nat -> subset (forced_disabled ri) (forced_disabled rj) = true).
Proof.
  intros Hij Hi Hj.
  assert (Hi7 : (i < 7)%nat) by (apply (nth_error_Some Main.ladder i); congruence).
  assert (Hj7 : (j < 7)%nat) by (apply (nth_error_Some Main.ladder j); congruence).
  destruct i as [|[|[|[|[|[|[|i]]]]]]]; try lia;
    destruct j as [|[|[|[|[|[|[|j]]]]]]]; try lia;
    injection Hi as <-; injection Hj as <-;
    (split; [ first [ left; vm_compute; reflexivity
                    | right; left; split; reflexivity
                    | right; right; split; reflexivity ]
            | split; [ intros [[Hi' Hj'] | [Hi' Hj']];
                       first [ discriminate Hi' | discriminate Hj' | vm_compute; reflexivity ]
                     | split; [ vm_compute; repeat constructor
                              | intros Hj6;
                                first [ discriminate Hj6 | vm_compute; reflexivity ] ] ] ]).
Qed.

Lemma ladder_monotone_up_to_two_pairs_witness :
  (subset (forced_disabled ["cashier-diff-0"])
     (forced_disabled ["cashier-diff-0"; "register-diff-0"]) = true
   \/ (1 = 1 /\ 3 = 2)%nat \/ (1 = 4 /\ 3 = 5)%nat)
  /\ (((1 = 1 /\ 3 = 2) \/ (1 = 4 /\ 3 = 5))%nat ->
      subset (forced_disabled ["cashier-diff-0"])
        (forced_disabled ["cashier-diff-0"; "register-diff-0"]) = false)
  /\ (List.length (forced_disabled ["cashier-diff-0"])
      <= List.length (forced_disabled ["cashier-diff-0"; "register-diff-0"]))%nat
  /\ ((3 = 6)%nat ->
      subset (forced_disabled ["cashier-diff-0"])
        (forced_disabled ["cashier-diff-0"; "register-diff-0"]) = true).
Proof.
  apply (ladder_monotone_up_to_two_pairs 1 3); [lia | reflexivity | reflexivity].
Defined.

(** C2 as stated fails: the third rung re-enables "cashier-diff-0", which
    the second rung had forced off (and the sixth "cashier-diff-1", forced
    off by the fifth). *)
Lemma ladder_not_monotone :
  ~ (forall (i j : nat) (ri rj : list string),
       (i < j)%nat ->
       nth_error Main.ladder i = Some ri ->
       nth_error Main.ladder j = Some rj ->
       subset (forced_disabled ri) (forced_disabled rj) = true).
Proof.
  intros H. specialize (H 1%nat 2%nat _ _ (Nat.lt_succ_diag_r 1) eq_refl eq_refl).
  vm_compute in H. discriminate H.
Qed.

Example ladder_incomparable_rungs :
  forced_disabled ["cashier-diff-0"] = ["cashier-diff-0"]
  /\ forced_disabled ["register-diff-0"] = ["register-diff-0"]
  /\ subset (forced_disabled ["cashier-diff-0"; "register-diff-0"; "cashier-diff-1"])
       (forced_disabled ["cashier-diff-0"; "register-diff-0"; "register-diff-1"]) = false.
Proof. repeat split; vm_compute; reflexivity. Qed.

(** ** Idealistic refinement *)

Lemma feasible_app (a : cp_model.assignment) (l1 l2 : list cp_model.item) :
  cp_model.feasible a (l1 ++ l2) = true
  <-> cp_model.feasible a l1 = true /\ cp_model.feasible a l2 = true.
Proof.
  unfold cp_model.feasible. rewrite forallb_app. apply andb_true_iff.
Qed.

Lemma feasible_in (a : cp_model.assignment) (l : list cp_model.item) (it : cp_model.item) :
  cp_model.feasible a l = true -> In it l -> cp_model.item_ok a it = true.
Proof.
  unfold cp_model.feasible. rewrite forallb_forall. auto.
Qed.

Lemma feasible_incl (a : cp_model.assignment) (l l' : list cp_model.item) :
  cp_model.feasible a l = true -> incl l' l -> cp_model.feasible a l' = true.
Proof.
  unfold cp_model.feasible. rewrite !forallb_forall. auto.
Qed.

(** The refinement solve is made on the model that [attempt_to_solve] has
    just solved, with every toggle pinned to the solution found. *)
Lemma refinement_call (Solve : cp_model.CpModel -> Z -> cp_model.status * cp_model.assignment)
    (run : Run.t) (max_time : Z) :
  (fst (Solve (Run.model run) max_time) = cp_model.OPTIMAL
   \/ fst (Solve (Run.model run) max_time) = cp_model.FEASIBLE) ->
  cp_model.objective (Run.model run) <> None ->
  snd (Main.attempt_to_solve Solve run max_time)
  = [ (Run.model run, max_time);
      (Run.idealistic_model run (snd (Solve (Run.model run) max_time)), 60) ].
Proof.
  intros Hst Hobj. unfold Main.attempt_to_solve, Main.make_schedule_idealistic.
  destruct (Solve (Run.model run) max_time) as [st sol]; cbn [fst snd] in *.
  destruct (cp_model.objective (Run.model run)); [|congruence].
  destruct Hst as [-> | ->];
    destruct (fst (Solve (Run.idealistic_model run sol) 60)); reflexivity.
Qed.

(** The solution handed to the refinement is itself a solution of the
    refined model: pinning the toggles to their own values excludes
    nothing of it. *)
Lemma refinement_accepts_solution (run : Run.t) (solver : cp_model.assignment) :
  cp_model.feasible solver (cp_model.items (Run.model run)) = true ->
  cp_model.feasible solver (cp_model.items (Run.idealistic_model run solver)) = true.
Proof.
  intros H. unfold Run.idealistic_model; cbn [cp_model.items].
  apply feasible_app; split; [assumption|].
  unfold cp_model.feasible, Run.pin_toggles. apply forallb_forall.
  intros it Hit. apply in_map_iff in Hit as (sc & <- & _).
  apply linear_eq_var. reflexivity.
Qed.

(** C7. In every solution of the model that the refinement solves, every
    soft constraint's toggle has the value it had in the solution handed
    to the refinement; the refined model is the model solved before plus
    the equalities that pin the toggles, so apart from them only what the
    model already required binds the slot assignments. *)
Theorem refinement_keeps_toggles (run : Run.t) (solver a : cp_model.assignment) :
  cp_model.feasible a (cp_model.items (Run.idealistic_model run solver)) = true ->
  (forall sc, In sc Run.soft_constraints -> a (Run.enable_of sc) = solver (Run.enable_of sc))
  /\ cp_model.feasible a (cp_model.items (Run.model run)) = true
  /\ cp_model.items (Run.idealistic_model run solver)
     = cp_model.items (Run.model run) ++ Run.pin_toggles solver.
Proof.
  unfold Run.idealistic_model; cbn [cp_model.items]. intros H.
  apply feasible_app in H as [Hold Hpins]. repeat split; [|assumption].
  intros sc Hsc. apply linear_eq_var.
  apply (feasible_in a _ _ Hpins). unfold Run.pin_toggles.
  apply (in_map (fun constraint : Run.SoftConstraint =>
                   cp_model.Add_ (cp_model.Linear (cp_model.lvar (Run.enable_of constraint))
                                    cp_model.EQ
                                    (cp_model.lconst (solver (Run.enable_of constraint)))))).
  assumption.
Qed.

(** ** Soft constraints and their toggles *)

Lemma gated_item_ok (a : cp_model.assignment) (e : cp_model.var) (b : cp_model.body) :
  cp_model.item_ok a (cp_model.OnlyEnforceIf (cp_model.Add_ b) (cp_model.Pos e))
  = implb (a e =? 1) (cp_model.body_holds a b).
Proof.
  unfold cp_model.item_ok, cp_model.OnlyEnforceIf, cp_model.Add_, cp_model.holds.
  cbn [cp_model.enforce cp_model.what app forallb cp_model.lit_holds].
  rewrite andb_true_r. reflexivity.
Qed.

(** A gated item asks nothing of a solution in which its toggle is false. *)
Lemma gated_off (a : cp_model.assignment) (e : cp_model.var) (it : cp_model.item) :
  gated_by e it -> a e = 0 -> cp_model.item_ok a it = true.
Proof.
  intros (b & ->) He. rewrite gated_item_ok, He. reflexivity.
Qed.

Lemma all_gated_off (a : cp_model.assignment) (e : cp_model.var) (its : list cp_model.item) :
  Forall (gated_by e) its -> a e = 0 -> cp_model.feasible a its = true.
Proof.
  intros Hall He. unfold cp_model.feasible. apply forallb_forall.
  intros it Hit. rewrite Forall_forall in Hall. apply (gated_off a e); auto.
Qed.

(** The procedures that put [OnlyEnforceIf(self.curr_soft_enable)] on
    everything they add. *)
Lemma cap_simultaneous_appointments_gated (c : Config.t) (e : cp_model.var)
    (appointments : list Z) (cap : Z) (its : list cp_model.item) :
  Run.cap_simultaneous_appointments c e appointments cap = Ok its ->
  Forall (gated_by e) its.
Proof.
  unfold Run.cap_simultaneous_appointments. intros H; apply Ok_inj in H; subst its.
  apply Forall_forall. intros it Hit. apply in_map_iff in Hit as (slot & <- & _).
  eexists; reflexivity.
Qed.

Lemma ban_simultaneous_break_lunch_gated (c : Config.t) (e : cp_model.var)
    (ids : list nat) (its : list cp_model.item) :
  Run.ban_simultaneous_break_lunch_for_subgroup c e ids = Ok its ->
  Forall (gated_by e) its.
Proof.
  unfold Run.ban_simultaneous_break_lunch_for_subgroup. intros H; apply Ok_inj in H; subst its.
  apply Forall_forall. intros it Hit. apply in_map_iff in Hit as (slot & <- & _).
  eexists; reflexivity.
Qed.

Lemma cap_non_cashier_appointment_delta_gated (c : Config.t) (e : cp_model.var)
    (appointments : list Z) (max_delta : Z) (its : list cp_model.item) :
  Run.cap_non_cashier_appointment_delta c e appointments max_delta = Ok its ->
  Forall (gated_by e) its.
Proof.
  unfold Run.cap_non_cashier_appointment_delta. intros H; apply Ok_inj in H; subst its.
  apply Forall_forall. intros it Hit.
  apply in_flat_map in Hit as (eid1 & _ & Hit).
  destruct (_ && _) in Hit; [destruct Hit|].
  apply in_flat_map in Hit as (eid2 & _ & Hit).
  destruct (Nat.leb eid2 eid1); [destruct Hit|].
  destruct (_ && _) in Hit; [destruct Hit|].
  destruct Hit as [<-|[<-|[]]]; eexists; reflexivity.
Qed.

Lemma require_lunches_balanced_gated (c : Config.t) (e : cp_model.var)
    (its : list cp_model.item) :
  Run.require_lunches_balanced c e = Ok its -> Forall (gated_by e) its.
Proof.
  unfold Run.require_lunches_balanced. intros H; apply Ok_inj in H; subst its.
  apply Forall_forall. intros it Hit.
  apply in_flat_map in Hit as (ab & _ & Hit).
  destruct Hit as [<-|[<-|[]]]; eexists; reflexivity.
Qed.

(** [cap_register_in_span] puts no [OnlyEnforceIf] on what it adds. *)
Lemma cap_register_in_span_ungated (c : Config.t) (e : cp_model.var) (cap slot_span : Z)
    (its : list cp_model.item) :
  Run.cap_register_in_span c e cap slot_span = Ok its -> Forall ungated its.
Proof.
  unfold Run.cap_register_in_span. intros H.
  apply (flat_mapM_Forall _ _ _ _ H). intros ee out _ Hout.
  apply (mapM_Forall _ _ _ _ Hout). intros slot_base it _ Hit.
  apply bind_ok in Hit as (vs & _ & Hit). apply Ok_inj in Hit. subst it.
  eexists; reflexivity.
Qed.

(** ** The register-count schedule against the designated cashiers *)

Lemma mapM_raise_first {A B : Type} (f : A -> result B) (l : list A) :
  (exists a, In a l /\ exists e, f a = Raise e) ->
  exists pre a post e,
    l = pre ++ a :: post
    /\ (forall x, In x pre -> exists b, f x = Ok b)
    /\ f a = Raise e
    /\ mapM f l = Raise e.
Proof.
  induction l as [|x l IH]; intros (a & Ha & e & He); [destruct Ha|].
  destruct (f x) as [b|e'] eqn:Hx.
  - destruct Ha as [->|Ha]; [congruence|].
    destruct IH as (pre & a' & post & e'' & -> & Hpre & Ha' & Hm); [eauto|].
    exists (x :: pre), a', post, e''. repeat split; auto.
    + intros y [<-|Hy]; eauto.
    + cbn [app mapM]. rewrite Hx. cbn [bind]. rewrite Hm. reflexivity.
  - exists [], x, l, e'. repeat split; auto.
    + intros y [].
    + cbn [mapM]. rewrite Hx. reflexivity.
Qed.

Lemma epochs_loop_some (slot : Z) (epochs : list Config.epoch) (k : Z) :
  exists k', Run.epochs_loop slot epochs (Some k) = Some k'.
Proof.
  revert k; induction epochs as [|e epochs IH]; intros k; cbn [Run.epochs_loop]; eauto.
  destruct (slot <? Config.start e); eauto.
Qed.

(** On a schedule listed in order, the loop over the epochs ends on the
    last epoch whose effective-from slot is at or before the slot. *)
Lemma value_in_force_skip (slot : Z) (epochs : list Config.epoch) (acc : option Z) :
  forallb (fun e => slot <? Config.start e) epochs = true ->
  fold_left (fun acc e => if Config.start e <=? slot then Some (Config.count e) else acc)
    epochs acc = acc.
Proof.
  revert acc; induction epochs as [|e epochs IH]; intros acc H; cbn [fold_left]; [reflexivity|].
  cbn [forallb] in H. apply andb_prop in H as [He Hrest]. apply Z.ltb_lt in He.
  destruct (Config.start e <=? slot) eqn:Hle; [apply Z.leb_le in Hle; lia | auto].
Qed.

Lemma epochs_loop_ordered (slot : Z) (epochs : list Config.epoch) (acc : option Z) :
  ordered epochs = true ->
  Run.epochs_loop slot epochs acc
  = fold_left (fun acc e => if Config.start e <=? slot then Some (Config.count e) else acc)
      epochs acc.
Proof.
  revert acc; induction epochs as [|e epochs IH]; intros acc H; [reflexivity|].
  cbn [ordered] in H. apply andb_prop in H as [Hall Hord].
  cbn [Run.epochs_loop fold_left].
  destruct (slot <? Config.start e) eqn:Hlt.
  - apply Z.ltb_lt in Hlt.
    destruct (Config.start e <=? slot) eqn:Hle; [apply Z.leb_le in Hle; lia|].
    symmetry. apply value_in_force_skip. apply forallb_forall. intros e' He'.
    rewrite forallb_forall in Hall. apply Hall in He'. apply Z.leb_le in He'.
    apply Z.ltb_lt. lia.
  - apply Z.ltb_ge in Hlt.
    destruct (Config.start e <=? slot) eqn:Hle; [|apply Z.leb_gt in Hle; lia].
    apply IH; assumption.
Qed.

Lemma curr_count_ordered (c : Config.t) (slot : Z) :
  ordered (Config.register_count c) = true ->
  Run.curr_count c slot = value_in_force (Config.register_count c) slot.
Proof. intros H. apply epochs_loop_ordered. assumption. Qed.

(** A schedule whose loop leaves a count at opening leaves one all day. *)
Lemma in_force_all_day (c : Config.t) (slot k0 : Z) :
  Run.curr_count c 0 = Some k0 -> 0 <= slot ->
  exists k, Run.curr_count c slot = Some k.
Proof.
  unfold Run.curr_count.
  destruct (Config.register_count c) as [|e epochs]; cbn [Run.epochs_loop]; [discriminate|].
  destruct (0 <? Config.start e) eqn:H0; [discriminate|]. intros _ Hslot.
  apply Z.ltb_ge in H0.
  destruct (slot <? Config.start e) eqn:Hs; [apply Z.ltb_lt in Hs; lia|].
  apply epochs_loop_some.
Qed.

(** Without a value in force at the opening slot the loop over the
    epochs leaves [curr_count] at [None] there: the list is empty or its
    first epoch starts later, where the loop breaks. *)
Lemma no_value_at_opening (c : Config.t) :
  value_in_force (Config.register_count c) 0 = None -> Run.curr_count c 0 = None.
Proof.
  unfold value_in_force, Run.curr_count.
  destruct (Config.register_count c) as [|e epochs]; [reflexivity|].
  cbn [Run.epochs_loop fold_left].
  destruct (0 <? Config.start e) eqn:H0; [reflexivity|].
  apply Z.ltb_ge in H0. apply Z.leb_le in H0. rewrite H0. clear H0.
  generalize (Config.count e). clear e. intros k H. exfalso. revert k H.
  induction epochs as [|e epochs IH]; intros k H; cbn [fold_left] in H; [discriminate|].
  destruct (Config.start e <=? 0); eauto.
Qed.

Lemma slots_sorted : Sorted.StronglySorted Z.lt Store.slots.
Proof. repeat constructor. Qed.

Lemma sorted_split (l pre post : list Z) (x : Z) :
  Sorted.StronglySorted Z.lt l -> l = pre ++ x :: post ->
  (forall y, In y pre -> y < x) /\ (forall y, In y post -> x < y).
Proof.
  revert l; induction pre as [|p pre IH]; intros l Hs ->; cbn [app] in Hs.
  - apply Sorted.StronglySorted_inv in Hs as [_ Hall]. rewrite Forall_forall in Hall.
    split; [intros y [] | assumption].
  - apply Sorted.StronglySorted_inv in Hs as [Hs Hall]. rewrite Forall_forall in Hall.
    destruct (IH _ Hs eq_refl) as [H1 H2]. split; [|assumption].
    intros y [<-|Hy]; [apply Hall, in_elt | auto].
Qed.

(** Where the code does what C3 says: on a schedule listed in order and
    in force from the opening slot.  When, at some slot of the day, the
    value in force is below the number of designated cashiers whose shift
    contains the slot, building the model ends with the exit message that
    names the first such time and the two counts there; [Run(config)]
    raises it and [main] ends with it without having called the solver,
    so that no status of the solver, infeasibility included, is ever
    produced. *)
Theorem understaffed_register_is_configuration_error (c : Config.t) (slot : Z) :
  ordered (Config.register_count c) = true ->
  in_force_from_opening c = true ->
  In slot Store.slots ->
  understaffed c slot = true ->
  exists slot0 count0,
    In slot0 Store.slots /\ slot0 <= slot
    /\ (forall s, In s Store.slots -> s < slot0 -> understaffed c s = false)
    /\ value_in_force (Config.register_count c) slot0 = Some count0
    /\ count0 < Config.number_of_designated_cashiers_here c slot0
    /\ Run.add_hard_constraints c
       = Raise (SystemExit (Run.register_count_message slot0 count0
                              (Config.number_of_designated_cashiers_here c slot0)))
    /\ Run.init c
       = Raise (SystemExit (Run.register_count_message slot0 count0
                              (Config.number_of_designated_cashiers_here c slot0)))
    /\ is_configuration_error (Run.init c) = true
    /\ (forall Solve, Main.main_with Solve c
                      = (Raise (SystemExit (Run.register_count_message slot0 count0
                                  (Config.number_of_designated_cashiers_here c slot0))), [])).
Proof.
  intros Hord Hopen Hslot Hunder.
  unfold in_force_from_opening in Hopen. unfold understaffed in *.
  rewrite <- (curr_count_ordered c 0 Hord) in Hopen.
  rewrite <- (curr_count_ordered c slot Hord) in Hunder.
  assert (Hraise : exists e, Run.obey_register_count c slot = Raise e).
  { unfold Run.obey_register_count.
    destruct (Run.curr_count c slot) as [k|]; [|discriminate]. rewrite Hunder. eauto. }
  destruct (mapM_raise_first (Run.obey_register_count c) Store.slots)
    as (pre & slot0 & post & e & Hsplit & Hpre & He & HmapM); [eauto|].
  destruct (sorted_split _ _ _ _ slots_sorted Hsplit) as [Hlt Hgt].
  assert (Hin0 : In slot0 Store.slots) by (rewrite Hsplit; apply in_elt).
  assert (H0 : 0 <= slot0) by (apply slots_spec in Hin0; lia).
  destruct (Run.curr_count c 0) as [k0|] eqn:Hk0; [|discriminate].
  destruct (in_force_all_day c slot0 k0 Hk0 H0) as (count0 & Hcount0).
  unfold Run.obey_register_count in He. rewrite Hcount0 in He.
  destruct (count0 <? Config.number_of_designated_cashiers_here c slot0) eqn:Hless;
    [|discriminate]. injection He as <-.
  assert (Hhard : Run.add_hard_constraints c
                  = Raise (SystemExit (Run.register_count_message slot0 count0
                                         (Config.number_of_designated_cashiers_here c slot0)))).
  { unfold Run.add_hard_constraints, flat_mapM. rewrite HmapM. reflexivity. }
  exists slot0, count0. repeat split; auto.
  - destruct (Z_le_gt_dec slot0 slot) as [Hle|Hgt']; [assumption|].
    assert (Hinpre : In slot pre).
    { rewrite Hsplit in Hslot. apply in_app_or in Hslot as [H|[H|H]]; auto.
      - lia.
      - apply Hgt in H. lia. }
    destruct (Hpre _ Hinpre) as (b & Hb). destruct Hraise as (e' & He'). congruence.
  - intros s Hs Hs0.
    assert (Hinpre : In s pre).
    { rewrite Hsplit in Hs. apply in_app_or in Hs as [H|[H|H]]; auto.
      - lia.
      - apply Hgt in H. lia. }
    destruct (Hpre _ Hinpre) as (b & Hb).
    rewrite <- (curr_count_ordered c s Hord).
    unfold Run.obey_register_count in Hb.
    destruct (Run.curr_count c s) as [k|]; [|reflexivity].
    destruct (k <? Config.number_of_designated_cashiers_here c s);
      [discriminate | reflexivity].
  - rewrite <- (curr_count_ordered c slot0 Hord). assumption.
  - apply Z.ltb_lt; assumption.
  - unfold Run.init. rewrite Hhard. reflexivity.
  - unfold Run.init. rewrite Hhard. reflexivity.
  - intros Solve. unfold Main.main_with, Run.init. rewrite Hhard. reflexivity.
Qed.

Lemma understaffed_register_is_configuration_error_witness :
  ordered (Config.register_count (config_of understaffed_config 0)) = true
  /\ in_force_from_opening (config_of understaffed_config 0) = true
  /\ In 20 Store.slots
  /\ understaffed (config_of understaffed_config 0) 20 = true
  /\ exists slot0 count0,
       In slot0 Store.slots /\ slot0 <= 20
       /\ (forall s, In s Store.slots -> s < slot0 ->
                     understaffed (config_of understaffed_config 0) s = false)
       /\ value_in_force (Config.register_count (config_of understaffed_config 0)) slot0
          = Some count0
       /\ count0 < Config.number_of_designated_cashiers_here
                     (config_of understaffed_config 0) slot0
       /\ Run.add_hard_constraints (config_of understaffed_config 0)
          = Raise (SystemExit (Run.register_count_message slot0 count0
                                 (Config.number_of_designated_cashiers_here
                                    (config_of understaffed_config 0) slot0)))
       /\ Run.init (config_of understaffed_config 0)
          = Raise (SystemExit (Run.register_count_message slot0 count0
                                 (Config.number_of_designated_cashiers_here
                                    (config_of understaffed_config 0) slot0)))
       /\ is_configuration_error (Run.init (config_of understaffed_config 0)) = true
       /\ (forall Solve, Main.main_with Solve (config_of understaffed_config 0)
                         = (Raise (SystemExit (Run.register_count_message slot0 count0
                                     (Config.number_of_designated_cashiers_here
                                        (config_of understaffed_config 0) slot0))), [])).
Proof.
  assert (H20 : In 20 Store.slots) by (apply slots_spec; split; [lia | reflexivity]).
  split; [reflexivity|]. split; [reflexivity|]. split; [exact H20|]. split; [reflexivity|].
  exact (understaffed_register_is_configuration_error
           (config_of understaffed_config 0) 20 eq_refl eq_refl H20 eq_refl).
Defined.

(** The message of that day: the first slot at which both designated
    cashiers are in while one register is required. *)
Example understaffed_message :
  Config.init understaffed_config 0 = Ok (config_of understaffed_config 0)
  /\ forall Solve,
       Main.main Solve understaffed_config 0
       = (Raise (SystemExit
            "config.REGISTER_COUNT needs updating: At 12:00, register_count is 1 but there are 2 designated cashiers!"),
          []).
Proof. split; [reflexivity | intros Solve; vm_compute; reflexivity]. Qed.

(** C3 on the code. The check that is to raise the configuration error
    compares [curr_count] as the loop over the epochs leaves it, and at a
    slot before the first epoch that is still [None]: the comparison of
    [None] with a number raises TypeError.  So on every day whose
    schedule has no value in force at the opening slot, building the
    model ends in TypeError at the first slot, whatever the counts of the
    later slots are, and [main] ends with it without having called the
    solver.  On a day whose schedule, listed in order, starts at 10:30
    and requires one register while two designated cashiers are in, the
    value in force at 10:30 is below the number of designated cashiers,
    and the program ends with TypeError instead of the configuration
    error and its message. *)
Theorem late_schedule_is_type_error :
  (forall c, value_in_force (Config.register_count c) 0 = None ->
     Run.add_hard_constraints c = Raise TypeError
     /\ Run.init c = Raise TypeError
     /\ is_configuration_error (Run.init c) = false
     /\ forall Solve, Main.main_with Solve c = (Raise TypeError, []))
  /\ Config.init late_schedule_config 0 = Ok (config_of late_schedule_config 0)
  /\ ordered (Config.register_count (config_of late_schedule_config 0)) = true
  /\ value_in_force (Config.register_count (config_of late_schedule_config 0)) 0 = None
  /\ In 2 Store.slots
  /\ value_in_force (Config.register_count (config_of late_schedule_config 0)) 2 = Some 1
  /\ Config.number_of_designated_cashiers_here (config_of late_schedule_config 0) 2 = 2
  /\ understaffed (config_of late_schedule_config 0) 2 = true
  /\ Run.add_hard_constraints (config_of late_schedule_config 0) = Raise TypeError
  /\ is_configuration_error (Run.init (config_of late_schedule_config 0)) = false
  /\ (forall Solve, Main.main Solve late_schedule_config 0 = (Raise TypeError, [])).
Proof.
  split.
  - intros c Hnone. apply no_value_at_opening in Hnone.
    assert (Hhard : Run.add_hard_constraints c = Raise TypeError).
    { unfold Run.add_hard_constraints, flat_mapM.
      replace Store.slots with (0 :: tl Store.slots) by reflexivity. cbn [mapM].
      unfold Run.obey_register_count at 1. rewrite Hnone. reflexivity. }
    assert (Hinit : Run.init c = Raise TypeError).
    { unfold Run.init. rewrite Hhard. reflexivity. }
    split; [exact Hhard|]. split; [exact Hinit|]. split; [rewrite Hinit; reflexivity|].
    intros Solve. unfold Main.main_with. rewrite Hinit. reflexivity.
  - repeat split; try reflexivity.
    apply slots_spec; split; [lia | reflexivity].
Qed.

(** ** Hard constraints *)

Lemma all_ids_spec (c : Config.t) :
  Config.all_ids c = seq 0 (List.length (Config.employees c)).
Proof. unfold Config.all_ids, Config.employee_ids, Config.members. cbn. apply enumerate_fst. Qed.

Lemma total_count (a : cp_model.assignment) (vs : list cp_model.var) :
  (forall v, In v vs -> 0 <= a v <= 1) ->
  total a vs = Z.of_nat (List.length (filter (fun v => a v =? 1) vs)).
Proof.
  induction vs as [|v vs IH]; intros Hdom; cbn [total filter]; [reflexivity|].
  rewrite IH by (intros w Hw; apply Hdom; right; assumption).
  pose proof (Hdom v (or_introl eq_refl)) as Hv.
  destruct (Z.eqb_spec (a v) 1) as [->|Hne]; cbn [List.length]; lia.
Qed.

Lemma filter_map_length {A B : Type} (p : B -> bool) (g : A -> B) (l : list A) :
  List.length (filter p (map g l)) = List.length (filter (fun x => p (g x)) l).
Proof.
  induction l as [|x l IH]; cbn [map filter]; [reflexivity|].
  destruct (p (g x)); cbn [List.length]; rewrite IH; reflexivity.
Qed.

Lemma appointments_spec (appt : Z) : In appt Appointment.all <-> 0 <= appt < Appointment.COUNT.
Proof.
  change Appointment.all with [0; 1; 2; 3; 4; 5; 6]. change Appointment.COUNT with 7.
  cbn [In]. lia.
Qed.

(** The variables of [self.sched] are Boolean. *)
Lemma sched_boolean (c : Config.t) (a : cp_model.assignment) (eid : nat) (slot appt : Z) :
  cp_model.feasible a (Run.new_sched c) = true ->
  In eid (Config.all_ids c) -> In slot Store.slots -> In appt Appointment.all ->
  0 <= a (cp_model.sched eid slot appt) <= 1.
Proof.
  intros Hfeas Heid Hslot Happt.
  assert (Hin : In (cp_model.NewBoolVar (cp_model.sched eid slot appt)) (Run.new_sched c)).
  { unfold Run.new_sched. apply in_flat_map. exists eid. split; [assumption|].
    apply in_flat_map. exists slot. split; [assumption|].
    apply in_map_iff. exists appt. auto. }
  apply (feasible_in a _ _ Hfeas) in Hin. cbn [cp_model.item_ok] in Hin.
  apply andb_prop in Hin as [H1 H2]. apply Z.leb_le in H1, H2. lia.
Qed.

(** What [add_hard_constraints] has put in the model when it returns. *)
Lemma hard_constraints_present (c : Config.t) (hard : list cp_model.item) :
  Run.add_hard_constraints c = Ok hard ->
  (forall eid, In eid (Config.all_ids c) ->
     In (cp_model.Add_ (cp_model.Linear
           (cp_model.lsum (map (fun slot => cp_model.sched eid slot Appointment.BREAK) Store.slots))
           cp_model.EQ (cp_model.lconst 2))) hard)
  /\ (forall eid, In eid (Config.all_ids c) ->
        In (cp_model.Add_ (cp_model.Linear
              (cp_model.lsum (map (fun slot => cp_model.sched eid slot Appointment.LUNCH) Store.slots))
              cp_model.EQ (cp_model.lconst Store.SLOTS_PER_HOUR))) hard)
  /\ (forall eid, In eid (Config.all_ids c) -> incl (Run.one_lunch_on_the_hour eid) hard)
  /\ (forall slot, In slot Store.slots ->
        exists curr_count,
          Run.curr_count c slot = Some curr_count
          /\ Config.number_of_designated_cashiers_here c slot <= curr_count
          /\ In (cp_model.Add_ (cp_model.Linear
                   (cp_model.lsum
                      (map (fun eid => cp_model.sched eid slot Appointment.CASHIER) (Config.all_ids c)
                       ++ map (fun eid => cp_model.sched eid slot Appointment.SUPPORT) (Config.all_ids c)))
                   cp_model.EQ (cp_model.lconst curr_count))) hard).
Proof.
  unfold Run.add_hard_constraints. intros H.
  apply bind_ok in H as (registers & Hreg & H).
  apply bind_ok in H as (no_lunch_first & _ & H).
  apply bind_ok in H as (with_meetings & _ & H).
  apply Ok_inj in H. subst hard. repeat split.
  - intros eid Heid. do 6 (apply in_or_app; right).
    apply in_or_app; left.
    apply (in_map (fun eid => cp_model.Add_ (cp_model.Linear
             (cp_model.lsum (map (fun slot => cp_model.sched eid slot Appointment.BREAK) Store.slots))
             cp_model.EQ (cp_model.lconst 2)))). assumption.
  - intros eid Heid. do 7 (apply in_or_app; right). apply in_or_app; left.
    apply (in_map (fun eid => cp_model.Add_ (cp_model.Linear
             (cp_model.lsum (map (fun slot => cp_model.sched eid slot Appointment.LUNCH) Store.slots))
             cp_model.EQ (cp_model.lconst Store.SLOTS_PER_HOUR)))). assumption.
  - intros eid Heid it Hit. do 8 (apply in_or_app; right). apply in_or_app; left.
    apply in_flat_map. exists eid. auto.
  - intros slot Hslot.
    destruct (flat_mapM_ok_in _ _ _ Hreg slot Hslot) as (its & Hits & Hincl).
    unfold Run.obey_register_count in Hits.
    destruct (Run.curr_count c slot) as [k|]; [|discriminate].
    destruct (k <? Config.number_of_designated_cashiers_here c slot) eqn:Hk; [discriminate|].
    apply Z.ltb_ge in Hk. apply Ok_inj in Hits. subst its.
    exists k. repeat split; [assumption|].
    do 4 (apply in_or_app; right). apply in_or_app; left.
    apply Hincl. left. reflexivity.
Qed.

(** C6. In every solution of the model with the hard constraints, at
    every slot of the day, the number of employees on the cashier
    activity plus the number on the float/support activity equals the
    count that the loop over the register-count schedule ends on; when
    the schedule is listed in order, as the data model has it, that is the
    count of the last epoch whose effective-from slot is at or before the
    slot. *)
Theorem register_count_obeyed (c : Config.t) (hard : list cp_model.item)
    (a : cp_model.assignment) (slot : Z) :
  Run.add_hard_constraints c = Ok hard ->
  cp_model.feasible a (Run.new_sched c ++ hard) = true ->
  In slot Store.slots ->
  exists k,
    Run.curr_count c slot = Some k
    /\ num_assigned c a slot Appointment.CASHIER
       + num_assigned c a slot Appointment.SUPPORT = k
    /\ (ordered (Config.register_count c) = true ->
        value_in_force (Config.register_count c) slot = Some k).
Proof.
  intros Hhard Hfeas Hslot. apply feasible_app in Hfeas as [Hsched Hfeas].
  destruct (hard_constraints_present c hard Hhard) as (_ & _ & _ & Hreg).
  destruct (Hreg slot Hslot) as (k & Hk & _ & Hin).
  apply (feasible_in a _ _ Hfeas) in Hin. apply linear_eq_sum in Hin.
  rewrite total_app in Hin. exists k. repeat split; [assumption | |].
  - unfold num_assigned.
    rewrite <- !(filter_map_length (fun v => a v =? 1)
                   (fun eid => cp_model.sched eid slot _) (Config.all_ids c)).
    rewrite <- !total_count; [exact Hin | |];
      intros v Hv; apply in_map_iff in Hv as (eid & <- & Heid);
      apply (sched_boolean c); auto; apply appointments_spec; cbv; intuition discriminate.
  - intros Hord. unfold value_in_force. rewrite <- epochs_loop_ordered by assumption.
    exact Hk.
Qed.

Lemma slots_list : Store.slots =
  [0;1;2;3;4;5;6;7;8;9;10;11;12;13;14;15;16;17;18;19;20;21;22;23;24;25;26;27;28;29;
   30;31;32;33;34;35;36;37;38;39].
Proof. reflexivity. Qed.

Lemma implication_ok (a : cp_model.assignment) (p q : cp_model.var) :
  cp_model.item_ok a (cp_model.Add_ (cp_model.Implication (cp_model.Pos p) (cp_model.Pos q))) = true ->
  a p = 1 -> a q = 1.
Proof.
  unfold cp_model.item_ok, cp_model.Add_, cp_model.holds;
    cbn [cp_model.enforce cp_model.what forallb implb cp_model.body_holds cp_model.lit_holds].
  intros H Hp. rewrite Hp in H. apply Z.eqb_eq. exact H.
Qed.

Lemma boolean_indicator (x : Z) : 0 <= x <= 1 -> (if x =? 1 then 1 else 0) = x.
Proof. intros H. destruct (Z.eqb_spec x 1); lia. Qed.

Lemma candidate_items (eid : nat) (s : Z) :
  In s (Py.elems Shift.lunch_slots) ->
  In (cp_model.Add_ (cp_model.Implication (cp_model.Pos (cp_model.sched eid s Appointment.LUNCH))
                       (cp_model.Pos (Run.totheright eid s))))
     (Run.one_lunch_on_the_hour eid)
  /\ (forall i, In i [1; 2; 3] ->
        In (cp_model.Add_ (cp_model.Implication (cp_model.Pos (Run.totheright eid s))
                             (cp_model.Pos (cp_model.sched eid (s + i) Appointment.LUNCH))))
           (Run.one_lunch_on_the_hour eid)).
Proof.
  change (Py.elems Shift.lunch_slots) with [8; 12; 16; 20].
  intros [<-|[<-|[<-|[<-|[]]]]]; (split; [vm_compute; tauto|]);
    intros i [<-|[<-|[<-|[]]]]; vm_compute; tauto.
Qed.

(** Lunch at a candidate slot fills the three slots after it. *)
Lemma lunch_fills_the_hour (a : cp_model.assignment) (eid : nat) (s i : Z) :
  cp_model.feasible a (Run.one_lunch_on_the_hour eid) = true ->
  In s (Py.elems Shift.lunch_slots) -> In i [1; 2; 3] ->
  a (cp_model.sched eid s Appointment.LUNCH) = 1 ->
  a (cp_model.sched eid (s + i) Appointment.LUNCH) = 1.
Proof.
  intros Hfeas Hs Hi Hlunch. destruct (candidate_items eid s Hs) as [H1 H2].
  apply (implication_ok a _ _ (feasible_in a _ _ Hfeas (H2 i Hi))).
  apply (implication_ok a _ _ (feasible_in a _ _ Hfeas H1)). assumption.
Qed.

Lemma exactly_one_candidate (a : cp_model.assignment) (eid : nat) :
  cp_model.feasible a (Run.one_lunch_on_the_hour eid) = true ->
  (forall s, In s (Py.elems Shift.lunch_slots) ->
             0 <= a (cp_model.sched eid s Appointment.LUNCH) <= 1) ->
  a (cp_model.sched eid 8 Appointment.LUNCH) + a (cp_model.sched eid 12 Appointment.LUNCH)
  + a (cp_model.sched eid 16 Appointment.LUNCH) + a (cp_model.sched eid 20 Appointment.LUNCH) = 1.
Proof.
  intros Hfeas Hdom.
  assert (Hin : In (cp_model.Add_ (cp_model.ExactlyOne
                      (map (fun slot => cp_model.Pos (cp_model.sched eid slot Appointment.LUNCH))
                         [8; 12; 16; 20])))
                  (Run.one_lunch_on_the_hour eid)) by (left; reflexivity).
  apply (feasible_in a _ _ Hfeas) in Hin.
  unfold cp_model.item_ok, cp_model.Add_, cp_model.holds in Hin.
  cbn [cp_model.enforce cp_model.what forallb implb cp_model.body_holds map
       cp_model.count_true fold_right cp_model.lit_holds] in Hin.
  apply Z.eqb_eq in Hin.
  change (Py.elems Shift.lunch_slots) with [8; 12; 16; 20] in Hdom.
  rewrite !boolean_indicator in Hin by (apply Hdom; cbn [In]; tauto). lia.
Qed.

Ltac split_slots H :=
  repeat match type of H with
         | Forall _ (_ :: _) => let H' := fresh "Hb" in
                                apply Forall_cons_iff in H as [H' H]
         end.

(** The lunch slots of an employee are the four slots from one candidate on. *)
Lemma lunch_hour_block (c : Config.t) (hard : list cp_model.item) (a : cp_model.assignment) (eid : nat) :
  Run.add_hard_constraints c = Ok hard ->
  cp_model.feasible a (Run.new_sched c ++ hard) = true ->
  In eid (Config.all_ids c) ->
  exists s, In s (Py.elems Shift.lunch_slots)
          /\ (forall slot, In slot Store.slots ->
                (a (cp_model.sched eid slot Appointment.LUNCH) = 1 <-> s <= slot <= s + 3)).
Proof.
  intros Hhard Hfeas Heid. apply feasible_app in Hfeas as [Hsched Hfeas].
  destruct (hard_constraints_present c hard Hhard) as (_ & Hlunch & Hone & _).
  specialize (Hlunch eid Heid). specialize (Hone eid Heid).
  apply (feasible_in a _ _ Hfeas) in Hlunch. apply linear_eq_sum in Hlunch.
  pose proof (feasible_incl a _ _ Hfeas Hone) as Hcand.
  assert (Hdom : Forall (fun slot => 0 <= a (cp_model.sched eid slot Appointment.LUNCH) <= 1)
                   Store.slots).
  { apply Forall_forall. intros slot Hslot. apply (sched_boolean c); auto.
    apply appointments_spec. cbv. intuition discriminate. }
  clear Hfeas Hone Hhard Hsched.
  pose proof (exactly_one_candidate a eid Hcand) as Hexact.
  pose proof (fun s i Hs Hi => lunch_fills_the_hour a eid s i Hcand Hs Hi) as Hfill.
  change (Py.elems Shift.lunch_slots) with [8; 12; 16; 20] in *.
  rewrite slots_list in *. change Store.SLOTS_PER_HOUR with 4 in Hlunch.
  cbn [map total] in Hlunch.
  assert (Hf : forall s, In s [8; 12; 16; 20] ->
                 a (cp_model.sched eid s Appointment.LUNCH) = 1 ->
                 a (cp_model.sched eid (s + 1) Appointment.LUNCH) = 1
                 /\ a (cp_model.sched eid (s + 2) Appointment.LUNCH) = 1
                 /\ a (cp_model.sched eid (s + 3) Appointment.LUNCH) = 1).
  { intros s Hs Hl. repeat split; apply Hfill; cbn [In]; auto. }
  pose proof (Hf 8 ltac:(cbn [In]; tauto)) as H8.
  pose proof (Hf 12 ltac:(cbn [In]; tauto)) as H12.
  pose proof (Hf 16 ltac:(cbn [In]; tauto)) as H16.
  pose proof (Hf 20 ltac:(cbn [In]; tauto)) as H20.
  cbn [Z.add Pos.add Pos.succ Pos.add_carry] in H8, H12, H16, H20.
  split_slots Hdom. clear Hf Hfill Hcand Hdom.
  specialize (Hexact ltac:(intros s [<-|[<-|[<-|[<-|[]]]]]; assumption)).
  assert (Hcase : a (cp_model.sched eid 8 Appointment.LUNCH) = 1
                  \/ a (cp_model.sched eid 12 Appointment.LUNCH) = 1
                  \/ a (cp_model.sched eid 16 Appointment.LUNCH) = 1
                  \/ a (cp_model.sched eid 20 Appointment.LUNCH) = 1) by lia.
  (destruct Hcase as [Hc|[Hc|[Hc|Hc]]];
  [exists 8 | exists 12 | exists 16 | exists 20];
  (split; [cbn [In]; tauto|]);
  intros slot Hslot; cbn [In] in Hslot;
  repeat (destruct Hslot as [<-|Hslot]; [lia|]); destruct Hslot).
Qed.

(** C5. In every solution of the model with the hard constraints, every
    employee has the break activity at exactly 2 slots and the lunch
    activity at exactly 4 slots, and the lunch slots are the four slots
    s, s+1, s+2, s+3 from one candidate s of [lunch_slots()] (12:00,
    1:00, 2:00 or 3:00), which is the only candidate with that property. *)
Theorem breaks_and_lunch_hour (c : Config.t) (hard : list cp_model.item)
    (a : cp_model.assignment) (eid : nat) :
  Run.add_hard_constraints c = Ok hard ->
  cp_model.feasible a (Run.new_sched c ++ hard) = true ->
  In eid (Config.all_ids c) ->
  List.length (slots_with a eid Appointment.BREAK) = 2%nat
  /\ List.length (slots_with a eid Appointment.LUNCH) = 4%nat
  /\ exists s,
       In s (Py.elems Shift.lunch_slots)
       /\ (forall slot, In slot Store.slots ->
             (a (cp_model.sched eid slot Appointment.LUNCH) = 1 <-> s <= slot <= s + 3))
       /\ (forall s', In s' (Py.elems Shift.lunch_slots) ->
             (forall slot, In slot Store.slots ->
                (a (cp_model.sched eid slot Appointment.LUNCH) = 1 <-> s' <= slot <= s' + 3)) ->
             s' = s).
Proof.
  intros Hhard Hfeas Heid.
  destruct (lunch_hour_block c hard a eid Hhard Hfeas Heid) as (s & Hs & Hblock).
  apply feasible_app in Hfeas as [Hsched Hfeas].
  destruct (hard_constraints_present c hard Hhard) as (Hbreak & Hlunch & _ & _).
  assert (Hcount : forall appt k, In appt Appointment.all ->
            total a (map (fun slot => cp_model.sched eid slot appt) Store.slots) = Z.of_nat k ->
            List.length (slots_with a eid appt) = k).
  { intros appt k Happt Htotal. unfold slots_with.
    rewrite <- (filter_map_length (fun v => a v =? 1)
                  (fun slot => cp_model.sched eid slot appt) Store.slots).
    rewrite total_count in Htotal; [lia|].
    intros v Hv. apply in_map_iff in Hv as (slot & <- & Hslot).
    apply (sched_boolean c); auto. }
  split; [|split].
  - apply Hcount; [apply appointments_spec; cbv; intuition discriminate|].
    apply linear_eq_sum. apply (feasible_in a _ _ Hfeas). apply Hbreak. assumption.
  - apply Hcount; [apply appointments_spec; cbv; intuition discriminate|].
    apply (linear_eq_sum a _ Store.SLOTS_PER_HOUR).
    apply (feasible_in a _ _ Hfeas). apply Hlunch. assumption.
  - exists s. split; [assumption|]. split; [assumption|].
    intros s' Hs' Hblock'.
    change (Py.elems Shift.lunch_slots) with [8; 12; 16; 20] in Hs, Hs'.
    assert (Hin : forall t, In t [8; 12; 16; 20] -> In t Store.slots).
    { intros t Ht. apply slots_spec. change Store.NUM_SLOTS with 40.
      cbn [In] in Ht. lia. }
    pose proof (proj2 (Hblock' s' (Hin s' Hs')) ltac:(lia)) as H1.
    apply (Hblock s' (Hin s' Hs')) in H1.
    pose proof (proj2 (Hblock s (Hin s Hs)) ltac:(lia)) as H2.
    apply (Hblock' s (Hin s Hs)) in H2.
    cbn [In] in Hs, Hs'. lia.
Qed.

(** ** A day worked out in full *)

Lemma demo_builds :
  Config.init demo_config 0 = Ok demo
  /\ Run.add_hard_constraints demo = Ok (hard_of demo)
  /\ Run.init demo = Ok (run_of demo).
Proof. repeat split; vm_compute; reflexivity. Qed.

(** The timetable of the day, with all but one soft constraint enabled,
    is a solution of the whole model that [Run(config)] builds. *)
Lemma demo_solution_feasible :
  cp_model.feasible demo_solution (cp_model.items (Run.model (run_of demo))) = true.
Proof. vm_compute; reflexivity. Qed.

Example demo_lunches :
  slots_with demo_solution 0 Appointment.LUNCH = [12; 13; 14; 15]
  /\ slots_with demo_solution 1 Appointment.LUNCH = [8; 9; 10; 11]
  /\ slots_with demo_solution 2 Appointment.LUNCH = [16; 17; 18; 19]
  /\ slots_with demo_solution 0 Appointment.BREAK = [5; 28].
Proof. repeat split; vm_compute; reflexivity. Qed.

Lemma breaks_and_lunch_hour_witness :
  Run.add_hard_constraints demo = Ok (hard_of demo)
  /\ cp_model.feasible demo_solution (Run.new_sched demo ++ hard_of demo) = true
  /\ In 1%nat (Config.all_ids demo)
  /\ List.length (slots_with demo_solution 1 Appointment.BREAK) = 2%nat
  /\ List.length (slots_with demo_solution 1 Appointment.LUNCH) = 4%nat
  /\ exists s,
       In s (Py.elems Shift.lunch_slots)
       /\ (forall slot, In slot Store.slots ->
             (demo_solution (cp_model.sched 1 slot Appointment.LUNCH) = 1 <-> s <= slot <= s + 3))
       /\ (forall s', In s' (Py.elems Shift.lunch_slots) ->
             (forall slot, In slot Store.slots ->
                (demo_solution (cp_model.sched 1 slot Appointment.LUNCH) = 1
                 <-> s' <= slot <= s' + 3)) ->
             s' = s).
Proof.
  assert (H1 : Run.add_hard_constraints demo = Ok (hard_of demo))
    by (vm_compute; reflexivity).
  assert (H2 : cp_model.feasible demo_solution (Run.new_sched demo ++ hard_of demo) = true)
    by (vm_compute; reflexivity).
  assert (H3 : In 1%nat (Config.all_ids demo)) by (right; left; reflexivity).
  split; [exact H1|]. split; [exact H2|]. split; [exact H3|].
  exact (breaks_and_lunch_hour demo (hard_of demo) demo_solution 1 H1 H2 H3).
Defined.

Lemma register_count_obeyed_witness :
  Run.add_hard_constraints demo = Ok (hard_of demo)
  /\ cp_model.feasible demo_solution (Run.new_sched demo ++ hard_of demo) = true
  /\ In 13 Store.slots
  /\ exists k,
       Run.curr_count demo 13 = Some k
       /\ num_assigned demo demo_solution 13 Appointment.CASHIER
          + num_assigned demo demo_solution 13 Appointment.SUPPORT = k
       /\ (ordered (Config.register_count demo) = true ->
           value_in_force (Config.register_count demo) 13 = Some k).
Proof.
  assert (H1 : Run.add_hard_constraints demo = Ok (hard_of demo))
    by (vm_compute; reflexivity).
  assert (H2 : cp_model.feasible demo_solution (Run.new_sched demo ++ hard_of demo) = true)
    by (vm_compute; reflexivity).
  assert (H3 : In 13 Store.slots) by (apply slots_spec; split; [lia | reflexivity]).
  split; [exact H1|]. split; [exact H2|]. split; [exact H3|].
  exact (register_count_obeyed demo (hard_of demo) demo_solution 13 H1 H2 H3).
Defined.

(** The refinement of the day: handed the solution with the later break,
    it may settle on the first timetable, which differs in the slots of
    that break only and keeps every toggle. *)
Lemma refinement_keeps_toggles_witness :
  cp_model.feasible demo_solution
    (cp_model.items (Run.idealistic_model (run_of demo) later_break_solution)) = true
  /\ (forall sc, In sc Run.soft_constraints ->
        demo_solution (Run.enable_of sc) = later_break_solution (Run.enable_of sc))
  /\ cp_model.feasible demo_solution (cp_model.items (Run.model (run_of demo))) = true
  /\ cp_model.items (Run.idealistic_model (run_of demo) later_break_solution)
     = cp_model.items (Run.model (run_of demo)) ++ Run.pin_toggles later_break_solution.
Proof.
  assert (H : cp_model.feasible demo_solution
                (cp_model.items (Run.idealistic_model (run_of demo) later_break_solution)) = true)
    by (vm_compute; reflexivity).
  split; [exact H|].
  exact (refinement_keeps_toggles (run_of demo) later_break_solution demo_solution H).
Defined.

Example refinement_moves_a_break :
  cp_model.feasible later_break_solution (cp_model.items (Run.model (run_of demo))) = true
  /\ later_break_solution (cp_model.sched 1 21 Appointment.BREAK) = 1
  /\ demo_solution (cp_model.sched 1 21 Appointment.BREAK) = 0
  /\ cp_model.eval later_break_solution (cp_model.lsum (Run.to_minimize_later (run_of demo))) = 11
  /\ cp_model.eval demo_solution (cp_model.lsum (Run.to_minimize_later (run_of demo))) = 8.
Proof. repeat split; vm_compute; reflexivity. Qed.

(** ** The crowding caps of the breakroom *)

Lemma at_slot_boolean_total (c : Config.t) (a : cp_model.assignment) (slot : Z) :
  breakroom_occupancy c a slot
  = total a (Run.at_slot (Config.all_ids c) slot Run.a_BL).
Proof. reflexivity. Qed.

(** What [cap_simultaneous_appointments] asks of a solution: when the
    toggle is true, at most [cap] of the variables of every slot are true. *)
Lemma cap_simultaneous_appointments_spec (c : Config.t) (e : cp_model.var)
    (appointments : list Z) (cap : Z) (a : cp_model.assignment) :
  exists its,
    Run.cap_simultaneous_appointments c e appointments cap = Ok its
    /\ (cp_model.feasible a its = true
        <-> (a e = 1 -> forall slot, In slot Store.slots ->
               total a (Run.at_slot (Config.all_ids c) slot appointments) <= cap)).
Proof.
  eexists; split; [reflexivity|].
  unfold cp_model.feasible. rewrite forallb_forall. split.
  - intros H He slot Hslot.
    specialize (H _ (in_map _ _ _ Hslot)). cbv beta in H. rewrite gated_item_ok, He in H.
    cbn [Z.eqb Pos.eqb implb cp_model.body_holds cp_model.cmp_holds] in H.
    rewrite eval_lsum, eval_lconst in H. apply Z.leb_le. exact H.
  - intros H it Hit. apply in_map_iff in Hit as (slot & <- & Hslot).
    rewrite gated_item_ok. destruct (Z.eqb_spec (a e) 1) as [He|He]; [|reflexivity].
    cbn [implb cp_model.body_holds cp_model.cmp_holds].
    rewrite eval_lsum, eval_lconst. apply Z.leb_le. auto.
Qed.

Lemma record_breakroom :
  record "breakroom-4-if-12"
  = Some (Run.soft "breakroom-4-if-12" 2
            (fun c e => if Run.num_employees c <=? 12
                        then Run.cap_simultaneous_appointments c e Run.a_BL 4 else Ok []))
  /\ record "breakroom-5"
     = Some (Run.soft "breakroom-5" 3
               (fun c e => Run.cap_simultaneous_appointments c e Run.a_BL 5))
  /\ record "breakroom-6"
     = Some (Run.soft "breakroom-6" 10
               (fun c e => Run.cap_simultaneous_appointments c e Run.a_BL 6))
  /\ record "breakroom-7"
     = Some (Run.soft "breakroom-7" 999
               (fun c e => Run.cap_simultaneous_appointments c e Run.a_BL 6)).
Proof. repeat split; reflexivity. Qed.

(** The caps that the first three breakroom records enforce, with their
    weights: 4 (for a roster of at most 12 employees; nothing beyond), 5
    and 6. *)
Lemma breakroom_caps_up_to_six (c : Config.t) (a : cp_model.assignment) :
  (forall sc, record "breakroom-4-if-12" = Some sc ->
     Run.weight sc = 2
     /\ exists its, Run.generated c sc = Ok its
        /\ (Run.num_employees c <= 12 ->
            (cp_model.feasible a its = true
             <-> (a (Run.enable_of sc) = 1 -> forall slot, In slot Store.slots ->
                    breakroom_occupancy c a slot <= 4)))
        /\ (12 < Run.num_employees c -> its = []))
  /\ (forall sc, record "breakroom-5" = Some sc ->
        Run.weight sc = 3
        /\ exists its, Run.generated c sc = Ok its
           /\ (cp_model.feasible a its = true
               <-> (a (Run.enable_of sc) = 1 -> forall slot, In slot Store.slots ->
                      breakroom_occupancy c a slot <= 5)))
  /\ (forall sc, record "breakroom-6" = Some sc ->
        Run.weight sc = 10
        /\ exists its, Run.generated c sc = Ok its
           /\ (cp_model.feasible a its = true
               <-> (a (Run.enable_of sc) = 1 -> forall slot, In slot Store.slots ->
                      breakroom_occupancy c a slot <= 6))).
Proof.
  destruct record_breakroom as (H4 & H5 & H6 & _).
  split; [|split]; intros sc Hsc.
  - rewrite H4 in Hsc. apply (f_equal (fun o => match o with Some x => x | None => sc end)) in Hsc.
    subst sc. split; [reflexivity|].
    unfold Run.generated; cbn [Run.func Run.soft Run.enable_of].
    destruct (Run.num_employees c <=? 12) eqn:Hn.
    + destruct (cap_simultaneous_appointments_spec c (cp_model.enable "breakroom-4-if-12")
                  Run.a_BL 4 a) as (its & Hits & Hspec).
      exists its. split; [assumption|]. split; [intros _; exact Hspec|].
      apply Z.leb_le in Hn. lia.
    + exists []. split; [reflexivity|]. apply Z.leb_gt in Hn. split; [lia | reflexivity].
  - rewrite H5 in Hsc. apply (f_equal (fun o => match o with Some x => x | None => sc end)) in Hsc.
    subst sc. split; [reflexivity|].
    apply (cap_simultaneous_appointments_spec c (cp_model.enable "breakroom-5") Run.a_BL 5 a).
  - rewrite H6 in Hsc. apply (f_equal (fun o => match o with Some x => x | None => sc end)) in Hsc.
    subst sc. split; [reflexivity|].
    apply (cap_simultaneous_appointments_spec c (cp_model.enable "breakroom-6") Run.a_BL 6 a).
Qed.

(** C9 on the code. The record named "breakroom-7" (weight 999) calls
    [cap_simultaneous_appointments] with the cap 6, as "breakroom-6"
    does: with its toggle true, a solution may have at most 6 employees on
    break or lunch at a slot, and seven employees on break at 3:00 are
    refused although no slot has more than 7. *)
Theorem breakroom_seven_caps_at_six :
  (forall c a sc, record "breakroom-7" = Some sc ->
     Run.weight sc = 999
     /\ exists its, Run.generated c sc = Ok its
        /\ (cp_model.feasible a its = true
            <-> (a (Run.enable_of sc) = 1 -> forall slot, In slot Store.slots ->
                   breakroom_occupancy c a slot <= 6)))
  /\ (exists sc its,
        record "breakroom-7" = Some sc
        /\ Run.generated seven_staff sc = Ok its
        /\ seven_on_break (Run.enable_of sc) = 1
        /\ breakroom_occupancy seven_staff seven_on_break 20 = 7
        /\ forallb (fun slot => breakroom_occupancy seven_staff seven_on_break slot <=? 7)
             Store.slots = true
        /\ cp_model.feasible seven_on_break its = false).
Proof.
  destruct record_breakroom as (_ & _ & _ & H7). split.
  - intros c a sc Hsc. rewrite H7 in Hsc.
    apply (f_equal (fun o => match o with Some x => x | None => sc end)) in Hsc.
    subst sc. split; [reflexivity|].
    apply (cap_simultaneous_appointments_spec c (cp_model.enable "breakroom-7") Run.a_BL 6 a).
  - eexists; eexists. split; [exact H7|]. split; [reflexivity|].
    repeat split; vm_compute; reflexivity.
Qed.

(** ** The register caps *)

Lemma record_register_max :
  record "register-max-4-in-16"
  = Some (Run.soft "register-max-4-in-16" 4 (fun c e => Run.cap_register_in_span c e 4 16))
  /\ record "register-max-6-in-16"
     = Some (Run.soft "register-max-6-in-16" 99 (fun c e => Run.cap_register_in_span c e 6 16)).
Proof. split; reflexivity. Qed.

(** C1 on the code. The two records that [cap_register_in_span] generates
    put no [OnlyEnforceIf] on their constraints, which therefore bind with
    the toggle false too. On the day worked out above, the busy timetable
    with "register-max-4-in-16" disabled satisfies the hard constraints,
    what every other record generates and the constraints of the
    idealistic objectives, and is refused by what "register-max-4-in-16"
    generates. *)
Theorem register_caps_bind_when_disabled :
  (forall name sc c its,
     name = "register-max-4-in-16" \/ name = "register-max-6-in-16" ->
     record name = Some sc -> Run.generated c sc = Ok its -> Forall ungated its)
  /\ (exists sc its,
        record "register-max-4-in-16" = Some sc
        /\ Run.generated demo sc = Ok its
        /\ busy_solution (Run.enable_of sc) = 0
        /\ cp_model.feasible busy_solution its = false
        /\ cp_model.feasible busy_solution (Run.new_sched demo ++ hard_of demo) = true
        /\ forallb (fun sc' =>
                      String.eqb (Run.name sc') "register-max-4-in-16"
                      || match Run.generated demo sc' with
                         | Ok its' => cp_model.feasible busy_solution its'
                                      && (0 <=? busy_solution (Run.enable_of sc'))
                                      && (busy_solution (Run.enable_of sc') <=? 1)
                         | Raise _ => false
                         end)
             Run.soft_constraints = true
        /\ match Run.setup_idealistic_objectives demo with
           | Ok idealistic => cp_model.feasible busy_solution (fst idealistic)
           | Raise _ => false
           end = true
        /\ cp_model.feasible busy_solution (cp_model.items (Run.model (run_of demo))) = false).
Proof.
  destruct record_register_max as [H4 H6]. split.
  - intros name sc c its [-> | ->] Hsc Hgen; [rewrite H4 in Hsc | rewrite H6 in Hsc];
      apply (f_equal (fun o => match o with Some x => x | None => sc end)) in Hsc;
      subst sc; unfold Run.generated in Hgen; cbn [Run.func Run.soft Run.enable_of] in Hgen;
      eapply cap_register_in_span_ungated; eassumption.
  - match goal with
    | |- exists sc its, _ = Some sc /\ _ => eexists; exists
        (match Run.generated demo (Run.soft "register-max-4-in-16" 4
                                     (fun c e => Run.cap_register_in_span c e 4 16)) with
         | Ok its => its | Raise _ => [] end)
    end.
    split; [exact H4|]. repeat split; vm_compute; reflexivity.
Qed.

(** ** Further checks of the definitions *)

Example valid_time_examples :
  map valid_time ["10:00"; "12:59"; "1:00"; "07:45"; "8:00"]
  = [true; true; true; true; true]
  /\ map valid_time ["8:15"; "9:59"; "13:00"; "0:30"; "7:5"; "7:60"; "1000"; ":30"; "a:00"]
     = [false; false; false; false; false; false; false; false; false].
Proof. split; reflexivity. Qed.

(** Every model that the solver is given contains the variables of the
    schedule and the hard constraints, so its solutions are solutions of
    those. *)
Lemma run_model_has_hard (c : Config.t) (run : Run.t) :
  Run.init c = Ok run ->
  exists hard,
    Run.add_hard_constraints c = Ok hard
    /\ forall (a : cp_model.assignment) (extra : list cp_model.item),
         cp_model.feasible a (cp_model.items (Run.model run) ++ extra) = true ->
         cp_model.feasible a (Run.new_sched c ++ hard) = true.
Proof.
  unfold Run.init. intros H.
  apply bind_ok in H as (hard & Hhard & H).
  apply bind_ok in H as (soft_layer & _ & H).
  apply bind_ok in H as (idealistic & _ & H).
  apply Ok_inj in H. subst run. exists hard. split; [assumption|].
  cbn [Run.model cp_model.items]. intros a extra Hfeas.
  apply feasible_app in Hfeas as [Hfeas _].
  apply feasible_app in Hfeas as [Hsched Hfeas].
  apply feasible_app in Hfeas as [Hhardf _].
  apply feasible_app. auto.
Qed.

Lemma rung_model_has_run_model (run : Run.t) (disabled_constraints : list string) :
  cp_model.items (Run.model (Main.with_items run (Main.per_run_constraints disabled_constraints)))
  = cp_model.items (Run.model run) ++ Main.per_run_constraints disabled_constraints.
Proof. reflexivity. Qed.

(** ** The records whose every constraint carries the toggle *)

Lemma gated_enforced (e : cp_model.var) (it : cp_model.item) :
  gated_by e it -> enforced_under e it.
Proof. intros (b & ->). left; reflexivity. Qed.

Lemma enforced_under_off (a : cp_model.assignment) (e : cp_model.var) (it : cp_model.item) :
  enforced_under e it -> a e = 0 ->
  match it with
  | cp_model.Add ct => cp_model.holds a ct = true
  | _ => True
  end.
Proof.
  destruct it as [v|lb ub v|ct]; cbn [enforced_under]; auto.
  intros Hin He. unfold cp_model.holds.
  assert (Hoff : forallb (cp_model.lit_holds a) (cp_model.enforce ct) = false).
  { apply not_true_is_false. intros Hall. rewrite forallb_forall in Hall.
    apply Hall in Hin. cbn [cp_model.lit_holds] in Hin. rewrite He in Hin. discriminate. }
  rewrite Hoff. reflexivity.
Qed.

Ltac enforced :=
  cbn [enforced_under cp_model.OnlyEnforceIf cp_model.Add_ cp_model.enforce
       cp_model.what app In]; auto.

Lemma available_when_here_if_mult_enforced (c : Config.t) (e : cp_model.var)
    (ids : list (nat * Employee.t)) (appts : list Z) (n : Z) (its : list cp_model.item) :
  Run.available_when_here_if_mult c e ids appts n = Ok its ->
  Forall (enforced_under e) its.
Proof.
  unfold Run.available_when_here_if_mult. intros H.
  destruct (Nat.eqb (List.length ids) 1); [apply Ok_inj in H; subst; constructor|].
  destruct (n =? 0).
  - apply bind_ok in H as (slots & _ & H).
    apply (mapM_Forall _ _ _ _ H). intros slot it _ Hit.
    apply bind_ok in Hit as (vs & _ & Hit). apply Ok_inj in Hit. subst it. enforced.
  - apply bind_ok in H as (slots & _ & H). apply bind_ok in H as (per_slot & Hper & H).
    apply Ok_inj in H. subst its. apply Forall_app. split; [|constructor; [enforced | constructor]].
    apply Forall_forall. intros it Hit. apply in_flat_map in Hit as (p & Hp & Hit).
    pose proof (mapM_Forall
                  (fun p : cp_model.var * list cp_model.item => Forall (enforced_under e) (snd p))
                  _ _ _ Hper) as Hall.
    rewrite Forall_forall in Hall.
    assert (Hp' : Forall (enforced_under e) (snd p)).
    { apply Hall; [|assumption]. intros slot q _ Hq.
      apply bind_ok in Hq as (vs & _ & Hq). apply Ok_inj in Hq. subst q. cbn [snd].
      constructor; [enforced|]. constructor; [enforced|].
      constructor; [enforced | constructor]. }
    rewrite Forall_forall in Hp'. auto.
Qed.

Lemma ban_register_for_nbc_if_alone_enforced (c : Config.t) (e : cp_model.var)
    (its : list cp_model.item) :
  Run.ban_register_for_nbc_if_alone c e = Ok its -> Forall (enforced_under e) its.
Proof.
  unfold Run.ban_register_for_nbc_if_alone. intros H.
  destruct (Config.employee_ids c "NBC" false) as [|nbc [|]];
    apply Ok_inj in H; subst its; [constructor | | constructor].
  apply Forall_forall. intros it Hit. apply in_flat_map in Hit as (slot & _ & Hit).
  destruct Hit as [<-|[<-|[]]]; enforced.
Qed.

Lemma ban_register_first_thing_enforced (c : Config.t) (e : cp_model.var)
    (its : list cp_model.item) :
  Run.ban_register_for_non_cashier_as_first_thing_in_day_if_not_opening c e = Ok its ->
  Forall (enforced_under e) its.
Proof.
  unfold Run.ban_register_for_non_cashier_as_first_thing_in_day_if_not_opening. intros H.
  apply (flat_mapM_Forall _ _ _ _ H). intros ee out _ Hout.
  destruct (Config.is_member c "CASHIER" (fst ee)); [apply Ok_inj in Hout; subst; constructor|].
  destruct (_ =? _); [apply Ok_inj in Hout; subst; constructor|].
  apply (mapM_Forall _ _ _ _ Hout). intros appt it _ Hit.
  apply bind_ok in Hit as (v & _ & Hit). apply Ok_inj in Hit. subst it. enforced.
Qed.

Lemma require_min_gap_enforced (c : Config.t) (e : cp_model.var) (start_gap end_gap : Z)
    (its : list cp_model.item) :
  Run.require_min_gap_break_from_start_end c e start_gap end_gap = Ok its ->
  Forall (enforced_under e) its.
Proof.
  unfold Run.require_min_gap_break_from_start_end. intros H.
  apply (flat_mapM_Forall _ _ _ _ H). intros ee out _ Hout.
  apply bind_ok in Hout as (at_start & Hstart & Hout).
  apply bind_ok in Hout as (at_end & Hend & Hout). apply Ok_inj in Hout. subst out.
  apply Forall_app; split;
    [apply (mapM_Forall _ _ _ _ Hstart) | apply (mapM_Forall _ _ _ _ Hend)];
    intros slot it _ Hit; apply bind_ok in Hit as (v & _ & Hit);
    apply Ok_inj in Hit; subst it; enforced.
Qed.

Lemma require_stricter_lunch_bounds_enforced (c : Config.t) (e : cp_model.var)
    (its : list cp_model.item) :
  Run.require_stricter_lunch_bounds c e = Ok its -> Forall (enforced_under e) its.
Proof.
  unfold Run.require_stricter_lunch_bounds. intros H.
  apply (mapM_Forall _ _ _ _ H). intros ee it _ Hit.
  apply bind_ok in Hit as (strict & _ & Hit). apply bind_ok in Hit as (vs & _ & Hit).
  apply Ok_inj in Hit. subst it. enforced.
Qed.

Lemma gated_all_enforced (e : cp_model.var) (its : list cp_model.item) :
  Forall (gated_by e) its -> Forall (enforced_under e) its.
Proof. apply Forall_impl. apply gated_enforced. Qed.

(** Every record but the six of [not_only_toggled] puts its own toggle on
    every constraint it generates, so that none of them binds a solution
    in which the toggle is false. *)
Theorem toggled_records (c : Config.t) (a : cp_model.assignment)
    (sc : Run.SoftConstraint) (its : list cp_model.item) :
  In sc Run.soft_constraints ->
  Py.mem (Run.name sc) not_only_toggled = false ->
  Run.generated c sc = Ok its ->
  Forall (enforced_under (Run.enable_of sc)) its
  /\ (a (Run.enable_of sc) = 0 ->
      forall ct, In ct (cp_model.constraints_of its) -> cp_model.holds a ct = true).
Proof.
  intros Hsc Hname Hgen.
  assert (Hall : Forall (enforced_under (Run.enable_of sc)) its).
  { unfold Run.soft_constraints in Hsc. cbn [In] in Hsc.
    repeat (destruct Hsc as [<-|Hsc];
            [ first
                [ discriminate Hname
                | unfold Run.generated in Hgen;
                  cbn [Run.func Run.soft Run.enable_of] in Hgen |- *;
                  first
                    [ apply gated_all_enforced;
                      first [ eapply cap_simultaneous_appointments_gated; eassumption
                            | eapply cap_non_cashier_appointment_delta_gated; eassumption
                            | eapply ban_simultaneous_break_lunch_gated; eassumption
                            | eapply require_lunches_balanced_gated; eassumption ]
                    | eapply available_when_here_if_mult_enforced; eassumption
                    | eapply ban_register_for_nbc_if_alone_enforced; eassumption
                    | eapply ban_register_first_thing_enforced; eassumption
                    | eapply require_min_gap_enforced; eassumption
                    | eapply require_stricter_lunch_bounds_enforced; eassumption
                    | destruct (Run.num_employees c <=? _);
                      [ apply gated_all_enforced;
                        eapply cap_simultaneous_appointments_gated; eassumption
                      | apply Ok_inj in Hgen; subst its; constructor ] ] ]
            | ]).
    destruct Hsc. }
  split; [assumption|].
  intros He ct Hct. unfold cp_model.constraints_of in Hct.
  apply in_flat_map in Hct as (it & Hit & Hct).
  rewrite Forall_forall in Hall. specialize (Hall it Hit).
  pose proof (enforced_under_off a _ it Hall He) as Hoff.
  destruct it as [v|lb ub v|ct']; cbn [In] in Hct; try tauto.
  destruct Hct as [<-|[]]. exact Hoff.
Qed.

Lemma toggled_records_witness :
  In (Run.soft "breakroom-5" 3 (fun c e => Run.cap_simultaneous_appointments c e Run.a_BL 5))
    Run.soft_constraints
  /\ Py.mem "breakroom-5" not_only_toggled = false
  /\ Run.generated demo
       (Run.soft "breakroom-5" 3 (fun c e => Run.cap_simultaneous_appointments c e Run.a_BL 5))
     = Ok (generated_of demo "breakroom-5")
  /\ Forall (enforced_under (cp_model.enable "breakroom-5")) (generated_of demo "breakroom-5")
  /\ (Solution.make demo demo_timetable [] (cp_model.enable "breakroom-5") = 0 ->
      forall ct, In ct (cp_model.constraints_of (generated_of demo "breakroom-5")) ->
                 cp_model.holds (Solution.make demo demo_timetable []) ct = true).
Proof.
  assert (Hin : In (Run.soft "breakroom-5" 3
                      (fun c e => Run.cap_simultaneous_appointments c e Run.a_BL 5))
                  Run.soft_constraints).
  { unfold Run.soft_constraints. cbn [In]. do 10 right. left. reflexivity. }
  assert (Hgen : Run.generated demo
                   (Run.soft "breakroom-5" 3
                      (fun c e => Run.cap_simultaneous_appointments c e Run.a_BL 5))
                 = Ok (generated_of demo "breakroom-5")) by reflexivity.
  split; [exact Hin|]. split; [reflexivity|]. split; [exact Hgen|].
  exact (toggled_records demo (Solution.make demo demo_timetable []) _ _ Hin eq_refl Hgen).
Defined.

(** ** Further hard constraints *)

Lemma hard_constraints_present_more (c : Config.t) (hard : list cp_model.item) :
  Run.add_hard_constraints c = Ok hard ->
  (forall eid e slot, nth_error (Config.employees c) eid = Some e -> In slot Store.slots ->
     In (cp_model.Add_ (cp_model.Linear
           (cp_model.lvar (cp_model.sched eid slot Appointment.NOT_HERE)) cp_model.EQ
           (cp_model.lconst (Run.bool_to_Z
              (negb (Py.contains (Shift.time_range (Employee.shift e)) slot)))))) hard)
  /\ (forall eid slot, In eid (Config.all_ids c) -> In slot Store.slots ->
        In (cp_model.Add_ (cp_model.ExactlyOne
              (map (fun appt => cp_model.Pos (cp_model.sched eid slot appt)) Appointment.all)))
           hard)
  /\ (forall slot, In slot Store.slots ->
        In (cp_model.NewBoolVar (Run.noncashiercashiers slot)) hard
        /\ (forall eid, In eid (Config.employee_ids c "CASHIER" true) ->
              In (cp_model.Add_ (cp_model.Implication
                    (cp_model.Pos (cp_model.sched eid slot Appointment.CASHIER))
                    (cp_model.Pos (Run.noncashiercashiers slot)))) hard)
        /\ In (cp_model.OnlyEnforceIf
                 (cp_model.Add_ (cp_model.Linear
                    (cp_model.lsum (map (fun eid => cp_model.sched eid slot Appointment.CASHIER)
                                      (Config.all_ids c)))
                    cp_model.EQ (cp_model.lconst 1)))
                 (cp_model.Pos (Run.noncashiercashiers slot))) hard).
Proof.
  unfold Run.add_hard_constraints. intros H.
  apply bind_ok in H as (registers & Hreg & H).
  apply bind_ok in H as (no_lunch_first & _ & H).
  apply bind_ok in H as (with_meetings & _ & H).
  apply Ok_inj in H. subst hard. split; [|split].
  - intros eid e slot He Hslot. apply in_or_app; left.
    apply in_flat_map. exists (eid, e). split.
    + unfold Config.staff, Config.members. cbn [String.eqb Ascii.eqb Bool.eqb].
      apply in_enumerate. assumption.
    + cbn [fst snd].
      apply (in_map (fun slot => cp_model.Add_ (cp_model.Linear
               (cp_model.lvar (cp_model.sched eid slot Appointment.NOT_HERE)) cp_model.EQ
               (cp_model.lconst (Run.bool_to_Z
                  (negb (Py.contains (Shift.time_range (Employee.shift e)) slot))))))).
      assumption.
  - intros eid slot Heid Hslot. apply in_or_app; right. apply in_or_app; left.
    apply in_flat_map. exists eid. split; [assumption|].
    apply (in_map (fun slot => cp_model.Add_ (cp_model.ExactlyOne
             (map (fun appt => cp_model.Pos (cp_model.sched eid slot appt)) Appointment.all)))).
    assumption.
  - intros slot Hslot.
    split; [|split]; [| intros eid Heid |];
      do 5 (apply in_or_app; right); apply in_or_app; left;
      apply in_flat_map; exists slot; (split; [assumption|]).
    + left. reflexivity.
    + right. apply in_or_app; left.
      unfold Run.ortools_or. right. rewrite map_map.
      apply (in_map (fun eid => cp_model.Add_ (cp_model.Implication
               (cp_model.Pos (cp_model.sched eid slot Appointment.CASHIER))
               (cp_model.Pos (Run.noncashiercashiers slot))))). assumption.
    + right. apply in_or_app; right. left. reflexivity.
Qed.

Lemma exactly_one_spec (a : cp_model.assignment) (vs : list cp_model.var) :
  (forall v, In v vs -> 0 <= a v <= 1) ->
  cp_model.item_ok a (cp_model.Add_ (cp_model.ExactlyOne (map cp_model.Pos vs))) = true ->
  total a vs = 1.
Proof.
  intros Hdom H.
  unfold cp_model.item_ok, cp_model.Add_, cp_model.holds in H.
  cbn [cp_model.enforce cp_model.what forallb implb cp_model.body_holds] in H.
  apply Z.eqb_eq in H. rewrite <- H. clear H.
  induction vs as [|v vs IH]; cbn [map cp_model.count_true fold_right total]; [reflexivity|].
  fold (cp_model.count_true a (map cp_model.Pos vs)).
  rewrite IH by (intros w Hw; apply Hdom; right; assumption).
  cbn [cp_model.lit_holds]. rewrite boolean_indicator by (apply Hdom; left; reflexivity).
  reflexivity.
Qed.

(** The seven activity variables of an employee at a slot are Boolean and
    sum to 1. *)
Lemma activities_sum_to_one (c : Config.t) (hard : list cp_model.item)
    (a : cp_model.assignment) (eid : nat) (slot : Z) :
  Run.add_hard_constraints c = Ok hard ->
  cp_model.feasible a (Run.new_sched c ++ hard) = true ->
  In eid (Config.all_ids c) -> In slot Store.slots ->
  (forall appt, In appt Appointment.all -> 0 <= a (cp_model.sched eid slot appt) <= 1)
  /\ a (cp_model.sched eid slot 0) + a (cp_model.sched eid slot 1)
     + a (cp_model.sched eid slot 2) + a (cp_model.sched eid slot 3)
     + a (cp_model.sched eid slot 4) + a (cp_model.sched eid slot 5)
     + a (cp_model.sched eid slot 6) = 1.
Proof.
  intros Hhard Hfeas Heid Hslot. apply feasible_app in Hfeas as [Hsched Hfeas].
  destruct (hard_constraints_present_more c hard Hhard) as (_ & Hone & _).
  specialize (Hone eid slot Heid Hslot). apply (feasible_in a _ _ Hfeas) in Hone.
  rewrite <- map_map in Hone. apply exactly_one_spec in Hone.
  2:{ intros v Hv. apply in_map_iff in Hv as (appt & <- & Happt).
      apply (sched_boolean c); assumption. }
  split; [intros appt Happt; apply (sched_boolean c); assumption|].
  change Appointment.all with [0; 1; 2; 3; 4; 5; 6] in Hone.
  cbn [map total] in Hone. lia.
Qed.

(** In every solution of the model with the hard constraints, every
    employee has exactly one activity at every slot of the day. *)
Theorem one_activity_per_slot (c : Config.t) (hard : list cp_model.item)
    (a : cp_model.assignment) (eid : nat) (slot : Z) :
  Run.add_hard_constraints c = Ok hard ->
  cp_model.feasible a (Run.new_sched c ++ hard) = true ->
  In eid (Config.all_ids c) -> In slot Store.slots ->
  exists appt,
    In appt Appointment.all
    /\ a (cp_model.sched eid slot appt) = 1
    /\ forall appt', In appt' Appointment.all -> appt' <> appt ->
                     a (cp_model.sched eid slot appt') = 0.
Proof.
  intros Hhard Hfeas Heid Hslot.
  destruct (activities_sum_to_one c hard a eid slot Hhard Hfeas Heid Hslot) as [Hdom Hone].
  change Appointment.all with [0; 1; 2; 3; 4; 5; 6] in *.
  pose proof (Hdom 0 ltac:(cbn [In]; tauto)). pose proof (Hdom 1 ltac:(cbn [In]; tauto)).
  pose proof (Hdom 2 ltac:(cbn [In]; tauto)). pose proof (Hdom 3 ltac:(cbn [In]; tauto)).
  pose proof (Hdom 4 ltac:(cbn [In]; tauto)). pose proof (Hdom 5 ltac:(cbn [In]; tauto)).
  pose proof (Hdom 6 ltac:(cbn [In]; tauto)).
  assert (Hcase : a (cp_model.sched eid slot 0) = 1 \/ a (cp_model.sched eid slot 1) = 1
                  \/ a (cp_model.sched eid slot 2) = 1 \/ a (cp_model.sched eid slot 3) = 1
                  \/ a (cp_model.sched eid slot 4) = 1 \/ a (cp_model.sched eid slot 5) = 1
                  \/ a (cp_model.sched eid slot 6) = 1) by lia.
  destruct Hcase as [Hc|[Hc|[Hc|[Hc|[Hc|[Hc|Hc]]]]]];
    [exists 0 | exists 1 | exists 2 | exists 3 | exists 4 | exists 5 | exists 6];
    (split; [cbn [In]; tauto|]); (split; [exact Hc|]);
    intros appt' Happt' Hne; cbn [In] in Happt';
    repeat (destruct Happt' as [<-|Happt']; [lia|]); destruct Happt'.
Qed.

Lemma one_activity_per_slot_witness :
  Run.add_hard_constraints demo = Ok (hard_of demo)
  /\ cp_model.feasible demo_solution (Run.new_sched demo ++ hard_of demo) = true
  /\ In 2%nat (Config.all_ids demo) /\ In 13 Store.slots
  /\ exists appt,
       In appt Appointment.all
       /\ demo_solution (cp_model.sched 2 13 appt) = 1
       /\ forall appt', In appt' Appointment.all -> appt' <> appt ->
                        demo_solution (cp_model.sched 2 13 appt') = 0.
Proof.
  assert (H1 : Run.add_hard_constraints demo = Ok (hard_of demo))
    by (vm_compute; reflexivity).
  assert (H2 : cp_model.feasible demo_solution (Run.new_sched demo ++ hard_of demo) = true)
    by (vm_compute; reflexivity).
  assert (H3 : In 2%nat (Config.all_ids demo)) by (right; right; left; reflexivity).
  assert (H4 : In 13 Store.slots) by (apply slots_spec; split; [lia | reflexivity]).
  split; [exact H1|]. split; [exact H2|]. split; [exact H3|]. split; [exact H4|].
  exact (one_activity_per_slot demo (hard_of demo) demo_solution 2 13 H1 H2 H3 H4).
Defined.

(** In every solution of the model with the hard constraints, an employee
    is absent at exactly the slots outside the shift, and has no other
    activity there. *)
Theorem absent_outside_shift (c : Config.t) (hard : list cp_model.item)
    (a : cp_model.assignment) (eid : nat) (e : Employee.t) (slot : Z) :
  Run.add_hard_constraints c = Ok hard ->
  cp_model.feasible a (Run.new_sched c ++ hard) = true ->
  nth_error (Config.employees c) eid = Some e -> In slot Store.slots ->
  (a (cp_model.sched eid slot Appointment.NOT_HERE) = 1
   <-> Py.contains (Shift.time_range (Employee.shift e)) slot = false)
  /\ (Py.contains (Shift.time_range (Employee.shift e)) slot = false ->
      forall appt, In appt Appointment.all -> appt <> Appointment.NOT_HERE ->
                   a (cp_model.sched eid slot appt) = 0).
Proof.
  intros Hhard Hfeas He Hslot.
  assert (Heid : In eid (Config.all_ids c)).
  { rewrite all_ids_spec. apply in_seq. split; [lia|]. cbn.
    apply nth_error_Some. congruence. }
  destruct (activities_sum_to_one c hard a eid slot Hhard Hfeas Heid Hslot) as [Hdom Hone].
  apply feasible_app in Hfeas as [Hsched Hfeas].
  destruct (hard_constraints_present_more c hard Hhard) as (Hshift & _ & _).
  specialize (Hshift eid e slot He Hslot). apply (feasible_in a _ _ Hfeas) in Hshift.
  apply linear_eq_var in Hshift. unfold Appointment.NOT_HERE in *.
  destruct (Py.contains (Shift.time_range (Employee.shift e)) slot); cbn in Hshift.
  - split; [split; intros; [lia | discriminate] | discriminate].
  - split; [split; auto|]. intros _ appt Happt Hne.
    change Appointment.all with [0; 1; 2; 3; 4; 5; 6] in *.
    pose proof (Hdom 1 ltac:(cbn [In]; tauto)). pose proof (Hdom 2 ltac:(cbn [In]; tauto)).
    pose proof (Hdom 3 ltac:(cbn [In]; tauto)). pose proof (Hdom 4 ltac:(cbn [In]; tauto)).
    pose proof (Hdom 5 ltac:(cbn [In]; tauto)). pose proof (Hdom 6 ltac:(cbn [In]; tauto)).
    cbn [In] in Happt.
    repeat (destruct Happt as [<-|Happt]; [lia|]). destruct Happt.
Qed.

Lemma absent_outside_shift_witness :
  Run.add_hard_constraints demo = Ok (hard_of demo)
  /\ cp_model.feasible demo_solution (Run.new_sched demo ++ hard_of demo) = true
  /\ nth_error (Config.employees demo) 1
     = Some (Employee.mk (Shift.mk "E" true (Py.range2 0 34)) "T2" "NBC")
  /\ In 36 Store.slots
  /\ (demo_solution (cp_model.sched 1 36 Appointment.NOT_HERE) = 1
      <-> Py.contains (Py.range2 0 34) 36 = false)
  /\ (Py.contains (Py.range2 0 34) 36 = false ->
      forall appt, In appt Appointment.all -> appt <> Appointment.NOT_HERE ->
                   demo_solution (cp_model.sched 1 36 appt) = 0).
Proof.
  assert (H1 : Run.add_hard_constraints demo = Ok (hard_of demo))
    by (vm_compute; reflexivity).
  assert (H2 : cp_model.feasible demo_solution (Run.new_sched demo ++ hard_of demo) = true)
    by (vm_compute; reflexivity).
  assert (H3 : nth_error (Config.employees demo) 1
               = Some (Employee.mk (Shift.mk "E" true (Py.range2 0 34)) "T2" "NBC"))
    by reflexivity.
  assert (H4 : In 36 Store.slots) by (apply slots_spec; split; [lia | reflexivity]).
  split; [exact H1|]. split; [exact H2|]. split; [exact H3|]. split; [exact H4|].
  exact (absent_outside_shift demo (hard_of demo) demo_solution 1 _ 36 H1 H2 H3 H4).
Defined.

(** In every solution of the model with the hard constraints, at a slot
    where an employee who is not a designated cashier has the cashier
    activity, exactly one employee has it. *)
Theorem lone_non_designated_cashier (c : Config.t) (hard : list cp_model.item)
    (a : cp_model.assignment) (eid : nat) (slot : Z) :
  Run.add_hard_constraints c = Ok hard ->
  cp_model.feasible a (Run.new_sched c ++ hard) = true ->
  In slot Store.slots ->
  In eid (Config.employee_ids c "CASHIER" true) ->
  a (cp_model.sched eid slot Appointment.CASHIER) = 1 ->
  num_assigned c a slot Appointment.CASHIER = 1.
Proof.
  intros Hhard Hfeas Hslot Heid Hcash. apply feasible_app in Hfeas as [Hsched Hfeas].
  destruct (hard_constraints_present_more c hard Hhard) as (_ & _ & Hnon).
  destruct (Hnon slot Hslot) as (_ & Himp & Hsum).
  apply (feasible_in a _ _ Hfeas) in Hsum.
  pose proof (implication_ok a _ _ (feasible_in a _ _ Hfeas (Himp eid Heid)) Hcash) as Hncc.
  rewrite gated_item_ok, Hncc in Hsum.
  cbn [Z.eqb Pos.eqb implb cp_model.body_holds cp_model.cmp_holds] in Hsum.
  rewrite eval_lsum, eval_lconst in Hsum. apply Z.eqb_eq in Hsum.
  unfold num_assigned.
  rewrite <- (filter_map_length (fun v => a v =? 1)
                (fun eid => cp_model.sched eid slot Appointment.CASHIER) (Config.all_ids c)).
  rewrite <- total_count; [exact Hsum|].
  intros v Hv. apply in_map_iff in Hv as (eid' & <- & Heid').
  apply (sched_boolean c); auto. apply appointments_spec. cbv. intuition discriminate.
Qed.

Lemma lone_non_designated_cashier_witness :
  Run.add_hard_constraints demo = Ok (hard_of demo)
  /\ cp_model.feasible demo_solution (Run.new_sched demo ++ hard_of demo) = true
  /\ In 13 Store.slots
  /\ In 2%nat (Config.employee_ids demo "CASHIER" true)
  /\ demo_solution (cp_model.sched 2 13 Appointment.CASHIER) = 1
  /\ num_assigned demo demo_solution 13 Appointment.CASHIER = 1.
Proof.
  assert (H1 : Run.add_hard_constraints demo = Ok (hard_of demo))
    by (vm_compute; reflexivity).
  assert (H2 : cp_model.feasible demo_solution (Run.new_sched demo ++ hard_of demo) = true)
    by (vm_compute; reflexivity).
  assert (H3 : In 13 Store.slots) by (apply slots_spec; split; [lia | reflexivity]).
  assert (H4 : In 2%nat (Config.employee_ids demo "CASHIER" true))
    by (right; left; reflexivity).
  assert (H5 : demo_solution (cp_model.sched 2 13 Appointment.CASHIER) = 1) by reflexivity.
  split; [exact H1|]. split; [exact H2|]. split; [exact H3|]. split; [exact H4|].
  split; [exact H5|].
  exact (lone_non_designated_cashier demo (hard_of demo) demo_solution 2 13 H1 H2 H3 H4 H5).
Defined.

(** Two designated cashiers in all day with one register required all
    day: the count is below the number of designated cashiers from the
    first slot, and the program ends with the configuration error. *)
Example two_cashiers_one_register :
  forall Solve,
    Main.main Solve two_cashiers_config 0
    = (Raise (SystemExit
         "config.REGISTER_COUNT needs updating: At 10:00, register_count is 1 but there are 2 designated cashiers!"),
       []).
Proof. intros Solve. vm_compute. reflexivity. Qed.

(** ** The objective of the soft layer *)

Lemma eval_terms_app (a : cp_model.assignment) (t1 t2 : list (Z * cp_model.var)) :
  fold_right (fun (t : Z * cp_model.var) acc => fst t * a (snd t) + acc) 0 (t1 ++ t2)
  = fold_right (fun (t : Z * cp_model.var) acc => fst t * a (snd t) + acc) 0 t1
    + fold_right (fun (t : Z * cp_model.var) acc => fst t * a (snd t) + acc) 0 t2.
Proof. induction t1 as [|t t1 IH]; cbn [app fold_right]; [reflexivity | rewrite IH; lia]. Qed.

Lemma eval_ladd (a : cp_model.assignment) (e1 e2 : cp_model.lin) :
  cp_model.eval a (cp_model.ladd e1 e2) = cp_model.eval a e1 + cp_model.eval a e2.
Proof.
  unfold cp_model.eval, cp_model.ladd; cbn [cp_model.terms cp_model.const].
  rewrite eval_terms_app. lia.
Qed.

Lemma eval_lscale (a : cp_model.assignment) (k : Z) (e : cp_model.lin) :
  cp_model.eval a (cp_model.lscale k e) = k * cp_model.eval a e.
Proof.
  unfold cp_model.eval, cp_model.lscale; cbn [cp_model.terms cp_model.const].
  assert (H : forall ts,
            fold_right (fun (t : Z * cp_model.var) acc => fst t * a (snd t) + acc) 0
              (map (fun t : Z * cp_model.var => (k * fst t, snd t)) ts)
            = k * fold_right (fun (t : Z * cp_model.var) acc => fst t * a (snd t) + acc) 0 ts).
  { induction ts as [|t ts IH]; cbn [map fold_right fst snd]; [lia | rewrite IH; lia]. }
  rewrite H. lia.
Qed.

Lemma eval_lsub (a : cp_model.assignment) (e1 e2 : cp_model.lin) :
  cp_model.eval a (cp_model.lsub e1 e2) = cp_model.eval a e1 - cp_model.eval a e2.
Proof. unfold cp_model.lsub. rewrite eval_ladd, eval_lscale. lia. Qed.

Lemma soft_objective_value (a : cp_model.assignment) (scs : list Run.SoftConstraint) :
  cp_model.eval a (Run.soft_objective scs) = weighted_disabled a scs.
Proof.
  unfold Run.soft_objective.
  induction scs as [|sc scs IH]; cbn [map cp_model.lsum_lin fold_right weighted_disabled];
    [reflexivity|].
  fold (cp_model.lsum_lin
          (map (fun sc => cp_model.lscale (Run.weight sc)
                            (cp_model.lsub (cp_model.lconst 1)
                               (cp_model.lvar (Run.enable_of sc)))) scs)).
  rewrite eval_ladd, eval_lscale, eval_lsub, eval_lconst, eval_lvar, IH. reflexivity.
Qed.

(** The model that [Run(config)] builds minimizes the weighted sum of the
    disabled toggles: in every assignment its objective has the value
    of the sum, over the registry, of weight times (1 - toggle). *)
Theorem objective_is_weighted_disabled (c : Config.t) (run : Run.t)
    (a : cp_model.assignment) :
  Run.init c = Ok run ->
  exists objective,
    cp_model.objective (Run.model run) = Some objective
    /\ cp_model.eval a objective = weighted_disabled a Run.soft_constraints.
Proof.
  unfold Run.init. intros H.
  apply bind_ok in H as (hard & _ & H).
  apply bind_ok in H as (soft_layer & _ & H).
  apply bind_ok in H as (idealistic & _ & H).
  apply Ok_inj in H. subst run. cbn [Run.model cp_model.objective].
  eexists. split; [reflexivity | apply soft_objective_value].
Qed.

Lemma objective_is_weighted_disabled_witness :
  Run.init demo = Ok (run_of demo)
  /\ exists objective,
       cp_model.objective (Run.model (run_of demo)) = Some objective
       /\ cp_model.eval demo_solution objective
          = weighted_disabled demo_solution Run.soft_constraints.
Proof.
  assert (H : Run.init demo = Ok (run_of demo)) by (vm_compute; reflexivity).
  split; [exact H|].
  exact (objective_is_weighted_disabled demo (run_of demo) demo_solution H).
Defined.

(** On the day worked out above the only disabled record weighs 4. *)
Example demo_objective :
  weighted_disabled demo_solution Run.soft_constraints = 4.
Proof. vm_compute. reflexivity. Qed.

(** ** The time grid, from slots to times and back *)

Lemma in_range1 (n : nat) (x : Z) :
  0 <= x < Z.of_nat n -> In x (Py.elems (Py.range1 (Z.of_nat n))).
Proof.
  intros Hx. unfold Py.elems, Py.range1, Py.len; cbn [Py.start Py.stop Py.step].
  apply in_map_iff. exists (Z.to_nat x). split; [lia|].
  apply in_seq. replace (Z.of_nat n - 0 + 1 - 1) with (Z.of_nat n) by lia.
  rewrite Z.div_1_r. lia.
Qed.

(** Every slot of the day, the closing slot included, is printed as a
    valid time of the open hours, and reading that time gives the slot
    back. *)
Theorem slot_to_time_inverse (slot : Z) :
  0 <= slot <= Store.NUM_SLOTS ->
  valid_time (Store.slot_to_time slot) = true
  /\ Store.time_to_slot (Store.slot_to_time slot) = Ok slot.
Proof.
  intros Hs. split; [|apply slot_roundtrip; assumption].
  assert (Hall : forallb (fun s => valid_time (Store.slot_to_time s))
                   (Py.elems (Py.range1 (Z.of_nat 41))) = true)
    by (vm_compute; reflexivity).
  rewrite forallb_forall in Hall. apply Hall. apply in_range1.
  change Store.NUM_SLOTS with 40 in Hs. lia.
Qed.

Lemma slot_to_time_inverse_witness :
  0 <= 27 <= Store.NUM_SLOTS
  /\ valid_time (Store.slot_to_time 27) = true
  /\ Store.time_to_slot (Store.slot_to_time 27) = Ok 27.
Proof.
  assert (H : 0 <= 27 <= Store.NUM_SLOTS) by (change Store.NUM_SLOTS with 40; lia).
  split; [exact H | exact (slot_to_time_inverse 27 H)].
Defined.

(** Two hours past closing the twelve-hour dial comes round: slot 48 is
    printed as 10:00, which reads as slot 0. *)
Example slot_to_time_wraps :
  Store.slot_to_time 27 = "4:45" /\ Store.slot_to_time 48 = "10:00"
  /\ Store.time_to_slot (Store.slot_to_time 48) = Ok 0.
Proof. repeat split; reflexivity. Qed.

(** ** Shifts given as a time range, and the lunch tables *)

Lemma template_shift (config : string) (is_fulltime : bool) (s : Shift.t) :
  In config Shift.templates ->
  Shift.init config is_fulltime = Ok s ->
  Shift.config s = config /\ Shift.is_fulltime s = is_fulltime
  /\ In (config, is_fulltime) listed_pairs.
Proof.
  intros Hin H.
  destruct Hin as [<-|[<-|[<-|[]]]]; destruct is_fulltime; vm_compute in H;
    try discriminate; apply Ok_inj in H; subst s; cbn [Shift.config Shift.is_fulltime];
    (split; [reflexivity|]); (split; [reflexivity|]); unfold listed_pairs; cbn [In]; tauto.
Qed.

Lemma similar_template (s s' : Shift.t) :
  Shift.similar s = Ok s' ->
  Shift.is_fulltime s' = Shift.is_fulltime s
  /\ In (Shift.config s', Shift.is_fulltime s') listed_pairs
  /\ Py.mem (Shift.config s') Shift.templates = true.
Proof.
  unfold Shift.similar. intros H.
  assert (Hgen : exists config, In config Shift.templates
                                /\ Shift.init config (Shift.is_fulltime s) = Ok s').
  { destruct (_ <? _); [exists "E"; split; [cbn; tauto | assumption]|].
    destruct (_ <? _); [exists "M" | exists "L"]; (split; [cbn; tauto | assumption]). }
  destruct Hgen as (config & Hin & Hinit).
  destruct (template_shift _ _ _ Hin Hinit) as (Hc & Hf & Hl).
  split; [assumption|]. split; [rewrite Hc, Hf; assumption|].
  rewrite Hc. destruct Hin as [<-|[<-|[<-|[]]]]; reflexivity.
Qed.

Lemma strict_template_cases (s : Shift.t) (r : Py.range) :
  Shift.lunch_slots_strict_template s = Ok r ->
  r = Py.mkrange 8 16 4 \/ r = Py.mkrange 12 20 4 \/ r = Py.mkrange 16 24 4.
Proof.
  unfold Shift.lunch_slots_strict_template, Shift.strict_table.
  cbn [Py.lookup]. unfold Py.pair_eqb; cbn [fst snd].
  destruct (Shift.is_fulltime s); cbn [Bool.eqb andb];
    repeat rewrite andb_true_r; repeat rewrite andb_false_r;
    repeat match goal with
           | |- context [String.eqb ?a ?b] => destruct (String.eqb a b)
           end;
    intros H; vm_compute in H; try discriminate; apply Ok_inj in H; subst r; tauto.
Qed.

(** Whenever [lunch_slots_strict] returns, its range holds two of the
    four lunch starts of [lunch_slots], an hour apart: 12:00 and 1:00,
    1:00 and 2:00, or 2:00 and 3:00. *)
Theorem lunch_slots_strict_two_starts (s : Shift.t) (r : Py.range) :
  Shift.lunch_slots_strict s = Ok r ->
  (Py.elems r = [8; 12] \/ Py.elems r = [12; 16] \/ Py.elems r = [16; 20])
  /\ incl (Py.elems r) (Py.elems Shift.lunch_slots).
Proof.
  intros H.
  assert (Hcases : r = Py.mkrange 8 16 4 \/ r = Py.mkrange 12 20 4 \/ r = Py.mkrange 16 24 4).
  { unfold Shift.lunch_slots_strict in H.
    destruct (negb (Py.mem (Shift.config s) Shift.templates)).
    - apply bind_ok in H as (s' & _ & H). eapply strict_template_cases; eassumption.
    - eapply strict_template_cases; eassumption. }
  change (Py.elems Shift.lunch_slots) with [8; 12; 16; 20].
  destruct Hcases as [-> | [-> | ->]];
    [ change (Py.elems (Py.mkrange 8 16 4)) with [8; 12]
    | change (Py.elems (Py.mkrange 12 20 4)) with [12; 16]
    | change (Py.elems (Py.mkrange 16 24 4)) with [16; 20] ];
    (split; [tauto|]); intros x Hx; cbn [In] in *; tauto.
Qed.

Lemma lunch_slots_strict_two_starts_witness :
  Shift.lunch_slots_strict (Shift.mk "10:00-5:00" false (Py.range2 0 28))
  = Ok (Py.mkrange 8 16 4)
  /\ (Py.elems (Py.mkrange 8 16 4) = [8; 12] \/ Py.elems (Py.mkrange 8 16 4) = [12; 16]
      \/ Py.elems (Py.mkrange 8 16 4) = [16; 20])
  /\ incl (Py.elems (Py.mkrange 8 16 4)) (Py.elems Shift.lunch_slots).
Proof.
  assert (H : Shift.lunch_slots_strict (Shift.mk "10:00-5:00" false (Py.range2 0 28))
              = Ok (Py.mkrange 8 16 4)) by reflexivity.
  split; [exact H | exact (lunch_slots_strict_two_starts _ _ H)].
Defined.

Lemma order_template_cases (s : Shift.t) (lunch_time : string) :
  In (Shift.break_lunch_order_template s lunch_time) ["L12"; "1L2"; "12L"]
  /\ (lunch_time = "12:00" -> Shift.break_lunch_order_template s lunch_time = "L12")
  /\ (Shift.break_lunch_order_template s lunch_time = "12L" ->
      lunch_time = "3:00" /\ Shift.config s = "E" /\ Shift.is_fulltime s = false).
Proof.
  unfold Shift.break_lunch_order_template.
  destruct (String.eqb_spec lunch_time "1:00") as [->|H1];
    destruct (String.eqb_spec (Shift.config s) "E") as [HE|HE];
    destruct (String.eqb_spec (Shift.config s) "L") as [HL|HL];
    destruct (Shift.is_fulltime s);
    cbn [andb negb];
    try (destruct (String.eqb_spec lunch_time "2:00") as [->|H2]; cbn [andb negb]);
    try (destruct (String.eqb_spec lunch_time "3:00") as [->|H3]; cbn [andb negb]);
    (split; [cbn [In]; tauto|]); split; intros H; try discriminate; try congruence; auto.
Qed.

(** [break_lunch_order] only ever answers one of the three orders that
    [imbalances] and [ideally_distribute_breaks_and_lunches] know, so the
    look-up in [imbalances] finds its key (two differences for '1L2',
    three for the others); lunch at 12:00 always comes before both
    breaks, and lunch after both breaks arises only for lunch at 3:00 on a
    part-time Early shift. *)
Theorem break_lunch_order_is_known (s : Shift.t) (lunch_time order : string)
    (break1_slot break2_slot lunch_slot : cp_model.lin) :
  Shift.break_lunch_order s lunch_time = Ok order ->
  In order ["L12"; "1L2"; "12L"]
  /\ (exists ims,
        Run.imbalances order (Shift.time_range s) break1_slot break2_slot lunch_slot = Ok ims
        /\ List.length ims = if String.eqb order "1L2" then 2%nat else 3%nat)
  /\ (lunch_time = "12:00" -> order = "L12")
  /\ (order = "12L" -> lunch_time = "3:00" /\ Shift.is_fulltime s = false).
Proof.
  intros H.
  assert (Hs : exists s', Shift.is_fulltime s' = Shift.is_fulltime s
                          /\ order = Shift.break_lunch_order_template s' lunch_time).
  { unfold Shift.break_lunch_order in H.
    destruct (negb (Py.mem (Shift.config s) Shift.templates)).
    - apply bind_ok in H as (s' & Hsim & H). apply Ok_inj in H.
      exists s'. split; [apply (similar_template s s' Hsim) | congruence].
    - apply Ok_inj in H. exists s. split; [reflexivity | congruence]. }
  destruct Hs as (s' & Hft & ->).
  destruct (order_template_cases s' lunch_time) as (Hin & H12 & HL).
  split; [assumption|]. split; [|split; [assumption|]].
  - cbn [In] in Hin. destruct Hin as [<-|[<-|[<-|[]]]]; eexists; split; reflexivity.
  - intros Ho. destruct (HL Ho) as (Ht & _ & Hf). split; congruence.
Qed.

Lemma break_lunch_order_is_known_witness :
  Shift.break_lunch_order (Shift.mk "E" false (Py.range2 0 31)) "3:00" = Ok "12L"
  /\ In "12L" ["L12"; "1L2"; "12L"]
  /\ (exists ims,
        Run.imbalances "12L" (Py.range2 0 31) (cp_model.lconst 5) (cp_model.lconst 9)
          (cp_model.lconst 20) = Ok ims
        /\ List.length ims = if String.eqb "12L" "1L2" then 2%nat else 3%nat)
  /\ ("3:00" = "12:00" -> "12L" = "L12")
  /\ ("12L" = "12L" -> "3:00" = "3:00" /\ false = false).
Proof.
  assert (H : Shift.break_lunch_order (Shift.mk "E" false (Py.range2 0 31)) "3:00" = Ok "12L")
    by reflexivity.
  split; [exact H|].
  exact (break_lunch_order_is_known (Shift.mk "E" false (Py.range2 0 31)) "3:00" "12L"
           (cp_model.lconst 5) (cp_model.lconst 9) (cp_model.lconst 20) H).
Defined.

(** A shift given as an explicit time range takes the lunch priority,
    the strict lunch window and the break/lunch orders of the Early
    template when it starts before 11:00; otherwise, when it ends at 12:00
    or later, those of the Late template, never those of the Middle one;
    these queries then do not raise.  A full-time range that starts at
    11:00 or later and ends before 12:00 is sent to the Middle template,
    which no table lists for full-time employees: KeyError. *)
Theorem explicit_range_as_template (s : Shift.t) :
  Py.mem (Shift.config s) Shift.templates = false ->
  (Py.start (Shift.time_range s) < Store.slot_at "11:00" ->
     exists early,
       Shift.similar s = Ok early /\ Shift.config early = "E"
       /\ Shift.lunch_priority s = Ok 2
       /\ Shift.lunch_slots_strict s = Ok (Py.mkrange 8 16 4)
       /\ forall lunch_time,
            Shift.break_lunch_order s lunch_time
            = Ok (Shift.break_lunch_order_template early lunch_time))
  /\ (Store.slot_at "11:00" <= Py.start (Shift.time_range s) ->
      Store.slot_at "12:00" <= Py.stop (Shift.time_range s) ->
      exists late,
        Shift.similar s = Ok late /\ Shift.config late = "L"
        /\ Shift.lunch_priority s = Ok 0
        /\ Shift.lunch_slots_strict s = Ok (Py.mkrange 16 24 4)
        /\ forall lunch_time,
             Shift.break_lunch_order s lunch_time
             = Ok (Shift.break_lunch_order_template late lunch_time))
  /\ (Store.slot_at "11:00" <= Py.start (Shift.time_range s) ->
      Py.stop (Shift.time_range s) < Store.slot_at "12:00" ->
      Shift.is_fulltime s = true ->
      Shift.similar s = Raise KeyError
      /\ Shift.lunch_priority s = Raise KeyError
      /\ Shift.lunch_slots_strict s = Raise KeyError
      /\ forall lunch_time, Shift.break_lunch_order s lunch_time = Raise KeyError).
Proof.
  intros Hmem.
  unfold Shift.lunch_priority, Shift.lunch_slots_strict, Shift.break_lunch_order, Shift.similar.
  rewrite Hmem. cbn [negb].
  change (Store.slot_at "11:00") with 4. change (Store.slot_at "12:00") with 8.
  split; [|split].
  - intros H. apply Z.ltb_lt in H. rewrite H.
    destruct (Shift.is_fulltime s); eexists; (split; [reflexivity|]);
      repeat split; reflexivity.
  - intros H1 H2. apply Z.ltb_ge in H1, H2. rewrite H1, H2.
    destruct (Shift.is_fulltime s); eexists; (split; [reflexivity|]);
      repeat split; reflexivity.
  - intros H1 H2 Hft. apply Z.ltb_ge in H1. apply Z.ltb_lt in H2. rewrite H1, H2, Hft.
    repeat split; reflexivity.
Qed.

Lemma explicit_range_as_template_witness :
  Py.mem "10:00-5:00" Shift.templates = false
  /\ (Py.start (Py.range2 0 28) < Store.slot_at "11:00" ->
        exists early,
          Shift.similar (Shift.mk "10:00-5:00" false (Py.range2 0 28)) = Ok early
          /\ Shift.config early = "E"
          /\ Shift.lunch_priority (Shift.mk "10:00-5:00" false (Py.range2 0 28)) = Ok 2
          /\ Shift.lunch_slots_strict (Shift.mk "10:00-5:00" false (Py.range2 0 28))
             = Ok (Py.mkrange 8 16 4)
          /\ forall lunch_time,
               Shift.break_lunch_order (Shift.mk "10:00-5:00" false (Py.range2 0 28)) lunch_time
               = Ok (Shift.break_lunch_order_template early lunch_time)).
Proof.
  split; [reflexivity|].
  exact (proj1 (explicit_range_as_template (Shift.mk "10:00-5:00" false (Py.range2 0 28))
                  eq_refl)).
Defined.

(** The Sunday shift of [config.py] given as '10:00-5:00'. *)
Example sunday_explicit_range :
  Shift.init "10:00-5:00" false = Ok (Shift.mk "10:00-5:00" false (Py.range2 0 28)).
Proof. reflexivity. Qed.

(** ** Parsing a shift given as a time range *)

Lemma index_split (c : ascii) (s : string) (n : nat) :
  Py.index c s = Some n ->
  s = (Py.take n s ++ String c (Py.drop (n + 1) s))%string
  /\ Py.index c (Py.take n s) = None.
Proof.
  revert n; induction s as [|a s IH]; intros n H; cbn [Py.index] in H; [discriminate|].
  destruct (Ascii.eqb_spec a c) as [->|Hne].
  - injection H as <-. cbn. auto.
  - destruct (Py.index c s) as [m|] eqn:Hm; [|discriminate]. injection H as <-.
    destruct (IH m eq_refl) as [IH1 IH2]. cbn [Py.take Py.drop Nat.add append Py.index].
    split; [f_equal; exact IH1|].
    destruct (Ascii.eqb_spec a c); [congruence|]. rewrite IH2. reflexivity.
Qed.

Lemma index_app (c : ascii) (s1 s2 : string) :
  Py.index c (s1 ++ s2)%string
  = match Py.index c s1 with
    | Some n => Some n
    | None => match Py.index c s2 with
              | Some n => Some (String.length s1 + n)%nat
              | None => None
              end
    end.
Proof.
  induction s1 as [|a s1 IH]; cbn [append Py.index String.length].
  - destruct (Py.index c s2); reflexivity.
  - destruct (Ascii.eqb a c); [reflexivity|]. rewrite IH.
    destruct (Py.index c s1); [reflexivity|]. destruct (Py.index c s2); reflexivity.
Qed.

Lemma digits_no_dash (s : string) : all_digits s = true -> Py.index "-"%char s = None.
Proof.
  induction s as [|a s IH]; cbn [all_digits Py.index]; [reflexivity|].
  intros H. apply andb_prop in H as [Ha Hs]. rewrite (IH Hs).
  destruct (Ascii.eqb_spec a "-"%char) as [->|]; [discriminate Ha | reflexivity].
Qed.

Lemma valid_time_no_dash (t : string) : valid_time t = true -> Py.index "-"%char t = None.
Proof.
  unfold valid_time. destruct (Py.index ":"%char t) as [split|] eqn:Hsplit; [|discriminate].
  intros H. repeat (apply andb_prop in H as [H ?]).
  destruct (index_split _ _ _ Hsplit) as [Heq _]. rewrite Heq.
  rewrite index_app, (digits_no_dash _ H). cbn [Py.index].
  change (Ascii.eqb ":"%char "-"%char) with false. cbv iota.
  rewrite digits_no_dash by assumption. reflexivity.
Qed.

Lemma take_app (s1 s2 : string) : Py.take (String.length s1) (s1 ++ s2)%string = s1.
Proof. induction s1 as [|a s1 IH]; cbn; [destruct s2; reflexivity | rewrite IH; reflexivity]. Qed.

Lemma drop_app (s1 s2 : string) : Py.drop (String.length s1) (s1 ++ s2)%string = s2.
Proof. induction s1 as [|a s1 IH]; cbn; [destruct s2; reflexivity | exact IH]. Qed.

Lemma drop_dash (s1 s2 : string) :
  Py.drop (String.length s1 + 1) (s1 ++ "-" ++ s2)%string = s2.
Proof. induction s1 as [|a s1 IH]; cbn; [destruct s2; reflexivity | exact IH]. Qed.

(** A shift written as two valid times joined by a dash is the range of
    slots from the first time to the second, whatever the employee's
    full-time status; no template is consulted. *)
Theorem explicit_range_shift (t_start t_stop : string) (is_fulltime : bool) :
  valid_time t_start = true -> valid_time t_stop = true ->
  exists a b,
    Store.time_to_slot t_start = Ok a /\ Store.time_to_slot t_stop = Ok b
    /\ Shift.init (t_start ++ "-" ++ t_stop) is_fulltime
       = Ok (Shift.mk (t_start ++ "-" ++ t_stop) is_fulltime (Py.range2 a b)).
Proof.
  intros Ha Hb.
  destruct (valid_time_slot _ Ha) as (a & Hsa & _).
  destruct (valid_time_slot _ Hb) as (b & Hsb & _).
  exists a, b. split; [assumption|]. split; [assumption|].
  assert (Hidx : Py.index "-"%char (t_start ++ "-" ++ t_stop)
                 = Some (String.length t_start)).
  { rewrite index_app, (valid_time_no_dash _ Ha). cbn [append Py.index].
    change (Ascii.eqb "-"%char "-"%char) with true. cbv iota. f_equal. lia. }
  assert (Hmem : Py.mem (t_start ++ "-" ++ t_stop) Shift.templates = false).
  { unfold Py.mem, Shift.templates. cbn [existsb].
    repeat match goal with
           | |- context [String.eqb ?x ?y] =>
               destruct (String.eqb_spec x y) as [Heq|_];
               [rewrite Heq in Hidx; cbn in Hidx; discriminate|]
           end.
    reflexivity. }
  unfold Shift.init. rewrite Hmem, Hidx. cbn [bind fst snd].
  rewrite take_app, drop_dash, Hsa, Hsb. reflexivity.
Qed.

Lemma explicit_range_shift_witness :
  valid_time "10:00" = true /\ valid_time "5:00" = true
  /\ exists a b,
       Store.time_to_slot "10:00" = Ok a /\ Store.time_to_slot "5:00" = Ok b
       /\ Shift.init ("10:00" ++ "-" ++ "5:00") false
          = Ok (Shift.mk ("10:00" ++ "-" ++ "5:00") false (Py.range2 a b)).
Proof.
  split; [reflexivity|]. split; [reflexivity|].
  exact (explicit_range_shift "10:00" "5:00" false eq_refl eq_refl).
Defined.

(** ** Filtering the roster *)

Lemma members_filter (c : Config.t) (filt_type : string) (opposite : bool) :
  filt_type <> "ALL" ->
  exists p : Employee.t -> bool,
    forall opposite,
      Config.members c filt_type opposite
      = filter (fun ee : nat * Employee.t => xorb opposite (p (snd ee)))
          (Py.enumerate (Config.employees c)).
Proof.
  intros Hne. unfold Config.members.
  destruct (String.eqb_spec filt_type "ALL") as [|_]; [contradiction|].
  destruct (String.eqb filt_type "FULLTIME").
  - exists (fun e => Shift.is_fulltime (Employee.shift e)). reflexivity.
  - exists (fun e => String.eqb (Employee.dept e) filt_type). reflexivity.
Qed.

Lemma enumerate_functional {A : Type} (l : list A) (i : nat) (x y : A) :
  In (i, x) (Py.enumerate l) -> In (i, y) (Py.enumerate l) -> x = y.
Proof. rewrite !in_enumerate. congruence. Qed.

Lemma NoDup_map_fst_filter {A : Type} (p : nat * A -> bool) (l : list A) :
  NoDup (map fst (filter p (Py.enumerate l))).
Proof.
  assert (H : NoDup (map fst (Py.enumerate l))) by (rewrite enumerate_fst; apply seq_NoDup).
  revert H. generalize (Py.enumerate l). intros es.
  induction es as [|e es IH]; cbn [map filter]; intros Hnd; [constructor|].
  apply NoDup_cons_iff in Hnd as [Hnotin Hnd].
  destruct (p e); cbn [map]; [|auto].
  constructor; [|auto]. intros Hin. apply Hnotin.
  apply in_map_iff in Hin as (e' & He' & Hin). apply filter_In in Hin as [Hin _].
  apply in_map_iff. exists e'. auto.
Qed.

(** For every filter other than 'ALL', [employee_ids(filt_type)] and
    [employee_ids(filt_type, opposite=True)] split the roster in two:
    every id is in exactly one of them, neither lists an id twice, and
    their lengths add up to the size of the roster.  With 'ALL' the flag
    [opposite] is ignored. *)
Theorem employee_ids_partition (c : Config.t) (filt_type : string) :
  filt_type <> "ALL" ->
  (forall eid, In eid (Config.all_ids c)
               <-> (In eid (Config.employee_ids c filt_type false)
                    \/ In eid (Config.employee_ids c filt_type true)))
  /\ (forall eid, In eid (Config.employee_ids c filt_type false) ->
                  In eid (Config.employee_ids c filt_type true) -> False)
  /\ NoDup (Config.employee_ids c filt_type false)
  /\ NoDup (Config.employee_ids c filt_type true)
  /\ (List.length (Config.employee_ids c filt_type false)
      + List.length (Config.employee_ids c filt_type true)
      = List.length (Config.employees c))%nat
  /\ Config.employee_ids c "ALL" true = Config.all_ids c.
Proof.
  intros Hne. destruct (members_filter c filt_type false Hne) as (p & Hp).
  unfold Config.employee_ids. rewrite !Hp. cbn [xorb].
  split; [|split; [|split; [|split; [|split]]]].
  - intros eid. rewrite all_ids_spec, <- enumerate_fst. rewrite !in_map_iff. split.
    + intros ([i e] & <- & Hin). cbn [fst].
      destruct (p e) eqn:Hpe; [left | right]; exists (i, e);
        (split; [reflexivity|]); apply filter_In; cbn [snd]; rewrite Hpe; auto.
    + intros [(ee & <- & Hin) | (ee & <- & Hin)]; apply filter_In in Hin as [Hin _];
        exists ee; auto.
  - intros eid H1 H2. apply in_map_iff in H1 as ([i e] & <- & H1).
    apply in_map_iff in H2 as ([i' e'] & Hi & H2). cbn [fst] in Hi. subst i'.
    apply filter_In in H1 as [H1 Hp1]. apply filter_In in H2 as [H2 Hp2].
    cbn [snd] in *. rewrite (enumerate_functional _ _ _ _ H1 H2) in Hp1.
    rewrite Hp1 in Hp2. discriminate.
  - apply NoDup_map_fst_filter.
  - apply NoDup_map_fst_filter.
  - rewrite !length_map.
    pose proof (filter_length (fun ee : nat * Employee.t => p (snd ee))
                  (Py.enumerate (Config.employees c))) as Hlen.
    unfold Py.enumerate in Hlen at 3. rewrite length_combine, length_seq, Nat.min_id in Hlen.
    exact Hlen.
  - reflexivity.
Qed.

Lemma employee_ids_partition_witness :
  "CASHIER" <> "ALL"
  /\ (forall eid, In eid (Config.all_ids (config_of user_config 5))
                  <-> (In eid (Config.employee_ids (config_of user_config 5) "CASHIER" false)
                       \/ In eid (Config.employee_ids (config_of user_config 5) "CASHIER" true)))
  /\ (forall eid, In eid (Config.employee_ids (config_of user_config 5) "CASHIER" false) ->
                  In eid (Config.employee_ids (config_of user_config 5) "CASHIER" true) -> False)
  /\ NoDup (Config.employee_ids (config_of user_config 5) "CASHIER" false)
  /\ NoDup (Config.employee_ids (config_of user_config 5) "CASHIER" true)
  /\ (List.length (Config.employee_ids (config_of user_config 5) "CASHIER" false)
      + List.length (Config.employee_ids (config_of user_config 5) "CASHIER" true)
      = List.length (Config.employees (config_of user_config 5)))%nat
  /\ Config.employee_ids (config_of user_config 5) "ALL" true
     = Config.all_ids (config_of user_config 5).
Proof.
  assert (H : "CASHIER" <> "ALL") by discriminate.
  split; [exact H|].
  exact (employee_ids_partition (config_of user_config 5) "CASHIER" H).
Defined.

(** Saturday's designated cashiers in [config.py]: M2, B1 and E1. *)
Example saturday_cashiers :
  Config.employee_ids (config_of user_config 5) "CASHIER" false = [4; 5; 11]%nat
  /\ List.length (Config.employee_ids (config_of user_config 5) "CASHIER" true) = 11%nat.
Proof. split; reflexivity. Qed.

(** ** Reading the configuration *)

Lemma mapM_ok_nth {A B : Type} (f : A -> result B) (l : list A) (bs : list B) :
  mapM f l = Ok bs ->
  List.length bs = List.length l
  /\ forall i b, nth_error bs i = Some b ->
       exists a, nth_error l i = Some a /\ f a = Ok b.
Proof.
  revert bs; induction l as [|x l IH]; intros bs H.
  - apply Ok_inj in H. subst bs. split; [reflexivity|]. intros [|i] b Hb; discriminate.
  - cbn [mapM] in H. apply bind_ok in H as (b0 & Hb0 & H).
    apply bind_ok in H as (bs' & Hbs' & H). apply Ok_inj in H. subst bs.
    destruct (IH _ Hbs') as [Hlen Hnth]. split; [cbn; congruence|].
    intros [|i] b Hb; cbn [nth_error] in *.
    + injection Hb as <-. exists x. auto.
    + apply Hnth. assumption.
Qed.

(** When [Config()] returns, the roster is the day's schedule line by
    line: employee [eid] bears the name of line [eid], the department and
    the full-time flag that [EMPLOYEE_INFO] gives for that name, and the
    shift that [Shift] builds from the line's label and that flag; the
    register epochs are the day's [REGISTER_COUNT] entries in order.  In
    particular every name of the schedule has an entry in [EMPLOYEE_INFO]
    and the three dicts have the day as a key. *)
Theorem config_init_roster (user_config : UserConfig) (day_of_week : Z) (c : Config.t) :
  Config.init user_config day_of_week = Ok c ->
  exists schedule day_counts day_meetings,
    Py.lookup Z.eqb day_of_week (SCHEDULE user_config) = Ok schedule
    /\ Py.lookup Z.eqb day_of_week (REGISTER_COUNT user_config) = Ok day_counts
    /\ Py.lookup Z.eqb day_of_week (MEETINGS user_config) = Ok day_meetings
    /\ List.length (Config.employees c) = List.length schedule
    /\ (forall eid e, nth_error (Config.employees c) eid = Some e ->
          exists shift_config info,
            nth_error schedule eid = Some (shift_config, Employee.name e)
            /\ Py.lookup String.eqb (Employee.name e) (EMPLOYEE_INFO user_config) = Ok info
            /\ Employee.dept e = snd info
            /\ Shift.is_fulltime (Employee.shift e) = fst info
            /\ Shift.init shift_config (fst info) = Ok (Employee.shift e))
    /\ List.length (Config.register_count c) = List.length day_counts
    /\ (forall i epoch, nth_error (Config.register_count c) i = Some epoch ->
          exists t, nth_error day_counts i = Some (Config.count epoch, t)
                    /\ Store.time_to_slot t = Ok (Config.start epoch))
    /\ map fst (Config.meetings c) = map fst day_meetings.
Proof.
  unfold Config.init. intros H.
  apply bind_ok in H as (schedule & Hsched & H).
  apply bind_ok in H as (employees & Hemp & H).
  apply bind_ok in H as (day_meetings & Hdm & H).
  apply bind_ok in H as (meetings & Hmeet & H).
  apply bind_ok in H as (day_counts & Hdc & H).
  apply bind_ok in H as (register_count & Hreg & H).
  apply Ok_inj in H. subst c. cbn [Config.employees Config.register_count Config.meetings].
  exists schedule, day_counts, day_meetings.
  destruct (mapM_ok_nth _ _ _ Hemp) as [Hlen Hnth].
  destruct (mapM_ok_nth _ _ _ Hreg) as [Hlen' Hnth'].
  repeat split; try assumption.
  - intros eid e He. destruct (Hnth eid e He) as ([shift_config e_name] & Hline & Hf).
    apply bind_ok in Hf as (info & Hinfo & Hf).
    apply bind_ok in Hf as (shift & Hshift & Hf).
    apply bind_ok in Hf as (info' & Hinfo' & Hf). apply Ok_inj in Hf. subst e.
    cbn [Employee.name Employee.dept Employee.shift].
    exists shift_config, info. repeat split; try assumption; try congruence.
    unfold Shift.init in Hshift. apply bind_ok in Hshift as (times & _ & Hshift).
    apply bind_ok in Hshift as (a & _ & Hshift). apply bind_ok in Hshift as (b & _ & Hshift).
    apply Ok_inj in Hshift. subst shift. reflexivity.
  - intros i epoch Hep. destruct (Hnth' i epoch Hep) as ([k t] & Hline & Hf).
    cbn [fst snd] in Hf. apply bind_ok in Hf as (s & Hs & Hf). apply Ok_inj in Hf. subst epoch.
    cbn [Config.count Config.start]. exists t. auto.
  - clear - Hmeet. revert meetings Hmeet.
    induction day_meetings as [|nm day_meetings IH]; intros meetings H.
    + apply Ok_inj in H. subst. reflexivity.
    + cbn [mapM] in H. apply bind_ok in H as (m & Hm & H).
      apply bind_ok in H as (ms & Hms & H). apply Ok_inj in H. subst meetings.
      apply bind_ok in Hm as (ranges & _ & Hm). apply Ok_inj in Hm. subst m.
      cbn [map fst]. f_equal. apply IH. assumption.
Qed.

Lemma config_init_roster_witness :
  Config.init user_config 2 = Ok (config_of user_config 2)
  /\ exists schedule day_counts day_meetings,
       Py.lookup Z.eqb 2 (SCHEDULE user_config) = Ok schedule
       /\ Py.lookup Z.eqb 2 (REGISTER_COUNT user_config) = Ok day_counts
       /\ Py.lookup Z.eqb 2 (MEETINGS user_config) = Ok day_meetings
       /\ List.length (Config.employees (config_of user_config 2)) = List.length schedule
       /\ (forall eid e, nth_error (Config.employees (config_of user_config 2)) eid = Some e ->
             exists shift_config info,
               nth_error schedule eid = Some (shift_config, Employee.name e)
               /\ Py.lookup String.eqb (Employee.name e) (EMPLOYEE_INFO user_config) = Ok info
               /\ Employee.dept e = snd info
               /\ Shift.is_fulltime (Employee.shift e) = fst info
               /\ Shift.init shift_config (fst info) = Ok (Employee.shift e))
       /\ List.length (Config.register_count (config_of user_config 2)) = List.length day_counts
       /\ (forall i epoch,
             nth_error (Config.register_count (config_of user_config 2)) i = Some epoch ->
             exists t, nth_error day_counts i = Some (Config.count epoch, t)
                       /\ Store.time_to_slot t = Ok (Config.start epoch))
       /\ map fst (Config.meetings (config_of user_config 2)) = map fst day_meetings.
Proof.
  assert (H : Config.init user_config 2 = Ok (config_of user_config 2)) by reflexivity.
  split; [exact H | exact (config_init_roster user_config 2 _ H)].
Defined.

(** [config.py] as shipped: on each of the seven days of the week
    [Config()] returns and the hard constraints are built without a
    configuration error; the weekday is always a key of the dicts. *)
Example shipped_configuration_builds :
  forallb (fun day_of_week =>
             match Config.init user_config day_of_week with
             | Ok c => match Run.add_hard_constraints c with
                       | Ok _ => true
                       | Raise _ => false
                       end
             | Raise _ => false
             end) [0; 1; 2; 3; 4; 5; 6] = true
  /\ Config.init user_config 7 = Raise KeyError.
Proof. split; vm_compute; reflexivity. Qed.

(** ** The remaining hard constraints *)

Lemma is_member_spec (c : Config.t) (filt_type : string) (eid : nat) :
  Config.is_member c filt_type eid = true <-> In eid (Config.employee_ids c filt_type false).
Proof.
  unfold Config.is_member. rewrite existsb_exists. split.
  - intros (x & Hx & Heq). apply Nat.eqb_eq in Heq. subst. assumption.
  - intros H. exists eid. split; [assumption | apply Nat.eqb_refl].
Qed.

Lemma staff_spec (c : Config.t) (eid : nat) (e : Employee.t) :
  In (eid, e) (Config.staff c) <-> nth_error (Config.employees c) eid = Some e.
Proof.
  unfold Config.staff, Config.members. cbn [String.eqb Ascii.eqb Bool.eqb].
  apply in_enumerate.
Qed.

Lemma nth_error_all_ids (c : Config.t) (eid : nat) (e : Employee.t) :
  nth_error (Config.employees c) eid = Some e -> In eid (Config.all_ids c).
Proof.
  intros He. rewrite all_ids_spec. apply in_seq. split; [lia|]. cbn.
  apply nth_error_Some. congruence.
Qed.

Lemma hard_constraints_present_rest (c : Config.t) (hard : list cp_model.item) :
  Run.add_hard_constraints c = Ok hard ->
  (forall eid slot, In eid (Config.employee_ids c "CASHIER" false) ->
     In eid (Config.all_ids c) -> In slot Store.slots ->
     forall appt, In appt [Appointment.SUPPORT; Appointment.REGULAR; Appointment.MEETING] ->
       In (cp_model.Add_ (cp_model.Linear (cp_model.lvar (cp_model.sched eid slot appt))
                            cp_model.EQ (cp_model.lconst 0))) hard)
  /\ (forall slot, In slot Store.slots ->
        In (cp_model.Add_ (cp_model.AtLeastOne
              (map (fun eid => cp_model.Pos (cp_model.sched eid slot Appointment.CASHIER))
                 (Config.all_ids c)))) hard)
  /\ (forall eid e, nth_error (Config.employees c) eid = Some e ->
        In (Py.start (Shift.time_range (Employee.shift e))) Store.slots
        /\ In (cp_model.Add_ (cp_model.Linear
                 (cp_model.lvar (cp_model.sched eid (Py.start (Shift.time_range (Employee.shift e)))
                                   Appointment.LUNCH))
                 cp_model.EQ (cp_model.lconst 0))) hard)
  /\ (forall name ranges, In (name, ranges) (Config.meetings c) ->
        exists eid, Config.employee_name_to_id c name = Ok eid
          /\ forall slot, In slot Store.slots ->
               In (cp_model.Add_ (cp_model.Linear
                     (cp_model.lvar (cp_model.sched eid slot Appointment.MEETING)) cp_model.EQ
                     (cp_model.lconst (Run.bool_to_Z
                        (existsb (fun meeting => Py.contains meeting slot) ranges))))) hard)
  /\ (forall eid e, nth_error (Config.employees c) eid = Some e ->
        Py.mem (Employee.name e) (map fst (Config.meetings c)) = false ->
        forall slot, In slot Store.slots ->
          In (cp_model.Add_ (cp_model.Linear
                (cp_model.lvar (cp_model.sched eid slot Appointment.MEETING)) cp_model.EQ
                (cp_model.lconst 0))) hard).
Proof.
  unfold Run.add_hard_constraints. intros H.
  apply bind_ok in H as (registers & Hreg & H).
  apply bind_ok in H as (no_lunch_first & Hfirst & H).
  apply bind_ok in H as (with_meetings & Hmeet & H).
  apply Ok_inj in H. subst hard. split; [|split; [|split; [|split]]].
  - intros eid slot Hcash Heid Hslot appt Happt.
    do 2 (apply in_or_app; right). apply in_or_app; left.
    apply in_flat_map. exists eid. split; [assumption|].
    rewrite (proj2 (is_member_spec c "CASHIER" eid) Hcash).
    apply in_flat_map. exists slot. split; [assumption|].
    cbn [In] in Happt |- *. destruct Happt as [<-|[<-|[<-|[]]]]; tauto.
  - intros slot Hslot. do 3 (apply in_or_app; right). apply in_or_app; left.
    apply (in_map (fun slot => cp_model.Add_ (cp_model.AtLeastOne
             (map (fun eid => cp_model.Pos (cp_model.sched eid slot Appointment.CASHIER))
                (Config.all_ids c))))). assumption.
  - intros eid e He. apply staff_spec in He.
    destruct (mapM_ok_in _ _ _ Hfirst _ He) as (it & Hit & Hin). cbn [fst snd] in Hit.
    apply bind_ok in Hit as (v & Hv & Hit). apply Ok_inj in Hit. subst it.
    unfold Run.sched_get in Hv.
    destruct (_ && _) eqn:Hcond in Hv; [|discriminate]. apply Ok_inj in Hv. subst v.
    repeat (apply andb_prop in Hcond as [Hcond ?]).
    split; [apply slots_spec; lia|].
    do 9 (apply in_or_app; right). apply in_or_app; left. assumption.
  - intros name ranges Hin.
    destruct (flat_mapM_ok_in _ _ _ Hmeet _ Hin) as (its & Hits & Hincl). cbn [fst snd] in Hits.
    apply bind_ok in Hits as (eid & Heid & Hits). apply Ok_inj in Hits. subst its.
    exists eid. split; [assumption|]. intros slot Hslot.
    do 10 (apply in_or_app; right). apply in_or_app; left. apply Hincl.
    apply (in_map (fun slot => cp_model.Add_ (cp_model.Linear
             (cp_model.lvar (cp_model.sched eid slot Appointment.MEETING)) cp_model.EQ
             (cp_model.lconst (Run.bool_to_Z
                (existsb (fun meeting => Py.contains meeting slot) ranges)))))). assumption.
  - intros eid e He Hmem slot Hslot. do 11 (apply in_or_app; right).
    apply in_flat_map. exists (eid, e). split; [apply staff_spec; assumption|].
    cbn [fst snd]. rewrite Hmem. cbn [negb].
    apply (in_map (fun slot => cp_model.Add_ (cp_model.Linear
             (cp_model.lvar (cp_model.sched eid slot Appointment.MEETING)) cp_model.EQ
             (cp_model.lconst 0)))). assumption.
Qed.

Lemma present_in_shift (c : Config.t) (hard : list cp_model.item)
    (a : cp_model.assignment) (eid : nat) (e : Employee.t) (slot : Z) :
  Run.add_hard_constraints c = Ok hard ->
  cp_model.feasible a (Run.new_sched c ++ hard) = true ->
  nth_error (Config.employees c) eid = Some e -> In slot Store.slots ->
  a (cp_model.sched eid slot Appointment.NOT_HERE)
  = Run.bool_to_Z (negb (Py.contains (Shift.time_range (Employee.shift e)) slot)).
Proof.
  intros Hhard Hfeas He Hslot. apply feasible_app in Hfeas as [_ Hfeas].
  destruct (hard_constraints_present_more c hard Hhard) as (Hshift & _ & _).
  apply linear_eq_var. apply (feasible_in a _ _ Hfeas). apply Hshift; assumption.
Qed.

(** In every solution of the model with the hard constraints, a
    designated cashier is, at every slot of the shift, at the register as
    cashier, on break or at lunch: never on ordinary work, on support or
    in a meeting. *)
Theorem designated_cashier_activities (c : Config.t) (hard : list cp_model.item)
    (a : cp_model.assignment) (eid : nat) (e : Employee.t) (slot : Z) :
  Run.add_hard_constraints c = Ok hard ->
  cp_model.feasible a (Run.new_sched c ++ hard) = true ->
  nth_error (Config.employees c) eid = Some e ->
  In eid (Config.employee_ids c "CASHIER" false) ->
  In slot Store.slots ->
  a (cp_model.sched eid slot Appointment.REGULAR) = 0
  /\ a (cp_model.sched eid slot Appointment.SUPPORT) = 0
  /\ a (cp_model.sched eid slot Appointment.MEETING) = 0
  /\ (Py.contains (Shift.time_range (Employee.shift e)) slot = true ->
      a (cp_model.sched eid slot Appointment.CASHIER)
      + a (cp_model.sched eid slot Appointment.BREAK)
      + a (cp_model.sched eid slot Appointment.LUNCH) = 1).
Proof.
  intros Hhard Hfeas He Hcash Hslot.
  pose proof (nth_error_all_ids c eid e He) as Heid.
  destruct (activities_sum_to_one c hard a eid slot Hhard Hfeas Heid Hslot) as [_ Hone].
  pose proof (present_in_shift c hard a eid e slot Hhard Hfeas He Hslot) as Hhere.
  apply feasible_app in Hfeas as [_ Hfeas].
  destruct (hard_constraints_present_rest c hard Hhard) as (Hdes & _).
  assert (Hzero : forall appt,
            In appt [Appointment.SUPPORT; Appointment.REGULAR; Appointment.MEETING] ->
            a (cp_model.sched eid slot appt) = 0).
  { intros appt Happt. apply linear_eq_var. apply (feasible_in a _ _ Hfeas).
    apply Hdes; assumption. }
  pose proof (Hzero Appointment.SUPPORT ltac:(cbn [In]; tauto)) as Hs.
  pose proof (Hzero Appointment.REGULAR ltac:(cbn [In]; tauto)) as Hr.
  pose proof (Hzero Appointment.MEETING ltac:(cbn [In]; tauto)) as Hm.
  repeat split; try assumption.
  intros Hin. rewrite Hin in Hhere. cbn in Hhere.
  unfold Appointment.NOT_HERE, Appointment.REGULAR, Appointment.SUPPORT, Appointment.MEETING,
    Appointment.CASHIER, Appointment.BREAK, Appointment.LUNCH in *. lia.
Qed.

Lemma designated_cashier_activities_witness :
  Run.add_hard_constraints demo = Ok (hard_of demo)
  /\ cp_model.feasible demo_solution (Run.new_sched demo ++ hard_of demo) = true
  /\ nth_error (Config.employees demo) 0
     = Some (Employee.mk (Shift.mk "10:00-8:00" false (Py.range2 0 40)) "M2" "CASHIER")
  /\ In 0%nat (Config.employee_ids demo "CASHIER" false)
  /\ In 13 Store.slots
  /\ demo_solution (cp_model.sched 0 13 Appointment.REGULAR) = 0
  /\ demo_solution (cp_model.sched 0 13 Appointment.SUPPORT) = 0
  /\ demo_solution (cp_model.sched 0 13 Appointment.MEETING) = 0
  /\ (Py.contains (Py.range2 0 40) 13 = true ->
      demo_solution (cp_model.sched 0 13 Appointment.CASHIER)
      + demo_solution (cp_model.sched 0 13 Appointment.BREAK)
      + demo_solution (cp_model.sched 0 13 Appointment.LUNCH) = 1).
Proof.
  assert (H1 : Run.add_hard_constraints demo = Ok (hard_of demo))
    by (vm_compute; reflexivity).
  assert (H2 : cp_model.feasible demo_solution (Run.new_sched demo ++ hard_of demo) = true)
    by (vm_compute; reflexivity).
  assert (H3 : nth_error (Config.employees demo) 0
               = Some (Employee.mk (Shift.mk "10:00-8:00" false (Py.range2 0 40)) "M2" "CASHIER"))
    by reflexivity.
  assert (H4 : In 0%nat (Config.employee_ids demo "CASHIER" false)) by (left; reflexivity).
  assert (H5 : In 13 Store.slots) by (apply slots_spec; split; [lia | reflexivity]).
  split; [exact H1|]. split; [exact H2|]. split; [exact H3|]. split; [exact H4|].
  split; [exact H5|].
  exact (designated_cashier_activities demo (hard_of demo) demo_solution 0 _ 13 H1 H2 H3 H4 H5).
Defined.

Lemma register_sum (c : Config.t) (hard : list cp_model.item)
    (a : cp_model.assignment) (slot : Z) :
  Run.add_hard_constraints c = Ok hard ->
  cp_model.feasible a (Run.new_sched c ++ hard) = true ->
  In slot Store.slots ->
  exists k, Run.curr_count c slot = Some k
            /\ num_assigned c a slot Appointment.CASHIER
               + num_assigned c a slot Appointment.SUPPORT = k.
Proof.
  intros Hhard Hfeas Hslot. apply feasible_app in Hfeas as [Hsched Hfeas].
  destruct (hard_constraints_present c hard Hhard) as (_ & _ & _ & Hreg).
  destruct (Hreg slot Hslot) as (k & Hk & _ & Hin).
  apply (feasible_in a _ _ Hfeas) in Hin. apply linear_eq_sum in Hin.
  rewrite total_app in Hin. exists k. split; [assumption|].
  unfold num_assigned.
  rewrite <- !(filter_map_length (fun v => a v =? 1)
                 (fun eid => cp_model.sched eid slot _) (Config.all_ids c)).
  rewrite <- !total_count; [exact Hin | |];
    intros v Hv; apply in_map_iff in Hv as (eid & <- & Heid);
    apply (sched_boolean c); auto; apply appointments_spec; cbv; intuition discriminate.
Qed.

(** In every solution of the model with the hard constraints, at every
    slot of the day at least one employee has the cashier activity, and at
    most as many as the register count in force; so a count of zero (which
    the check against the designated cashiers lets through when none is
    in) leaves the model without a solution. *)
Theorem a_cashier_at_all_times (c : Config.t) (hard : list cp_model.item)
    (a : cp_model.assignment) (slot : Z) :
  Run.add_hard_constraints c = Ok hard ->
  cp_model.feasible a (Run.new_sched c ++ hard) = true ->
  In slot Store.slots ->
  exists k, Run.curr_count c slot = Some k
            /\ 1 <= num_assigned c a slot Appointment.CASHIER <= k.
Proof.
  intros Hhard Hfeas Hslot.
  destruct (register_sum c hard a slot Hhard Hfeas Hslot) as (k & Hk & Hsum).
  exists k. split; [assumption|].
  apply feasible_app in Hfeas as [_ Hfeas].
  destruct (hard_constraints_present_rest c hard Hhard) as (_ & Hone & _).
  specialize (Hone slot Hslot). apply (feasible_in a _ _ Hfeas) in Hone.
  unfold cp_model.item_ok, cp_model.Add_, cp_model.holds in Hone.
  cbn [cp_model.enforce cp_model.what forallb implb cp_model.body_holds] in Hone.
  apply existsb_exists in Hone as (l & Hl & Hholds).
  apply in_map_iff in Hl as (eid & <- & Heid). cbn [cp_model.lit_holds] in Hholds.
  assert (Hin : In eid (filter (fun eid => a (cp_model.sched eid slot Appointment.CASHIER) =? 1)
                          (Config.all_ids c))) by (apply filter_In; auto).
  assert (Hsup : 0 <= num_assigned c a slot Appointment.SUPPORT) by (unfold num_assigned; lia).
  unfold num_assigned at 1 2. unfold num_assigned at 1 in Hsum.
  destruct (filter _ (Config.all_ids c)) as [|x l]; [destruct Hin|]. cbn [List.length] in *. lia.
Qed.

Lemma a_cashier_at_all_times_witness :
  Run.add_hard_constraints demo = Ok (hard_of demo)
  /\ cp_model.feasible demo_solution (Run.new_sched demo ++ hard_of demo) = true
  /\ In 28 Store.slots
  /\ exists k, Run.curr_count demo 28 = Some k
               /\ 1 <= num_assigned demo demo_solution 28 Appointment.CASHIER <= k.
Proof.
  assert (H1 : Run.add_hard_constraints demo = Ok (hard_of demo))
    by (vm_compute; reflexivity).
  assert (H2 : cp_model.feasible demo_solution (Run.new_sched demo ++ hard_of demo) = true)
    by (vm_compute; reflexivity).
  assert (H3 : In 28 Store.slots) by (apply slots_spec; split; [lia | reflexivity]).
  split; [exact H1|]. split; [exact H2|]. split; [exact H3|].
  exact (a_cashier_at_all_times demo (hard_of demo) demo_solution 28 H1 H2 H3).
Defined.

(** When [add_hard_constraints] returns, every shift starts at a slot of
    the day, and in every solution of the model with the hard constraints
    no employee is at lunch at the first slot of the shift. *)
Theorem never_starts_with_lunch (c : Config.t) (hard : list cp_model.item)
    (a : cp_model.assignment) (eid : nat) (e : Employee.t) :
  Run.add_hard_constraints c = Ok hard ->
  cp_model.feasible a (Run.new_sched c ++ hard) = true ->
  nth_error (Config.employees c) eid = Some e ->
  In (Py.start (Shift.time_range (Employee.shift e))) Store.slots
  /\ a (cp_model.sched eid (Py.start (Shift.time_range (Employee.shift e))) Appointment.LUNCH) = 0.
Proof.
  intros Hhard Hfeas He. apply feasible_app in Hfeas as [_ Hfeas].
  destruct (hard_constraints_present_rest c hard Hhard) as (_ & _ & Hfirst & _).
  destruct (Hfirst eid e He) as [Hin Hit]. split; [assumption|].
  apply linear_eq_var. apply (feasible_in a _ _ Hfeas). assumption.
Qed.

Lemma never_starts_with_lunch_witness :
  Run.add_hard_constraints demo = Ok (hard_of demo)
  /\ cp_model.feasible demo_solution (Run.new_sched demo ++ hard_of demo) = true
  /\ nth_error (Config.employees demo) 2
     = Some (Employee.mk (Shift.mk "L" false (Py.range2 8 40)) "A1" "SD")
  /\ In (Py.start (Py.range2 8 40)) Store.slots
  /\ demo_solution (cp_model.sched 2 (Py.start (Py.range2 8 40)) Appointment.LUNCH) = 0.
Proof.
  assert (H1 : Run.add_hard_constraints demo = Ok (hard_of demo))
    by (vm_compute; reflexivity).
  assert (H2 : cp_model.feasible demo_solution (Run.new_sched demo ++ hard_of demo) = true)
    by (vm_compute; reflexivity).
  assert (H3 : nth_error (Config.employees demo) 2
               = Some (Employee.mk (Shift.mk "L" false (Py.range2 8 40)) "A1" "SD"))
    by reflexivity.
  split; [exact H1|]. split; [exact H2|]. split; [exact H3|].
  exact (never_starts_with_lunch demo (hard_of demo) demo_solution 2 _ H1 H2 H3).
Defined.

(** ** Meetings *)

Lemma employee_name_to_id_ok (c : Config.t) (name : string) (eid : nat) :
  Config.employee_name_to_id c name = Ok eid ->
  exists e, nth_error (Config.employees c) eid = Some e /\ Employee.name e = name
            /\ List.length (named c name) = 1%nat.
Proof.
  pose proof (named_length c name) as Hlen.
  unfold Config.employee_name_to_id.
  set (found := filter _ (Py.enumerate (Config.employees c))) in *.
  assert (Hin : forall ee, In ee found ->
                  nth_error (Config.employees c) (fst ee) = Some (snd ee)
                  /\ Employee.name (snd ee) = name).
  { intros [i e] H. apply filter_In in H as [H1 H2]. cbn [fst snd] in *.
    split; [apply in_enumerate; assumption | apply String.eqb_eq; assumption]. }
  destruct found as [|ee [|ee' rest]]; cbn [map List.length] in *; intros H; try discriminate.
  apply Ok_inj in H. subst eid. exists (snd ee).
  destruct (Hin ee (or_introl eq_refl)) as [H1 H2]. auto.
Qed.

(** When [add_hard_constraints] returns, every name of the day's meetings
    is borne by exactly one employee, and in every solution of the model
    with the hard constraints that employee is in a meeting at exactly the
    slots that lie in one of the configured ranges; an employee whose name
    is not in the meetings is never in a meeting. *)
Theorem meetings_obeyed (c : Config.t) (hard : list cp_model.item)
    (a : cp_model.assignment) :
  Run.add_hard_constraints c = Ok hard ->
  cp_model.feasible a (Run.new_sched c ++ hard) = true ->
  (forall name ranges, In (name, ranges) (Config.meetings c) ->
     exists eid e,
       Config.employee_name_to_id c name = Ok eid
       /\ nth_error (Config.employees c) eid = Some e /\ Employee.name e = name
       /\ List.length (named c name) = 1%nat
       /\ forall slot, In slot Store.slots ->
            (a (cp_model.sched eid slot Appointment.MEETING) = 1
             <-> existsb (fun meeting => Py.contains meeting slot) ranges = true))
  /\ (forall eid e, nth_error (Config.employees c) eid = Some e ->
        Py.mem (Employee.name e) (map fst (Config.meetings c)) = false ->
        forall slot, In slot Store.slots ->
          a (cp_model.sched eid slot Appointment.MEETING) = 0).
Proof.
  intros Hhard Hfeas. apply feasible_app in Hfeas as [_ Hfeas].
  destruct (hard_constraints_present_rest c hard Hhard) as (_ & _ & _ & Hwith & Hwithout).
  split.
  - intros name ranges Hin. destruct (Hwith name ranges Hin) as (eid & Heid & Hits).
    destruct (employee_name_to_id_ok c name eid Heid) as (e & He & Hname & Hlen).
    exists eid, e. repeat (split; [assumption|]).
    intros slot Hslot. specialize (Hits slot Hslot).
    apply (feasible_in a _ _ Hfeas) in Hits. apply linear_eq_var in Hits. rewrite Hits.
    destruct (existsb _ ranges); cbn; split; intros; try lia; try discriminate; reflexivity.
  - intros eid e He Hmem slot Hslot. apply linear_eq_var.
    apply (feasible_in a _ _ Hfeas). eapply Hwithout; eassumption.
Qed.

Lemma meetings_obeyed_witness :
  Run.add_hard_constraints meeting_day = Ok (hard_of meeting_day)
  /\ cp_model.feasible meeting_solution (Run.new_sched meeting_day ++ hard_of meeting_day) = true
  /\ (forall name ranges, In (name, ranges) (Config.meetings meeting_day) ->
        exists eid e,
          Config.employee_name_to_id meeting_day name = Ok eid
          /\ nth_error (Config.employees meeting_day) eid = Some e /\ Employee.name e = name
          /\ List.length (named meeting_day name) = 1%nat
          /\ forall slot, In slot Store.slots ->
               (meeting_solution (cp_model.sched eid slot Appointment.MEETING) = 1
                <-> existsb (fun meeting => Py.contains meeting slot) ranges = true))
  /\ (forall eid e, nth_error (Config.employees meeting_day) eid = Some e ->
        Py.mem (Employee.name e) (map fst (Config.meetings meeting_day)) = false ->
        forall slot, In slot Store.slots ->
          meeting_solution (cp_model.sched eid slot Appointment.MEETING) = 0).
Proof.
  assert (H1 : Run.add_hard_constraints meeting_day = Ok (hard_of meeting_day))
    by (vm_compute; reflexivity).
  assert (H2 : cp_model.feasible meeting_solution
                 (Run.new_sched meeting_day ++ hard_of meeting_day) = true)
    by (vm_compute; reflexivity).
  split; [exact H1|]. split; [exact H2|].
  exact (meetings_obeyed meeting_day (hard_of meeting_day) meeting_solution H1 H2).
Defined.

Example meeting_day_meetings :
  Config.meetings meeting_day = [("T2", [Py.range2 2 4])]
  /\ slots_with meeting_solution 1 Appointment.MEETING = [2; 3].
Proof. split; vm_compute; reflexivity. Qed.

Lemma mapM_total {A B : Type} (f : A -> result B) (l : list A) :
  (forall x, In x l -> exists b, f x = Ok b) -> exists bs, mapM f l = Ok bs.
Proof.
  induction l as [|x l IH]; intros H; [exists []; reflexivity|].
  destruct (H x (or_introl eq_refl)) as (b & Hb).
  destruct IH as (bs & Hbs); [intros y Hy; apply H; right; assumption|].
  exists (b :: bs). cbn [mapM]. rewrite Hb, Hbs. reflexivity.
Qed.

Lemma sched_get_ok (c : Config.t) (eid : nat) (slot appt : Z) :
  In eid (Config.all_ids c) -> In slot Store.slots -> In appt Appointment.all ->
  Run.sched_get c eid slot appt = Ok (cp_model.sched eid slot appt).
Proof.
  intros Heid Hslot Happt. unfold Run.sched_get.
  rewrite all_ids_spec in Heid. apply in_seq in Heid. apply slots_spec in Hslot.
  apply appointments_spec in Happt.
  destruct (Nat.ltb_spec eid (List.length (Config.employees c))) as [_|]; [|lia].
  destruct (Z.leb_spec 0 slot); [|lia]. destruct (Z.ltb_spec slot Store.NUM_SLOTS); [|lia].
  destruct (Z.leb_spec 0 appt); [|lia]. destruct (Z.ltb_spec appt Appointment.COUNT); [|lia].
  reflexivity.
Qed.

Lemma flat_mapM_total {A B : Type} (f : A -> result (list B)) (l : list A) :
  (forall x, In x l -> exists b, f x = Ok b) -> exists bs, flat_mapM f l = Ok bs.
Proof.
  intros H. destruct (mapM_total f l H) as (bss & Hbss).
  unfold flat_mapM. rewrite Hbss. cbn [bind]. eauto.
Qed.

Lemma employee_name_to_id_one (c : Config.t) (name : string) :
  List.length (named c name) = 1%nat ->
  exists eid, Config.employee_name_to_id c name = Ok eid.
Proof.
  intros Hlen. rewrite <- named_length in Hlen. unfold Config.employee_name_to_id.
  destruct (filter _ (Py.enumerate (Config.employees c))) as [|ee [|ee' rest]];
    try discriminate.
  cbn [map]. eauto.
Qed.

(** [add_hard_constraints] returns exactly on the days that pass its checks. *)
Lemma hard_constraints_checks_spec (c : Config.t) :
  hard_constraints_checks c = true <-> exists hard, Run.add_hard_constraints c = Ok hard.
Proof.
  unfold hard_constraints_checks. split.
  - intros H. apply andb_prop in H as [H Hmeet]. apply andb_prop in H as [Hreg Hstart].
    rewrite forallb_forall in Hreg, Hstart, Hmeet.
    destruct (flat_mapM_total (Run.obey_register_count c) Store.slots) as (registers & Hr).
    { intros slot Hslot. specialize (Hreg slot Hslot). unfold Run.obey_register_count.
      destruct (Run.curr_count c slot) as [k|]; [|discriminate].
      destruct (k <? Config.number_of_designated_cashiers_here c slot); [discriminate|].
      eauto. }
    destruct (mapM_total
                (fun ee : nat * Employee.t =>
                   v <- Run.sched_get c (fst ee)
                          (Py.start (Shift.time_range (Employee.shift (snd ee))))
                          Appointment.LUNCH ;;
                   Ok (cp_model.Add_ (cp_model.Linear (cp_model.lvar v) cp_model.EQ
                                        (cp_model.lconst 0))))
                (Config.staff c)) as (no_lunch_first & Hf).
    { intros [eid e] Hee. cbn [fst snd]. apply staff_spec in Hee.
      rewrite sched_get_ok; [cbn [bind]; eauto | | |].
      - eapply nth_error_all_ids; eassumption.
      - apply nth_error_In in Hee. specialize (Hstart e Hee).
        apply andb_prop in Hstart as [H1 H2]. apply slots_spec. lia.
      - cbv; tauto. }
    destruct (flat_mapM_total
                (fun nm : string * list Py.range =>
                   eid <- Config.employee_name_to_id c (fst nm) ;;
                   Ok (map (fun slot =>
                         cp_model.Add_ (cp_model.Linear
                           (cp_model.lvar (cp_model.sched eid slot Appointment.MEETING))
                           cp_model.EQ
                           (cp_model.lconst (Run.bool_to_Z
                              (existsb (fun meeting => Py.contains meeting slot) (snd nm))))))
                         Store.slots))
                (Config.meetings c)) as (with_meetings & Hm).
    { intros nm Hnm. specialize (Hmeet nm Hnm). apply Nat.eqb_eq in Hmeet.
      destruct (employee_name_to_id_one c (fst nm) Hmeet) as (eid & Heid).
      rewrite Heid. cbn [bind]. eauto. }
    unfold Run.add_hard_constraints. rewrite Hr. cbn [bind]. rewrite Hf. cbn [bind].
    rewrite Hm. cbn [bind]. eauto.
  - intros (hard & Hhard).
    destruct (hard_constraints_present c hard Hhard) as (_ & _ & _ & Hreg).
    destruct (hard_constraints_present_rest c hard Hhard) as (_ & _ & Hstart & Hmeet & _).
    apply andb_true_intro. split; [apply andb_true_intro; split|]; apply forallb_forall.
    + intros slot Hslot. destruct (Hreg slot Hslot) as (k & Hk & Hle & _).
      rewrite Hk. apply negb_true_iff, Z.ltb_ge. assumption.
    + intros e He. apply In_nth_error in He as (eid & He).
      destruct (Hstart eid e He) as [Hin _]. apply slots_spec in Hin.
      apply andb_true_intro. split; [apply Z.leb_le | apply Z.ltb_lt]; lia.
    + intros [name ranges] Hnm. destruct (Hmeet name ranges Hnm) as (eid & Heid & _).
      destruct (employee_name_to_id_ok c name eid Heid) as (e & _ & _ & Hlen).
      cbn [fst]. apply Nat.eqb_eq. assumption.
Qed.

Lemma misplaced_meeting_refused (c : Config.t) (hard : list cp_model.item)
    (a : cp_model.assignment) (name : string) (ranges : list Py.range)
    (eid : nat) (e : Employee.t) (slot : Z) :
  Run.add_hard_constraints c = Ok hard ->
  In (name, ranges) (Config.meetings c) ->
  nth_error (Config.employees c) eid = Some e -> Employee.name e = name ->
  In slot Store.slots ->
  existsb (fun meeting => Py.contains meeting slot) ranges = true ->
  Py.contains (Shift.time_range (Employee.shift e)) slot = false
  \/ In eid (Config.employee_ids c "CASHIER" false) ->
  cp_model.feasible a (Run.new_sched c ++ hard) = false.
Proof.
  intros Hhard Hin He Hname Hslot Hmeet Hbad.
  destruct (cp_model.feasible a (Run.new_sched c ++ hard)) eqn:Hfeas; [|reflexivity].
  exfalso.
  pose proof (nth_error_all_ids c eid e He) as Heid.
  destruct (activities_sum_to_one c hard a eid slot Hhard Hfeas Heid Hslot) as [Hdom Hone].
  pose proof (present_in_shift c hard a eid e slot Hhard Hfeas He Hslot) as Hhere.
  assert (Hm : a (cp_model.sched eid slot Appointment.MEETING) = 1).
  { pose proof Hfeas as Hfeas'. apply feasible_app in Hfeas' as [_ Hfeas'].
    destruct (hard_constraints_present_rest c hard Hhard) as (_ & _ & _ & Hwith & _).
    destruct (Hwith name ranges Hin) as (eid' & Heid' & Hits).
    destruct (employee_name_to_id_ok c name eid' Heid') as (e' & He' & Hname' & Hlen).
    assert (eid' = eid).
    { unfold named in Hlen. clear - He He' Hname Hname' Hlen.
      revert eid eid' He He'. induction (Config.employees c) as [|x l IH]; intros eid eid' He He'.
      - destruct eid; discriminate.
      - cbn [filter] in Hlen. destruct (String.eqb_spec (Employee.name x) name) as [Hx|Hx].
        + cbn [List.length] in Hlen.
          assert (Hnone : filter (fun e => String.eqb (Employee.name e) name) l = []).
          { destruct (filter _ l); [reflexivity | discriminate]. }
          assert (Hno : forall i y, nth_error l i = Some y -> Employee.name y = name -> False).
          { intros i y Hy Hyn. apply nth_error_In in Hy.
            assert (In y (filter (fun e => String.eqb (Employee.name e) name) l)).
            { apply filter_In. split; [assumption | apply String.eqb_eq; assumption]. }
            rewrite Hnone in H. destruct H. }
          destruct eid as [|eid], eid' as [|eid']; cbn [nth_error] in *; auto;
            exfalso; eauto.
        + destruct eid as [|eid], eid' as [|eid']; cbn [nth_error] in *;
            try (injection He as <-; contradiction);
            try (injection He' as <-; contradiction).
          f_equal. apply IH; assumption. }
    subst eid'. specialize (Hits slot Hslot).
    apply (feasible_in a _ _ Hfeas') in Hits. apply linear_eq_var in Hits.
    rewrite Hmeet in Hits. exact Hits. }
  destruct Hbad as [Hout | Hcash].
  - rewrite Hout in Hhere. cbn in Hhere.
    pose proof (Hdom 1 ltac:(cbv; tauto)). pose proof (Hdom 2 ltac:(cbv; tauto)).
    pose proof (Hdom 3 ltac:(cbv; tauto)). pose proof (Hdom 4 ltac:(cbv; tauto)).
    pose proof (Hdom 5 ltac:(cbv; tauto)).
    unfold Appointment.NOT_HERE, Appointment.MEETING in *. lia.
  - apply feasible_app in Hfeas as [_ Hfeas].
    destruct (hard_constraints_present_rest c hard Hhard) as (Hdes & _).
    assert (Hz : a (cp_model.sched eid slot Appointment.MEETING) = 0).
    { apply linear_eq_var. apply (feasible_in a _ _ Hfeas).
      apply Hdes; try assumption. cbn [In]; tauto. }
    lia.
Qed.

(** A meeting is not checked against the shift or the department.  On a
    day that passes the checks of [add_hard_constraints] (the register
    counts, the starts of the shifts and the names of the meetings, none
    of which looks at the slots of a meeting), when an employee has a
    configured meeting at a slot outside the shift, or a designated
    cashier has a meeting at any slot, the hard constraints are built
    without complaint and no assignment satisfies the model. *)
Theorem misplaced_meeting_is_infeasible (c : Config.t)
    (name : string) (ranges : list Py.range)
    (eid : nat) (e : Employee.t) (slot : Z) :
  hard_constraints_checks c = true ->
  In (name, ranges) (Config.meetings c) ->
  nth_error (Config.employees c) eid = Some e -> Employee.name e = name ->
  In slot Store.slots ->
  existsb (fun meeting => Py.contains meeting slot) ranges = true ->
  Py.contains (Shift.time_range (Employee.shift e)) slot = false
  \/ In eid (Config.employee_ids c "CASHIER" false) ->
  exists hard,
    Run.add_hard_constraints c = Ok hard
    /\ forall a, cp_model.feasible a (Run.new_sched c ++ hard) = false.
Proof.
  intros Hchecks Hin He Hname Hslot Hmeet Hbad.
  apply hard_constraints_checks_spec in Hchecks as (hard & Hhard).
  exists hard. split; [assumption|]. intros a.
  eapply misplaced_meeting_refused; eassumption.
Qed.

Lemma misplaced_meeting_is_infeasible_witness :
  (hard_constraints_checks (config_of meeting_after_shift_config 0) = true
   /\ In ("T2", [Py.range2 36 38]) (Config.meetings (config_of meeting_after_shift_config 0))
   /\ nth_error (Config.employees (config_of meeting_after_shift_config 0)) 1
      = Some (Employee.mk (Shift.mk "E" true (Py.range2 0 34)) "T2" "NBC")
   /\ In 36 Store.slots
   /\ existsb (fun meeting => Py.contains meeting 36) [Py.range2 36 38] = true
   /\ Py.contains (Py.range2 0 34) 36 = false
   /\ exists hard,
        Run.add_hard_constraints (config_of meeting_after_shift_config 0) = Ok hard
        /\ forall a, cp_model.feasible a
                       (Run.new_sched (config_of meeting_after_shift_config 0) ++ hard)
                     = false)
  /\ (hard_constraints_checks (config_of cashier_meeting_config 0) = true
      /\ In ("M2", [Py.range2 2 4]) (Config.meetings (config_of cashier_meeting_config 0))
      /\ nth_error (Config.employees (config_of cashier_meeting_config 0)) 0
         = Some (Employee.mk (Shift.mk "10:00-8:00" false (Py.range2 0 40)) "M2" "CASHIER")
      /\ In 2 Store.slots
      /\ existsb (fun meeting => Py.contains meeting 2) [Py.range2 2 4] = true
      /\ In 0%nat (Config.employee_ids (config_of cashier_meeting_config 0) "CASHIER" false)
      /\ exists hard,
           Run.add_hard_constraints (config_of cashier_meeting_config 0) = Ok hard
           /\ forall a, cp_model.feasible a
                          (Run.new_sched (config_of cashier_meeting_config 0) ++ hard)
                        = false).
Proof.
  assert (H1 : hard_constraints_checks (config_of meeting_after_shift_config 0) = true)
    by (vm_compute; reflexivity).
  assert (H2 : In ("T2", [Py.range2 36 38])
                 (Config.meetings (config_of meeting_after_shift_config 0)))
    by (left; reflexivity).
  assert (H3 : nth_error (Config.employees (config_of meeting_after_shift_config 0)) 1
               = Some (Employee.mk (Shift.mk "E" true (Py.range2 0 34)) "T2" "NBC"))
    by reflexivity.
  assert (H4 : In 36 Store.slots) by (apply slots_spec; split; [lia | reflexivity]).
  assert (K1 : hard_constraints_checks (config_of cashier_meeting_config 0) = true)
    by (vm_compute; reflexivity).
  assert (K2 : In ("M2", [Py.range2 2 4])
                 (Config.meetings (config_of cashier_meeting_config 0)))
    by (left; reflexivity).
  assert (K3 : nth_error (Config.employees (config_of cashier_meeting_config 0)) 0
               = Some (Employee.mk (Shift.mk "10:00-8:00" false (Py.range2 0 40))
                         "M2" "CASHIER"))
    by reflexivity.
  assert (K4 : In 2 Store.slots) by (apply slots_spec; split; [lia | reflexivity]).
  assert (K5 : In 0%nat (Config.employee_ids (config_of cashier_meeting_config 0)
                           "CASHIER" false))
    by (left; reflexivity).
  split.
  - split; [exact H1|]. split; [exact H2|]. split; [exact H3|]. split; [exact H4|].
    split; [reflexivity|]. split; [reflexivity|].
    exact (misplaced_meeting_is_infeasible _ "T2" [Py.range2 36 38] 1 _ 36
             H1 H2 H3 eq_refl H4 eq_refl (or_introl eq_refl)).
  - split; [exact K1|]. split; [exact K2|]. split; [exact K3|]. split; [exact K4|].
    split; [reflexivity|]. split; [exact K5|].
    exact (misplaced_meeting_is_infeasible _ "M2" [Py.range2 2 4] 0 _ 2
             K1 K2 K3 eq_refl K4 eq_refl (or_intror K5)).
Defined.

(** Both days of the example get as far as the solver: [Run(config)]
    returns. *)
Example misplaced_meetings_build :
  Config.init meeting_after_shift_config 0 = Ok (config_of meeting_after_shift_config 0)
  /\ Config.init cashier_meeting_config 0 = Ok (config_of cashier_meeting_config 0)
  /\ match Run.init (config_of meeting_after_shift_config 0),
           Run.init (config_of cashier_meeting_config 0) with
     | Ok _, Ok _ => true
     | _, _ => false
     end = true.
Proof. split; [|split]; vm_compute; reflexivity. Qed.

(** ** The encodings of "or" and "and" *)

Lemma forallb_map {A B : Type} (p : B -> bool) (g : A -> B) (l : list A) :
  forallb p (map g l) = forallb (fun x => p (g x)) l.
Proof. induction l as [|x l IH]; cbn [map forallb]; [reflexivity | rewrite IH; reflexivity]. Qed.

Lemma existsb_map {A B : Type} (p : B -> bool) (g : A -> B) (l : list A) :
  existsb p (map g l) = existsb (fun x => p (g x)) l.
Proof. induction l as [|x l IH]; cbn [map existsb]; [reflexivity | rewrite IH; reflexivity]. Qed.

Lemma item_ok_plain (a : cp_model.assignment) (b : cp_model.body) :
  cp_model.item_ok a (cp_model.Add_ b) = cp_model.body_holds a b.
Proof. reflexivity. Qed.

Lemma ortools_or_items (a : cp_model.assignment) (result : cp_model.var)
    (ortools_vars : list cp_model.lit) :
  cp_model.feasible a (Run.ortools_or result ortools_vars)
  = (existsb (cp_model.lit_holds a) ortools_vars || (a result =? 0))
    && forallb (fun v => implb (cp_model.lit_holds a v) (a result =? 1)) ortools_vars.
Proof.
  unfold cp_model.feasible, Run.ortools_or. cbn [forallb]. rewrite item_ok_plain.
  cbn [cp_model.body_holds]. rewrite existsb_app. cbn [existsb cp_model.lit_holds].
  rewrite orb_false_r, forallb_map. reflexivity.
Qed.

Lemma ortools_and_items (a : cp_model.assignment) (result : cp_model.var)
    (ortools_vars : list cp_model.lit) :
  cp_model.feasible a (Run.ortools_and result ortools_vars)
  = (existsb (fun v => cp_model.lit_holds a (cp_model.Not v)) ortools_vars || (a result =? 1))
    && forallb (fun v => implb (a result =? 1) (cp_model.lit_holds a v)) ortools_vars.
Proof.
  unfold cp_model.feasible, Run.ortools_and. cbn [forallb]. rewrite item_ok_plain.
  cbn [cp_model.body_holds]. rewrite existsb_app, existsb_map. cbn [existsb cp_model.lit_holds].
  rewrite orb_false_r, forallb_map. reflexivity.
Qed.

Lemma boolean_lit_not (a : cp_model.assignment) (l : cp_model.lit) :
  boolean_lit a l = true ->
  cp_model.lit_holds a (cp_model.Not l) = negb (cp_model.lit_holds a l).
Proof.
  destruct l as [v|v|b]; cbn [boolean_lit cp_model.Not cp_model.lit_holds]; [| |reflexivity];
    intros H; apply andb_prop in H as [H0 H1]; apply Z.leb_le in H0, H1;
    destruct (Z.eqb_spec (a v) 0), (Z.eqb_spec (a v) 1); cbn; try reflexivity; lia.
Qed.

Ltac iff_cases :=
  split;
  [ let H' := fresh in
    intros H'; first [ discriminate H'
                     | split; let H'' := fresh in
                              intros H''; first [lia | discriminate H'' | reflexivity] ]
  | let H1 := fresh in
    let H2 := fresh in
    intros [H1 H2];
    first [ reflexivity
          | exfalso; first [ specialize (H2 eq_refl); lia
                           | specialize (H1 eq_refl); discriminate H1 ] ] ].

(** [ortools_or] and [ortools_and] encode what their names say: for a
    Boolean [result], the constraints of [ortools_or] hold exactly when
    [result] is true if and only if one of the literals is, and, the
    literals being over Boolean variables, those of [ortools_and] hold
    exactly when [result] is true if and only if all the literals are. *)
Theorem ortools_or_and_encode (a : cp_model.assignment) (result : cp_model.var)
    (ortools_vars : list cp_model.lit) :
  0 <= a result <= 1 ->
  (cp_model.feasible a (Run.ortools_or result ortools_vars) = true
   <-> (a result = 1 <-> existsb (cp_model.lit_holds a) ortools_vars = true))
  /\ (forallb (boolean_lit a) ortools_vars = true ->
      (cp_model.feasible a (Run.ortools_and result ortools_vars) = true
       <-> (a result = 1 <-> forallb (cp_model.lit_holds a) ortools_vars = true))).
Proof.
  intros Hr. assert (Hcase : a result = 0 \/ a result = 1) by lia. split.
  - rewrite ortools_or_items.
    assert (Hno : forallb (fun v => implb (cp_model.lit_holds a v) false) ortools_vars
                  = negb (existsb (cp_model.lit_holds a) ortools_vars)).
    { induction ortools_vars as [|v vs IH]; cbn [forallb existsb]; [reflexivity|].
      rewrite IH. destruct (cp_model.lit_holds a v); reflexivity. }
    assert (Hyes : forallb (fun v => implb (cp_model.lit_holds a v) true) ortools_vars = true).
    { apply forallb_forall. intros v _. destruct (cp_model.lit_holds a v); reflexivity. }
    destruct Hcase as [H|H]; rewrite H; cbn [Z.eqb Pos.eqb].
    + rewrite Hno, orb_true_r. cbn [andb].
      destruct (existsb _ ortools_vars); cbn [negb]; iff_cases.
    + rewrite Hyes, orb_false_r, andb_true_r.
      destruct (existsb _ ortools_vars); iff_cases.
  - intros Hbool. rewrite ortools_and_items.
    assert (Hex : existsb (fun v => cp_model.lit_holds a (cp_model.Not v)) ortools_vars
                  = negb (forallb (cp_model.lit_holds a) ortools_vars)).
    { rewrite forallb_forall in Hbool.
      induction ortools_vars as [|v vs IH]; cbn [forallb existsb]; [reflexivity|].
      rewrite IH by (intros x Hx; apply Hbool; right; assumption).
      rewrite boolean_lit_not by (apply Hbool; left; reflexivity).
      destruct (cp_model.lit_holds a v); reflexivity. }
    assert (Hyes : forallb (fun v => implb false (cp_model.lit_holds a v)) ortools_vars = true).
    { apply forallb_forall. intros v _. reflexivity. }
    assert (Hid : forallb (fun v => implb true (cp_model.lit_holds a v)) ortools_vars
                  = forallb (cp_model.lit_holds a) ortools_vars).
    { clear. induction ortools_vars as [|v vs IH]; cbn [forallb]; [reflexivity|].
      rewrite IH. reflexivity. }
    rewrite Hex. destruct Hcase as [H|H]; rewrite H; cbn [Z.eqb Pos.eqb].
    + rewrite Hyes, orb_false_r, andb_true_r.
      destruct (forallb (cp_model.lit_holds a) ortools_vars); cbn [negb]; iff_cases.
    + rewrite orb_true_r, Hid. cbn [andb].
      destruct (forallb (cp_model.lit_holds a) ortools_vars); iff_cases.
Qed.

Lemma ortools_or_and_encode_witness :
  0 <= demo_solution (Run.noncashiercashiers 13) <= 1
  /\ (cp_model.feasible demo_solution
        (Run.ortools_or (Run.noncashiercashiers 13)
           (map (fun eid => cp_model.Pos (cp_model.sched eid 13 Appointment.CASHIER))
              (Config.employee_ids demo "CASHIER" true))) = true
      <-> (demo_solution (Run.noncashiercashiers 13) = 1
           <-> existsb (cp_model.lit_holds demo_solution)
                 (map (fun eid => cp_model.Pos (cp_model.sched eid 13 Appointment.CASHIER))
                    (Config.employee_ids demo "CASHIER" true)) = true)).
Proof.
  assert (H : 0 <= demo_solution (Run.noncashiercashiers 13) <= 1)
    by (vm_compute; split; discriminate).
  split; [exact H|].
  exact (proj1 (ortools_or_and_encode demo_solution (Run.noncashiercashiers 13) _ H)).
Defined.

(** ** The position of the first and of the last slot of an activity *)

Lemma fold_max_spec (xs : list Z) (x : Z) :
  In (fold_left Z.max xs x) (x :: xs)
  /\ forall y, In y (x :: xs) -> y <= fold_left Z.max xs x.
Proof.
  revert x; induction xs as [|z xs IH]; intros x; cbn [fold_left].
  - split; [left; reflexivity | intros y [<-|[]]; lia].
  - destruct (IH (Z.max x z)) as [Hin Hle]. split.
    + destruct Hin as [Hin|Hin]; [|right; right; assumption].
      rewrite <- Hin. destruct (Z.max_spec x z) as [[_ ->]|[_ ->]]; cbn [In]; auto.
    + intros y [<-|[<-|Hy]].
      * specialize (Hle (Z.max x z) (or_introl eq_refl)). lia.
      * specialize (Hle (Z.max x z) (or_introl eq_refl)). lia.
      * apply Hle. right; assumption.
Qed.

Lemma mapM_sched_get {B : Type} (c : Config.t) (eid : nat) (appt : Z)
    (g : Z -> cp_model.var -> B) (l : list Z) (bs : list B) :
  mapM (fun slot => v <- Run.sched_get c eid slot appt ;; Ok (g slot v)) l = Ok bs ->
  bs = map (fun slot => g slot (cp_model.sched eid slot appt)) l
  /\ forall slot, In slot l -> 0 <= slot < Store.NUM_SLOTS.
Proof.
  revert bs; induction l as [|x l IH]; intros bs H.
  - apply Ok_inj in H. subst. split; [reflexivity | intros slot []].
  - cbn [mapM] in H. apply bind_ok in H as (b & Hb & H).
    apply bind_ok in H as (bs' & Hbs' & H). apply Ok_inj in H. subst bs.
    destruct (IH _ Hbs') as [-> Hrange].
    apply bind_ok in Hb as (v & Hv & Hb). apply Ok_inj in Hb. subst b.
    unfold Run.sched_get in Hv. destruct (_ && _) eqn:Hcond in Hv; [|discriminate].
    apply Ok_inj in Hv. subst v. repeat (apply andb_prop in Hcond as [Hcond ?]).
    split; [reflexivity|]. intros slot [<-|Hs]; [lia | auto].
Qed.

Lemma max_equality_spec (a : cp_model.assignment) (v : cp_model.var)
    (g : Z -> Z) (f : Z -> cp_model.var) (l : list Z) :
  cp_model.item_ok a (cp_model.Add_ (cp_model.MaxEquality (cp_model.lvar v)
      (map (fun slot => cp_model.lscale (g slot) (cp_model.lvar (f slot))) l))) = true ->
  (exists slot, In slot l /\ a v = g slot * a (f slot))
  /\ forall slot, In slot l -> g slot * a (f slot) <= a v.
Proof.
  rewrite item_ok_plain. cbn [cp_model.body_holds]. rewrite map_map.
  destruct l as [|x l]; cbn [map]; [discriminate|].
  intros H. apply Z.eqb_eq in H. rewrite eval_lvar in H.
  destruct (fold_max_spec (map (fun slot => cp_model.eval a
               (cp_model.lscale (g slot) (cp_model.lvar (f slot)))) l)
              (cp_model.eval a (cp_model.lscale (g x) (cp_model.lvar (f x))))) as [Hin Hle].
  rewrite <- H in Hin, Hle.
  assert (Hev : forall slot, cp_model.eval a (cp_model.lscale (g slot) (cp_model.lvar (f slot)))
                             = g slot * a (f slot)).
  { intros slot. rewrite eval_lscale, eval_lvar. reflexivity. }
  split.
  - destruct Hin as [Hin|Hin].
    + exists x. split; [left; reflexivity | rewrite <- Hev; auto].
    + apply in_map_iff in Hin as (slot & Heq & Hslot). exists slot.
      split; [right; assumption | rewrite <- Hev; auto].
  - intros slot [<-|Hslot]; rewrite <- Hev; apply Hle; [left; reflexivity|].
    right. apply in_map_iff. exists slot. auto.
Qed.

(** What the variable of [sched_index] stands for, as the comment in the
    code explains it: in every solution of the constraints it adds, when
    the employee has the activity at some slot of the shift, the variable
    is such a slot, the first one ([last=False]) or the last one
    ([last=True]).  For the first one the constraints themselves require
    that there is such a slot. *)
Theorem sched_index_first_and_last (c : Config.t) (owner : string) (site : list Z)
    (ee : nat * Employee.t) (appt : Z) (last : bool)
    (v : cp_model.var) (its : list cp_model.item) (a : cp_model.assignment) :
  Run.sched_index c owner site ee appt last = Ok (v, its) ->
  cp_model.feasible a its = true ->
  forallb (fun slot => (0 <=? a (cp_model.sched (fst ee) slot appt))
                       && (a (cp_model.sched (fst ee) slot appt) <=? 1))
    (Py.elems (Shift.time_range (Employee.shift (snd ee)))) = true ->
  (last = true ->
   existsb (fun slot => a (cp_model.sched (fst ee) slot appt) =? 1)
     (Py.elems (Shift.time_range (Employee.shift (snd ee)))) = true) ->
  In (a v) (Py.elems (Shift.time_range (Employee.shift (snd ee))))
  /\ a (cp_model.sched (fst ee) (a v) appt) = 1
  /\ forall slot, In slot (Py.elems (Shift.time_range (Employee.shift (snd ee)))) ->
       a (cp_model.sched (fst ee) slot appt) = 1 ->
       if last then slot <= a v else a v <= slot.
Proof.
  unfold Run.sched_index. intros H Hfeas Hbool' Hex'.
  assert (Hbool : forall slot,
            In slot (Py.elems (Shift.time_range (Employee.shift (snd ee)))) ->
            0 <= a (cp_model.sched (fst ee) slot appt) <= 1).
  { intros slot Hslot. rewrite forallb_forall in Hbool'. apply Hbool' in Hslot.
    apply andb_prop in Hslot as [H0 H1]. apply Z.leb_le in H0, H1. lia. }
  assert (Hex : last = true ->
                exists slot, In slot (Py.elems (Shift.time_range (Employee.shift (snd ee))))
                             /\ a (cp_model.sched (fst ee) slot appt) = 1).
  { intros Hl. apply Hex' in Hl. apply existsb_exists in Hl as (slot & Hslot & Heq).
    exists slot. split; [assumption | apply Z.eqb_eq; assumption]. }
  clear Hbool' Hex'.
  set (shift_range := Shift.time_range (Employee.shift (snd ee))) in *.
  destruct last.
  - apply bind_ok in H as (exprs & Hexprs & H). apply Ok_inj in H.
    injection H as <- <-.
    destruct (mapM_sched_get c (fst ee) appt
                (fun slot v => cp_model.lscale slot (cp_model.lvar v)) _ _ Hexprs)
      as [-> Hrange].
    unfold cp_model.feasible in Hfeas. cbn [forallb] in Hfeas.
    apply andb_prop in Hfeas as [_ Hfeas]. apply andb_prop in Hfeas as [Hmax _].
    apply (max_equality_spec a _ (fun slot => slot)
             (fun slot => cp_model.sched (fst ee) slot appt)) in Hmax.
    destruct Hmax as [(s0 & Hs0 & Hv) Hle]. cbv beta in Hv, Hle.
    destruct (Hex eq_refl) as (s1 & Hs1 & Ha1).
    pose proof (Hle s1 Hs1) as Hle1. rewrite Ha1 in Hle1.
    pose proof (Hbool s0 Hs0) as Hb0. pose proof (Hrange s0 Hs0) as Hr0.
    pose proof (Hrange s1 Hs1) as Hr1.
    assert (Hcase : a (cp_model.sched (fst ee) s0 appt) = 0
                    \/ a (cp_model.sched (fst ee) s0 appt) = 1) by lia.
    destruct Hcase as [H0|H0]; rewrite H0 in Hv.
    + assert (Hs : s1 = 0) by lia. subst s1.
      rewrite Z.mul_0_r in Hv. rewrite Hv in Hle |- *.
      split; [assumption|]. split; [assumption|].
      intros slot Hslot Haslot. specialize (Hle slot Hslot). rewrite Haslot in Hle. lia.
    + rewrite Z.mul_1_r in Hv. rewrite Hv in Hle |- *.
      split; [assumption|]. split; [assumption|].
      intros slot Hslot Haslot. specialize (Hle slot Hslot). rewrite Haslot in Hle. lia.
  - apply bind_ok in H as (exprs & Hexprs & H). apply Ok_inj in H.
    injection H as <- <-.
    destruct (mapM_sched_get c (fst ee) appt
                (fun slot v => cp_model.lscale (Py.stop shift_range - slot) (cp_model.lvar v))
                _ _ Hexprs) as [-> Hrange].
    unfold cp_model.feasible in Hfeas. cbn [forallb] in Hfeas.
    apply andb_prop in Hfeas as [_ Hfeas]. apply andb_prop in Hfeas as [Hdom Hfeas].
    apply andb_prop in Hfeas as [Hmax Hfeas]. apply andb_prop in Hfeas as [Hlin _].
    cbn [cp_model.item_ok] in Hdom. apply andb_prop in Hdom as [Hd1 _]. apply Z.leb_le in Hd1.
    rewrite item_ok_plain in Hlin. cbn [cp_model.body_holds cp_model.cmp_holds] in Hlin.
    apply Z.eqb_eq in Hlin. rewrite eval_lvar, eval_lsub, eval_lconst, eval_lvar in Hlin.
    apply (max_equality_spec a _ (fun slot => Py.stop shift_range - slot)
             (fun slot => cp_model.sched (fst ee) slot appt)) in Hmax.
    destruct Hmax as [(s0 & Hs0 & Hv) Hle]. cbv beta in Hv, Hle.
    pose proof (Hbool s0 Hs0) as Hb0.
    assert (Hcase : a (cp_model.sched (fst ee) s0 appt) = 0
                    \/ a (cp_model.sched (fst ee) s0 appt) = 1) by lia.
    destruct Hcase as [H0|H0]; rewrite H0 in Hv;
      [rewrite Z.mul_0_r in Hv; rewrite Hv in Hd1; lia|].
    rewrite Z.mul_1_r in Hv. rewrite Hv in Hlin, Hle.
    replace (Py.stop shift_range - (Py.stop shift_range - s0)) with s0 in Hlin by lia.
    rewrite Hlin.
    split; [assumption|]. split; [assumption|].
    intros slot Hslot Haslot. specialize (Hle slot Hslot). rewrite Haslot in Hle. lia.
Qed.

Lemma sched_index_first_and_last_witness :
  Run.sched_index demo Run.ideal []
    (1%nat, Employee.mk (Shift.mk "E" true (Py.range2 0 34)) "T2" "NBC") Appointment.BREAK true
  = Ok (cp_model.aux "index" Run.ideal [1; 3; 1], demo_last_break_items)
  /\ cp_model.feasible demo_solution demo_last_break_items = true
  /\ In (demo_solution (cp_model.aux "index" Run.ideal [1; 3; 1])) (Py.elems (Py.range2 0 34))
  /\ demo_solution
       (cp_model.sched 1 (demo_solution (cp_model.aux "index" Run.ideal [1; 3; 1]))
          Appointment.BREAK) = 1
  /\ forall slot, In slot (Py.elems (Py.range2 0 34)) ->
       demo_solution (cp_model.sched 1 slot Appointment.BREAK) = 1 ->
       slot <= demo_solution (cp_model.aux "index" Run.ideal [1; 3; 1]).
Proof.
  assert (H1 : Run.sched_index demo Run.ideal []
                 (1%nat, Employee.mk (Shift.mk "E" true (Py.range2 0 34)) "T2" "NBC")
                 Appointment.BREAK true
               = Ok (cp_model.aux "index" Run.ideal [1; 3; 1], demo_last_break_items))
    by (vm_compute; reflexivity).
  assert (H2 : cp_model.feasible demo_solution demo_last_break_items = true)
    by (vm_compute; reflexivity).
  split; [exact H1|]. split; [exact H2|].
  exact (sched_index_first_and_last demo Run.ideal []
           (1%nat, Employee.mk (Shift.mk "E" true (Py.range2 0 34)) "T2" "NBC")
           Appointment.BREAK true _ _ demo_solution H1 H2 eq_refl (fun _ => eq_refl)).
Defined.

(** The Early employee of the day worked out above breaks at 3:00 and
    4:45: the two positions are slots 20 and 27. *)
Example demo_break_positions :
  demo_solution (cp_model.aux "index" Run.ideal [1; 3; 0]) = 20
  /\ demo_solution (cp_model.aux "index" Run.ideal [1; 3; 1]) = 27.
Proof. split; vm_compute; reflexivity. Qed.

Lemma gated_on (a : cp_model.assignment) (e : cp_model.var) (b : cp_model.body) :
  a e = 1 ->
  cp_model.item_ok a (cp_model.OnlyEnforceIf (cp_model.Add_ b) (cp_model.Pos e)) = true ->
  cp_model.body_holds a b = true.
Proof. intros He H. rewrite gated_item_ok, He in H. exact H. Qed.

Lemma elems_range2 (lo hi x : Z) : In x (Py.elems (Py.range2 lo hi)) <-> lo <= x < hi.
Proof.
  unfold Py.elems, Py.range2, Py.len; cbn [Py.start Py.stop Py.step].
  replace (hi - lo + 1 - 1) with (hi - lo) by lia. rewrite Z.div_1_r, in_map_iff. split.
  - intros (i & <- & Hi). apply in_seq in Hi. lia.
  - intros H. exists (Z.to_nat (x - lo)). split; [lia | apply in_seq; lia].
Qed.

(** ** Fair shares of the register *)

(** What the records 'cashier-diff-k' and 'register-diff-k' ask of a
    solution in which their toggle is true: any two employees who are not
    designated cashiers, the only member of the NBC department left
    aside, have numbers of slots on the given activities that differ by at
    most [max_delta]. *)
Theorem fair_shares (c : Config.t) (curr_soft_enable : cp_model.var)
    (appointments : list Z) (max_delta : Z) (its : list cp_model.item)
    (a : cp_model.assignment) (eid1 eid2 : nat) :
  Run.cap_non_cashier_appointment_delta c curr_soft_enable appointments max_delta = Ok its ->
  cp_model.feasible a its = true ->
  a curr_soft_enable = 1 ->
  In eid1 (Config.employee_ids c "CASHIER" true) ->
  In eid2 (Config.employee_ids c "CASHIER" true) ->
  lone_nbc c eid1 = false -> lone_nbc c eid2 = false -> eid1 <> eid2 ->
  Z.abs (total a (Run.over_day eid1 appointments) - total a (Run.over_day eid2 appointments))
  <= max_delta.
Proof.
  intros H Hfeas He H1 H2 Hl1 Hl2 Hne. unfold Run.cap_non_cashier_appointment_delta in H.
  apply Ok_inj in H. subst its. cbv zeta in Hfeas.
  assert (Hpair : forall x y, In x (Config.employee_ids c "CASHIER" true) ->
                    In y (Config.employee_ids c "CASHIER" true) ->
                    lone_nbc c x = false -> lone_nbc c y = false -> (x < y)%nat ->
                    - max_delta <= total a (Run.over_day x appointments)
                                   - total a (Run.over_day y appointments) <= max_delta).
  { intros x y Hx Hy Hlx Hly Hlt.
    assert (Hin : forall it,
              In it [ cp_model.OnlyEnforceIf
                        (cp_model.Add_ (cp_model.Linear
                           (cp_model.lsub (cp_model.lsum (Run.over_day x appointments))
                              (cp_model.lsum (Run.over_day y appointments)))
                           cp_model.LE (cp_model.lconst max_delta)))
                        (cp_model.Pos curr_soft_enable);
                      cp_model.OnlyEnforceIf
                        (cp_model.Add_ (cp_model.Linear
                           (cp_model.lsub (cp_model.lsum (Run.over_day x appointments))
                              (cp_model.lsum (Run.over_day y appointments)))
                           cp_model.GE (cp_model.lconst (- max_delta))))
                        (cp_model.Pos curr_soft_enable) ] ->
              cp_model.item_ok a it = true).
    { intros it Hit. apply (feasible_in a _ _ Hfeas). unfold lone_nbc in Hlx, Hly.
      apply in_flat_map. exists x. split; [assumption|]. cbv beta. rewrite Hlx.
      apply in_flat_map. exists y. split; [assumption|]. cbv beta.
      destruct (Nat.leb_spec y x) as [Hle|_]; [lia|]. rewrite Hly. assumption. }
    pose proof (gated_on a _ _ He (Hin _ (or_introl eq_refl))) as Hle.
    pose proof (gated_on a _ _ He (Hin _ (or_intror (or_introl eq_refl)))) as Hge.
    cbn [cp_model.body_holds cp_model.cmp_holds] in Hle, Hge.
    rewrite eval_lsub, !eval_lsum, eval_lconst in Hle, Hge.
    apply Z.leb_le in Hle. apply Z.geb_le in Hge. lia. }
  destruct (Nat.lt_trichotomy eid1 eid2) as [Hlt|[Heq|Hgt]].
  - specialize (Hpair eid1 eid2 H1 H2 Hl1 Hl2 Hlt). lia.
  - contradiction.
  - specialize (Hpair eid2 eid1 H2 H1 Hl2 Hl1 Hgt). lia.
Qed.

Lemma fair_shares_witness :
  Run.cap_non_cashier_appointment_delta part_timers (cp_model.enable "register-diff-2")
    Run.a_CS 2
  = Ok (generated_of part_timers "register-diff-2")
  /\ cp_model.feasible part_timers_solution (generated_of part_timers "register-diff-2") = true
  /\ part_timers_solution (cp_model.enable "register-diff-2") = 1
  /\ In 1%nat (Config.employee_ids part_timers "CASHIER" true)
  /\ In 2%nat (Config.employee_ids part_timers "CASHIER" true)
  /\ lone_nbc part_timers 1 = false /\ lone_nbc part_timers 2 = false
  /\ Z.abs (total part_timers_solution (Run.over_day 1 Run.a_CS)
            - total part_timers_solution (Run.over_day 2 Run.a_CS)) <= 2.
Proof.
  assert (H1 : Run.cap_non_cashier_appointment_delta part_timers
                 (cp_model.enable "register-diff-2") Run.a_CS 2
               = Ok (generated_of part_timers "register-diff-2")) by reflexivity.
  assert (H2 : cp_model.feasible part_timers_solution
                 (generated_of part_timers "register-diff-2") = true)
    by (vm_compute; reflexivity).
  assert (H3 : part_timers_solution (cp_model.enable "register-diff-2") = 1) by reflexivity.
  assert (H4 : In 1%nat (Config.employee_ids part_timers "CASHIER" true))
    by (left; reflexivity).
  assert (H5 : In 2%nat (Config.employee_ids part_timers "CASHIER" true))
    by (right; left; reflexivity).
  split; [exact H1|]. split; [exact H2|]. split; [exact H3|]. split; [exact H4|].
  split; [exact H5|]. split; [reflexivity|]. split; [reflexivity|].
  exact (fair_shares part_timers (cp_model.enable "register-diff-2") Run.a_CS 2 _
           part_timers_solution 1 2 H1 H2 H3 H4 H5 eq_refl eq_refl (n_Sn 1)).
Defined.

Example part_timers_shares :
  total part_timers_solution (Run.over_day 1 Run.a_CS) = 2
  /\ total part_timers_solution (Run.over_day 2 Run.a_CS) = 4.
Proof. split; vm_compute; reflexivity. Qed.

(** ** Breaks away from the ends of the shift *)

(** What the records 'break-bound-gap-44', '-54' and '-11' ask of a
    solution in which their toggle is true: an employee's break is at
    least [start_gap - 1] slots after the first slot of the shift and more
    than [end_gap] slots before its end.  (So with gaps of 4 and 4 the
    first three slots of the shift and its last four are free of breaks,
    and with gaps of 1 and 1 only the last slot is.) *)
Theorem break_away_from_ends (c : Config.t) (curr_soft_enable : cp_model.var)
    (start_gap end_gap : Z) (its : list cp_model.item) (a : cp_model.assignment)
    (eid : nat) (emp : Employee.t) (slot : Z) :
  Run.require_min_gap_break_from_start_end c curr_soft_enable start_gap end_gap = Ok its ->
  cp_model.feasible a its = true ->
  a curr_soft_enable = 1 ->
  nth_error (Config.employees c) eid = Some emp ->
  0 <= slot < Py.stop (Shift.time_range (Employee.shift emp)) ->
  a (cp_model.sched eid slot Appointment.BREAK) = 1 ->
  Py.start (Shift.time_range (Employee.shift emp)) + start_gap - 1 <= slot
  /\ slot < Py.stop (Shift.time_range (Employee.shift emp)) - end_gap.
Proof.
  intros H Hfeas He Hemp Hslot Hbreak. unfold Run.require_min_gap_break_from_start_end in H.
  apply staff_spec in Hemp.
  destruct (flat_mapM_ok_in _ _ _ H _ Hemp) as (out & Hout & Hincl). cbn [fst snd] in Hout.
  apply bind_ok in Hout as (at_start & Hstart & Hout).
  apply bind_ok in Hout as (at_end & Hend & Hout). apply Ok_inj in Hout. subst out.
  destruct (mapM_sched_get c eid Appointment.BREAK
              (fun _ v => cp_model.OnlyEnforceIf
                            (cp_model.Add_ (cp_model.Linear (cp_model.lvar v) cp_model.EQ
                                              (cp_model.lconst 0)))
                            (cp_model.Pos curr_soft_enable)) _ _ Hstart) as [-> _].
  destruct (mapM_sched_get c eid Appointment.BREAK
              (fun _ v => cp_model.OnlyEnforceIf
                            (cp_model.Add_ (cp_model.Linear (cp_model.lvar v) cp_model.EQ
                                              (cp_model.lconst 0)))
                            (cp_model.Pos curr_soft_enable)) _ _ Hend) as [-> _].
  assert (Hban : forall lo hi, 
            incl (map (fun slot => cp_model.OnlyEnforceIf
                         (cp_model.Add_ (cp_model.Linear
                            (cp_model.lvar (cp_model.sched eid slot Appointment.BREAK))
                            cp_model.EQ (cp_model.lconst 0)))
                         (cp_model.Pos curr_soft_enable))
                    (Py.elems (Py.range2 lo hi))) its ->
            ~ (lo <= slot < hi)).
  { intros lo hi Hsub Hin. apply elems_range2 in Hin.
    assert (Hit : cp_model.item_ok a
                    (cp_model.OnlyEnforceIf
                       (cp_model.Add_ (cp_model.Linear
                          (cp_model.lvar (cp_model.sched eid slot Appointment.BREAK))
                          cp_model.EQ (cp_model.lconst 0)))
                       (cp_model.Pos curr_soft_enable)) = true).
    { apply (feasible_in a _ _ Hfeas). apply Hsub.
      apply (in_map (fun slot => cp_model.OnlyEnforceIf
                       (cp_model.Add_ (cp_model.Linear
                          (cp_model.lvar (cp_model.sched eid slot Appointment.BREAK))
                          cp_model.EQ (cp_model.lconst 0)))
                       (cp_model.Pos curr_soft_enable))). assumption. }
    apply (gated_on a _ _ He) in Hit. cbn [cp_model.body_holds cp_model.cmp_holds] in Hit.
    rewrite eval_lvar, eval_lconst in Hit. apply Z.eqb_eq in Hit. lia. }
  pose proof (Hban 0 (Py.start (Shift.time_range (Employee.shift emp)) + start_gap - 1)
                (fun it Hit => Hincl it (in_or_app _ _ it (or_introl Hit)))) as H1.
  pose proof (Hban (Py.stop (Shift.time_range (Employee.shift emp)) - end_gap)
                (Py.stop (Shift.time_range (Employee.shift emp)))
                (fun it Hit => Hincl it (in_or_app _ _ it (or_intror Hit)))) as H2.
  lia.
Qed.

Lemma break_away_from_ends_witness :
  Run.require_min_gap_break_from_start_end demo (cp_model.enable "break-bound-gap-44") 4 4
  = Ok (generated_of demo "break-bound-gap-44")
  /\ cp_model.feasible demo_solution (generated_of demo "break-bound-gap-44") = true
  /\ demo_solution (cp_model.enable "break-bound-gap-44") = 1
  /\ nth_error (Config.employees demo) 2
     = Some (Employee.mk (Shift.mk "L" false (Py.range2 8 40)) "A1" "SD")
  /\ 0 <= 32 < Py.stop (Py.range2 8 40)
  /\ demo_solution (cp_model.sched 2 32 Appointment.BREAK) = 1
  /\ Py.start (Py.range2 8 40) + 4 - 1 <= 32
  /\ 32 < Py.stop (Py.range2 8 40) - 4.
Proof.
  assert (H1 : Run.require_min_gap_break_from_start_end demo
                 (cp_model.enable "break-bound-gap-44") 4 4
               = Ok (generated_of demo "break-bound-gap-44")) by (vm_compute; reflexivity).
  assert (H2 : cp_model.feasible demo_solution (generated_of demo "break-bound-gap-44") = true)
    by (vm_compute; reflexivity).
  assert (H3 : demo_solution (cp_model.enable "break-bound-gap-44") = 1) by reflexivity.
  assert (H4 : nth_error (Config.employees demo) 2
               = Some (Employee.mk (Shift.mk "L" false (Py.range2 8 40)) "A1" "SD"))
    by reflexivity.
  assert (H5 : 0 <= 32 < Py.stop (Py.range2 8 40)) by (cbn; lia).
  assert (H6 : demo_solution (cp_model.sched 2 32 Appointment.BREAK) = 1) by reflexivity.
  split; [exact H1|]. split; [exact H2|]. split; [exact H3|]. split; [exact H4|].
  split; [exact H5|]. split; [exact H6|].
  exact (break_away_from_ends demo (cp_model.enable "break-bound-gap-44") 4 4 _ demo_solution
           2 _ 32 H1 H2 H3 H4 H5 H6).
Defined.

(** ** Lunch in the order of the shifts *)

(** What the record 'lunch-fair-order' asks of a solution in which its
    toggle is true: of two employees, the one whose shift has the higher
    lunch priority (Early before Middle before Late) starts lunch no later
    than the other. *)
Theorem fair_lunch_order (c : Config.t) (curr_soft_enable : cp_model.var)
    (its : list cp_model.item) (a : cp_model.assignment)
    (ee1 ee2 : nat * Employee.t) (p1 p2 slot1 slot2 : Z) :
  Run.require_fair_lunch_order c curr_soft_enable = Ok its ->
  cp_model.feasible a its = true ->
  a curr_soft_enable = 1 ->
  In ee1 (Config.staff c) -> In ee2 (Config.staff c) ->
  Shift.lunch_priority (Employee.shift (snd ee1)) = Ok p1 ->
  Shift.lunch_priority (Employee.shift (snd ee2)) = Ok p2 ->
  p2 < p1 ->
  In slot1 (Py.elems Shift.lunch_slots) -> In slot2 (Py.elems Shift.lunch_slots) ->
  a (cp_model.sched (fst ee1) slot1 Appointment.LUNCH) = 1 ->
  a (cp_model.sched (fst ee2) slot2 Appointment.LUNCH) = 1 ->
  slot1 <= slot2.
Proof.
  intros H Hfeas He H1 H2 Hp1 Hp2 Hlt Hs1 Hs2 Ha1 Ha2.
  unfold Run.require_fair_lunch_order in H.
  destruct (flat_mapM_ok_in _ _ _ H _ H1) as (out1 & Hout1 & Hincl1).
  destruct (flat_mapM_ok_in _ _ _ Hout1 _ H2) as (out2 & Hout2 & Hincl2).
  cbv zeta in Hout2. rewrite Hp1, Hp2 in Hout2. cbn [bind] in Hout2.
  destruct (Z.leb_spec p1 p2) as [Hle|_]; [lia|]. apply Ok_inj in Hout2. subst out2.
  set (lunch_lunch := cp_model.aux "lunchlunch" (Run.owner_of curr_soft_enable)
                        [Run.zid (fst ee1); Run.zid (fst ee2); slot1; slot2]).
  assert (Hin : forall it,
            In it (cp_model.NewBoolVar lunch_lunch
                   :: Run.ortools_and lunch_lunch
                        [cp_model.Pos (cp_model.sched (fst ee1) slot1 Appointment.LUNCH);
                         cp_model.Pos (cp_model.sched (fst ee2) slot2 Appointment.LUNCH)]
                   ++ [cp_model.OnlyEnforceIf
                         (cp_model.Add_ (cp_model.Implication (cp_model.Pos lunch_lunch)
                                           (cp_model.Const (slot1 <=? slot2))))
                         (cp_model.Pos curr_soft_enable)]) ->
            cp_model.item_ok a it = true).
  { intros it Hit. apply (feasible_in a _ _ Hfeas). apply Hincl1, Hincl2.
    apply in_flat_map. exists slot1. split; [assumption|].
    apply in_flat_map. exists slot2. split; [assumption|]. exact Hit. }
  assert (Hor : cp_model.item_ok a
                  (cp_model.Add_ (cp_model.BoolOr
                     (map cp_model.Not
                        [cp_model.Pos (cp_model.sched (fst ee1) slot1 Appointment.LUNCH);
                         cp_model.Pos (cp_model.sched (fst ee2) slot2 Appointment.LUNCH)]
                      ++ [cp_model.Pos lunch_lunch]))) = true).
  { apply Hin. right. left. reflexivity. }
  assert (Himp : cp_model.item_ok a
                   (cp_model.OnlyEnforceIf
                      (cp_model.Add_ (cp_model.Implication (cp_model.Pos lunch_lunch)
                                        (cp_model.Const (slot1 <=? slot2))))
                      (cp_model.Pos curr_soft_enable)) = true).
  { apply Hin. right. apply in_or_app. right. left. reflexivity. }
  rewrite item_ok_plain in Hor.
  cbn [cp_model.body_holds map app existsb cp_model.Not cp_model.lit_holds] in Hor.
  rewrite Ha1, Ha2 in Hor. cbn [Z.eqb orb] in Hor. rewrite orb_false_r in Hor.
  apply (gated_on a _ _ He) in Himp. cbn [cp_model.body_holds cp_model.lit_holds] in Himp.
  rewrite Hor in Himp. cbn [implb] in Himp. apply Z.leb_le. exact Himp.
Qed.

Lemma fair_lunch_order_witness :
  Run.require_fair_lunch_order demo (cp_model.enable "lunch-fair-order")
  = Ok (generated_of demo "lunch-fair-order")
  /\ cp_model.feasible demo_solution (generated_of demo "lunch-fair-order") = true
  /\ demo_solution (cp_model.enable "lunch-fair-order") = 1
  /\ In (1%nat, Employee.mk (Shift.mk "E" true (Py.range2 0 34)) "T2" "NBC") (Config.staff demo)
  /\ In (2%nat, Employee.mk (Shift.mk "L" false (Py.range2 8 40)) "A1" "SD") (Config.staff demo)
  /\ Shift.lunch_priority (Shift.mk "E" true (Py.range2 0 34)) = Ok 2
  /\ Shift.lunch_priority (Shift.mk "L" false (Py.range2 8 40)) = Ok 0
  /\ demo_solution (cp_model.sched 1 8 Appointment.LUNCH) = 1
  /\ demo_solution (cp_model.sched 2 16 Appointment.LUNCH) = 1
  /\ 8 <= 16.
Proof.
  assert (H1 : Run.require_fair_lunch_order demo (cp_model.enable "lunch-fair-order")
               = Ok (generated_of demo "lunch-fair-order")) by (vm_compute; reflexivity).
  assert (H2 : cp_model.feasible demo_solution (generated_of demo "lunch-fair-order") = true)
    by (vm_compute; reflexivity).
  assert (H3 : demo_solution (cp_model.enable "lunch-fair-order") = 1) by reflexivity.
  assert (H4 : In (1%nat, Employee.mk (Shift.mk "E" true (Py.range2 0 34)) "T2" "NBC")
                 (Config.staff demo)) by (right; left; reflexivity).
  assert (H5 : In (2%nat, Employee.mk (Shift.mk "L" false (Py.range2 8 40)) "A1" "SD")
                 (Config.staff demo)) by (right; right; left; reflexivity).
  assert (H6 : In 8 (Py.elems Shift.lunch_slots)) by (left; reflexivity).
  assert (H7 : In 16 (Py.elems Shift.lunch_slots)) by (right; right; left; reflexivity).
  split; [exact H1|]. split; [exact H2|]. split; [exact H3|]. split; [exact H4|].
  split; [exact H5|]. split; [reflexivity|]. split; [reflexivity|].
  split; [reflexivity|]. split; [reflexivity|].
  exact (fair_lunch_order demo (cp_model.enable "lunch-fair-order") _ demo_solution
           _ _ 2 0 8 16 H1 H2 H3 H4 H5 eq_refl eq_refl eq_refl H6 H7 eq_refl eq_refl).
Defined.

(** ** A roster without full-time or NBC employees *)

Lemma mapM_raises {A B : Type} (f : A -> result B) (l : list A) (x : A) (e : exn) :
  In x l -> f x = Raise e -> exists e', mapM f l = Raise e'.
Proof.
  intros Hin Hx.
  destruct (mapM_raise_first f l) as (pre & y & post & e' & _ & _ & _ & Hm); eauto.
Qed.

Lemma available_empty (c : Config.t) (e : cp_model.var) (appts : list Z) (n : Z) :
  Run.available_when_here_if_mult c e [] appts n = Raise ValueError.
Proof.
  unfold Run.available_when_here_if_mult. cbn [List.length Nat.eqb map Run.ranges_min_to_max bind].
  destruct (n =? 0); reflexivity.
Qed.

Lemma members_nil (c : Config.t) (filt_type : string) :
  Config.employee_ids c filt_type false = [] -> Config.members c filt_type false = [].
Proof.
  unfold Config.employee_ids. destruct (Config.members c filt_type false); [auto | discriminate].
Qed.

(** [available_when_here_if_mult] returns at once for a group of one
    employee but takes the minimum over the shifts of an empty group: on
    a day with no full-time employee, or with no employee of the NBC
    department, the record 'fulltime-avail' (or 'nbc-avail') raises
    ValueError, so that [Run(config)] never returns and [main] ends in an
    exception before any call of the solver. *)
Theorem empty_group_is_value_error (c : Config.t) :
  Config.employee_ids c "FULLTIME" false = [] \/ Config.employee_ids c "NBC" false = [] ->
  (exists sc, In sc Run.soft_constraints /\ Run.generated c sc = Raise ValueError)
  /\ (forall hard, Run.add_hard_constraints c = Ok hard ->
        exists e, Run.add_soft_constraints c = Raise e)
  /\ exists e, Run.init c = Raise e
               /\ forall Solve, Main.main_with Solve c = (Raise e, []).
Proof.
  intros Hempty.
  assert (Hsc : exists sc, In sc Run.soft_constraints /\ Run.generated c sc = Raise ValueError).
  { destruct Hempty as [H|H]; apply members_nil in H.
    - exists (Run.soft "fulltime-avail" 1
                (fun c e => Run.available_when_here_if_mult c e
                              (Config.members c "FULLTIME" false) Run.a_RCS 0)).
      split; [unfold Run.soft_constraints; cbn [In]; do 19 right; left; reflexivity|].
      unfold Run.generated; cbn [Run.func Run.soft Run.enable_of]. rewrite H.
      apply available_empty.
    - exists (Run.soft "nbc-avail" 1
                (fun c e => Run.available_when_here_if_mult c e
                              (Config.members c "NBC" false) Run.a_R 0)).
      split; [unfold Run.soft_constraints; cbn [In]; do 24 right; left; reflexivity|].
      unfold Run.generated; cbn [Run.func Run.soft Run.enable_of]. rewrite H.
      apply available_empty. }
  assert (Hsoft : exists e, Run.add_soft_constraints c = Raise e).
  { destruct Hsc as (sc & Hin & Hgen).
    destruct (mapM_raises (Run.generated c) Run.soft_constraints sc _ Hin Hgen) as (e & He).
    exists e. unfold Run.add_soft_constraints, flat_mapM. rewrite He. reflexivity. }
  split; [assumption|]. split; [intros; assumption|].
  destruct Hsoft as (e & He). unfold Main.main_with, Run.init.
  destruct (Run.add_hard_constraints c) as [hard|e'].
  - exists e. rewrite He. cbn [bind]. split; [reflexivity | intros; reflexivity].
  - exists e'. cbn [bind]. split; [reflexivity | intros; reflexivity].
Qed.

Lemma empty_group_is_value_error_witness :
  (Config.employee_ids part_timers "FULLTIME" false = []
   \/ Config.employee_ids part_timers "NBC" false = [])
  /\ (exists sc, In sc Run.soft_constraints /\ Run.generated part_timers sc = Raise ValueError)
  /\ (forall hard, Run.add_hard_constraints part_timers = Ok hard ->
        exists e, Run.add_soft_constraints part_timers = Raise e)
  /\ exists e, Run.init part_timers = Raise e
               /\ forall Solve, Main.main_with Solve part_timers = (Raise e, []).
Proof.
  assert (H : Config.employee_ids part_timers "FULLTIME" false = []
              \/ Config.employee_ids part_timers "NBC" false = []) by (left; reflexivity).
  split; [exact H | exact (empty_group_is_value_error part_timers H)].
Defined.

(** On the day without a full-time employee the hard constraints are
    built and the program then ends with ValueError. *)
Example part_timers_value_error :
  Config.init part_timers_config 0 = Ok part_timers
  /\ match Run.add_hard_constraints part_timers with Ok _ => true | Raise _ => false end = true
  /\ forall Solve, Main.main Solve part_timers_config 0 = (Raise ValueError, []).
Proof. split; [reflexivity|]. split; [vm_compute; reflexivity|]. intros Solve. vm_compute. reflexivity. Qed.

(** ** Counting the crowded slots of the breakroom *)

(** In every solution of what [ideally_have_breakroom_occupancy_under_five]
    adds, the variable of a slot that goes into the refinement's objective
    is true exactly when five or more employees are on break or lunch at
    that slot: the objective counts those slots. *)
Theorem breakroom_over_four_counts (c : Config.t) (a : cp_model.assignment) (slot : Z) :
  cp_model.feasible a (fst (Run.ideally_have_breakroom_occupancy_under_five c)) = true ->
  In slot Store.slots ->
  In (cp_model.aux "breakroomoverfour" Run.ideal [slot])
    (snd (Run.ideally_have_breakroom_occupancy_under_five c))
  /\ (a (cp_model.aux "breakroomoverfour" Run.ideal [slot]) = 1
      <-> 5 <= breakroom_occupancy c a slot).
Proof.
  unfold Run.ideally_have_breakroom_occupancy_under_five. cbn [fst snd]. intros Hfeas Hslot.
  split.
  { rewrite map_map. cbn [snd].
    apply (in_map (fun slot => cp_model.aux "breakroomoverfour" Run.ideal [slot])). assumption. }
  set (over := cp_model.aux "breakroomoverfour" Run.ideal [slot]).
  set (occ := cp_model.lsum (Run.at_slot (Config.all_ids c) slot
                               [Appointment.BREAK; Appointment.LUNCH])).
  assert (Hin : forall it,
            In it [ cp_model.NewBoolVar over;
                    cp_model.OnlyEnforceIf
                      (cp_model.Add_ (cp_model.Linear occ cp_model.GE (cp_model.lconst 5)))
                      (cp_model.Pos over);
                    cp_model.OnlyEnforceIf
                      (cp_model.Add_ (cp_model.Linear occ cp_model.LT (cp_model.lconst 5)))
                      (cp_model.Neg over) ] ->
            cp_model.item_ok a it = true).
  { intros it Hit. apply (feasible_in a _ _ Hfeas).
    apply in_flat_map. eexists. split; [apply in_map; exact Hslot|]. exact Hit. }
  pose proof (Hin _ (or_introl eq_refl)) as Hdom.
  pose proof (Hin _ (or_intror (or_introl eq_refl))) as Hge.
  pose proof (Hin _ (or_intror (or_intror (or_introl eq_refl)))) as Hlt.
  cbn [cp_model.item_ok] in Hdom. apply andb_prop in Hdom as [H0 H1].
  apply Z.leb_le in H0, H1.
  unfold cp_model.item_ok, cp_model.OnlyEnforceIf, cp_model.Add_, cp_model.holds in Hge, Hlt.
  cbn [cp_model.enforce cp_model.what app forallb cp_model.lit_holds cp_model.body_holds
       cp_model.cmp_holds] in Hge, Hlt.
  unfold occ in Hge, Hlt. rewrite eval_lsum, eval_lconst in Hge, Hlt.
  fold (breakroom_occupancy c a slot) in Hge, Hlt.
  rewrite andb_true_r in Hge, Hlt.
  assert (Hcase : a over = 0 \/ a over = 1) by lia.
  destruct Hcase as [H|H]; rewrite H in Hge, Hlt |- *; cbn [Z.eqb Pos.eqb implb] in Hge, Hlt.
  - apply Z.ltb_lt in Hlt. split; intros; lia.
  - apply Z.geb_le in Hge. split; intros; [lia | reflexivity].
Qed.

Lemma breakroom_over_four_counts_witness :
  cp_model.feasible demo_solution
    (fst (Run.ideally_have_breakroom_occupancy_under_five demo)) = true
  /\ In 12 Store.slots
  /\ In (cp_model.aux "breakroomoverfour" Run.ideal [12])
       (snd (Run.ideally_have_breakroom_occupancy_under_five demo))
  /\ (demo_solution (cp_model.aux "breakroomoverfour" Run.ideal [12]) = 1
      <-> 5 <= breakroom_occupancy demo demo_solution 12).
Proof.
  assert (H1 : cp_model.feasible demo_solution
                 (fst (Run.ideally_have_breakroom_occupancy_under_five demo)) = true)
    by (vm_compute; reflexivity).
  assert (H2 : In 12 Store.slots) by (apply slots_spec; split; [lia | reflexivity]).
  split; [exact H1|]. split; [exact H2|].
  exact (breakroom_over_four_counts demo demo_solution 12 H1 H2).
Defined.

(** ** The strict lunch window *)

Lemma lunch_slots_strict_cases (s : Shift.t) (r : Py.range) :
  Shift.lunch_slots_strict s = Ok r ->
  r = Py.mkrange 8 16 4 \/ r = Py.mkrange 12 20 4 \/ r = Py.mkrange 16 24 4.
Proof.
  unfold Shift.lunch_slots_strict. intros H.
  destruct (negb (Py.mem (Shift.config s) Shift.templates)).
  - apply bind_ok in H as (s' & _ & H). eapply strict_template_cases; eassumption.
  - eapply strict_template_cases; eassumption.
Qed.

Lemma mapM_sched_get_plain (c : Config.t) (eid : nat) (appt : Z) (l : list Z)
    (vs : list cp_model.var) :
  mapM (fun slot => Run.sched_get c eid slot appt) l = Ok vs ->
  vs = map (fun slot => cp_model.sched eid slot appt) l.
Proof.
  revert vs; induction l as [|x l IH]; intros vs H.
  - apply Ok_inj in H. subst. reflexivity.
  - cbn [mapM] in H. apply bind_ok in H as (v & Hv & H).
    apply bind_ok in H as (vs' & Hvs' & H). apply Ok_inj in H. subst vs.
    rewrite (IH _ Hvs'). unfold Run.sched_get in Hv.
    destruct (_ && _) in Hv; [|discriminate]. apply Ok_inj in Hv. subst v. reflexivity.
Qed.

(** What the record 'lunch-strict-bounds' asks of a solution in which
    its toggle is true: every employee is at lunch at exactly one of the
    two lunch starts of the shift's strict window; with the lunch hour of
    the hard constraints, lunch starts at one of these two times. *)
Theorem strict_lunch_window (c : Config.t) (curr_soft_enable : cp_model.var)
    (its : list cp_model.item) (a : cp_model.assignment) (eid : nat) (emp : Employee.t) :
  Run.require_stricter_lunch_bounds c curr_soft_enable = Ok its ->
  cp_model.feasible a its = true ->
  a curr_soft_enable = 1 ->
  nth_error (Config.employees c) eid = Some emp ->
  exists first,
    Shift.lunch_slots_strict (Employee.shift emp) = Ok (Py.mkrange first (first + 8) 4)
    /\ In first [8; 12; 16]
    /\ a (cp_model.sched eid first Appointment.LUNCH)
       + a (cp_model.sched eid (first + 4) Appointment.LUNCH) = 1.
Proof.
  intros H Hfeas He Hemp. unfold Run.require_stricter_lunch_bounds in H.
  apply staff_spec in Hemp.
  destruct (mapM_ok_in _ _ _ H _ Hemp) as (it & Hit & Hin). cbn [fst snd] in Hit.
  apply bind_ok in Hit as (r & Hr & Hit). apply bind_ok in Hit as (vs & Hvs & Hit).
  apply Ok_inj in Hit. subst it.
  rewrite (mapM_sched_get_plain c eid Appointment.LUNCH _ _ Hvs) in Hin.
  apply (feasible_in a _ _ Hfeas) in Hin. apply (gated_on a _ _ He) in Hin.
  cbn [cp_model.body_holds cp_model.cmp_holds] in Hin.
  rewrite eval_lsum, eval_lconst in Hin. apply Z.eqb_eq in Hin.
  destruct (lunch_slots_strict_cases _ _ Hr) as [-> | [-> | ->]];
    [exists 8 | exists 12 | exists 16];
    (split; [exact Hr|]); (split; [cbn [In]; tauto|]);
    vm_compute Py.elems in Hin; cbn [map total] in Hin; cbn [Z.add Pos.add Pos.succ]; lia.
Qed.

Lemma strict_lunch_window_witness :
  Run.require_stricter_lunch_bounds demo (cp_model.enable "lunch-strict-bounds")
  = Ok (generated_of demo "lunch-strict-bounds")
  /\ cp_model.feasible demo_solution (generated_of demo "lunch-strict-bounds") = true
  /\ demo_solution (cp_model.enable "lunch-strict-bounds") = 1
  /\ nth_error (Config.employees demo) 2
     = Some (Employee.mk (Shift.mk "L" false (Py.range2 8 40)) "A1" "SD")
  /\ exists first,
       Shift.lunch_slots_strict (Shift.mk "L" false (Py.range2 8 40))
       = Ok (Py.mkrange first (first + 8) 4)
       /\ In first [8; 12; 16]
       /\ demo_solution (cp_model.sched 2 first Appointment.LUNCH)
          + demo_solution (cp_model.sched 2 (first + 4) Appointment.LUNCH) = 1.
Proof.
  assert (H1 : Run.require_stricter_lunch_bounds demo (cp_model.enable "lunch-strict-bounds")
               = Ok (generated_of demo "lunch-strict-bounds")) by (vm_compute; reflexivity).
  assert (H2 : cp_model.feasible demo_solution (generated_of demo "lunch-strict-bounds") = true)
    by (vm_compute; reflexivity).
  assert (H3 : demo_solution (cp_model.enable "lunch-strict-bounds") = 1) by reflexivity.
  assert (H4 : nth_error (Config.employees demo) 2
               = Some (Employee.mk (Shift.mk "L" false (Py.range2 8 40)) "A1" "SD"))
    by reflexivity.
  split; [exact H1|]. split; [exact H2|]. split; [exact H3|]. split; [exact H4|].
  exact (strict_lunch_window demo (cp_model.enable "lunch-strict-bounds") _ demo_solution
           2 _ H1 H2 H3 H4).
Defined.

(** ** The course of [main] *)

Section Course.

Variable Solve : cp_model.CpModel -> Z -> cp_model.status * cp_model.assignment.

Lemma attempt_fails (run : Run.t) (t : Z) :
  no_solution (fst (Solve (Run.model run) t)) = true ->
  Main.attempt_to_solve Solve run t = (Ok false, [(Run.model run, t)]).
Proof.
  unfold Main.attempt_to_solve. destruct (Solve (Run.model run) t) as [st sol].
  cbn [fst]. destruct st; intros H; try discriminate; reflexivity.
Qed.

Lemma attempt_succeeds (run : Run.t) (t : Z) :
  has_solution (fst (Solve (Run.model run) t)) = true ->
  cp_model.objective (Run.model run) <> None ->
  Main.attempt_to_solve Solve run t
  = (match fst (Solve (Run.idealistic_model run (snd (Solve (Run.model run) t))) 60) with
     | cp_model.INFEASIBLE | cp_model.MODEL_INVALID => Raise AssertionError
     | _ => Ok true
     end,
     [ (Run.model run, t);
       (Run.idealistic_model run (snd (Solve (Run.model run) t)), 60) ]).
Proof.
  unfold Main.attempt_to_solve, Main.make_schedule_idealistic.
  destruct (Solve (Run.model run) t) as [st sol]. cbn [fst snd]. intros Hst Hobj.
  destruct (cp_model.objective (Run.model run)); [|congruence].
  destruct st; try discriminate;
    destruct (fst (Solve (Run.idealistic_model run sol) 60)); reflexivity.
Qed.

Lemma climb_all_fail (run : Run.t) (rungs : list (list string)) :
  (forall r, In r rungs -> no_solution (fst (Solve (Run.model (rung_run run r)) 15)) = true) ->
  no_solution (fst (Solve (Run.model run) 60)) = true ->
  Main.climb Solve run rungs
  = (Ok false, map (fun r => (Run.model (rung_run run r), 15)) rungs ++ [(Run.model run, 60)]).
Proof.
  intros Hrungs Hlast. induction rungs as [|r rungs IH]; cbn [Main.climb map app].
  - apply attempt_fails. assumption.
  - fold (rung_run run r). rewrite attempt_fails by (apply Hrungs; left; reflexivity).
    rewrite IH by (intros r' Hr'; apply Hrungs; right; assumption). reflexivity.
Qed.

Lemma climb_first_success (run : Run.t) (pre post : list (list string)) (rung : list string) :
  (forall r, In r pre -> no_solution (fst (Solve (Run.model (rung_run run r)) 15)) = true) ->
  Main.climb Solve run (pre ++ rung :: post)
  = (match fst (Main.attempt_to_solve Solve (rung_run run rung) 15) with
     | Ok false => fst (Main.climb Solve run post)
     | r => r
     end,
     map (fun r => (Run.model (rung_run run r), 15)) pre
     ++ match fst (Main.attempt_to_solve Solve (rung_run run rung) 15) with
        | Ok false => snd (Main.attempt_to_solve Solve (rung_run run rung) 15)
                      ++ snd (Main.climb Solve run post)
        | _ => snd (Main.attempt_to_solve Solve (rung_run run rung) 15)
        end).
Proof.
  intros Hpre. induction pre as [|r pre IH]; cbn [Main.climb map app].
  - fold (rung_run run rung).
    destruct (Main.attempt_to_solve Solve (rung_run run rung) 15) as [res calls].
    cbn [fst snd]. destruct res as [[|]|e]; try reflexivity.
    destruct (Main.climb Solve run post); reflexivity.
  - fold (rung_run run r). rewrite attempt_fails by (apply Hpre; left; reflexivity).
    rewrite IH by (intros r' Hr'; apply Hpre; right; assumption). reflexivity.
Qed.

End Course.

Lemma init_has_objective (c : Config.t) (run : Run.t) (r : list string) :
  Run.init c = Ok run ->
  cp_model.objective (Run.model run) <> None
  /\ cp_model.objective (Run.model (rung_run run r)) <> None.
Proof.
  unfold Run.init. intros H.
  apply bind_ok in H as (hard & _ & H). apply bind_ok in H as (soft_layer & _ & H).
  apply bind_ok in H as (idealistic & _ & H). apply Ok_inj in H. subst run.
  split; discriminate.
Qed.

(** When no attempt finds a solution (the solver answers INFEASIBLE or
    UNKNOWN each time), [main] has called the solver exactly eight times,
    once for each of the seven rungs of the ladder in order, with a limit
    of 15 seconds and the model of that rung only (the toggles pinned at
    an earlier rung are gone), and a last time with a limit of 60 seconds
    on the model with no toggle pinned; it then reports the two
    possibilities and returns. *)
Theorem all_attempts_fail
    (Solve : cp_model.CpModel -> Z -> cp_model.status * cp_model.assignment)
    (c : Config.t) (run : Run.t) :
  Run.init c = Ok run ->
  (forall m t, no_solution (fst (Solve m t)) = true) ->
  Main.main_with Solve c
  = (Ok false,
     map (fun disabled_constraints => (Run.model (rung_run run disabled_constraints), 15))
       Main.ladder
     ++ [(Run.model run, 60)])
  /\ List.length (snd (Main.main_with Solve c)) = 8%nat
  /\ forall disabled_constraints,
       cp_model.items (Run.model (rung_run run disabled_constraints))
       = cp_model.items (Run.model run) ++ Main.per_run_constraints disabled_constraints.
Proof.
  intros Hinit Hfail. unfold Main.main_with. rewrite Hinit.
  rewrite (climb_all_fail Solve run Main.ladder) by (intros; apply Hfail).
  split; [reflexivity|]. split; reflexivity.
Qed.

Lemma all_attempts_fail_witness :
  Run.init demo = Ok (run_of demo)
  /\ (forall m t, no_solution (fst (always cp_model.INFEASIBLE demo_solution m t)) = true)
  /\ Main.main_with (always cp_model.INFEASIBLE demo_solution) demo
     = (Ok false,
        map (fun disabled_constraints =>
               (Run.model (rung_run (run_of demo) disabled_constraints), 15))
          Main.ladder
        ++ [(Run.model (run_of demo), 60)])
  /\ List.length (snd (Main.main_with (always cp_model.INFEASIBLE demo_solution) demo))
     = 8%nat
  /\ forall disabled_constraints,
       cp_model.items (Run.model (rung_run (run_of demo) disabled_constraints))
       = cp_model.items (Run.model (run_of demo))
         ++ Main.per_run_constraints disabled_constraints.
Proof.
  assert (H1 : Run.init demo = Ok (run_of demo)) by (vm_compute; reflexivity).
  assert (H2 : forall (m : cp_model.CpModel) (t : Z),
            no_solution (fst (always cp_model.INFEASIBLE demo_solution m t)) = true)
    by (intros; reflexivity).
  split; [exact H1|]. split; [exact H2|].
  exact (all_attempts_fail (always cp_model.INFEASIBLE demo_solution) demo
           (run_of demo) H1 H2).
Defined.

(** [main] stops at the first attempt that finds a solution.  When the
    rungs before a rung of the ladder fail and that rung succeeds, the
    calls of the solver are one per failed rung, the successful one, and
    the refinement of its solution with a limit of 60 seconds, and no
    later rung is tried; when all the rungs fail and the attempt with no
    toggle pinned succeeds, the refinement of that attempt is the ninth
    and last call.  [main] then returns normally unless the refinement
    answers INFEASIBLE or MODEL_INVALID, which trips its assertion. *)
Theorem stops_at_first_success
    (Solve : cp_model.CpModel -> Z -> cp_model.status * cp_model.assignment)
    (c : Config.t) (run : Run.t) :
  Run.init c = Ok run ->
  (forall pre rung post,
     Main.ladder = pre ++ rung :: post ->
     (forall r, In r pre ->
        no_solution (fst (Solve (Run.model (rung_run run r)) 15)) = true) ->
     has_solution (fst (Solve (Run.model (rung_run run rung)) 15)) = true ->
     Main.main_with Solve c
     = (match fst (Solve (Run.idealistic_model (rung_run run rung)
                            (snd (Solve (Run.model (rung_run run rung)) 15))) 60) with
        | cp_model.INFEASIBLE | cp_model.MODEL_INVALID => Raise AssertionError
        | _ => Ok true
        end,
        map (fun r => (Run.model (rung_run run r), 15)) pre
        ++ [ (Run.model (rung_run run rung), 15);
             (Run.idealistic_model (rung_run run rung)
                (snd (Solve (Run.model (rung_run run rung)) 15)), 60) ]))
  /\ ((forall r, In r Main.ladder ->
         no_solution (fst (Solve (Run.model (rung_run run r)) 15)) = true) ->
      has_solution (fst (Solve (Run.model run) 60)) = true ->
      Main.main_with Solve c
      = (match fst (Solve (Run.idealistic_model run (snd (Solve (Run.model run) 60))) 60) with
         | cp_model.INFEASIBLE | cp_model.MODEL_INVALID => Raise AssertionError
         | _ => Ok true
         end,
         map (fun r => (Run.model (rung_run run r), 15)) Main.ladder
         ++ [ (Run.model run, 60);
              (Run.idealistic_model run (snd (Solve (Run.model run) 60)), 60) ])).
Proof.
  intros Hinit. split.
  - intros pre rung post Hladder Hpre Hrung. unfold Main.main_with. rewrite Hinit, Hladder.
    rewrite (climb_first_success Solve run pre post rung Hpre).
    rewrite (attempt_succeeds Solve (rung_run run rung) 15 Hrung
               (proj2 (init_has_objective c run rung Hinit))).
    cbn [fst snd].
    destruct (fst (Solve (Run.idealistic_model (rung_run run rung)
                            (snd (Solve (Run.model (rung_run run rung)) 15))) 60));
      reflexivity.
  - intros Hrungs Hlast. unfold Main.main_with. rewrite Hinit.
    generalize Main.ladder Hrungs. clear Hrungs.
    induction l as [|r l IH]; intros Hrungs; cbn [Main.climb map app].
    + apply attempt_succeeds; [assumption|].
      apply (proj1 (init_has_objective c run [] Hinit)).
    + fold (rung_run run r). rewrite attempt_fails by (apply Hrungs; left; reflexivity).
      rewrite IH by (intros r' Hr'; apply Hrungs; right; assumption). reflexivity.
Qed.

Lemma stops_at_first_success_witness :
  Run.init demo = Ok (run_of demo)
  /\ (forall pre rung post,
        Main.ladder = pre ++ rung :: post ->
        (forall r, In r pre ->
           no_solution (fst (checker demo_solution
                               (Run.model (rung_run (run_of demo) r)) 15)) = true) ->
        has_solution (fst (checker demo_solution
                             (Run.model (rung_run (run_of demo) rung)) 15)) = true ->
        Main.main_with (checker demo_solution) demo
        = (match fst (checker demo_solution
                        (Run.idealistic_model (rung_run (run_of demo) rung)
                           (snd (checker demo_solution
                                   (Run.model (rung_run (run_of demo) rung)) 15))) 60) with
           | cp_model.INFEASIBLE | cp_model.MODEL_INVALID => Raise AssertionError
           | _ => Ok true
           end,
           map (fun r => (Run.model (rung_run (run_of demo) r), 15)) pre
           ++ [ (Run.model (rung_run (run_of demo) rung), 15);
                (Run.idealistic_model (rung_run (run_of demo) rung)
                   (snd (checker demo_solution
                           (Run.model (rung_run (run_of demo) rung)) 15)), 60) ]))
  /\ ((forall r, In r Main.ladder ->
         no_solution (fst (checker demo_solution
                             (Run.model (rung_run (run_of demo) r)) 15)) = true) ->
      has_solution (fst (checker demo_solution (Run.model (run_of demo)) 60)) = true ->
      Main.main_with (checker demo_solution) demo
      = (match fst (checker demo_solution
                      (Run.idealistic_model (run_of demo)
                         (snd (checker demo_solution (Run.model (run_of demo)) 60))) 60) with
         | cp_model.INFEASIBLE | cp_model.MODEL_INVALID => Raise AssertionError
         | _ => Ok true
         end,
         map (fun r => (Run.model (rung_run (run_of demo) r), 15)) Main.ladder
         ++ [ (Run.model (run_of demo), 60);
              (Run.idealistic_model (run_of demo)
                 (snd (checker demo_solution (Run.model (run_of demo)) 60)), 60) ])).
Proof.
  assert (H : Run.init demo = Ok (run_of demo)) by (vm_compute; reflexivity).
  split; [exact H|].
  exact (stops_at_first_success (checker demo_solution) demo (run_of demo) H).
Defined.

(** The day worked out above with a solver that knows the solution
    given there: the seven rungs of the ladder fail one after the other,
    since the solution has a toggle false that no rung lists; the
    attempt with nothing pinned succeeds and the refinement is the ninth
    and last call. *)
Example demo_course :
  (let r := Main.main_with (checker demo_solution) demo in
   (fst r, map snd (snd r)))
  = (Ok true, [15; 15; 15; 15; 15; 15; 15; 60; 60]).
Proof. vm_compute. reflexivity. Qed.

(** ** The refinement under a sound solver *)

Lemma checker_sound (known : cp_model.assignment) : sound (checker known).
Proof.
  intros m t. unfold checker.
  destruct (cp_model.feasible known (cp_model.items m)) eqn:H; cbn [fst snd];
    split; intros H'; try discriminate; assumption.
Qed.

(** With a sound solver the refinement cannot come back INFEASIBLE: the
    solution that the attempt found satisfies the refined model, which
    only pins the toggles to the values they have in it.  So the
    assertion of [make_schedule_idealistic] can only be tripped by
    MODEL_INVALID, and an attempt that finds a solution makes [main]
    return after exactly one more call. *)
Theorem refinement_is_feasible
    (Solve : cp_model.CpModel -> Z -> cp_model.status * cp_model.assignment)
    (run : Run.t) (max_time_in_seconds : Z) :
  sound Solve ->
  has_solution (fst (Solve (Run.model run) max_time_in_seconds)) = true ->
  cp_model.feasible (snd (Solve (Run.model run) max_time_in_seconds))
    (cp_model.items (Run.idealistic_model run
                       (snd (Solve (Run.model run) max_time_in_seconds)))) = true
  /\ fst (Solve (Run.idealistic_model run (snd (Solve (Run.model run) max_time_in_seconds)))
            60) <> cp_model.INFEASIBLE
  /\ (cp_model.objective (Run.model run) <> None ->
      fst (Solve (Run.idealistic_model run (snd (Solve (Run.model run) max_time_in_seconds)))
             60) <> cp_model.MODEL_INVALID ->
      fst (Main.attempt_to_solve Solve run max_time_in_seconds) = Ok true).
Proof.
  intros Hsound Hst.
  pose proof (proj1 (Hsound (Run.model run) max_time_in_seconds) Hst) as Hsol.
  pose proof (refinement_accepts_solution run _ Hsol) as Href.
  split; [assumption|].
  assert (Hne : fst (Solve (Run.idealistic_model run
                              (snd (Solve (Run.model run) max_time_in_seconds))) 60)
                <> cp_model.INFEASIBLE).
  { intros Hinf.
    pose proof (proj2 (Hsound _ 60) Hinf (snd (Solve (Run.model run) max_time_in_seconds)))
      as Hnone.
    rewrite Href in Hnone. discriminate. }
  split; [assumption|]. intros Hobj Hvalid.
  rewrite (attempt_succeeds Solve run max_time_in_seconds Hst Hobj). cbn [fst].
  destruct (fst (Solve (Run.idealistic_model run
                          (snd (Solve (Run.model run) max_time_in_seconds))) 60));
    try reflexivity; contradiction.
Qed.

Lemma refinement_is_feasible_witness :
  sound (checker demo_solution)
  /\ has_solution (fst (checker demo_solution (Run.model (run_of demo)) 60)) = true
  /\ cp_model.feasible (snd (checker demo_solution (Run.model (run_of demo)) 60))
       (cp_model.items (Run.idealistic_model (run_of demo)
                          (snd (checker demo_solution (Run.model (run_of demo)) 60)))) = true
  /\ fst (checker demo_solution
            (Run.idealistic_model (run_of demo)
               (snd (checker demo_solution (Run.model (run_of demo)) 60))) 60)
     <> cp_model.INFEASIBLE
  /\ (cp_model.objective (Run.model (run_of demo)) <> None ->
      fst (checker demo_solution
             (Run.idealistic_model (run_of demo)
                (snd (checker demo_solution (Run.model (run_of demo)) 60))) 60)
      <> cp_model.MODEL_INVALID ->
      fst (Main.attempt_to_solve (checker demo_solution) (run_of demo) 60) = Ok true).
Proof.
  assert (H1 : sound (checker demo_solution)) by apply checker_sound.
  assert (H2 : has_solution (fst (checker demo_solution (Run.model (run_of demo)) 60)) = true)
    by (vm_compute; reflexivity).
  split; [exact H1|]. split; [exact H2|].
  exact (refinement_is_feasible (checker demo_solution) (run_of demo) 60 H1 H2).
Defined.

(** ** The gaps between breaks that the printer shows *)

Ltac order_slots :=
  repeat match goal with
         | |- context [?x <=? ?y] =>
             destruct (Z.leb_spec x y); try lia; cbn [Py.insert]
         end.

Lemma gaps_between_breaks_ok (emp : Employee.t) (break1_slot break2_slot lunch_slot : Z) :
  Py.start (Shift.time_range (Employee.shift emp)) <= break1_slot ->
  break1_slot < break2_slot ->
  break2_slot < Py.stop (Shift.time_range (Employee.shift emp)) ->
  Py.start (Shift.time_range (Employee.shift emp)) <= lunch_slot ->
  lunch_slot + 3 < Py.stop (Shift.time_range (Employee.shift emp)) ->
  (break1_slot < lunch_slot \/ lunch_slot + 3 < break1_slot) ->
  (break2_slot < lunch_slot \/ lunch_slot + 3 < break2_slot) ->
  exists g1 g2 g3 g4,
    SolutionPrinter.gaps_between_breaks emp break1_slot break2_slot lunch_slot
    = Ok [g1; g2; g3; g4]
    /\ 0 <= g1 /\ 0 <= g2 /\ 0 <= g3 /\ 0 <= g4
    /\ g1 + g2 + g3 + g4
       = Py.stop (Shift.time_range (Employee.shift emp))
         - Py.start (Shift.time_range (Employee.shift emp)) - 6.
Proof.
  intros H1 H12 H2 Hl Hl3 Hb1 Hb2. unfold SolutionPrinter.gaps_between_breaks.
  set (start := Py.start (Shift.time_range (Employee.shift emp))) in *.
  set (stop := Py.stop (Shift.time_range (Employee.shift emp))) in *.
  unfold Py.sorted. cbn [fold_right Py.insert]. order_slots.
  all: unfold SolutionPrinter.gaps_loop; cbn [fold_left fst snd app Py.remove].
  all: repeat match goal with
              | |- context [?x =? 2] => destruct (Z.eqb_spec x 2); cbn [bind]
              end.
  all: try (do 4 eexists; split; [reflexivity | lia]).
  all: exfalso; lia.
Qed.

(** [gaps_between_breaks] on the two break slots and the first lunch
    slot of an employee whose breaks lie in the shift and outside the
    lunch hour, itself inside the shift: it finds a gap of 2 to remove,
    and the four gaps it returns are what is left of the shift, its
    length less the two breaks and the four slots of lunch. *)
Theorem gaps_between_breaks_sum (emp : Employee.t)
    (break1_slot break2_slot lunch_slot : Z) :
  Py.start (Shift.time_range (Employee.shift emp)) <= break1_slot ->
  break1_slot < break2_slot ->
  break2_slot < Py.stop (Shift.time_range (Employee.shift emp)) ->
  Py.start (Shift.time_range (Employee.shift emp)) <= lunch_slot ->
  lunch_slot + 3 < Py.stop (Shift.time_range (Employee.shift emp)) ->
  (break1_slot < lunch_slot \/ lunch_slot + 3 < break1_slot) ->
  (break2_slot < lunch_slot \/ lunch_slot + 3 < break2_slot) ->
  exists g1 g2 g3 g4,
    SolutionPrinter.gaps_between_breaks emp break1_slot break2_slot lunch_slot
    = Ok [g1; g2; g3; g4]
    /\ 0 <= g1 /\ 0 <= g2 /\ 0 <= g3 /\ 0 <= g4
    /\ g1 + g2 + g3 + g4
       = Py.stop (Shift.time_range (Employee.shift emp))
         - Py.start (Shift.time_range (Employee.shift emp)) - 6.
Proof. apply gaps_between_breaks_ok. Qed.

Lemma gaps_between_breaks_sum_witness :
  Py.start (Py.range2 0 34) <= 20 /\ 20 < 27 /\ 27 < Py.stop (Py.range2 0 34)
  /\ Py.start (Py.range2 0 34) <= 8 /\ 8 + 3 < Py.stop (Py.range2 0 34)
  /\ (20 < 8 \/ 8 + 3 < 20) /\ (27 < 8 \/ 8 + 3 < 27)
  /\ exists g1 g2 g3 g4,
       SolutionPrinter.gaps_between_breaks
         (Employee.mk (Shift.mk "E" true (Py.range2 0 34)) "T2" "NBC") 20 27 8
       = Ok [g1; g2; g3; g4]
       /\ 0 <= g1 /\ 0 <= g2 /\ 0 <= g3 /\ 0 <= g4
       /\ g1 + g2 + g3 + g4 = Py.stop (Py.range2 0 34) - Py.start (Py.range2 0 34) - 6.
Proof.
  assert (H1 : Py.start (Py.range2 0 34) <= 20) by (cbn; lia).
  assert (H2 : 20 < 27) by lia.
  assert (H3 : 27 < Py.stop (Py.range2 0 34)) by (cbn; lia).
  assert (H4 : Py.start (Py.range2 0 34) <= 8) by (cbn; lia).
  assert (H5 : 8 + 3 < Py.stop (Py.range2 0 34)) by (cbn; lia).
  assert (H6 : 20 < 8 \/ 8 + 3 < 20) by lia.
  assert (H7 : 27 < 8 \/ 8 + 3 < 27) by lia.
  repeat (split; [assumption|]).
  exact (gaps_between_breaks_sum (Employee.mk (Shift.mk "E" true (Py.range2 0 34)) "T2" "NBC")
           20 27 8 H1 H2 H3 H4 H5 H6 H7).
Defined.

(** The gap removed is the first gap of 2, not always the one inside the
    lunch hour: with a first break two slots into the shift, it is the gap
    before that break that goes, and the 2 of the lunch hour stays in the
    list. *)
Example gaps_between_breaks_first_two :
  SolutionPrinter.gaps_between_breaks
    (Employee.mk (Shift.mk "E" true (Py.range2 0 34)) "T2" "NBC") 20 27 8 = Ok [8; 8; 6; 6]
  /\ SolutionPrinter.gaps_between_breaks
       (Employee.mk (Shift.mk "E" true (Py.range2 0 34)) "T2" "NBC") 2 27 8 = Ok [5; 2; 15; 6]
  /\ SolutionPrinter.gaps_between_breaks
       (Employee.mk (Shift.mk "E" true (Py.range2 0 34)) "T2" "NBC") 9 27 8 = Raise ValueError.
Proof. repeat split; reflexivity. Qed.


(** ** Printing a row of a solution *)

Lemma find_seq_first (p : nat -> bool) (len start i : nat) :
  find p (seq start len) = Some i ->
  (start <= i < start + len)%nat /\ p i = true
  /\ forall j, (start <= j < i)%nat -> p j = false.
Proof.
  revert start; induction len as [|len IH]; intros start H; cbn [seq find] in H; [discriminate|].
  destruct (p start) eqn:Hp.
  - injection H as <-. repeat split; try lia. assumption.
  - destruct (IH _ H) as (Hr & Hi & Hfirst). repeat split; try lia; [assumption|].
    intros j Hj. destruct (Nat.eq_dec j start) as [->|Hne]; [assumption|].
    apply Hfirst. lia.
Qed.

Lemma find_seq_none (p : nat -> bool) (len start : nat) :
  find p (seq start len) = None ->
  forall j, (start <= j < start + len)%nat -> p j = false.
Proof.
  revert start; induction len as [|len IH]; intros start H j Hj; [lia|].
  cbn [seq find] in H. destruct (p start) eqn:Hp; [discriminate|].
  destruct (Nat.eq_dec j start) as [->|Hne]; [assumption|]. apply (IH _ H). lia.
Qed.

Lemma list_index_ok (x : Z) (l : list Z) (start i : nat) :
  Py.list_index x l start = Ok i ->
  (start <= i < List.length l)%nat /\ nth_error l i = Some x
  /\ forall j, (start <= j < i)%nat -> nth_error l j <> Some x.
Proof.
  unfold Py.list_index. destruct (find _ _) as [k|] eqn:Hfind; [|discriminate].
  intros H. apply Ok_inj in H. subst k.
  destruct (find_seq_first _ _ _ _ Hfind) as (Hr & Hi & Hfirst).
  assert (Hlen : (i < List.length l)%nat).
  { destruct (nth_error l i) eqn:Hn; [|discriminate]. apply nth_error_Some. congruence. }
  split; [lia|]. split.
  - destruct (nth_error l i) as [y|]; [|discriminate]. apply Z.eqb_eq in Hi. congruence.
  - intros j Hj Hn. specialize (Hfirst j Hj). rewrite Hn, Z.eqb_refl in Hfirst. discriminate.
Qed.

Lemma list_index_exists (x : Z) (l : list Z) (start j : nat) :
  (start <= j)%nat -> nth_error l j = Some x -> exists i, Py.list_index x l start = Ok i.
Proof.
  intros Hj Hn. unfold Py.list_index. destruct (find _ _) as [k|] eqn:Hfind; [eauto|].
  assert (Hlen : (j < List.length l)%nat) by (apply nth_error_Some; congruence).
  pose proof (find_seq_none _ _ _ Hfind j ltac:(lia)) as Hp. cbv beta in Hp.
  rewrite Hn, Z.eqb_refl in Hp. discriminate.
Qed.

Lemma slots_nth (i : nat) :
  (i < 40)%nat -> nth_error Store.slots i = Some (Z.of_nat i).
Proof.
  intros Hi. rewrite slots_list.
  do 40 (destruct i as [|i]; [reflexivity|]). lia.
Qed.

Lemma slots_length : List.length Store.slots = 40%nat.
Proof. reflexivity. Qed.

Lemma values_over_day_ok (a : cp_model.assignment) (self : SolutionPrinter.t)
    (eid : nat) (appt : Z) :
  In eid (Config.all_ids (Run.config (SolutionPrinter.run self))) ->
  In appt Appointment.all ->
  SolutionPrinter.values_over_day a self eid appt
  = Ok (map (fun slot => a (cp_model.sched eid slot appt)) Store.slots).
Proof.
  intros Heid Happt. unfold SolutionPrinter.values_over_day.
  assert (H : forall l, (forall slot, In slot l -> In slot Store.slots) ->
            mapM (fun slot => v <- Run.sched_get (Run.config (SolutionPrinter.run self))
                                    eid slot appt ;; Ok (a v)) l
            = Ok (map (fun slot => a (cp_model.sched eid slot appt)) l)).
  { induction l as [|x l IH]; intros Hl; [reflexivity|]. cbn [mapM map].
    rewrite sched_get_ok by (auto; apply Hl; left; reflexivity). cbn [bind].
    rewrite IH by (intros; apply Hl; right; assumption). reflexivity. }
  apply H. auto.
Qed.

Lemma values_nth (a : cp_model.assignment) (eid : nat) (appt : Z) (i : nat) :
  (i < 40)%nat ->
  nth_error (map (fun slot => a (cp_model.sched eid slot appt)) Store.slots) i
  = Some (a (cp_model.sched eid (Z.of_nat i) appt)).
Proof. intros Hi. rewrite nth_error_map, slots_nth by assumption. reflexivity. Qed.

(** Two slots of a Boolean row whose values add up to 2. *)
Lemma one_of_total (a : cp_model.assignment) (vs : list cp_model.var) :
  (forall v, In v vs -> 0 <= a v <= 1) -> 1 <= total a vs ->
  exists i v, nth_error vs i = Some v /\ a v = 1.
Proof.
  induction vs as [|v vs IH]; cbn [total]; intros Hdom Hsum; [lia|].
  pose proof (Hdom v (or_introl eq_refl)) as Hv.
  destruct (Z.eq_dec (a v) 1) as [H1|H1].
  - exists 0%nat, v. auto.
  - destruct IH as (i & w & Hi & Hw); [intros; apply Hdom; right; assumption | lia|].
    exists (S i), w. auto.
Qed.

Lemma two_of_total (a : cp_model.assignment) (vs : list cp_model.var) :
  (forall v, In v vs -> 0 <= a v <= 1) -> total a vs = 2 ->
  exists i j v w, (i < j)%nat /\ nth_error vs i = Some v /\ a v = 1
                  /\ nth_error vs j = Some w /\ a w = 1.
Proof.
  induction vs as [|v vs IH]; cbn [total]; intros Hdom Hsum; [lia|].
  pose proof (Hdom v (or_introl eq_refl)) as Hv.
  assert (Hdom' : forall w, In w vs -> 0 <= a w <= 1) by (intros; apply Hdom; right; assumption).
  destruct (Z.eq_dec (a v) 1) as [H1|H1].
  - destruct (one_of_total a vs Hdom') as (j & w & Hj & Hw); [lia|].
    exists 0%nat, (S j), v, w. repeat split; auto; lia.
  - destruct IH as (i & j & x & w & Hij & Hi & Hx & Hj & Hw); [assumption | lia|].
    exists (S i), (S j), x, w. repeat split; auto; lia.
Qed.

Lemma contains_bounds (r : Py.range) (x : Z) :
  Py.contains r x = true -> Py.start r <= x < Py.stop r.
Proof.
  unfold Py.contains. intros H. apply andb_prop in H as [H _].
  apply andb_prop in H as [H1 H2]. apply Z.leb_le in H1. apply Z.ltb_lt in H2. lia.
Qed.

(** An activity other than absence is inside the shift and excludes the
    other activities of the slot. *)
Lemma activity_in_shift (c : Config.t) (hard : list cp_model.item)
    (a : cp_model.assignment) (eid : nat) (e : Employee.t) (slot appt : Z) :
  Run.add_hard_constraints c = Ok hard ->
  cp_model.feasible a (Run.new_sched c ++ hard) = true ->
  nth_error (Config.employees c) eid = Some e -> In slot Store.slots ->
  In appt Appointment.all -> appt <> Appointment.NOT_HERE ->
  a (cp_model.sched eid slot appt) = 1 ->
  Py.start (Shift.time_range (Employee.shift e)) <= slot
  < Py.stop (Shift.time_range (Employee.shift e))
  /\ forall appt', In appt' Appointment.all -> appt' <> appt ->
                   a (cp_model.sched eid slot appt') = 0.
Proof.
  intros Hhard Hfeas He Hslot Happt Hne Ha.
  pose proof (nth_error_all_ids c eid e He) as Heid.
  destruct (activities_sum_to_one c hard a eid slot Hhard Hfeas Heid Hslot) as [Hdom Hone].
  pose proof (present_in_shift c hard a eid e slot Hhard Hfeas He Hslot) as Hhere.
  change Appointment.all with [0; 1; 2; 3; 4; 5; 6] in *.
  pose proof (Hdom 0 ltac:(cbn [In]; tauto)). pose proof (Hdom 1 ltac:(cbn [In]; tauto)).
  pose proof (Hdom 2 ltac:(cbn [In]; tauto)). pose proof (Hdom 3 ltac:(cbn [In]; tauto)).
  pose proof (Hdom 4 ltac:(cbn [In]; tauto)). pose proof (Hdom 5 ltac:(cbn [In]; tauto)).
  pose proof (Hdom 6 ltac:(cbn [In]; tauto)).
  unfold Appointment.NOT_HERE in *. split.
  - apply contains_bounds.
    destruct (Py.contains (Shift.time_range (Employee.shift e)) slot); [reflexivity|].
    cbn in Hhere. cbn [In] in Happt.
    repeat (destruct Happt as [<-|Happt]; [try contradiction; lia|]). destruct Happt.
  - intros appt' Happt' Hne'. cbn [In] in Happt, Happt'.
    repeat (destruct Happt as [<-|Happt];
            [repeat (destruct Happt' as [<-|Happt']; [try contradiction; lia|]);
             destruct Happt'|]).
    destruct Happt.
Qed.

Lemma print_cell_ok (c : Config.t) (hard : list cp_model.item) (a : cp_model.assignment)
    (colors : sty.t) (self : SolutionPrinter.t) (eid : nat) (slot : Z) :
  Run.add_hard_constraints c = Ok hard ->
  cp_model.feasible a (Run.new_sched c ++ hard) = true ->
  Run.config (SolutionPrinter.run self) = c ->
  In eid (Config.all_ids c) -> In slot Store.slots ->
  exists appt color text,
    In appt Appointment.all /\ a (cp_model.sched eid slot appt) = 1
    /\ Appointment.pretty_color colors appt = Ok color
    /\ Appointment.pretty_text appt = Ok text
    /\ SolutionPrinter.print_cell a colors self eid slot
       = Ok ((if (slot mod Store.SLOTS_PER_HOUR =? 0)%Z then "|" else "")
             ++ color ++ text ++ sty.fg_rs colors ++ sty.bg_rs colors)%string.
Proof.
  intros Hhard Hfeas Hc Heid Hslot.
  destruct (activities_sum_to_one c hard a eid slot Hhard Hfeas Heid Hslot) as [Hdom Hone].
  unfold SolutionPrinter.print_cell. rewrite Hc.
  assert (Hget : mapM (fun appt => Run.sched_get c eid slot appt) Appointment.all
                 = Ok (map (fun appt => cp_model.sched eid slot appt) Appointment.all)).
  { assert (H : forall l, (forall x, In x l -> In x Appointment.all) ->
              mapM (fun appt => Run.sched_get c eid slot appt) l
              = Ok (map (fun appt => cp_model.sched eid slot appt) l)).
    { induction l as [|x l IH]; intros Hl; [reflexivity|]. cbn [mapM map].
      rewrite sched_get_ok by (auto; apply Hl; left; reflexivity). cbn [bind].
      rewrite IH by (intros; apply Hl; right; assumption). reflexivity. }
    apply H. auto. }
  rewrite Hget. cbn [bind]. change Appointment.all with [0; 1; 2; 3; 4; 5; 6] in *.
  cbn [map].
  pose proof (Hdom 0 ltac:(cbn [In]; tauto)). pose proof (Hdom 1 ltac:(cbn [In]; tauto)).
  pose proof (Hdom 2 ltac:(cbn [In]; tauto)). pose proof (Hdom 3 ltac:(cbn [In]; tauto)).
  pose proof (Hdom 4 ltac:(cbn [In]; tauto)). pose proof (Hdom 5 ltac:(cbn [In]; tauto)).
  pose proof (Hdom 6 ltac:(cbn [In]; tauto)).
  assert (Hcase : a (cp_model.sched eid slot 0) = 1 \/ a (cp_model.sched eid slot 1) = 1
                  \/ a (cp_model.sched eid slot 2) = 1 \/ a (cp_model.sched eid slot 3) = 1
                  \/ a (cp_model.sched eid slot 4) = 1 \/ a (cp_model.sched eid slot 5) = 1
                  \/ a (cp_model.sched eid slot 6) = 1) by lia.
  destruct Hcase as [Hc0|[Hc0|[Hc0|[Hc0|[Hc0|[Hc0|Hc0]]]]]];
    [ assert (E0 : a (cp_model.sched eid slot 0) = 1) by assumption
    | assert (E0 : a (cp_model.sched eid slot 0) = 0) by lia
    | assert (E0 : a (cp_model.sched eid slot 0) = 0) by lia
    | assert (E0 : a (cp_model.sched eid slot 0) = 0) by lia
    | assert (E0 : a (cp_model.sched eid slot 0) = 0) by lia
    | assert (E0 : a (cp_model.sched eid slot 0) = 0) by lia
    | assert (E0 : a (cp_model.sched eid slot 0) = 0) by lia ];
    [ assert (E1 : a (cp_model.sched eid slot 1) = 0) by lia
    | assert (E1 : a (cp_model.sched eid slot 1) = 1) by assumption
    | assert (E1 : a (cp_model.sched eid slot 1) = 0) by lia
    | assert (E1 : a (cp_model.sched eid slot 1) = 0) by lia
    | assert (E1 : a (cp_model.sched eid slot 1) = 0) by lia
    | assert (E1 : a (cp_model.sched eid slot 1) = 0) by lia
    | assert (E1 : a (cp_model.sched eid slot 1) = 0) by lia ];
    [ assert (E2 : a (cp_model.sched eid slot 2) = 0) by lia
    | assert (E2 : a (cp_model.sched eid slot 2) = 0) by lia
    | assert (E2 : a (cp_model.sched eid slot 2) = 1) by assumption
    | assert (E2 : a (cp_model.sched eid slot 2) = 0) by lia
    | assert (E2 : a (cp_model.sched eid slot 2) = 0) by lia
    | assert (E2 : a (cp_model.sched eid slot 2) = 0) by lia
    | assert (E2 : a (cp_model.sched eid slot 2) = 0) by lia ];
    [ assert (E3 : a (cp_model.sched eid slot 3) = 0) by lia
    | assert (E3 : a (cp_model.sched eid slot 3) = 0) by lia
    | assert (E3 : a (cp_model.sched eid slot 3) = 0) by lia
    | assert (E3 : a (cp_model.sched eid slot 3) = 1) by assumption
    | assert (E3 : a (cp_model.sched eid slot 3) = 0) by lia
    | assert (E3 : a (cp_model.sched eid slot 3) = 0) by lia
    | assert (E3 : a (cp_model.sched eid slot 3) = 0) by lia ];
    [ assert (E4 : a (cp_model.sched eid slot 4) = 0) by lia
    | assert (E4 : a (cp_model.sched eid slot 4) = 0) by lia
    | assert (E4 : a (cp_model.sched eid slot 4) = 0) by lia
    | assert (E4 : a (cp_model.sched eid slot 4) = 0) by lia
    | assert (E4 : a (cp_model.sched eid slot 4) = 1) by assumption
    | assert (E4 : a (cp_model.sched eid slot 4) = 0) by lia
    | assert (E4 : a (cp_model.sched eid slot 4) = 0) by lia ];
    [ assert (E5 : a (cp_model.sched eid slot 5) = 0) by lia
    | assert (E5 : a (cp_model.sched eid slot 5) = 0) by lia
    | assert (E5 : a (cp_model.sched eid slot 5) = 0) by lia
    | assert (E5 : a (cp_model.sched eid slot 5) = 0) by lia
    | assert (E5 : a (cp_model.sched eid slot 5) = 0) by lia
    | assert (E5 : a (cp_model.sched eid slot 5) = 1) by assumption
    | assert (E5 : a (cp_model.sched eid slot 5) = 0) by lia ];
    [ assert (E6 : a (cp_model.sched eid slot 6) = 0) by lia
    | assert (E6 : a (cp_model.sched eid slot 6) = 0) by lia
    | assert (E6 : a (cp_model.sched eid slot 6) = 0) by lia
    | assert (E6 : a (cp_model.sched eid slot 6) = 0) by lia
    | assert (E6 : a (cp_model.sched eid slot 6) = 0) by lia
    | assert (E6 : a (cp_model.sched eid slot 6) = 0) by lia
    | assert (E6 : a (cp_model.sched eid slot 6) = 1) by assumption ];
    rewrite E0, E1, E2, E3, E4, E5, E6;
    [exists 0 | exists 1 | exists 2 | exists 3 | exists 4 | exists 5 | exists 6];
    do 2 eexists; (split; [cbn [In]; tauto|]); (split; [assumption|]);
    (split; [reflexivity|]); (split; [reflexivity|]); reflexivity.
Qed.

Lemma print_gaps_ok (c : Config.t) (hard : list cp_model.item) (a : cp_model.assignment)
    (self : SolutionPrinter.t) (eid : nat) (emp : Employee.t) :
  Run.add_hard_constraints c = Ok hard ->
  cp_model.feasible a (Run.new_sched c ++ hard) = true ->
  Run.config (SolutionPrinter.run self) = c ->
  nth_error (Config.employees c) eid = Some emp ->
  exists break1_slot break2_slot lunch_slot g1 g2 g3 g4,
    break1_slot < break2_slot
    /\ a (cp_model.sched eid break1_slot Appointment.BREAK) = 1
    /\ a (cp_model.sched eid break2_slot Appointment.BREAK) = 1
    /\ In lunch_slot (Py.elems Shift.lunch_slots)
    /\ a (cp_model.sched eid lunch_slot Appointment.LUNCH) = 1
    /\ SolutionPrinter.gaps_between_breaks emp break1_slot break2_slot lunch_slot
       = Ok [g1; g2; g3; g4]
    /\ g1 + g2 + g3 + g4
       = Py.stop (Shift.time_range (Employee.shift emp))
         - Py.start (Shift.time_range (Employee.shift emp)) - 6
    /\ SolutionPrinter.print_gaps_between_breaks a self eid emp
       = Ok (" gaps=[" ++ Py.join "," (map (fun x => Py.rjust 2 (Py.str x)) [g1; g2; g3; g4])
             ++ "]")%string.
Proof.
  intros Hhard Hfeas Hc Hemp.
  pose proof (nth_error_all_ids c eid emp Hemp) as Heid.
  assert (HB : In Appointment.BREAK Appointment.all) by (cbv; tauto).
  assert (HL : In Appointment.LUNCH Appointment.all) by (cbv; tauto).
  (* the two breaks *)
  assert (Hbreaks : total a (map (fun slot => cp_model.sched eid slot Appointment.BREAK)
                               Store.slots) = 2).
  { pose proof Hfeas as Hf. apply feasible_app in Hf as [_ Hf].
    destruct (hard_constraints_present c hard Hhard) as (Hb & _).
    apply linear_eq_sum. apply (feasible_in a _ _ Hf). apply Hb. assumption. }
  assert (Hbool : forall v,
            In v (map (fun slot => cp_model.sched eid slot Appointment.BREAK) Store.slots) ->
            0 <= a v <= 1).
  { pose proof Hfeas as Hf. apply feasible_app in Hf as [Hf _].
    intros v Hv. apply in_map_iff in Hv as (s & <- & Hs). apply (sched_boolean c); auto. }
  destruct (two_of_total a _ Hbool Hbreaks) as (i & j & v & w & Hij & Hi & Hv & Hj & Hw).
  assert (Hi40 : (i < 40)%nat).
  { assert (H : nth_error (map (fun slot => cp_model.sched eid slot Appointment.BREAK)
                             Store.slots) i <> None) by congruence.
    apply nth_error_Some in H. rewrite length_map, slots_length in H. exact H. }
  assert (Hj40 : (j < 40)%nat).
  { assert (H : nth_error (map (fun slot => cp_model.sched eid slot Appointment.BREAK)
                             Store.slots) j <> None) by congruence.
    apply nth_error_Some in H. rewrite length_map, slots_length in H. exact H. }
  rewrite nth_error_map, slots_nth in Hi, Hj by assumption. cbn [option_map] in Hi, Hj.
  injection Hi as <-. injection Hj as <-.
  set (breaks := map (fun slot => a (cp_model.sched eid slot Appointment.BREAK)) Store.slots).
  assert (Hlen : List.length breaks = 40%nat) by (unfold breaks; rewrite length_map; reflexivity).
  destruct (list_index_exists 1 breaks 0 i ltac:(lia)
              ltac:(unfold breaks; rewrite values_nth by assumption; congruence))
    as (b1 & Hb1).
  destruct (list_index_ok _ _ _ _ Hb1) as (Hb1r & Hb1v & Hb1first).
  assert (Hb1i : (b1 <= i)%nat).
  { destruct (Nat.le_gt_cases b1 i) as [|Hgt]; [assumption|]. exfalso.
    apply (Hb1first i ltac:(lia)). unfold breaks. rewrite values_nth by assumption. congruence. }
  destruct (list_index_exists 1 breaks (b1 + 1) j ltac:(lia)
              ltac:(unfold breaks; rewrite values_nth by assumption; congruence))
    as (b2 & Hb2).
  destruct (list_index_ok _ _ _ _ Hb2) as (Hb2r & Hb2v & _).
  unfold breaks in Hb1v, Hb2v. rewrite values_nth in Hb1v, Hb2v by lia.
  injection Hb1v as Hb1v. injection Hb2v as Hb2v.
  (* the lunch hour *)
  destruct (lunch_hour_block c hard a eid Hhard Hfeas Heid) as (s & Hs & Hblock).
  assert (Hs40 : 0 <= s /\ s + 3 < 40).
  { change (Py.elems Shift.lunch_slots) with [8; 12; 16; 20] in Hs. cbn [In] in Hs. lia. }
  assert (Hin : forall x, 0 <= x < 40 -> In x Store.slots).
  { intros x Hx. apply slots_spec. exact Hx. }
  set (lunches := map (fun slot => a (cp_model.sched eid slot Appointment.LUNCH)) Store.slots).
  assert (Hls : a (cp_model.sched eid s Appointment.LUNCH) = 1).
  { apply (Hblock s); [apply Hin|]; lia. }
  destruct (list_index_exists 1 lunches 0 (Z.to_nat s) ltac:(lia)
              ltac:(unfold lunches; rewrite values_nth by lia; rewrite Z2Nat.id by lia;
                    congruence)) as (l & Hl).
  destruct (list_index_ok _ _ _ _ Hl) as (Hlr & Hlv & Hlfirst).
  assert (Hl40 : (l < 40)%nat) by (unfold lunches in Hlr; rewrite length_map, slots_length in Hlr; lia).
  unfold lunches in Hlv. rewrite values_nth in Hlv by assumption. injection Hlv as Hlv.
  assert (Hleq : Z.of_nat l = s).
  { apply (Hblock (Z.of_nat l)) in Hlv; [|apply Hin; lia].
    destruct (Z.eq_dec (Z.of_nat l) s) as [|Hne]; [assumption|]. exfalso.
    apply (Hlfirst (Z.to_nat s) ltac:(lia)). unfold lunches.
    rewrite values_nth by lia. rewrite Z2Nat.id by lia. congruence. }
  (* where the breaks and the lunch lie *)
  destruct (activity_in_shift c hard a eid emp (Z.of_nat b1) Appointment.BREAK Hhard Hfeas Hemp
              ltac:(apply Hin; lia) HB ltac:(discriminate) Hb1v) as [Hb1s Hb1o].
  destruct (activity_in_shift c hard a eid emp (Z.of_nat b2) Appointment.BREAK Hhard Hfeas Hemp
              ltac:(apply Hin; lia) HB ltac:(discriminate) Hb2v) as [Hb2s Hb2o].
  destruct (activity_in_shift c hard a eid emp s Appointment.LUNCH Hhard Hfeas Hemp
              ltac:(apply Hin; lia) HL ltac:(discriminate) Hls) as [Hss _].
  assert (Hls3 : a (cp_model.sched eid (s + 3) Appointment.LUNCH) = 1).
  { apply (Hblock (s + 3)); [apply Hin|]; lia. }
  destruct (activity_in_shift c hard a eid emp (s + 3) Appointment.LUNCH Hhard Hfeas Hemp
              ltac:(apply Hin; lia) HL ltac:(discriminate) Hls3) as [Hs3 _].
  assert (Hout : forall b : nat, (b < 40)%nat ->
            a (cp_model.sched eid (Z.of_nat b) Appointment.BREAK) = 1 ->
            (forall appt', In appt' Appointment.all -> appt' <> Appointment.BREAK ->
                           a (cp_model.sched eid (Z.of_nat b) appt') = 0) ->
            Z.of_nat b < s \/ s + 3 < Z.of_nat b).
  { intros b Hb Hbv Hbo.
    destruct (Z_lt_ge_dec (Z.of_nat b) s) as [|Hge]; [left; assumption|].
    destruct (Z_lt_ge_dec (s + 3) (Z.of_nat b)) as [|Hle]; [right; assumption|]. exfalso.
    pose proof (Hbo Appointment.LUNCH HL ltac:(discriminate)) as H0.
    assert (H1 : a (cp_model.sched eid (Z.of_nat b) Appointment.LUNCH) = 1).
    { apply (Hblock (Z.of_nat b)); [apply Hin|]; lia. }
    lia. }
  destruct (gaps_between_breaks_ok emp (Z.of_nat b1) (Z.of_nat b2) s)
    as (g1 & g2 & g3 & g4 & Hgaps & _ & _ & _ & _ & Hsum);
    try lia; [apply Hout; [lia | assumption | assumption]
             | apply Hout; [lia | assumption | assumption]|].
  exists (Z.of_nat b1), (Z.of_nat b2), s, g1, g2, g3, g4.
  split; [lia|]. split; [assumption|]. split; [assumption|]. split; [assumption|].
  split; [assumption|]. split; [assumption|]. split; [assumption|].
  unfold SolutionPrinter.print_gaps_between_breaks.
  rewrite !values_over_day_ok by (rewrite ?Hc; assumption).
  fold breaks. fold lunches. cbn [bind]. rewrite Hb1. cbn [bind]. rewrite Hb2. cbn [bind].
  rewrite Hl. cbn [bind]. rewrite Hleq, Hgaps. reflexivity.
Qed.

(** On every solution of the model with the hard constraints the printer
    prints the row of every employee without tripping its assertion or
    any look-up: each cell shows the one activity that the employee has
    at the slot, the two breaks and the lunch hour are found, and
    [gaps_between_breaks] finds its gap of 2 to remove. *)
Theorem solution_row_is_printed (c : Config.t) (hard : list cp_model.item)
    (a : cp_model.assignment) (colors : sty.t) (self : SolutionPrinter.t)
    (eid : nat) (emp : Employee.t) :
  Run.add_hard_constraints c = Ok hard ->
  cp_model.feasible a (Run.new_sched c ++ hard) = true ->
  Run.config (SolutionPrinter.run self) = c ->
  nth_error (Config.employees c) eid = Some emp ->
  (forall slot, In slot Store.slots ->
     exists appt color text,
       In appt Appointment.all /\ a (cp_model.sched eid slot appt) = 1
       /\ Appointment.pretty_color colors appt = Ok color
       /\ Appointment.pretty_text appt = Ok text
       /\ SolutionPrinter.print_cell a colors self eid slot
          = Ok ((if (slot mod Store.SLOTS_PER_HOUR =? 0)%Z then "|" else "")
                ++ color ++ text ++ sty.fg_rs colors ++ sty.bg_rs colors)%string)
  /\ (exists gaps, SolutionPrinter.print_gaps_between_breaks a self eid emp = Ok gaps)
  /\ exists row, SolutionPrinter.print_employee_sched a colors self (eid, emp) = Ok row.
Proof.
  intros Hhard Hfeas Hc Hemp.
  pose proof (nth_error_all_ids c eid emp Hemp) as Heid.
  assert (Hcells : forall slot, In slot Store.slots ->
            exists appt color text,
              In appt Appointment.all /\ a (cp_model.sched eid slot appt) = 1
              /\ Appointment.pretty_color colors appt = Ok color
              /\ Appointment.pretty_text appt = Ok text
              /\ SolutionPrinter.print_cell a colors self eid slot
                 = Ok ((if (slot mod Store.SLOTS_PER_HOUR =? 0)%Z then "|" else "")
                       ++ color ++ text ++ sty.fg_rs colors ++ sty.bg_rs colors)%string).
  { intros slot Hslot. eapply print_cell_ok; eassumption. }
  destruct (print_gaps_ok c hard a self eid emp Hhard Hfeas Hc Hemp)
    as (b1 & b2 & l & g1 & g2 & g3 & g4 & _ & _ & _ & _ & _ & _ & _ & Hgaps).
  split; [assumption|]. split; [eauto|].
  destruct (mapM_total (SolutionPrinter.print_cell a colors self eid) Store.slots)
    as (cells & Hrow).
  { intros slot Hslot. destruct (Hcells slot Hslot) as (appt & color & text & H).
    eexists. apply H. }
  unfold SolutionPrinter.print_employee_sched, SolutionPrinter.num_slots_of_appointment.
  cbn [fst snd]. rewrite Hrow. cbn [bind].
  rewrite !values_over_day_ok by (rewrite ?Hc; try assumption; cbv; tauto).
  cbn [bind]. rewrite Hgaps. cbn [bind]. eexists. reflexivity.
Qed.

Lemma solution_row_is_printed_witness :
  Run.add_hard_constraints demo = Ok (hard_of demo)
  /\ cp_model.feasible demo_solution (Run.new_sched demo ++ hard_of demo) = true
  /\ Run.config (SolutionPrinter.run demo_printer) = demo
  /\ nth_error (Config.employees demo) 1
     = Some (Employee.mk (Shift.mk "E" true (Py.range2 0 34)) "T2" "NBC")
  /\ (forall slot, In slot Store.slots ->
        exists appt color text,
          In appt Appointment.all /\ demo_solution (cp_model.sched 1 slot appt) = 1
          /\ Appointment.pretty_color no_colors appt = Ok color
          /\ Appointment.pretty_text appt = Ok text
          /\ SolutionPrinter.print_cell demo_solution no_colors demo_printer 1 slot
             = Ok ((if (slot mod Store.SLOTS_PER_HOUR =? 0)%Z then "|" else "")
                   ++ color ++ text ++ sty.fg_rs no_colors ++ sty.bg_rs no_colors)%string)
  /\ (exists gaps,
        SolutionPrinter.print_gaps_between_breaks demo_solution demo_printer 1
          (Employee.mk (Shift.mk "E" true (Py.range2 0 34)) "T2" "NBC") = Ok gaps)
  /\ exists row,
       SolutionPrinter.print_employee_sched demo_solution no_colors demo_printer
         (1%nat, Employee.mk (Shift.mk "E" true (Py.range2 0 34)) "T2" "NBC") = Ok row.
Proof.
  assert (H1 : Run.add_hard_constraints demo = Ok (hard_of demo))
    by (vm_compute; reflexivity).
  assert (H2 : cp_model.feasible demo_solution (Run.new_sched demo ++ hard_of demo) = true)
    by (vm_compute; reflexivity).
  assert (H3 : Run.config (SolutionPrinter.run demo_printer) = demo)
    by (vm_compute; reflexivity).
  assert (H4 : nth_error (Config.employees demo) 1
               = Some (Employee.mk (Shift.mk "E" true (Py.range2 0 34)) "T2" "NBC"))
    by reflexivity.
  split; [exact H1|]. split; [exact H2|]. split; [exact H3|]. split; [exact H4|].
  exact (solution_row_is_printed demo (hard_of demo) demo_solution no_colors demo_printer
           1 _ H1 H2 H3 H4).
Defined.

(** The rows of the day worked out above, without colours, and the two
    lines of checksums. *)
Example demo_rows :
  SolutionPrinter.init (run_of demo) 0 = Ok demo_printer
  /\ map (SolutionPrinter.print_employee_sched demo_solution no_colors demo_printer)
       (Config.staff demo)
     = map (fun row => Ok (row ++ String (ascii_of_nat 10) EmptyString)%string)
         [ "M2 |CCCC|CBCC|CCCC|LLLL|CCCC|CCCC|CCCC|BCCC|CCCC|CCCC [C 34] [S  0] gaps=[ 5, 6,12,11] (CASHIER)";
           "T2 |    | C  |LLLL|    |    |B   |   B|C   |  xx|xxxx [C  2] [S  0] gaps=[ 8, 8, 6, 6] (NBC)";
           "A1 |xxxx|xxxx|    |CCCC|LLLL|    |B   |    |B   |     [C  4] [S  0] gaps=[ 8, 4, 7, 7] (SD)" ]
  /\ SolutionPrinter.print_slot_checksums demo_solution demo_printer
       [Appointment.CASHIER; Appointment.SUPPORT]
     = Ok "    1111|1111|1111|1111|1111|1111|1111|1111|1111|1111"
  /\ SolutionPrinter.print_slot_checksums demo_solution demo_printer
       [Appointment.BREAK; Appointment.LUNCH]
     = Ok "    0000|0100|1111|1111|1111|1000|1001|1000|1000|0000".
Proof. vm_compute. repeat split. Qed.
